(** * Page buffer (H5PB) and VFD SWMR reader driver: a shallow embedding

    The development follows the C sources:
    - the page buffer with VFD SWMR support ([H5PB_read], [H5PB_write],
      [H5PB__read_meta], [H5PB__make_space], ...);
    - the reader side virtual file driver ([H5FD_vfd_swmr_read],
      [H5FD__vfd_swmr_load_hdr_and_idx]).

    C objects that are mutated in place become explicit state: a call
    returns an [outcome] together with the state it leaves behind, also
    when it fails.  Entry pointers are page numbers: the hash table
    holds at most one entry per page, and the replacement policy, the
    delayed write list and the tick list hold pointers into it. *)

From Stdlib Require Import ZArith Lia Bool List.
From Stdlib Require Import Init.Byte Strings.Byte.
From stdpp Require Import base option list gmap.

Open Scope Z_scope.

(** ** Machine integers *)

(** [haddr_t], [size_t], [uint64_t] and [hsize_t] are 64 bit unsigned:
    a value is a [Z] in [0, 2^64), and an operation that can leave the
    range is wrapped with [u64]. *)
Definition u64 (z : Z) : Z := z mod 2 ^ 64.

(** [unsigned] counters of the retry loops are 32 bit. *)
Definition u32 (z : Z) : Z := z mod 2 ^ 32.

Definition haddr_t := Z.

(** [HADDR_UNDEF] is [(haddr_t)(-1)]. *)
Definition HADDR_UNDEF : haddr_t := u64 (-1).

(** ** Buffers *)

Definition bytes := list byte.

Global Instance byte_eq_decision : EqDecision byte := Byte.byte_eq_dec.

Definition blen (b : bytes) : Z := Z.of_nat (length b).

(** [n] zero bytes, the result of [H5MM_calloc]. *)
Definition zeros (n : Z) : bytes := replicate (Z.to_nat n) x00.

(** The bytes [src[off .. off+n)], when they lie inside [src]. *)
Definition sub_bytes (src : bytes) (off n : Z) : option bytes :=
  if (0 <=? off) && (0 <=? n) && (off + n <=? blen src)
  then Some (take (Z.to_nat n) (drop (Z.to_nat off) src))
  else None.

(** [dst] with [src] written over [dst[off .. off + |src|)], when that
    range lies inside [dst]. *)
Definition blit (dst : bytes) (off : Z) (src : bytes) : option bytes :=
  if (0 <=? off) && (off + blen src <=? blen dst)
  then Some (take (Z.to_nat off) dst ++ src
             ++ drop (Z.to_nat off + length src) dst)
  else None.

(** [HDmemcpy(dst + doff, src + soff, n)]: [None] when one of the two
    ranges leaves its buffer, which is undefined behaviour in C. *)
Definition memcpy (dst : bytes) (doff : Z) (src : bytes) (soff n : Z)
  : option bytes :=
  match sub_bytes src soff n with
  | Some s => blit dst doff s
  | None => None
  end.

(** ** Outcomes *)

Inductive abort_kind :=
| AssertionFailed   (* an [HDassert] that does not hold *)
| MemoryFault       (* NULL or dangling pointer, access outside a buffer *)
| DivisionByZero
| OutOfFuel.        (* the bound given to a loop was too small *)

(** What a call returns: [SUCCEED] with a value, [FAIL] (the
    [HGOTO_ERROR] path), or no return at all. *)
Inductive outcome (A : Type) :=
| Ok (a : A)
| Fail
| Abort (k : abort_kind).
Arguments Ok {A} a.
Arguments Fail {A}.
Arguments Abort {A} k.

Definition is_ok {A} (o : outcome A) : bool :=
  match o with Ok _ => true | _ => false end.

(** ** Memory types *)

Inductive H5FD_mem_t :=
| H5FD_MEM_DEFAULT
| H5FD_MEM_SUPER
| H5FD_MEM_BTREE
| H5FD_MEM_DRAW
| H5FD_MEM_GHEAP
| H5FD_MEM_LHEAP
| H5FD_MEM_OHDR.

Global Instance H5FD_mem_t_eq_dec : EqDecision H5FD_mem_t.
Proof. solve_decision. Defined.

(** [H5FD_MEM_DRAW == type] *)
Definition is_draw (type : H5FD_mem_t) : bool :=
  bool_decide (type = H5FD_MEM_DRAW).

(** ** Page buffer entries and the page buffer *)

(** [H5PB_entry_t].  The list links ([next], [prev], [tl_next], ...)
    are the positions in the lists of [H5PB_t] below; [magic] and
    [pb_ptr] are not kept. *)
Record H5PB_entry_t := mkEntry {
  entry_addr : haddr_t;
  entry_page : Z;
  entry_size : Z;
  image_ptr : bytes;
  mem_type : H5FD_mem_t;
  is_metadata : bool;
  is_mpmde : bool;
  is_dirty : bool;
  loaded : bool;
  modified_this_tick : bool;
  delay_write_until : Z
}.

Definition set_image (img : bytes) (e : H5PB_entry_t) : H5PB_entry_t :=
  mkEntry (entry_addr e) (entry_page e) (entry_size e) img (mem_type e)
    (is_metadata e) (is_mpmde e) (is_dirty e) (loaded e)
    (modified_this_tick e) (delay_write_until e).

Definition set_is_dirty (b : bool) (e : H5PB_entry_t) : H5PB_entry_t :=
  mkEntry (entry_addr e) (entry_page e) (entry_size e) (image_ptr e)
    (mem_type e) (is_metadata e) (is_mpmde e) b (loaded e)
    (modified_this_tick e) (delay_write_until e).

Definition set_loaded (b : bool) (e : H5PB_entry_t) : H5PB_entry_t :=
  mkEntry (entry_addr e) (entry_page e) (entry_size e) (image_ptr e)
    (mem_type e) (is_metadata e) (is_mpmde e) (is_dirty e) b
    (modified_this_tick e) (delay_write_until e).

Definition set_modified_this_tick (b : bool) (e : H5PB_entry_t)
  : H5PB_entry_t :=
  mkEntry (entry_addr e) (entry_page e) (entry_size e) (image_ptr e)
    (mem_type e) (is_metadata e) (is_mpmde e) (is_dirty e) (loaded e)
    b (delay_write_until e).

Definition set_delay_write_until (t : Z) (e : H5PB_entry_t)
  : H5PB_entry_t :=
  mkEntry (entry_addr e) (entry_page e) (entry_size e) (image_ptr e)
    (mem_type e) (is_metadata e) (is_mpmde e) (is_dirty e) (loaded e)
    (modified_this_tick e) t.

(** [H5PB_t].  [ht] is the index, keyed by page.  [LRU], [dwl] and [tl]
    list the pages of their members from head to tail.  The length and
    size fields of the lists and the statistics are not kept. *)
Record H5PB_t := mkPB {
  page_size : Z;
  max_pages : Z;
  curr_pages : Z;
  curr_md_pages : Z;
  curr_rd_pages : Z;
  min_md_pages : Z;
  min_rd_pages : Z;
  ht : gmap Z H5PB_entry_t;
  LRU : list Z;
  vfd_swmr_writer : bool;
  mpmde_count : Z;
  cur_tick : Z;
  dwl : list Z;
  tl : list Z
}.

Definition set_ht (h : gmap Z H5PB_entry_t) (pb : H5PB_t) : H5PB_t :=
  mkPB (page_size pb) (max_pages pb) (curr_pages pb) (curr_md_pages pb)
    (curr_rd_pages pb) (min_md_pages pb) (min_rd_pages pb) h (LRU pb)
    (vfd_swmr_writer pb) (mpmde_count pb) (cur_tick pb) (dwl pb) (tl pb).

Definition set_LRU (l : list Z) (pb : H5PB_t) : H5PB_t :=
  mkPB (page_size pb) (max_pages pb) (curr_pages pb) (curr_md_pages pb)
    (curr_rd_pages pb) (min_md_pages pb) (min_rd_pages pb) (ht pb) l
    (vfd_swmr_writer pb) (mpmde_count pb) (cur_tick pb) (dwl pb) (tl pb).

Definition set_dwl (l : list Z) (pb : H5PB_t) : H5PB_t :=
  mkPB (page_size pb) (max_pages pb) (curr_pages pb) (curr_md_pages pb)
    (curr_rd_pages pb) (min_md_pages pb) (min_rd_pages pb) (ht pb) (LRU pb)
    (vfd_swmr_writer pb) (mpmde_count pb) (cur_tick pb) l (tl pb).

Definition set_tl (l : list Z) (pb : H5PB_t) : H5PB_t :=
  mkPB (page_size pb) (max_pages pb) (curr_pages pb) (curr_md_pages pb)
    (curr_rd_pages pb) (min_md_pages pb) (min_rd_pages pb) (ht pb) (LRU pb)
    (vfd_swmr_writer pb) (mpmde_count pb) (cur_tick pb) (dwl pb) l.

Definition set_cur_tick (t : Z) (pb : H5PB_t) : H5PB_t :=
  mkPB (page_size pb) (max_pages pb) (curr_pages pb) (curr_md_pages pb)
    (curr_rd_pages pb) (min_md_pages pb) (min_rd_pages pb) (ht pb) (LRU pb)
    (vfd_swmr_writer pb) (mpmde_count pb) t (dwl pb) (tl pb).

(** The page counters: [dp] on [curr_pages], [dm] on [curr_md_pages],
    [dr] on [curr_rd_pages], [dx] on [mpmde_count]. *)
Definition add_counts (dp dm dr dx : Z) (pb : H5PB_t) : H5PB_t :=
  mkPB (page_size pb) (max_pages pb) (curr_pages pb + dp)
    (curr_md_pages pb + dm) (curr_rd_pages pb + dr) (min_md_pages pb)
    (min_rd_pages pb) (ht pb) (LRU pb) (vfd_swmr_writer pb)
    (mpmde_count pb + dx) (cur_tick pb) (dwl pb) (tl pb).

(** ** Doubly linked lists of entries

    The list macros of [H5PBpkg.h] are not part of the sources at hand.
    A list is kept as the pages of its members from head to tail. *)

(** Modelled from the spec: the [prev] link of the entry at page [p] in
    the list [l], [None] for the head ([H5PBpkg.h], LRU prev/next
    links). *)
Fixpoint dll_prev (l : list Z) (p : Z) : option Z :=
  match l with
  | [] => None
  | q :: l' =>
      match l' with
      | [] => None
      | r :: _ => if bool_decide (r = p) then Some q else dll_prev l' p
      end
  end.

(** Modelled from the spec: unlinking the entry at page [p]
    ([H5PB__DLL_REMOVE] of [H5PBpkg.h]). *)
Definition dll_remove (p : Z) (l : list Z) : list Z :=
  filter (λ q, q ≠ p) l.

(** The tail pointer of a list. *)
Definition dll_tail (l : list Z) : option Z := last l.

(** The head pointer of a list. *)
Definition dll_head (l : list Z) : option Z := head l.

(** ** Files and collaborators *)

(** [H5F_t] with the fields of [f->shared] the page buffer reads; [D]
    is the state of the file driver below the page buffer
    ([f->shared->lf] with the metadata accumulator).
    [vfd_swmr_config] is [H5F_VFD_SWMR_CONFIG(f)], [intent_rdwr] is
    [H5F_INTENT(f) & H5F_ACC_RDWR], [fs_strategy_page] is
    [fs_strategy == H5F_FSPACE_STRATEGY_PAGE], and [has_mpi] is
    [H5F_HAS_FEATURE(f, H5FD_FEAT_HAS_MPI)] in a parallel build
    ([false] otherwise). *)
Record H5F_t (D : Type) := mkF {
  pb_ptr : option H5PB_t;
  lf : D;
  tick_num : Z;
  f_vfd_swmr : bool;
  f_vfd_swmr_writer : bool;
  vfd_swmr_config : bool;
  intent_rdwr : bool;
  fs_strategy_page : bool;
  fs_page_size : Z;
  has_mpi : bool
}.
Arguments mkF {D}.
Arguments pb_ptr {D}.
Arguments lf {D}.
Arguments tick_num {D}.
Arguments f_vfd_swmr {D}.
Arguments f_vfd_swmr_writer {D}.
Arguments vfd_swmr_config {D}.
Arguments intent_rdwr {D}.
Arguments fs_strategy_page {D}.
Arguments fs_page_size {D}.
Arguments has_mpi {D}.

Definition set_pb_ptr {D} (p : option H5PB_t) (f : H5F_t D) : H5F_t D :=
  mkF p (lf f) (tick_num f) (f_vfd_swmr f) (f_vfd_swmr_writer f)
    (vfd_swmr_config f) (intent_rdwr f) (fs_strategy_page f)
    (fs_page_size f) (has_mpi f).

Definition set_lf {D} (d : D) (f : H5F_t D) : H5F_t D :=
  mkF (pb_ptr f) d (tick_num f) (f_vfd_swmr f) (f_vfd_swmr_writer f)
    (vfd_swmr_config f) (intent_rdwr f) (fs_strategy_page f)
    (fs_page_size f) (has_mpi f).

Definition set_tick_num {D} (t : Z) (f : H5F_t D) : H5F_t D :=
  mkF (pb_ptr f) (lf f) t (f_vfd_swmr f) (f_vfd_swmr_writer f)
    (vfd_swmr_config f) (intent_rdwr f) (fs_strategy_page f)
    (fs_page_size f) (has_mpi f).

(** The build, and the calls the page buffer makes into the rest of
    the library.  They are declared in headers outside the sources at
    hand and are taken as parameters.
    - [NDEBUG]: when set, [HDassert] compiles to nothing;
    - a driver read yields the bytes read ([None]: the call fails), a
      driver write the driver state after it;
    - [H5F_get_eoa] and [H5FD_get_eof] return an address, [HADDR_UNDEF]
      on failure;
    - [lf_set_pb_configured] is [H5FD_vfd_swmr_set_pb_configured] on the
      driver state of the file;
    - [H5F_vfd_swmr_writer__delay_write f page] is the tick until which
      writes of [page] must be delayed, 0 for no delay, [None] when the
      call fails;
    - [ht_scan] is the order in which a scan of the hash table buckets
      meets the entries, fixed by the hash function of [H5PBpkg.h];
    - [uninit_byte] is what a byte of a block from [H5MM_malloc]
      happens to hold. *)
Class Collaborators := {
  NDEBUG : bool;
  H5FD_t : Type;
  H5F__accum_read : H5FD_t -> H5FD_mem_t -> haddr_t -> Z -> option bytes;
  H5F__accum_write :
    H5FD_t -> H5FD_mem_t -> haddr_t -> Z -> bytes -> option H5FD_t;
  H5F_get_eoa : H5FD_t -> H5FD_mem_t -> haddr_t;
  H5FD_get_eof : H5FD_t -> H5FD_mem_t -> haddr_t;
  lf_set_pb_configured : H5FD_t -> H5FD_t;
  H5F_vfd_swmr_writer__delay_write : H5F_t H5FD_t -> Z -> option Z;
  ht_scan : gmap Z H5PB_entry_t -> list Z;
  uninit_byte : byte
}.

(** ** State

    What a call on a file can touch: the file and the variables of
    static storage duration, which belong to the process and not to
    the file.  [prev_addr] is the [static haddr_t prev_addr] of
    [H5PB__read_meta]. *)
Record env `{Collaborators} := mkEnv {
  prev_addr : haddr_t;
  file : H5F_t H5FD_t
}.

(** ** Calls

    A call runs on a state [S] and leaves an outcome and a state. *)
Definition ST (S A : Type) : Type := S -> outcome A * S.

Definition ret {S A} (a : A) : ST S A := λ s, (Ok a, s).

Definition bind {S A B} (m : ST S A) (k : A -> ST S B) : ST S B :=
  λ s, match m s with
       | (Ok a, s') => k a s'
       | (Fail, s') => (Fail, s')
       | (Abort w, s') => (Abort w, s')
       end.

(** [HGOTO_ERROR]: leave through the failure path. *)
Definition error {S A} : ST S A := λ s, (Fail, s).

Definition abort {S A} (w : abort_kind) : ST S A := λ s, (Abort w, s).

(** The code after [done:] that runs when [ret_value < 0]. *)
Definition on_error {S A} (m : ST S A) (cleanup : ST S unit) : ST S A :=
  λ s, match m s with
       | (Fail, s') =>
           match cleanup s' with
           | (Abort w, s'') => (Abort w, s'')
           | (_, s'') => (Fail, s'')
           end
       | r => r
       end.

Definition when {S} (b : bool) (m : ST S unit) : ST S unit :=
  if b then m else ret tt.

Declare Scope pb_scope.
Delimit Scope pb_scope with pb.
Notation "x <- m ;; k" := (bind m (λ x, k))
  (at level 100, m at next level, right associativity) : pb_scope.
Notation "m ;;; k" := (bind m (λ _, k))
  (at level 100, right associativity) : pb_scope.
Open Scope pb_scope.

Section Monad.
Context `{Collaborators}.

(** A call on a file with a page buffer. *)
Definition PB (A : Type) : Type := ST env A.

Definition HDassert (b : bool) : PB unit :=
  if NDEBUG then ret tt else if b then ret tt else abort AssertionFailed.

Definition get_f : PB (H5F_t H5FD_t) := λ s, (Ok (file s), s).

Definition put_f (f : H5F_t H5FD_t) : PB unit :=
  λ s, (Ok tt, mkEnv _ (prev_addr s) f).

Definition get_prev_addr : PB haddr_t := λ s, (Ok (prev_addr s), s).

Definition put_prev_addr (a : haddr_t) : PB unit :=
  λ s, (Ok tt, mkEnv _ a (file s)).

(** [pb_ptr = f->shared->pb_ptr], which the callers have tested. *)
Definition get_pb : PB H5PB_t :=
  λ s, match pb_ptr (file s) with
       | Some pb => (Ok pb, s)
       | None => (Abort MemoryFault, s)
       end.

Definition put_pb (pb : H5PB_t) : PB unit :=
  λ s, (Ok tt, mkEnv _ (prev_addr s) (set_pb_ptr (Some pb) (file s))).

(** [*entry_ptr] for the entry at page [p]. *)
Definition get_entry (p : Z) : PB H5PB_entry_t :=
  λ s, match pb_ptr (file s) with
       | Some pb =>
           match ht pb !! p with
           | Some e => (Ok e, s)
           | None => (Abort MemoryFault, s)
           end
       | None => (Abort MemoryFault, s)
       end.

(** An assignment to fields of [*entry_ptr]. *)
Definition put_entry (p : Z) (e : H5PB_entry_t) : PB unit :=
  λ s, match pb_ptr (file s) with
       | Some pb =>
           (Ok tt, mkEnv _ (prev_addr s)
                     (set_pb_ptr (Some (set_ht (<[p := e]> (ht pb)) pb))
                        (file s)))
       | None => (Abort MemoryFault, s)
       end.

End Monad.

Section PageBuffer.
Context `{Collaborators}.

Definition modify_pb (g : H5PB_t -> H5PB_t) : PB unit :=
  pb <- get_pb ;; put_pb (g pb).

Definition modify_entry (p : Z) (g : H5PB_entry_t -> H5PB_entry_t)
  : PB unit :=
  e <- get_entry p ;; put_entry p (g e).

(** A [HDmemcpy]; a range outside its buffer is a fault. *)
Definition do_memcpy (dst : bytes) (doff : Z) (src : bytes) (soff n : Z)
  : PB bytes :=
  match memcpy dst doff src soff n with
  | Some b => ret b
  | None => abort MemoryFault
  end.

(** [VFD_IO] is [#define]d to [FALSE]: the page buffer does its I/O
    through [H5F__accum_read] and [H5F__accum_write]. *)
Definition VFD_IO : bool := false.

(** A driver read of [size] bytes at [addr] into [buf]. *)
Definition accum_read (type : H5FD_mem_t) (addr : haddr_t) (size : Z)
  (buf : bytes) : PB bytes :=
  f <- get_f ;;
  match H5F__accum_read (lf f) type addr size with
  | None => error
  | Some d =>
      match blit buf 0 d with
      | Some b => ret b
      | None => abort MemoryFault
      end
  end.

(** A driver write of [size] bytes of [buf] at [addr]. *)
Definition accum_write (type : H5FD_mem_t) (addr : haddr_t) (size : Z)
  (buf : bytes) : PB unit :=
  f <- get_f ;;
  match H5F__accum_write (lf f) type addr size buf with
  | None => error
  | Some d => put_f (set_lf d f)
  end.

(** *** The macros of [H5PBpkg.h] *)

(** Modelled from the spec: [H5PB__SEARCH_INDEX] of [H5PBpkg.h], the
    lookup of the entry of a page in the index ("a mapping from page
    to entry"); the result is the entry pointer, [None] for [NULL]. *)
Definition H5PB__SEARCH_INDEX (page : Z) : PB (option Z) :=
  pb <- get_pb ;;
  ret (match ht pb !! page with Some _ => Some page | None => None end).

(** Modelled from the spec: [H5PB__INSERT_IN_INDEX] of [H5PBpkg.h].
    The entry enters the index under its page; [curr_pages] counts
    every entry, [curr_md_pages] and [curr_rd_pages] the pages that are
    not multi-page metadata entries, [mpmde_count] the others
    ("[curr_md_pages + curr_rd_pages = curr_pages - mpmde_count]"). *)
Definition H5PB__INSERT_IN_INDEX (e : H5PB_entry_t) : PB unit :=
  modify_pb (λ pb,
    add_counts 1
      (if is_mpmde e then 0 else if is_metadata e then 1 else 0)
      (if is_mpmde e then 0 else if is_metadata e then 0 else 1)
      (if is_mpmde e then 1 else 0)
      (set_ht (<[entry_page e := e]> (ht pb)) pb)).

(** Modelled from the spec: [H5PB__DELETE_FROM_INDEX] of [H5PBpkg.h],
    the inverse of the insertion. *)
Definition H5PB__DELETE_FROM_INDEX (p : Z) : PB unit :=
  e <- get_entry p ;;
  modify_pb (λ pb,
    add_counts (-1)
      (if is_mpmde e then 0 else if is_metadata e then -1 else 0)
      (if is_mpmde e then 0 else if is_metadata e then 0 else -1)
      (if is_mpmde e then -1 else 0)
      (set_ht (delete p (ht pb)) pb)).

(** Unlinking from a list: an entry that is not on the list has links
    into another list or none, and the list macro would corrupt both. *)
Definition unlink (get : H5PB_t -> list Z) (set : list Z -> H5PB_t -> H5PB_t)
  (p : Z) : PB unit :=
  pb <- get_pb ;;
  if bool_decide (p ∈ get pb)
  then put_pb (set (dll_remove p (get pb)) pb)
  else abort MemoryFault.

(** Linking into a list at the head; an entry is linked once. *)
Definition link_head (get : H5PB_t -> list Z)
  (set : list Z -> H5PB_t -> H5PB_t) (p : Z) : PB unit :=
  pb <- get_pb ;;
  if bool_decide (p ∈ get pb)
  then abort MemoryFault
  else put_pb (set (p :: get pb) pb).

(** Modelled from the spec: [H5PB__UPDATE_RP_FOR_INSERTION] of
    [H5PBpkg.h]: the entry goes to the head of the LRU. *)
Definition H5PB__UPDATE_RP_FOR_INSERTION (p : Z) : PB unit :=
  link_head LRU set_LRU p.

(** Modelled from the spec: [H5PB__UPDATE_RP_FOR_INSERT_APPEND] of
    [H5PBpkg.h]: "regular pages are appended to the LRU". *)
Definition H5PB__UPDATE_RP_FOR_INSERT_APPEND (p : Z) : PB unit :=
  pb <- get_pb ;;
  if bool_decide (p ∈ LRU pb)
  then abort MemoryFault
  else put_pb (set_LRU (LRU pb ++ [p]) pb).

(** Modelled from the spec: [H5PB__UPDATE_RP_FOR_EVICTION] of
    [H5PBpkg.h]: the entry leaves the LRU. *)
Definition H5PB__UPDATE_RP_FOR_EVICTION (p : Z) : PB unit :=
  unlink LRU set_LRU p.

(** Modelled from the spec: [H5PB__UPDATE_RP_FOR_REMOVE] of
    [H5PBpkg.h]: "remove from LRU". *)
Definition H5PB__UPDATE_RP_FOR_REMOVE (p : Z) : PB unit :=
  unlink LRU set_LRU p.

(** Modelled from the spec: [H5PB__UPDATE_RP_FOR_ACCESS] of
    [H5PBpkg.h]: an accessed entry moves to the head of the LRU. *)
Definition H5PB__UPDATE_RP_FOR_ACCESS (p : Z) : PB unit :=
  pb <- get_pb ;;
  if bool_decide (p ∈ LRU pb)
  then put_pb (set_LRU (p :: dll_remove p (LRU pb)) pb)
  else abort MemoryFault.

(** Modelled from the spec: [H5PB__UPDATE_RP_FOR_FLUSH] of
    [H5PBpkg.h]: a flushed entry "moves to LRU head". *)
Definition H5PB__UPDATE_RP_FOR_FLUSH (p : Z) : PB unit :=
  H5PB__UPDATE_RP_FOR_ACCESS p.

(** The [delay_write_until] of the list member at page [q]. *)
Definition delay_of (h : gmap Z H5PB_entry_t) (q : Z) : Z :=
  match h !! q with Some e => delay_write_until e | None => 0 end.

(** The delayed write list with [p], whose delay is [d], inserted
    before the first member whose delay is not greater. *)
Fixpoint dwl_insert (h : gmap Z H5PB_entry_t) (p d : Z) (l : list Z)
  : list Z :=
  match l with
  | [] => [p]
  | q :: l' =>
      if delay_of h q >? d then q :: dwl_insert h p d l' else p :: q :: l'
  end.

(** Modelled from the spec: [H5PB__INSERT_IN_DWL] of [H5PBpkg.h]: "DWL
    is kept sorted by decreasing deadline". *)
Definition H5PB__INSERT_IN_DWL (p : Z) : PB unit :=
  e <- get_entry p ;;
  pb <- get_pb ;;
  if bool_decide (p ∈ dwl pb)
  then abort MemoryFault
  else put_pb (set_dwl (dwl_insert (ht pb) p (delay_write_until e) (dwl pb))
                 pb).

(** Modelled from the spec: [H5PB__REMOVE_FROM_DWL] of [H5PBpkg.h]. *)
Definition H5PB__REMOVE_FROM_DWL (p : Z) : PB unit :=
  unlink dwl set_dwl p.

(** Modelled from the spec: [H5PB__INSERT_IN_TL] of [H5PBpkg.h]: the
    entry joins the tick list, at its head. *)
Definition H5PB__INSERT_IN_TL (p : Z) : PB unit :=
  link_head tl set_tl p.

(** Modelled from the spec: [H5PB__REMOVE_FROM_TL] of [H5PBpkg.h]. *)
Definition H5PB__REMOVE_FROM_TL (p : Z) : PB unit :=
  unlink tl set_tl p.

(** *** The static functions of the page buffer *)

(** The links [l->next] and [l->prev] of the entry at [p] are both
    [NULL]: it is not on the list, or alone on it. *)
Definition links_null (l : list Z) (p : Z) : bool :=
  bool_decide (p ∉ l) || bool_decide (l = [p]).

(** [H5PB__mark_entry_clean] *)
Definition H5PB__mark_entry_clean (p : Z) : PB unit :=
  pb <- get_pb ;;
  e <- get_entry p ;;
  HDassert (0 <? entry_size e) ;;;
  HDassert (page_size pb <=? entry_size e) ;;;
  HDassert ((entry_size e =? page_size pb) || is_mpmde e) ;;;
  HDassert (vfd_swmr_writer pb || negb (is_mpmde e)) ;;;
  put_entry p (set_is_dirty false e).

(** [H5PB__deallocate_page]: the entry and its image are freed.  The
    entry must have left the index and the lists: freeing an entry
    that the hash table still points to is a fault. *)
Definition H5PB__deallocate_page (p : Z) (e : H5PB_entry_t) : PB unit :=
  pb <- get_pb ;;
  HDassert (0 <? entry_size e) ;;;
  HDassert (negb (is_dirty e)) ;;;
  HDassert (links_null (LRU pb) p && links_null (dwl pb) p) ;;;
  HDassert (links_null (tl pb) p) ;;;
  match ht pb !! p with
  | Some _ => abort MemoryFault
  | None => ret tt
  end.

(** [H5PB__allocate_page]: a fresh entry with an image of [size]
    bytes, zeroed when [clean_image].  Allocation does not fail. *)
Definition H5PB__allocate_page (size : Z) (clean_image : bool)
  : PB H5PB_entry_t :=
  pb <- get_pb ;;
  HDassert (page_size pb <=? size) ;;;
  HDassert ((size =? page_size pb) || vfd_swmr_writer pb) ;;;
  let image :=
    if clean_image then zeros size
    else replicate (Z.to_nat size) uninit_byte in
  ret (mkEntry HADDR_UNDEF 0 size image H5FD_MEM_DEFAULT false false false
         false false 0).

(** [H5PB__create_new_page]; the result is [*entry_ptr_ptr].  The code
    after [done:] runs with [entry_ptr] still pointing to the entry the
    index search has found when the page exists already. *)
Definition H5PB__create_new_page (addr : haddr_t) (size : Z)
  (type : H5FD_mem_t) (clean_image : bool) : PB Z :=
  pb <- get_pb ;;
  let page := addr / page_size pb in
  HDassert (addr =? u64 (page * page_size pb)) ;;;
  HDassert (page_size pb <=? size) ;;;
  HDassert ((size =? page_size pb)
            || (vfd_swmr_writer pb && negb (is_draw type))) ;;;
  entry_ptr <- H5PB__SEARCH_INDEX page ;;
  match entry_ptr with
  | Some q =>
      on_error error (e <- get_entry q ;; H5PB__deallocate_page q e)
  | None =>
      e0 <- H5PB__allocate_page size clean_image ;;
      let is_md := negb (is_draw type) in
      let e := mkEntry addr page (entry_size e0) (image_ptr e0) type is_md
                 (is_md && (page_size pb <? size)) false (loaded e0)
                 (modified_this_tick e0) (delay_write_until e0) in
      H5PB__INSERT_IN_INDEX e ;;;
      when (negb (is_mpmde e)) (H5PB__UPDATE_RP_FOR_INSERTION page) ;;;
      ret page
  end.

(** [H5PB__evict_entry] *)
Definition H5PB__evict_entry (p : Z) (force : bool) : PB unit :=
  pb <- get_pb ;;
  e <- get_entry p ;;
  HDassert (0 <? entry_size e) ;;;
  HDassert (negb (modified_this_tick e)) ;;;
  HDassert (delay_write_until e =? 0) ;;;
  (if negb force && is_dirty e then error else ret tt) ;;;
  (if negb force then
     if is_metadata e && (curr_md_pages pb <? min_md_pages pb) then error
     else if negb (is_metadata e) && (curr_rd_pages pb <? min_rd_pages pb)
     then error
     else ret tt
   else if is_dirty e then H5PB__mark_entry_clean p
   else ret tt) ;;;
  e <- get_entry p ;;
  when (negb (is_mpmde e)) (H5PB__UPDATE_RP_FOR_EVICTION p) ;;;
  H5PB__DELETE_FROM_INDEX p ;;;
  H5PB__deallocate_page p e.

(** [H5PB__flush_entry] *)
Definition H5PB__flush_entry (p : Z) : PB unit :=
  pb <- get_pb ;;
  f <- get_f ;;
  e <- get_entry p ;;
  HDassert (0 <? entry_size e) ;;;
  HDassert (page_size pb <=? entry_size e) ;;;
  HDassert ((entry_size e =? page_size pb) || is_mpmde e) ;;;
  HDassert (is_dirty e) ;;;
  HDassert (vfd_swmr_writer pb || negb (is_mpmde e)) ;;;
  HDassert (0 =? delay_write_until e) ;;;
  let eoa := H5F_get_eoa (lf f) (mem_type e) in
  (if HADDR_UNDEF =? eoa then error else ret tt) ;;;
  HDassert (entry_addr e <? eoa) ;;;
  HDassert (u64 (entry_addr e + entry_size e) <=? eoa) ;;;
  let write_size := entry_size e in
  accum_write (mem_type e) (entry_addr e) write_size (image_ptr e) ;;;
  H5PB__mark_entry_clean p ;;;
  e <- get_entry p ;;
  when (negb (is_mpmde e) && (delay_write_until e =? 0))
    (H5PB__UPDATE_RP_FOR_FLUSH p).

(** The loop of [H5PB__make_space].  [search_ptr->prev] is read before
    the entry is flushed or evicted.  The result is the last value of
    [search_ptr]. *)
Fixpoint make_space_loop (fuel : nat) (inserting_md : bool)
  (search_ptr : option Z) : PB (option Z) :=
  match fuel with
  | O => abort OutOfFuel
  | S fuel' =>
      pb <- get_pb ;;
      match search_ptr with
      | None => ret None
      | Some sp =>
          if max_pages pb <=? curr_pages pb then
            e <- get_entry sp ;;
            let prev := dll_prev (LRU pb) sp in
            if modified_this_tick e then
              make_space_loop fuel' inserting_md prev
            else if inserting_md && negb (is_metadata e)
                    && (curr_rd_pages pb <=? min_rd_pages pb) then
              make_space_loop fuel' inserting_md prev
            else if negb inserting_md && is_metadata e
                    && (curr_md_pages pb <=? min_md_pages pb) then
              make_space_loop fuel' inserting_md prev
            else if is_dirty e then
              let flush_ptr := sp in
              let search_ptr' :=
                match prev with Some q => Some q | None => Some sp end in
              H5PB__flush_entry flush_ptr ;;;
              make_space_loop fuel' inserting_md search_ptr'
            else
              let evict_ptr := sp in
              H5PB__evict_entry evict_ptr false ;;;
              make_space_loop fuel' inserting_md prev
          else ret (Some sp)
      end
  end.

(** A bound on the passes of the loop: a pass moves [search_ptr] one
    place towards the head or cleans a dirty entry of the LRU. *)
Definition make_space_fuel (pb : H5PB_t) : nat :=
  S (2 * length (LRU pb)).

(** [H5PB__make_space] *)
Definition H5PB__make_space (inserted_type : H5FD_mem_t) : PB unit :=
  pb <- get_pb ;;
  HDassert (min_md_pages pb + min_rd_pages pb <=? max_pages pb) ;;;
  let inserting_md := negb (is_draw inserted_type) in
  (if inserting_md && (min_rd_pages pb =? max_pages pb) then error
   else ret tt) ;;;
  (if negb inserting_md && (min_md_pages pb =? max_pages pb) then error
   else ret tt) ;;;
  search_ptr <- make_space_loop (make_space_fuel pb) inserting_md
                  (dll_tail (LRU pb)) ;;
  pb <- get_pb ;;
  HDassert (bool_decide (search_ptr = None)
            || (curr_pages pb <? max_pages pb)).

(** [H5PB__load_page]; the result is [*entry_ptr_ptr].  Nothing is
    undone when the read fails: the entry stays in the page buffer. *)
Definition H5PB__load_page (addr : haddr_t) (type : H5FD_mem_t) : PB Z :=
  pb <- get_pb ;;
  f <- get_f ;;
  let eoa := H5F_get_eoa (lf f) type in
  (if HADDR_UNDEF =? eoa then error else ret tt) ;;;
  let eof := H5FD_get_eof (lf f) H5FD_MEM_DEFAULT in
  (if HADDR_UNDEF =? eof then error else ret tt) ;;;
  let skip_read := VFD_IO && (eof <=? addr) in
  (if max_pages pb <=? curr_pages pb then H5PB__make_space type
   else ret tt) ;;;
  pb <- get_pb ;;
  entry_ptr <- H5PB__create_new_page addr (page_size pb) type skip_read ;;
  e <- get_entry entry_ptr ;;
  HDassert (entry_addr e =? addr) ;;;
  (if negb skip_read then
     image <- accum_read type addr (entry_size e) (image_ptr e) ;;
     modify_entry entry_ptr (set_image image)
   else ret tt) ;;;
  modify_entry entry_ptr (set_loaded (negb skip_read)) ;;;
  ret entry_ptr.

(** [H5PB__mark_entry_dirty] *)
Definition H5PB__mark_entry_dirty (p : Z) : PB unit :=
  pb <- get_pb ;;
  e <- get_entry p ;;
  HDassert (0 <? entry_size e) ;;;
  HDassert (page_size pb <=? entry_size e) ;;;
  HDassert ((entry_size e =? page_size pb) || is_mpmde e) ;;;
  HDassert (vfd_swmr_writer pb || negb (is_mpmde e)) ;;;
  if negb (is_dirty e) then
    put_entry p (set_is_dirty true e) ;;;
    HDassert (delay_write_until e =? 0) ;;;
    (if vfd_swmr_writer pb && loaded e && negb (is_draw (mem_type e)) then
       f <- get_f ;;
       match H5F_vfd_swmr_writer__delay_write f (entry_page e) with
       | None => error
       | Some t => modify_entry p (set_delay_write_until t)
       end
     else ret tt) ;;;
    e <- get_entry p ;;
    if 0 <? delay_write_until e then
      when (negb (is_mpmde e)) (H5PB__UPDATE_RP_FOR_REMOVE p) ;;;
      H5PB__INSERT_IN_DWL p
    else if negb (is_mpmde e) then H5PB__UPDATE_RP_FOR_ACCESS p
    else
      HDassert (is_mpmde e) ;;;
      HDassert (vfd_swmr_writer pb)
  else if negb (is_mpmde e) && (delay_write_until e =? 0) then
    H5PB__UPDATE_RP_FOR_ACCESS p
  else ret tt.

(** [H5PB__read_meta]; the result is the read buffer [buf] after the
    call.  [prev_addr] is assigned before [done:], so a call that
    leaves through [HGOTO_ERROR] keeps the old value. *)
Definition H5PB__read_meta (type : H5FD_mem_t) (addr : haddr_t) (size : Z)
  (buf : bytes) : PB bytes :=
  pb <- get_pb ;;
  HDassert (min_rd_pages pb <? max_pages pb) ;;;
  HDassert (negb (is_draw type)) ;;;
  let page := addr / page_size pb in
  let page_addr := u64 (page * page_size pb) in
  buf' <-
    (if negb (page_addr =? addr) then
       (* case 6 *)
       let offset := u64 (addr - page_addr) in
       let clipped_size :=
         if u64 (offset + size) <=? page_size pb then size
         else u64 (size - u64 (u64 (offset + size) - page_size pb)) in
       HDassert (0 <? clipped_size) ;;;
       HDassert (clipped_size <=? size) ;;;
       HDassert (u64 (offset + clipped_size) <=? page_size pb) ;;;
       found <- H5PB__SEARCH_INDEX page ;;
       entry_ptr <- match found with
                    | None => H5PB__load_page page_addr type
                    | Some q => ret q
                    end ;;
       e <- get_entry entry_ptr ;;
       HDassert (entry_addr e =? page_addr) ;;;
       HDassert (is_metadata e) ;;;
       HDassert (negb (is_mpmde e)) ;;;
       buf1 <- do_memcpy buf 0 (image_ptr e) offset clipped_size ;;
       when (negb (is_mpmde e) && (delay_write_until e =? 0))
         (H5PB__UPDATE_RP_FOR_ACCESS entry_ptr) ;;;
       ret buf1
     else if page_size pb <=? size then
       found <- H5PB__SEARCH_INDEX page ;;
       match found with
       | None =>
           (* case 7 *)
           accum_read type addr size buf
       | Some entry_ptr =>
           e <- get_entry entry_ptr ;;
           HDassert (is_metadata e) ;;;
           if negb (is_mpmde e) then
             (* case 8 *)
             HDassert (entry_size e =? page_size pb) ;;;
             prev <- get_prev_addr ;;
             if addr =? prev then
               HDassert (negb (is_dirty e)) ;;;
               H5PB__evict_entry entry_ptr true ;;;
               accum_read type addr size buf
             else
               buf1 <- do_memcpy buf 0 (image_ptr e) 0 (entry_size e) ;;
               when (negb (is_mpmde e) && (delay_write_until e =? 0))
                 (H5PB__UPDATE_RP_FOR_ACCESS entry_ptr) ;;;
               ret buf1
           else
             (* case 9 *)
             HDassert (is_mpmde e) ;;;
             HDassert (vfd_swmr_writer pb) ;;;
             let clipped_size :=
               if entry_size e <? size then entry_size e else size in
             buf1 <- do_memcpy buf 0 (image_ptr e) 0 clipped_size ;;
             when (negb (is_mpmde e) && (delay_write_until e =? 0))
               (H5PB__UPDATE_RP_FOR_ACCESS entry_ptr) ;;;
             ret buf1
       end
     else
       (* case 10 *)
       HDassert (size <=? page_size pb) ;;;
       found <- H5PB__SEARCH_INDEX page ;;
       entry_ptr <- match found with
                    | None => H5PB__load_page page_addr type
                    | Some q => ret q
                    end ;;
       e <- get_entry entry_ptr ;;
       HDassert (is_metadata e) ;;;
       HDassert (negb (is_mpmde e) || vfd_swmr_writer pb) ;;;
       buf1 <- do_memcpy buf 0 (image_ptr e) 0 size ;;
       when (negb (is_mpmde e) && (delay_write_until e =? 0))
         (H5PB__UPDATE_RP_FOR_ACCESS entry_ptr) ;;;
       ret buf1) ;;
  put_prev_addr addr ;;;
  ret buf'.

(** The body of the [for] loop of case 3 of [H5PB__read_raw], pass [i]
    of [num_touched_pages], and the passes after it. *)
Fixpoint read_raw_pages (n : nat) (addr : haddr_t) (size : Z)
  (first_page_addr last_page_addr : haddr_t) (num_touched_pages : Z)
  (i search_page : Z) (search_addr : haddr_t) (buf : bytes) : PB bytes :=
  match n with
  | O => ret buf
  | S n' =>
      pb <- get_pb ;;
      found <- H5PB__SEARCH_INDEX search_page ;;
      buf' <-
        match found with
        | None => ret buf
        | Some entry_ptr =>
            e <- get_entry entry_ptr ;;
            HDassert (negb (is_metadata e)) ;;;
            HDassert (entry_page e =? search_page) ;;;
            HDassert (entry_addr e =? search_addr) ;;;
            HDassert (entry_size e =? page_size pb) ;;;
            HDassert (delay_write_until e =? 0) ;;;
            HDassert (entry_addr e <=? u64 (addr + size)) ;;;
            HDassert (u64 (entry_addr e + entry_size e)
                      <=? u64 (addr + size)) ;;;
            if is_dirty e then
              buf1 <-
                (if i =? 0 then
                   HDassert (search_addr =? first_page_addr) ;;;
                   let offset := u64 (addr - first_page_addr) in
                   HDassert (((offset =? 0) && (search_addr =? addr))
                             || ((0 <? offset) && (search_addr <? addr))) ;;;
                   HDassert (offset <=? page_size pb) ;;;
                   HDassert (u64 (page_size pb - offset) <=? size) ;;;
                   do_memcpy buf 0 (image_ptr e) offset
                     (u64 (page_size pb - offset))
                 else if i =? u64 (num_touched_pages - 1) then
                   HDassert (0 <? i) ;;;
                   HDassert (search_addr =? last_page_addr) ;;;
                   HDassert (addr <? last_page_addr) ;;;
                   HDassert (last_page_addr <? u64 (addr + size)) ;;;
                   let offset :=
                     u64 (u64 (u64 (num_touched_pages - 2) * page_size pb)
                          + u64 (page_size pb
                                 - u64 (addr - first_page_addr))) in
                   do_memcpy buf offset (image_ptr e) 0
                     (u64 (u64 (addr + size) - last_page_addr))
                 else
                   let offset :=
                     u64 (u64 (u64 (i - 1) * page_size pb)
                          + u64 (page_size pb
                                 - u64 (addr - first_page_addr))) in
                   HDassert (u64 (addr + offset) =? search_addr) ;;;
                   HDassert (u64 (offset + page_size pb) <=? size) ;;;
                   do_memcpy buf offset (image_ptr e) 0 (page_size pb)) ;;
              H5PB__UPDATE_RP_FOR_ACCESS entry_ptr ;;;
              ret buf1
            else ret buf
        end ;;
      read_raw_pages n' addr size first_page_addr last_page_addr
        num_touched_pages (u64 (i + 1)) (u64 (search_page + 1))
        (u64 (search_addr + page_size pb)) buf'
  end.

(** [H5PB__read_raw]; the result is the read buffer after the call. *)
Definition H5PB__read_raw (type : H5FD_mem_t) (addr : haddr_t) (size : Z)
  (buf : bytes) : PB bytes :=
  pb <- get_pb ;;
  HDassert (min_md_pages pb <? max_pages pb) ;;;
  HDassert (is_draw type) ;;;
  let first_page := addr / page_size pb in
  let first_page_addr := u64 (first_page * page_size pb) in
  let last_page := u64 (u64 (addr + size) - 1) / page_size pb in
  let last_page_addr0 := u64 (last_page * page_size pb) in
  let num_touched_pages := u64 (u64 (last_page - first_page) + 1) in
  HDassert (negb (first_page_addr =? last_page_addr0)
            || (1 =? num_touched_pages)) ;;;
  let last_page_addr :=
    if first_page_addr =? last_page_addr0 then HADDR_UNDEF
    else last_page_addr0 in
  if page_size pb <=? size then
    (* case 3 *)
    buf1 <- accum_read type addr size buf ;;
    read_raw_pages (Z.to_nat num_touched_pages) addr size first_page_addr
      last_page_addr num_touched_pages 0 first_page first_page_addr buf1
  else
    (* case 4 *)
    HDassert (size <? page_size pb) ;;;
    let offset := u64 (addr - first_page_addr) in
    let one_page := u64 (offset + size) <=? page_size pb in
    HDassert (if one_page then num_touched_pages =? 1
              else num_touched_pages =? 2) ;;;
    let length :=
      if one_page then size
      else u64 (size - u64 (page_size pb - offset)) in
    found <- H5PB__SEARCH_INDEX first_page ;;
    entry_ptr <- match found with
                 | None => H5PB__load_page first_page_addr type
                 | Some q => ret q
                 end ;;
    e <- get_entry entry_ptr ;;
    HDassert (entry_addr e =? first_page_addr) ;;;
    buf1 <- do_memcpy buf 0 (image_ptr e) offset length ;;
    H5PB__UPDATE_RP_FOR_ACCESS entry_ptr ;;;
    if num_touched_pages =? 2 then
      let offset := length in
      let length := u64 (size - offset) in
      HDassert (u64 (offset + length) =? size) ;;;
      found <- H5PB__SEARCH_INDEX last_page ;;
      entry_ptr <- match found with
                   | None => H5PB__load_page last_page_addr type
                   | Some q => ret q
                   end ;;
      e <- get_entry entry_ptr ;;
      HDassert (entry_addr e =? last_page_addr) ;;;
      HDassert (entry_page e =? last_page) ;;;
      buf2 <- do_memcpy buf1 offset (image_ptr e) 0 length ;;
      H5PB__UPDATE_RP_FOR_ACCESS entry_ptr ;;;
      ret buf2
    else ret buf1.

(** [H5PB__write_meta] *)
Definition H5PB__write_meta (type : H5FD_mem_t) (addr : haddr_t) (size : Z)
  (buf : bytes) : PB unit :=
  pb <- get_pb ;;
  HDassert (min_rd_pages pb <? max_pages pb) ;;;
  HDassert (negb (is_draw type)) ;;;
  let page := addr / page_size pb in
  let page_addr := u64 (page * page_size pb) in
  HDassert ((size <=? page_size pb) || (addr =? page_addr)) ;;;
  if page_size pb <? size then
    (* case 7 *)
    HDassert (vfd_swmr_writer pb) ;;;
    HDassert (addr =? page_addr) ;;;
    found <- H5PB__SEARCH_INDEX page ;;
    entry_ptr <- match found with
                 | None =>
                     q <- H5PB__create_new_page addr size type false ;;
                     modify_entry q (set_loaded true) ;;;
                     ret q
                 | Some q => ret q
                 end ;;
    e <- get_entry entry_ptr ;;
    HDassert (is_metadata e) ;;;
    HDassert (is_mpmde e) ;;;
    HDassert (size =? entry_size e) ;;;
    HDassert (bool_decide (type = mem_type e)) ;;;
    image <- do_memcpy (image_ptr e) 0 buf 0 size ;;
    put_entry entry_ptr (set_image image e) ;;;
    H5PB__mark_entry_dirty entry_ptr ;;;
    e <- get_entry entry_ptr ;;
    if negb (modified_this_tick e) then
      put_entry entry_ptr (set_modified_this_tick true e) ;;;
      H5PB__INSERT_IN_TL entry_ptr
    else ret tt
  else
    (* case 8 *)
    let offset := u64 (addr - page_addr) in
    HDassert (u64 (offset + size) <=? page_size pb) ;;;
    found <- H5PB__SEARCH_INDEX page ;;
    entry_ptr <- match found with
                 | None => H5PB__load_page page_addr type
                 | Some q => ret q
                 end ;;
    e <- get_entry entry_ptr ;;
    HDassert (entry_addr e =? page_addr) ;;;
    HDassert (is_metadata e) ;;;
    HDassert (negb (is_mpmde e)) ;;;
    HDassert (entry_size e =? page_size pb) ;;;
    HDassert (size <=? entry_size e) ;;;
    image <- do_memcpy (image_ptr e) offset buf 0 size ;;
    put_entry entry_ptr (set_image image e) ;;;
    H5PB__mark_entry_dirty entry_ptr ;;;
    if vfd_swmr_writer pb then
      e <- get_entry entry_ptr ;;
      if negb (modified_this_tick e) then
        put_entry entry_ptr (set_modified_this_tick true e) ;;;
        H5PB__INSERT_IN_TL entry_ptr
      else ret tt
    else ret tt.

(** The body of the [for] loop of case 3 of [H5PB__write_raw], pass [i]
    of [num_touched_pages], and the passes after it. *)
Fixpoint write_raw_pages (n : nat) (addr : haddr_t) (size : Z)
  (first_page_addr last_page_addr : haddr_t) (num_touched_pages : Z)
  (i search_page : Z) (search_addr : haddr_t) (buf : bytes) : PB unit :=
  match n with
  | O => ret tt
  | S n' =>
      pb <- get_pb ;;
      found <- H5PB__SEARCH_INDEX search_page ;;
      match found with
      | None => ret tt
      | Some entry_ptr =>
          e <- get_entry entry_ptr ;;
          HDassert (negb (is_metadata e)) ;;;
          HDassert (entry_page e =? search_page) ;;;
          HDassert (entry_addr e =? search_addr) ;;;
          HDassert (entry_size e =? page_size pb) ;;;
          HDassert (delay_write_until e =? 0) ;;;
          HDassert (entry_addr e <=? u64 (addr + size)) ;;;
          if (addr <=? entry_addr e)
             && (u64 (entry_addr e + entry_size e) <=? u64 (addr + size))
          then
            (if is_dirty e then H5PB__mark_entry_clean entry_ptr
             else ret tt) ;;;
            H5PB__evict_entry entry_ptr true
          else if i =? 0 then
            HDassert (search_addr =? first_page_addr) ;;;
            HDassert (search_addr <? addr) ;;;
            HDassert (u64 (entry_addr e + entry_size e)
                      <=? u64 (addr + size)) ;;;
            let offset := u64 (addr - first_page_addr) in
            HDassert (0 <? offset) ;;;
            HDassert (offset <=? page_size pb) ;;;
            HDassert (u64 (page_size pb - offset) <=? size) ;;;
            image <- do_memcpy (image_ptr e) offset buf 0
                       (u64 (page_size pb - offset)) ;;
            put_entry entry_ptr (set_image image e) ;;;
            H5PB__mark_entry_dirty entry_ptr
          else if i =? u64 (num_touched_pages - 1) then
            HDassert (0 <? i) ;;;
            HDassert (search_addr =? last_page_addr) ;;;
            HDassert (addr <? last_page_addr) ;;;
            HDassert (last_page_addr <? u64 (addr + size)) ;;;
            let offset :=
              u64 (u64 (u64 (num_touched_pages - 2) * page_size pb)
                   + u64 (page_size pb - u64 (addr - first_page_addr))) in
            image <- do_memcpy (image_ptr e) 0 buf offset
                       (u64 (u64 (addr + size) - last_page_addr)) ;;
            put_entry entry_ptr (set_image image e) ;;;
            H5PB__mark_entry_dirty entry_ptr
          else
            HDassert false
      end ;;;
      write_raw_pages n' addr size first_page_addr last_page_addr
        num_touched_pages (u64 (i + 1)) (u64 (search_page + 1))
        (u64 (search_addr + page_size pb)) buf
  end.

(** [H5PB__write_raw] *)
Definition H5PB__write_raw (type : H5FD_mem_t) (addr : haddr_t) (size : Z)
  (buf : bytes) : PB unit :=
  pb <- get_pb ;;
  HDassert (min_md_pages pb <? max_pages pb) ;;;
  HDassert (is_draw type) ;;;
  let first_page := addr / page_size pb in
  let first_page_addr := u64 (first_page * page_size pb) in
  let last_page := u64 (u64 (addr + size) - 1) / page_size pb in
  let last_page_addr0 := u64 (last_page * page_size pb) in
  let num_touched_pages := u64 (u64 (last_page - first_page) + 1) in
  HDassert (negb (first_page_addr =? last_page_addr0)
            || (1 =? num_touched_pages)) ;;;
  let last_page_addr :=
    if first_page_addr =? last_page_addr0 then HADDR_UNDEF
    else last_page_addr0 in
  if page_size pb <=? size then
    (* case 3 *)
    accum_write type addr size buf ;;;
    write_raw_pages (Z.to_nat num_touched_pages) addr size first_page_addr
      last_page_addr num_touched_pages 0 first_page first_page_addr buf
  else
    (* case 4 *)
    HDassert (size <? page_size pb) ;;;
    let offset := u64 (addr - first_page_addr) in
    let one_page := u64 (offset + size) <=? page_size pb in
    HDassert (if one_page then num_touched_pages =? 1
              else num_touched_pages =? 2) ;;;
    let length := if one_page then size else u64 (page_size pb - offset) in
    HDassert (one_page || (u64 (offset + length) =? page_size pb)) ;;;
    found <- H5PB__SEARCH_INDEX first_page ;;
    entry_ptr <- match found with
                 | None => H5PB__load_page first_page_addr type
                 | Some q => ret q
                 end ;;
    e <- get_entry entry_ptr ;;
    HDassert (entry_addr e =? first_page_addr) ;;;
    image <- do_memcpy (image_ptr e) offset buf 0 length ;;
    put_entry entry_ptr (set_image image e) ;;;
    H5PB__mark_entry_dirty entry_ptr ;;;
    if num_touched_pages =? 2 then
      let offset := length in
      let length := u64 (size - offset) in
      HDassert (u64 (offset + length) =? size) ;;;
      found <- H5PB__SEARCH_INDEX last_page ;;
      entry_ptr <- match found with
                   | None => H5PB__load_page last_page_addr type
                   | Some q => ret q
                   end ;;
      e <- get_entry entry_ptr ;;
      HDassert (entry_addr e =? last_page_addr) ;;;
      HDassert (entry_page e =? last_page) ;;;
      image <- do_memcpy (image_ptr e) 0 buf offset length ;;
      put_entry entry_ptr (set_image image e) ;;;
      H5PB__mark_entry_dirty entry_ptr
    else ret tt.

(** *** The interface of the page buffer *)

(** [H5PB_add_new_page] *)
Definition H5PB_add_new_page (type : H5FD_mem_t) (page_addr : haddr_t)
  : PB unit :=
  pb <- get_pb ;;
  let can_insert :=
    if is_draw type then negb (min_md_pages pb =? max_pages pb)
    else negb (min_rd_pages pb =? max_pages pb) in
  if can_insert then
    entry_ptr <- H5PB__create_new_page page_addr (page_size pb) type true ;;
    modify_entry entry_ptr (set_loaded false)
  else ret tt.

(** [H5PB_create].  The casts to [int32_t] are not written out: the
    page counts are taken to fit. *)
Definition H5PB_create (size : Z) (page_buf_min_meta_perc : Z)
  (page_buf_min_raw_perc : Z) : PB unit :=
  f <- get_f ;;
  HDassert (page_buf_min_meta_perc <=? 100) ;;;
  HDassert (page_buf_min_raw_perc <=? 100) ;;;
  HDassert (page_buf_min_meta_perc + page_buf_min_raw_perc <=? 100) ;;;
  (if negb (fs_strategy_page f) then error else ret tt) ;;;
  (if fs_page_size f =? 0 then abort DivisionByZero else ret tt) ;;;
  size <- (if fs_page_size f <? size
           then ret (u64 (size / fs_page_size f * fs_page_size f))
           else if negb (0 =? size mod fs_page_size f) then error
           else ret size) ;;
  let min_md_pages :=
    u64 (size * page_buf_min_meta_perc) / u64 (fs_page_size f * 100) in
  let min_rd_pages :=
    u64 (size * page_buf_min_raw_perc) / u64 (fs_page_size f * 100) in
  HDassert (0 <=? min_md_pages) ;;;
  HDassert (0 <=? min_rd_pages) ;;;
  HDassert (min_md_pages + min_rd_pages <=? size / fs_page_size f) ;;;
  let writer := vfd_swmr_config f && intent_rdwr f in
  let pb := mkPB (fs_page_size f) (size / fs_page_size f) 0 0 0
              min_md_pages min_rd_pages ∅ [] writer 0 0 [] [] in
  put_f (set_pb_ptr (Some pb) f) ;;;
  if vfd_swmr_config f && negb (intent_rdwr f) then
    f <- get_f ;;
    put_f (set_lf (lf_set_pb_configured (lf f)) f)
  else ret tt.

(** The scan of the hash table in [H5PB_flush]. *)
Fixpoint flush_pages (l : list Z) : PB unit :=
  match l with
  | [] => ret tt
  | p :: l' =>
      pb <- get_pb ;;
      match ht pb !! p with
      | Some e => if is_dirty e then H5PB__flush_entry p else ret tt
      | None => ret tt
      end ;;;
      flush_pages l'
  end.

(** [H5PB_flush] *)
Definition H5PB_flush : PB unit :=
  f <- get_f ;;
  match pb_ptr f with
  | Some pb => flush_pages (ht_scan (ht pb))
  | None => ret tt
  end.

(** The scan of the hash table in [H5PB_dest]. *)
Fixpoint dest_pages (l : list Z) : PB unit :=
  match l with
  | [] => ret tt
  | p :: l' =>
      pb <- get_pb ;;
      match ht pb !! p with
      | Some e =>
          (if is_dirty e then H5PB__flush_entry p else ret tt) ;;;
          H5PB__evict_entry p true
      | None => ret tt
      end ;;;
      dest_pages l'
  end.

(** [H5PB_dest] *)
Definition H5PB_dest : PB unit :=
  f <- get_f ;;
  match pb_ptr f with
  | Some pb =>
      dest_pages (ht_scan (ht pb)) ;;;
      pb <- get_pb ;;
      HDassert (curr_pages pb =? 0) ;;;
      HDassert (curr_md_pages pb =? 0) ;;;
      HDassert (curr_rd_pages pb =? 0) ;;;
      HDassert (bool_decide (ht pb = ∅)) ;;;
      HDassert (bool_decide (LRU pb = [])) ;;;
      HDassert (bool_decide (dwl pb = [])) ;;;
      HDassert (bool_decide (tl pb = [])) ;;;
      f <- get_f ;;
      put_f (set_pb_ptr None f)
  | None => ret tt
  end.

(** [H5PB_page_exists]; the result is [*page_exists_ptr]. *)
Definition H5PB_page_exists (addr : haddr_t) : PB bool :=
  pb <- get_pb ;;
  let page := addr / page_size pb in
  HDassert (addr =? u64 (page * page_size pb)) ;;;
  entry_ptr <- H5PB__SEARCH_INDEX page ;;
  match entry_ptr with
  | Some q =>
      e <- get_entry q ;;
      HDassert (entry_addr e =? addr) ;;;
      ret true
  | None => ret false
  end.

(** [H5PB_read]; the result is the read buffer after the call. *)
Definition H5PB_read (type : H5FD_mem_t) (addr : haddr_t) (size : Z)
  (buf : bytes) : PB bytes :=
  f <- get_f ;;
  HDassert (negb (bool_decide (type = H5FD_MEM_GHEAP))) ;;;
  let bypass_pb :=
    match pb_ptr f with
    | None => true
    | Some pb =>
        if is_draw type then min_md_pages pb =? max_pages pb
        else min_rd_pages pb =? max_pages pb
    end in
  let bypass_pb := bypass_pb || has_mpi f in
  if bypass_pb then accum_read type addr size buf
  else if is_draw type then H5PB__read_raw type addr size buf
  else H5PB__read_meta type addr size buf.

(** [H5PB_remove_entry] *)
Definition H5PB_remove_entry (addr : haddr_t) : PB unit :=
  pb <- get_pb ;;
  let page := addr / page_size pb in
  HDassert (addr =? u64 (page * page_size pb)) ;;;
  found <- H5PB__SEARCH_INDEX page ;;
  match found with
  | None => ret tt
  | Some entry_ptr =>
      e <- get_entry entry_ptr ;;
      HDassert (entry_addr e =? addr) ;;;
      HDassert ((entry_size e =? page_size pb)
                || ((page_size pb <? entry_size e)
                    && negb (is_draw (mem_type e))
                    && vfd_swmr_writer pb)) ;;;
      (if modified_this_tick e then
         H5PB__REMOVE_FROM_TL entry_ptr ;;;
         modify_entry entry_ptr (set_modified_this_tick false)
       else ret tt) ;;;
      (if 0 <? delay_write_until e then
         modify_entry entry_ptr (set_delay_write_until 0) ;;;
         H5PB__REMOVE_FROM_DWL entry_ptr ;;;
         when (negb (is_mpmde e)) (H5PB__UPDATE_RP_FOR_INSERTION entry_ptr)
       else ret tt) ;;;
      e <- get_entry entry_ptr ;;
      (if is_dirty e then H5PB__mark_entry_clean entry_ptr else ret tt) ;;;
      H5PB__evict_entry entry_ptr true
  end.

(** [H5PB_update_entry] *)
Definition H5PB_update_entry (addr : haddr_t) (size : Z) (buf : bytes)
  : PB unit :=
  pb <- get_pb ;;
  HDassert (0 <? size) ;;;
  HDassert (size <=? page_size pb) ;;;
  if min_rd_pages pb <? max_pages pb then
    let page := addr / page_size pb in
    let page_addr := u64 (page * page_size pb) in
    found <- H5PB__SEARCH_INDEX page ;;
    match found with
    | None => ret tt
    | Some entry_ptr =>
        e <- get_entry entry_ptr ;;
        HDassert (is_metadata e) ;;;
        HDassert (negb (is_mpmde e)) ;;;
        HDassert (u64 (addr + size) <=? u64 (page_addr + page_size pb)) ;;;
        let offset := u64 (addr - page_addr) in
        image <- do_memcpy (image_ptr e) offset buf 0 size ;;
        put_entry entry_ptr (set_image image e) ;;;
        H5PB__UPDATE_RP_FOR_ACCESS entry_ptr
    end
  else ret tt.

(** The [while] loop of [H5PB_vfd_swmr__release_delayed_writes]. *)
Fixpoint release_delayed_writes_loop (fuel : nat) : PB unit :=
  match fuel with
  | O => abort OutOfFuel
  | S fuel' =>
      pb <- get_pb ;;
      f <- get_f ;;
      match dll_tail (dwl pb) with
      | None => ret tt
      | Some entry_ptr =>
          e <- get_entry entry_ptr ;;
          if delay_write_until e <? tick_num f then
            HDassert (is_dirty e) ;;;
            put_entry entry_ptr (set_delay_write_until 0 e) ;;;
            H5PB__REMOVE_FROM_DWL entry_ptr ;;;
            (if is_mpmde e then
               H5PB__flush_entry entry_ptr ;;;
               H5PB__evict_entry entry_ptr true
             else H5PB__UPDATE_RP_FOR_INSERT_APPEND entry_ptr) ;;;
            release_delayed_writes_loop fuel'
          else ret tt
      end
  end.

(** [H5PB_vfd_swmr__release_delayed_writes]; a pass of the loop takes
    one entry off the delayed write list. *)
Definition H5PB_vfd_swmr__release_delayed_writes : PB unit :=
  f <- get_f ;;
  HDassert (f_vfd_swmr f) ;;;
  HDassert (f_vfd_swmr_writer f) ;;;
  pb <- get_pb ;;
  HDassert (vfd_swmr_writer pb) ;;;
  release_delayed_writes_loop (S (length (dwl pb))).

(** The [while] loop of [H5PB_vfd_swmr__release_tick_list]. *)
Fixpoint release_tick_list_loop (fuel : nat) : PB unit :=
  match fuel with
  | O => abort OutOfFuel
  | S fuel' =>
      pb <- get_pb ;;
      match dll_head (tl pb) with
      | None => ret tt
      | Some entry_ptr =>
          H5PB__REMOVE_FROM_TL entry_ptr ;;;
          modify_entry entry_ptr (set_modified_this_tick false) ;;;
          e <- get_entry entry_ptr ;;
          (if is_mpmde e then
             HDassert (is_dirty e) ;;;
             if delay_write_until e =? 0 then
               H5PB__flush_entry entry_ptr ;;;
               H5PB__evict_entry entry_ptr true
             else ret tt
           else ret tt) ;;;
          release_tick_list_loop fuel'
      end
  end.

(** [H5PB_vfd_swmr__release_tick_list] *)
Definition H5PB_vfd_swmr__release_tick_list : PB unit :=
  f <- get_f ;;
  HDassert (f_vfd_swmr f) ;;;
  HDassert (f_vfd_swmr_writer f) ;;;
  pb <- get_pb ;;
  HDassert (vfd_swmr_writer pb) ;;;
  release_tick_list_loop (S (length (tl pb))) ;;;
  pb <- get_pb ;;
  HDassert (bool_decide (tl pb = [])).

(** [H5PB_vfd_swmr__set_tick] *)
Definition H5PB_vfd_swmr__set_tick : PB unit :=
  f <- get_f ;;
  HDassert (f_vfd_swmr f) ;;;
  HDassert (f_vfd_swmr_writer f) ;;;
  pb <- get_pb ;;
  HDassert (vfd_swmr_writer pb) ;;;
  if negb (tick_num f =? u64 (cur_tick pb + 1)) then error
  else put_pb (set_cur_tick (tick_num f) pb).

(** [H5PB_write] *)
Definition H5PB_write (type : H5FD_mem_t) (addr : haddr_t) (size : Z)
  (buf : bytes) : PB unit :=
  f <- get_f ;;
  HDassert (negb (bool_decide (type = H5FD_MEM_GHEAP))) ;;;
  let bypass_pb :=
    match pb_ptr f with
    | None => true
    | Some pb =>
        if is_draw type then min_md_pages pb =? max_pages pb
        else if min_rd_pages pb =? max_pages pb then true
        else (page_size pb <=? size) && negb (vfd_swmr_writer pb)
    end in
  let bypass_pb := bypass_pb || has_mpi f in
  if bypass_pb then accum_write type addr size buf
  else if is_draw type then H5PB__write_raw type addr size buf
  else H5PB__write_meta type addr size buf.

End PageBuffer.

(** ** Several files in one process

    The static variables are shared by the files of the process: a call
    on the file [fid] runs on that file and on the statics. *)
Record process `{Collaborators} := mkProcess {
  p_prev_addr : haddr_t;
  p_files : gmap nat (H5F_t H5FD_t)
}.

Section Process.
Context `{Collaborators}.

(** A call of the page buffer interface on the open file [fid]. *)
Definition on_file {A} (fid : nat) (m : PB A) (p : process)
  : option (outcome A * process) :=
  match p_files p !! fid with
  | None => None
  | Some f =>
      let '(r, s) := m (mkEnv _ (p_prev_addr p) f) in
      Some (r, mkProcess _ (prev_addr s) (<[fid := file s]> (p_files p)))
  end.

End Process.

(** ** A file in memory

    A driver to run the page buffer on: the file is its bytes, the
    end of allocation and the end of file are its length, and an access
    outside the file fails. *)
Definition mem_read (d : bytes) (type : H5FD_mem_t) (addr : haddr_t)
  (size : Z) : option bytes := sub_bytes d addr size.

Definition mem_write (d : bytes) (type : H5FD_mem_t) (addr : haddr_t)
  (size : Z) (buf : bytes) : option bytes :=
  match sub_bytes buf 0 size with
  | Some b => blit d addr b
  | None => None
  end.

Definition mem_eoa (d : bytes) (type : H5FD_mem_t) : haddr_t := blen d.

(** The pages of the index in increasing order. *)
Definition scan_sorted (h : gmap Z H5PB_entry_t) : list Z :=
  (map_to_list h).*1.

(** The collaborators over a file in memory; [delay] is the answer of
    [H5F_vfd_swmr_writer__delay_write] for a tick and a page. *)
Definition mem_collaborators (ndebug : bool) (delay : Z -> Z -> option Z)
  : Collaborators :=
  {| NDEBUG := ndebug;
     H5FD_t := bytes;
     H5F__accum_read := mem_read;
     H5F__accum_write := mem_write;
     H5F_get_eoa := mem_eoa;
     H5FD_get_eof := mem_eoa;
     lf_set_pb_configured := λ d, d;
     H5F_vfd_swmr_writer__delay_write := λ f page, delay (tick_num f) page;
     ht_scan := scan_sorted;
     uninit_byte := xff |}.

(** ** The VFD SWMR reader driver ([H5FDvfd_swmr.c]) *)

(** [H5FD_vfd_swmr_md_header] *)
Record H5FD_vfd_swmr_md_header := mkHeader {
  hdr_fs_page_size : Z;
  hdr_tick_num : Z;
  hdr_index_offset : Z;
  hdr_index_length : Z
}.

(** [H5FD_vfd_swmr_idx_entry_t], the fields that are on disk. *)
Record H5FD_vfd_swmr_idx_entry_t := mkIdxEntry {
  hdf5_page_offset : Z;
  md_file_page_offset : Z;
  ie_length : Z;
  chksum : Z
}.

(** [H5FD_vfd_swmr_md_index] *)
Record H5FD_vfd_swmr_md_index := mkIndex {
  idx_tick_num : Z;
  idx_num_entries : Z;
  idx_entries : list H5FD_vfd_swmr_idx_entry_t
}.

(** [H5FD_vfd_swmr_t].  [md_pos] is the offset of the descriptor
    [md_fd]; [clock] counts the system calls and the sleeps of the
    reader, and tells which state of the metadata file, which the
    writer changes meanwhile, the next call finds; [slept] lists the
    nanoseconds of the sleeps made, the last one first. *)
Record H5FD_vfd_swmr_t := mkVfd {
  md_pos : Z;
  md_pages_reserved : Z;
  md_header : H5FD_vfd_swmr_md_header;
  md_index : H5FD_vfd_swmr_md_index;
  pb_configured : bool;
  clock : nat;
  slept : list Z
}.

Definition set_md_pos (o : Z) (v : H5FD_vfd_swmr_t) : H5FD_vfd_swmr_t :=
  mkVfd o (md_pages_reserved v) (md_header v) (md_index v)
    (pb_configured v) (clock v) (slept v).

Definition set_clock (c : nat) (v : H5FD_vfd_swmr_t) : H5FD_vfd_swmr_t :=
  mkVfd (md_pos v) (md_pages_reserved v) (md_header v) (md_index v)
    (pb_configured v) c (slept v).

Definition set_md (h : H5FD_vfd_swmr_md_header)
  (i : H5FD_vfd_swmr_md_index) (v : H5FD_vfd_swmr_t) : H5FD_vfd_swmr_t :=
  mkVfd (md_pos v) (md_pages_reserved v) h i (pb_configured v) (clock v)
    (slept v).

(** The build and what the reader driver calls; all of it is declared
    outside the sources at hand.
    - [md_file_at t] is the metadata file as the call at time [t]
      finds it, [None] when that call fails;
    - [H5FD_read t] is a read of the underlying driver of the HDF5
      file at time [t];
    - [H5F_get_checksums image n] is the stored and the computed
      checksum of an image of [n] bytes, [H5_checksum_metadata] the
      checksum of the library;
    - the retry maxima ("Retry bounds: header retry max, index retry
      max, file-stat retry max") and [H5_POSIX_MAX_IO_BYTES]. *)
Class ReaderCollaborators := {
  R_NDEBUG : bool;
  md_file_at : nat -> option bytes;
  H5FD_read : nat -> H5FD_mem_t -> haddr_t -> Z -> option bytes;
  H5F_get_checksums : bytes -> Z -> Z * Z;
  H5_checksum_metadata : bytes -> Z -> Z -> Z;
  H5FD_VFD_SWMR_MD_FILE_RETRY_MAX : Z;
  H5FD_VFD_SWMR_MD_HEADER_RETRY_MAX : Z;
  H5FD_VFD_SWMR_MD_INDEX_RETRY_MAX : Z;
  H5FD_VFD_SWMR_MD_LOAD_RETRY_MAX : Z;
  H5_POSIX_MAX_IO_BYTES : Z
}.

(** Modelled from the spec: [H5_SIZEOF_MAGIC], "magic: 4 bytes". *)
Definition H5_SIZEOF_MAGIC : Z := 4.

(** Modelled from the spec: [H5FD_MD_HEADER_MAGIC], "literal VHDR". *)
Definition H5FD_MD_HEADER_MAGIC : bytes := [x56; x48; x44; x52].

(** Modelled from the spec: [H5FD_MD_INDEX_MAGIC], "literal VIDX". *)
Definition H5FD_MD_INDEX_MAGIC : bytes := [x56; x49; x44; x58].

(** Modelled from the spec: [H5FD_MD_HEADER_SIZE], the header with
    "magic(4), page_size(u32), tick_num(u64), index_offset(u64),
    index_length(u64), checksum(u32)". *)
Definition H5FD_MD_HEADER_SIZE : Z := 36.

(** Modelled from the spec: [H5FD_MD_HEADER_OFF]; the header is at the
    start of the metadata file. *)
Definition H5FD_MD_HEADER_OFF : Z := 0.

(** Modelled from the spec: [UINT32DECODE] and [UINT64DECODE], "all
    integers little-endian"; the value of the bytes [b]. *)
Fixpoint decode_le (b : bytes) : Z :=
  match b with
  | [] => 0
  | x :: b' => Z.of_N (Byte.to_N x) + 256 * decode_le b'
  end.

Section Reader.
Context `{ReaderCollaborators}.

Definition RD (A : Type) : Type := ST H5FD_vfd_swmr_t A.

Definition r_assert (b : bool) : RD unit :=
  if R_NDEBUG then ret tt else if b then ret tt else abort AssertionFailed.

Definition get_vfd : RD H5FD_vfd_swmr_t := λ v, (Ok v, v).

(** Time passes while a system call is made. *)
Definition tick : RD unit := λ v, (Ok tt, set_clock (S (clock v)) v).

(** [H5_nanosleep(nanosec)] *)
Definition H5_nanosleep (nanosec : Z) : RD unit :=
  λ v, (Ok tt, mkVfd (md_pos v) (md_pages_reserved v) (md_header v)
                 (md_index v) (pb_configured v) (S (clock v))
                 (nanosec :: slept v)).

(** The metadata file as the call that is made now finds it. *)
Definition md_now : RD (option bytes) :=
  v <- get_vfd ;; tick ;;; ret (md_file_at (clock v)).

(** The call, with a failure turned into a result: [None] for
    [ret_value < 0]. *)
Definition try {A} (m : RD A) : RD (option A) :=
  λ v, match m v with
       | (Ok a, v') => (Ok (Some a), v')
       | (Fail, v') => (Ok None, v')
       | (Abort w, v') => (Abort w, v')
       end.

(** [HDfstat(file->md_fd, &stat_buf)]; the result is [st_size]. *)
Definition HDfstat : RD Z :=
  c <- md_now ;;
  match c with
  | Some b => ret (blen b)
  | None => error
  end.

(** [HDlseek(file->md_fd, off, SEEK_SET)], [off] cast to the signed
    [HDoff_t]; a negative offset is refused. *)
Definition HDlseek (off : Z) : RD unit :=
  tick ;;;
  if 2 ^ 63 <=? off then error
  else λ v, (Ok tt, set_md_pos off v).

(** [HDread(file->md_fd, ptr, n)]: the bytes read, at most [n], fewer
    at the end of the file; [None] for the result -1. *)
Definition HDread (n : Z) : RD (option bytes) :=
  c <- md_now ;;
  v <- get_vfd ;;
  match c with
  | None => ret None
  | Some b =>
      let d := take (Z.to_nat n) (drop (Z.to_nat (md_pos v)) b) in
      (λ v, (Ok (Some d), set_md_pos (md_pos v + blen d) v))
  end.

(** The passes a [do ... while (--retries)] loop can make. *)
Definition do_while_fuel (retries : Z) : nat :=
  Z.to_nat (if retries =? 0 then 2 ^ 32 else retries).

(** The loop that waits for the metadata file to have [need] bytes:
    [do { fstat; if (st_size >= need) break; sleep } while
    (--file_retries)]; the result is [file_retries] after the loop. *)
Fixpoint stat_loop (fuel : nat) (need : Z) (file_retries nanosec : Z)
  : RD Z :=
  match fuel with
  | O => abort OutOfFuel
  | S fuel' =>
      st_size <- HDfstat ;;
      if need <=? st_size then ret file_retries
      else
        H5_nanosleep nanosec ;;;
        let nanosec := u64 (nanosec * 2) in
        let file_retries := u32 (file_retries - 1) in
        if file_retries =? 0 then ret 0
        else stat_loop fuel' need file_retries nanosec
  end.

(** The loop that reads an image of [n] bytes at [off] until its magic
    and its checksum are right; the result is the retry counter after
    the loop and the image read last. *)
Fixpoint image_loop (fuel : nat) (off n : Z) (magic : bytes)
  (retries nanosec : Z) : RD (Z * bytes) :=
  match fuel with
  | O => abort OutOfFuel
  | S fuel' =>
      HDlseek off ;;;
      r <- HDread n ;;
      match r with
      | None => error
      | Some image =>
          if blen image <? n then error
          else
            let '(stored_chksum, computed_chksum) :=
              H5F_get_checksums image n in
            if bool_decide (take (Z.to_nat H5_SIZEOF_MAGIC) image = magic)
               && (stored_chksum =? computed_chksum)
            then ret (retries, image)
            else
              H5_nanosleep nanosec ;;;
              let nanosec := u64 (nanosec * 2) in
              let retries := u32 (retries - 1) in
              if retries =? 0 then ret (0, image)
              else image_loop fuel' off n magic retries nanosec
      end
  end.

(** The integer of [n] bytes at [p] in [image]; a read outside the
    image is a fault. *)
Definition decode_at (image : bytes) (p n : Z) : RD Z :=
  match sub_bytes image p n with
  | Some b => ret (decode_le b)
  | None => abort MemoryFault
  end.

(** [H5FD__vfd_swmr_header_deserialize]; the result is [*md_header]. *)
Definition H5FD__vfd_swmr_header_deserialize
  : RD H5FD_vfd_swmr_md_header :=
  file_retries <-
    stat_loop (do_while_fuel H5FD_VFD_SWMR_MD_FILE_RETRY_MAX)
      H5FD_MD_HEADER_SIZE H5FD_VFD_SWMR_MD_FILE_RETRY_MAX 1 ;;
  (if file_retries =? 0 then error else ret tt) ;;;
  r <- image_loop (do_while_fuel H5FD_VFD_SWMR_MD_HEADER_RETRY_MAX)
         H5FD_MD_HEADER_OFF H5FD_MD_HEADER_SIZE H5FD_MD_HEADER_MAGIC
         H5FD_VFD_SWMR_MD_HEADER_RETRY_MAX 1 ;;
  let '(header_retries, image) := r in
  (if header_retries =? 0 then error else ret tt) ;;;
  let p := H5_SIZEOF_MAGIC in
  fs_page_size <- decode_at image p 4 ;;
  tick_num <- decode_at image (p + 4) 8 ;;
  index_offset <- decode_at image (p + 12) 8 ;;
  index_length <- decode_at image (p + 20) 8 ;;
  stored_chksum <- decode_at image (p + 28) 4 ;;
  r_assert (p + 32 <=? H5FD_MD_HEADER_SIZE) ;;;
  ret (mkHeader fs_page_size tick_num index_offset index_length).

(** The [for] loop that decodes the index entries from [p] on. *)
Fixpoint decode_entries (n : nat) (image : bytes) (p : Z)
  : RD (list H5FD_vfd_swmr_idx_entry_t) :=
  match n with
  | O => ret []
  | S n' =>
      a <- decode_at image p 4 ;;
      b <- decode_at image (p + 4) 4 ;;
      c <- decode_at image (p + 8) 4 ;;
      d <- decode_at image (p + 12) 4 ;;
      l <- decode_entries n' image (p + 16) ;;
      ret (mkIdxEntry a b c d :: l)
  end.

(** [H5FD__vfd_swmr_index_deserialize]; the result is [*md_index].
    The allocations do not fail.  The counter of the first loop is not
    tested after it. *)
Definition H5FD__vfd_swmr_index_deserialize
  (hdr : H5FD_vfd_swmr_md_header) : RD H5FD_vfd_swmr_md_index :=
  stat_loop (do_while_fuel H5FD_VFD_SWMR_MD_FILE_RETRY_MAX)
    (u64 (H5FD_MD_HEADER_SIZE + hdr_index_length hdr))
    H5FD_VFD_SWMR_MD_FILE_RETRY_MAX 1 ;;;
  r <- image_loop (do_while_fuel H5FD_VFD_SWMR_MD_INDEX_RETRY_MAX)
         (hdr_index_offset hdr) (hdr_index_length hdr)
         H5FD_MD_INDEX_MAGIC H5FD_VFD_SWMR_MD_INDEX_RETRY_MAX 1 ;;
  let '(index_retries, image) := r in
  (if index_retries =? 0 then error else ret tt) ;;;
  let p := H5_SIZEOF_MAGIC in
  tick_num <- decode_at image p 8 ;;
  num_entries <- decode_at image (p + 8) 4 ;;
  entries <- decode_entries (Z.to_nat num_entries) image (p + 12) ;;
  stored_chksum <- decode_at image (p + 12 + 16 * num_entries) 4 ;;
  r_assert (p + 12 + 16 * num_entries + 4 <=? hdr_index_length hdr) ;;;
  ret (mkIndex tick_num num_entries entries).

(** What a pass of the loop of [H5FD__vfd_swmr_load_hdr_and_idx]
    decides. *)
Inductive load_pass :=
| LoadBreak     (* [break]: the loop is left, the call succeeds *)
| LoadRetry.    (* sleep, and go on while retries are left *)

(** The body of the [do] loop of [H5FD__vfd_swmr_load_hdr_and_idx], up
    to the sleep. *)
Definition load_hdr_and_idx_pass (open : bool) : RD load_pass :=
  h <- try H5FD__vfd_swmr_header_deserialize ;;
  match h with
  | None => ret LoadRetry
  | Some hdr =>
      file <- get_vfd ;;
      (if u64 (md_pages_reserved file * hdr_fs_page_size hdr)
          <? u64 (H5FD_MD_HEADER_SIZE + hdr_index_length hdr)
       then error else ret tt) ;;;
      let local := hdr_tick_num (md_header file) in
      if negb open && (hdr_tick_num hdr =? local) then ret LoadBreak
      else if negb open && (hdr_tick_num hdr <? local) then error
      else
        r_assert ((local <? hdr_tick_num hdr) || open) ;;;
        i <- try (H5FD__vfd_swmr_index_deserialize hdr) ;;
        match i with
        | None => ret LoadRetry
        | Some idx =>
            if hdr_tick_num hdr =? idx_tick_num idx then
              (λ v, (Ok LoadBreak, set_md hdr idx v))
            else if u64 (idx_tick_num idx + 1)
                    <? hdr_tick_num hdr
            then error
            else ret LoadRetry
        end
  end.

(** The [do ... while (--load_retries)] loop; the result is
    [load_retries] after the loop. *)
Fixpoint load_hdr_and_idx_loop (fuel : nat) (open : bool)
  (load_retries nanosec : Z) : RD Z :=
  match fuel with
  | O => abort OutOfFuel
  | S fuel' =>
      r <- load_hdr_and_idx_pass open ;;
      match r with
      | LoadBreak => ret load_retries
      | LoadRetry =>
          H5_nanosleep nanosec ;;;
          let nanosec := u64 (nanosec * 2) in
          let load_retries := u32 (load_retries - 1) in
          if load_retries =? 0 then ret 0
          else load_hdr_and_idx_loop fuel' open load_retries nanosec
      end
  end.

(** [H5FD__vfd_swmr_load_hdr_and_idx] *)
Definition H5FD__vfd_swmr_load_hdr_and_idx (open : bool) : RD unit :=
  load_retries <-
    load_hdr_and_idx_loop (do_while_fuel H5FD_VFD_SWMR_MD_LOAD_RETRY_MAX)
      open H5FD_VFD_SWMR_MD_LOAD_RETRY_MAX 1 ;;
  if load_retries =? 0 then error else ret tt.

(** [(int)num_entries] for the [uint32_t] count. *)
Definition to_int (z : Z) : Z := if z <? 2 ^ 31 then z else z - 2 ^ 32.

(** [index[my_idx]]; an index outside the array is a fault. *)
Definition index_at (index : list H5FD_vfd_swmr_idx_entry_t) (my_idx : Z)
  : RD H5FD_vfd_swmr_idx_entry_t :=
  if my_idx <? 0 then abort MemoryFault
  else match index !! Z.to_nat my_idx with
       | Some e => ret e
       | None => abort MemoryFault
       end.

(** The binary search of [H5FD_vfd_swmr_read] for [target_page]; the
    result is [cmp == 0] and [my_idx]. *)
Fixpoint index_search (fuel : nat) (index : list H5FD_vfd_swmr_idx_entry_t)
  (target_page lo hi my_idx : Z) : RD (bool * Z) :=
  match fuel with
  | O => abort OutOfFuel
  | S fuel' =>
      if lo <=? hi then
        let my_idx := (lo + hi) / 2 in
        e <- index_at index my_idx ;;
        if target_page <? hdf5_page_offset e then
          index_search fuel' index target_page lo (my_idx - 1) my_idx
        else if hdf5_page_offset e <? target_page then
          index_search fuel' index target_page (my_idx + 1) hi my_idx
        else ret (true, my_idx)
      else ret (false, my_idx)
  end.

(** The loop [while (size > 0)] that reads [size] bytes to [read_ptr],
    an offset in [buf].  The source gives it no bound: at the end of
    the metadata file [HDread] returns 0 and the loop goes on; [fuel]
    bounds the passes here. *)
Fixpoint read_while (fuel : nat) (size read_ptr : Z) (buf : bytes)
  : RD bytes :=
  match fuel with
  | O => abort OutOfFuel
  | S fuel' =>
      if 0 <? size then
        let bytes_in :=
          if H5_POSIX_MAX_IO_BYTES <? size then H5_POSIX_MAX_IO_BYTES
          else size in
        r <- HDread bytes_in ;;
        match r with
        | None => error
        | Some d =>
            r_assert (blen d <=? size) ;;;
            match blit buf read_ptr d with
            | None => abort MemoryFault
            | Some buf' =>
                read_while fuel' (u64 (size - blen d)) (read_ptr + blen d)
                  buf'
            end
        end
      else ret buf
  end.

(** The loop [do ... while (--entry_retries)] of [H5FD_vfd_swmr_read]
    for the index entry [e].  [size] is what is left to read: the
    first pass reads it all, and it is not set again for the passes
    after it.  The result is [entry_retries] after the loop and the
    buffer. *)
Fixpoint entry_loop (fuel io_fuel : nat) (e : H5FD_vfd_swmr_idx_entry_t)
  (fs_page_size page_offset size : Z) (buf : bytes)
  (entry_retries nanosec : Z) : RD (Z * bytes) :=
  match fuel with
  | O => abort OutOfFuel
  | S fuel' =>
      HDlseek (u64 (u64 (md_file_page_offset e * fs_page_size)
                    + page_offset)) ;;;
      buf <- read_while io_fuel size 0 buf ;;
      let size := 0 in
      file <- get_vfd ;;
      let computed_chksum :=
        if pb_configured file then H5_checksum_metadata buf (ie_length e) 0
        else chksum e in
      if chksum e =? computed_chksum then ret (entry_retries, buf)
      else
        H5_nanosleep nanosec ;;;
        let nanosec := u64 (nanosec * 2) in
        let entry_retries := u32 (entry_retries - 1) in
        if entry_retries =? 0 then ret (0, buf)
        else entry_loop fuel' io_fuel e fs_page_size page_offset size buf
               entry_retries nanosec
  end.

(** [H5FD_vfd_swmr_read]; the result is the buffer [buf] after the
    call. *)
Definition H5FD_vfd_swmr_read (io_fuel : nat) (type : H5FD_mem_t)
  (addr : haddr_t) (size : Z) (buf : bytes) : RD bytes :=
  file <- get_vfd ;;
  let index := idx_entries (md_index file) in
  let num_entries := to_int (idx_num_entries (md_index file)) in
  let fs_page_size := hdr_fs_page_size (md_header file) in
  (if fs_page_size =? 0 then abort DivisionByZero else ret tt) ;;;
  let target_page := addr / fs_page_size in
  found <- index_search (S (Z.to_nat num_entries)) index target_page 0
             (num_entries - 1) 0 ;;
  let '(cmp0, my_idx) := found in
  if cmp0 then
    let init_size := size in
    e <- index_at index my_idx ;;
    r_assert (u64 (target_page * fs_page_size) <=? addr) ;;;
    let page_offset := u64 (addr - u64 (target_page * fs_page_size)) in
    r_assert ((page_offset =? 0)
              || (negb (pb_configured file)
                  && (u64 (page_offset + size) <=? fs_page_size))) ;;;
    r_assert (u64 (hdf5_page_offset e * fs_page_size) <=? addr) ;;;
    r_assert (addr <? u64 (u64 (hdf5_page_offset e + 1) * fs_page_size)) ;;;
    r_assert (negb (pb_configured file) || (init_size =? ie_length e)) ;;;
    r <- entry_loop (do_while_fuel H5FD_VFD_SWMR_MD_INDEX_RETRY_MAX) io_fuel
           e fs_page_size page_offset size buf
           H5FD_VFD_SWMR_MD_INDEX_RETRY_MAX 1 ;;
    let '(entry_retries, buf) := r in
    if entry_retries =? 0 then error else ret buf
  else
    file <- get_vfd ;;
    tick ;;;
    match H5FD_read (clock file) type addr size with
    | None => error
    | Some d =>
        match blit buf 0 d with
        | Some b => ret b
        | None => abort MemoryFault
        end
    end.

(** [H5FD_vfd_swmr_set_pb_configured] *)
Definition H5FD_vfd_swmr_set_pb_configured : RD unit :=
  λ v, (Ok tt, mkVfd (md_pos v) (md_pages_reserved v) (md_header v)
                 (md_index v) true (clock v) (slept v)).

End Reader.

(** ** Runs on files in memory *)

Section Runs.
Context `{Collaborators}.

(** The metadata reads [(fid, addr, size)] of [l], made one after the
    other on the files of a process, each into a zeroed buffer; the
    result is their outcomes and the process after them.  A read on a
    file that is not open is skipped. *)
Fixpoint run_reads (l : list (nat * Z * Z)) (p : process)
  : list (outcome bytes) * process :=
  match l with
  | [] => ([], p)
  | (fid, addr, size) :: l' =>
      match on_file fid (H5PB_read H5FD_MEM_OHDR addr size (zeros size)) p
      with
      | Some (r, p') => let '(rs, p'') := run_reads l' p' in (r :: rs, p'')
      | None => run_reads l' p
      end
  end.

(** The page buffer of the file [fid] holds an entry at [page]. *)
Definition resident (fid : nat) (page : Z) (p : process) : bool :=
  match p_files p !! fid with
  | Some f =>
      match pb_ptr f with
      | Some pb => bool_decide (is_Some (ht pb !! page))
      | None => false
      end
  | None => false
  end.

End Runs.

(** A build with assertions over files in memory, without write
    delays. *)
Definition mem_debug : Collaborators :=
  mem_collaborators false (λ _ _, Some 0).

(** A build without assertions over files in memory. *)
Definition mem_ndebug : Collaborators :=
  mem_collaborators true (λ _ _, Some 0).

(** An empty page buffer with pages of 16 bytes, at most 4 pages, at
    least 1 of metadata and 1 of raw data. *)
Definition small_pb (writer : bool) : H5PB_t :=
  mkPB 16 4 0 0 0 1 1 ∅ [] writer 0 0 [] [].

(** A file of 64 bytes, all 42, with the page buffer [pb]. *)
Definition small_file (pb : H5PB_t) : H5F_t bytes :=
  mkF (Some pb) (replicate 64 x2a) 0 false false false true true 16 false.

(** Two open files with a page buffer each, before any read. *)
Definition two_files : @process mem_debug :=
  @mkProcess mem_debug HADDR_UNDEF
    {[ 0%nat := small_file (small_pb false);
       1%nat := small_file (small_pb false) ]}.

(** The environment of a call on the file [f] in memory, [a] being the
    address of the last metadata read. *)
Definition mem_env (ndebug : bool) (a : haddr_t) (f : H5F_t bytes)
  : @env (mem_collaborators ndebug (λ _ _, Some 0)) :=
  @mkEnv (mem_collaborators ndebug (λ _ _, Some 0)) a f.

(** A clean multi-page metadata entry of two pages at address 0, and a
    page buffer that is not a writer's and holds it. *)
Definition mpmde_entry : H5PB_entry_t :=
  mkEntry 0 0 32 (replicate 32 x01) H5FD_MEM_OHDR true true false true
    false 0.

Definition mpmde_pb : H5PB_t :=
  mkPB 16 4 1 0 0 1 1 {[ 0 := mpmde_entry ]} [] false 1 0 [] [].

(** A clean regular metadata page at address 16, and a page buffer
    that holds it. *)
Definition regular_entry : H5PB_entry_t :=
  mkEntry 16 1 16 (replicate 16 x01) H5FD_MEM_OHDR true false false true
    false 0.

Definition regular_pb : H5PB_t :=
  mkPB 16 4 1 1 0 1 1 {[ 1 := regular_entry ]} [1] false 0 0 [] [].

(** The file of a writer at tick [t] whose page buffer is at tick
    [c]. *)
Definition writer_file (t c : Z) : H5F_t bytes :=
  mkF (Some (mkPB 16 4 0 0 0 1 1 ∅ [] true 0 c [] []))
    (replicate 64 x2a) t true true true true true 16 false.

(** ** A metadata file in memory *)

(** [n] bytes for [z], little-endian. *)
Fixpoint encode_le (n : nat) (z : Z) : bytes :=
  match n with
  | O => []
  | S n' =>
      default x00 (Byte.of_N (Z.to_N (z mod 256))) :: encode_le n' (z / 256)
  end.

(** A checksum for the runs: the sum of the first [n] bytes. *)
Definition sum_checksum (b : bytes) (n : Z) (init : Z) : Z :=
  u32 (init + foldr (λ x a, Z.of_N (Byte.to_N x) + a) 0 (take (Z.to_nat n) b)).

(** An image closed by its checksum. *)
Definition with_checksum (body : bytes) : bytes :=
  body ++ encode_le 4 (sum_checksum body (blen body) 0).

(** The header of a metadata file with pages of 16 bytes at tick [t],
    whose index is at offset 36 and has one entry. *)
Definition header_image (t : Z) : bytes :=
  with_checksum
    (H5FD_MD_HEADER_MAGIC ++ encode_le 4 16 ++ encode_le 8 t
     ++ encode_le 8 36 ++ encode_le 8 36).

(** The index at tick [t] with one entry: page 2 of the HDF5 file is
    page 5 of the metadata file, 16 bytes, with the checksum [c]. *)
Definition index_image (t c : Z) : bytes :=
  with_checksum
    (H5FD_MD_INDEX_MAGIC ++ encode_le 8 t ++ encode_le 4 1
     ++ encode_le 4 2 ++ encode_le 4 5 ++ encode_le 4 16 ++ encode_le 4 c).

(** The metadata file: the header at tick [th], the index at tick
    [ti], and page 5 filled with the byte [x], the index holding the
    checksum [c] for it. *)
Definition md_file (th ti c : Z) (x : byte) : bytes :=
  header_image th ++ index_image ti c ++ replicate 8 x00 ++ replicate 16 x.

(** The reader's collaborators over a metadata file that reads [md t]
    at time [t], with three tries for each loop. *)
Definition mem_reader (ndebug : bool) (md : nat -> option bytes)
  : ReaderCollaborators :=
  {| R_NDEBUG := ndebug;
     md_file_at := md;
     H5FD_read := λ _ _ _ size, Some (zeros size);
     H5F_get_checksums := λ image n,
       (decode_le (take 4 (drop (Z.to_nat (n - 4)) image)),
        sum_checksum image (n - 4) 0);
     H5_checksum_metadata := sum_checksum;
     H5FD_VFD_SWMR_MD_FILE_RETRY_MAX := 3;
     H5FD_VFD_SWMR_MD_HEADER_RETRY_MAX := 3;
     H5FD_VFD_SWMR_MD_INDEX_RETRY_MAX := 3;
     H5FD_VFD_SWMR_MD_LOAD_RETRY_MAX := 3;
     H5_POSIX_MAX_IO_BYTES := 1024 |}.

(** A metadata file at tick 5 whose page 5 does not have the checksum
    of the index, 7: its bytes sum to 16. *)
Definition torn_reader : ReaderCollaborators :=
  mem_reader false (λ _, Some (md_file 5 5 7 x01)).

(** The header and the index of that file. *)
Definition header_5 : H5FD_vfd_swmr_md_header := mkHeader 16 5 36 36.

Definition index_5 : H5FD_vfd_swmr_md_index :=
  mkIndex 5 1 [mkIdxEntry 2 5 16 7].

(** A reader that has loaded the header and the index at tick [t]. *)
Definition reader_at (t : Z) (configured : bool) : H5FD_vfd_swmr_t :=
  mkVfd 0 8 (mkHeader 16 t 36 36) (mkIndex t 1 [mkIdxEntry 2 5 16 7])
    configured 0 [].

(** ** States and measures of the statements *)

(** The state with the page buffer replaced. *)
Definition with_pb `{Collaborators} (pb : H5PB_t) (s : env) : env :=
  mkEnv _ (prev_addr s) (set_pb_ptr (Some pb) (file s)).

(** The state after [H5_nanosleep(nanosec)]. *)
Definition after_sleep (nanosec : Z) (v : H5FD_vfd_swmr_t)
  : H5FD_vfd_swmr_t :=
  mkVfd (md_pos v) (md_pages_reserved v) (md_header v) (md_index v)
    (pb_configured v) (S (clock v)) (nanosec :: slept v).

(** The cached header and index and the configuration are the same in
    both states. *)
Definition same_cache (v v' : H5FD_vfd_swmr_t) : Prop :=
  md_header v' = md_header v /\ md_index v' = md_index v
  /\ md_pages_reserved v' = md_pages_reserved v
  /\ pb_configured v' = pb_configured v.

(** A call that leaves the cached header and index alone. *)
Definition keeps_cache {A} (m : RD A) : Prop :=
  forall v, same_cache v (snd (m v)).

(** The sleeps of [n] retries that start with [nanosec], the last one
    first. *)
Fixpoint backoff (n : nat) (nanosec : Z) : list Z :=
  match n with
  | O => []
  | S n' => backoff n' (u64 (nanosec * 2)) ++ [nanosec]
  end.

(** A call that does not sleep. *)
Definition quiet {A} (m : RD A) : Prop :=
  forall v, slept (snd (m v)) = slept v.

(** The state after a successful [HDlseek] to [off]. *)
Definition after_lseek (off : Z) (v : H5FD_vfd_swmr_t) : H5FD_vfd_swmr_t :=
  set_md_pos off (set_clock (S (clock v)) v).

(** The bytes of the read that the entry can give: the read is clipped
    to the size of the entry. *)
Definition mpmde_clip (pb : H5PB_t) (e : H5PB_entry_t) (size : Z) : Z :=
  if page_size pb <=? size
  then if entry_size e <? size then entry_size e else size
  else size.

(** The page buffer after the entry [e] at page [p] is evicted. *)
Definition evicted (p : Z) (e : H5PB_entry_t) (pb : H5PB_t) : H5PB_t :=
  add_counts (-1)
    (if is_mpmde e then 0 else if is_metadata e then -1 else 0)
    (if is_mpmde e then 0 else if is_metadata e then 0 else -1)
    (if is_mpmde e then -1 else 0)
    (set_ht (delete p (ht pb))
       (if is_mpmde e then pb else set_LRU (dll_remove p (LRU pb)) pb)).

(** The page buffer after the entry at page [p] is accessed. *)
Definition accessed (p : Z) (pb : H5PB_t) : H5PB_t :=
  set_LRU (p :: dll_remove p (LRU pb)) pb.

(** ** The states a file goes through *)

(** A call of the interface of the page buffer. *)
Inductive call :=
| Add_new_page (type : H5FD_mem_t) (page_addr : haddr_t)
| Create (size page_buf_min_meta_perc page_buf_min_raw_perc : Z)
| Dest
| Flush
| Page_exists (addr : haddr_t)
| Read (type : H5FD_mem_t) (addr : haddr_t) (size : Z) (buf : bytes)
| Remove_entry (addr : haddr_t)
| Update_entry (addr : haddr_t) (size : Z) (buf : bytes)
| Release_delayed_writes
| Release_tick_list
| Set_tick
| Write (type : H5FD_mem_t) (addr : haddr_t) (size : Z) (buf : bytes).

Section Reachable.
Context `{Collaborators}.

(** The call, for its effect on the state. *)
Definition do_call (c : call) : PB unit :=
  match c with
  | Add_new_page type page_addr => H5PB_add_new_page type page_addr
  | Create size meta raw => H5PB_create size meta raw
  | Dest => H5PB_dest
  | Flush => H5PB_flush
  | Page_exists addr => H5PB_page_exists addr ;;; ret tt
  | Read type addr size buf => H5PB_read type addr size buf ;;; ret tt
  | Remove_entry addr => H5PB_remove_entry addr
  | Update_entry addr size buf => H5PB_update_entry addr size buf
  | Release_delayed_writes => H5PB_vfd_swmr__release_delayed_writes
  | Release_tick_list => H5PB_vfd_swmr__release_tick_list
  | Set_tick => H5PB_vfd_swmr__set_tick
  | Write type addr size buf => H5PB_write type addr size buf
  end.

(** The states of a file and the statics that can be reached: the
    file is opened without a page buffer; a call of the interface that
    returns, with success or with an error, leaves the next state; and
    the rest of the library changes the file and the statics between
    the calls, but not the page buffer, which is private to this
    module. *)
Inductive reachable : env -> Prop :=
| reachable_open s :
    pb_ptr (file s) = None -> reachable s
| reachable_call s c r s' :
    reachable s -> do_call c s = (r, s') -> (forall w, r <> Abort w) ->
    reachable s'
| reachable_other s s' :
    reachable s -> pb_ptr (file s') = pb_ptr (file s) -> reachable s'.

End Reachable.

(** The members of the list [l] are in the index [h], are not
    multi-page metadata entries and have no delay. *)
Definition pure (h : gmap Z H5PB_entry_t) (l : list Z) : Prop :=
  forall p, p ∈ l ->
    exists e, h !! p = Some e /\ is_mpmde e = false
              /\ ~ 0 < delay_write_until e.

(** The purity of the LRU, without the clause on
    [modified_this_tick]. *)
Definition lru_pure (pb : H5PB_t) : Prop := pure (ht pb) (LRU pb).


(** ** Weakest preconditions

    [wp m Q E s]: the call [m] from the state [s] returns a result and
    a state with [Q], or fails and leaves a state with [E], or does
    not return. *)
Definition wp {S A} (m : ST S A) (Q : A -> S -> Prop) (E : S -> Prop)
  (s : S) : Prop :=
  match m s with
  | (Ok a, s') => Q a s'
  | (Fail, s') => E s'
  | (Abort _, _) => True
  end.

Section Invariant.
Context `{Collaborators}.

(** The invariant: the LRU of the page buffer, when there is one, is
    pure. *)
Definition inv (s : env) : Prop :=
  forall pb, pb_ptr (file s) = Some pb -> lru_pure pb.

(** A call that keeps the invariant, whether it succeeds or fails. *)
Definition keeps {A} (m : PB A) : Prop :=
  forall s, inv s -> wp m (λ _ s', inv s') inv s.

End Invariant.

(** A writer's file of 64 bytes without a page buffer, the file with a
    page buffer of 4 pages, and the file after 8 bytes of metadata
    have been written at address 0. *)
Definition writer_opened : @env mem_debug :=
  mem_env false 0
    (mkF None (replicate 64 x2a) 0 true true true true true 16 false).

Definition writer_created : @env mem_debug :=
  snd (do_call (Create 64 25 25) writer_opened).

Definition writer_written : @env mem_debug :=
  snd (do_call (Write H5FD_MEM_OHDR 0 8 (replicate 8 x01)) writer_created).

(** The page buffer of a state, an empty one when the file has
    none. *)
Definition page_buffer `{Collaborators} (s : env) : H5PB_t :=
  match pb_ptr (file s) with
  | Some pb => pb
  | None => small_pb false
  end.

(** ** Calls that return

    [twp m Q E s]: the call [m] from the state [s] returns a result
    and a state with [Q], or fails and leaves a state with [E]. *)
Definition twp {S A} (m : ST S A) (Q : A -> S -> Prop) (E : S -> Prop)
  (s : S) : Prop :=
  match m s with
  | (Ok a, s') => Q a s'
  | (Fail, s') => E s'
  | (Abort _, _) => False
  end.

(** The state with the driver state replaced. *)
Definition with_lf `{Collaborators} (d : H5FD_t) (s : env) : env :=
  mkEnv _ (prev_addr s) (set_lf d (file s)).

(** The page buffer after the entry [e] at page [p] is flushed. *)
Definition flushed (p : Z) (e : H5PB_entry_t) (pb : H5PB_t) : H5PB_t :=
  let pb1 := set_ht (<[p := set_is_dirty false e]> (ht pb)) pb in
  if negb (is_mpmde e) && (delay_write_until e =? 0)
  then set_LRU (p :: dll_remove p (LRU pb)) pb1
  else pb1.

(** The page buffer after the entry [e] at page [p] is released from
    the delayed write list: a multi-page metadata entry is flushed and
    evicted, a regular page has its delay cleared and is appended to
    the LRU. *)
Definition released (p : Z) (e : H5PB_entry_t) (pb : H5PB_t) : H5PB_t :=
  if is_mpmde e then
    add_counts (-1) 0 0 (-1)
      (set_ht (delete p (ht pb)) (set_dwl (dll_remove p (dwl pb)) pb))
  else
    set_LRU (LRU pb ++ [p])
      (set_dwl (dll_remove p (dwl pb))
         (set_ht (<[p := set_delay_write_until 0 e]> (ht pb)) pb)).

(** The page [p] is in the index [h] and is not a multi-page metadata
    entry. *)
Definition is_regular (h : gmap Z H5PB_entry_t) (p : Z) : bool :=
  match h !! p with
  | Some e => negb (is_mpmde e)
  | None => false
  end.

Section Flush.
Context `{Collaborators}.

(** What [H5PB__flush_entry] asserts of the entry [e] that it writes
    through the driver in the state [d]. *)
Definition flushable (pb : H5PB_t) (d : H5FD_t) (e : H5PB_entry_t) : Prop :=
  0 < entry_size e /\ page_size pb <= entry_size e
  /\ (entry_size e = page_size pb \/ is_mpmde e = true)
  /\ is_dirty e = true
  /\ (vfd_swmr_writer pb = true \/ is_mpmde e = false)
  /\ delay_write_until e = 0
  /\ H5F_get_eoa d (mem_type e) <> HADDR_UNDEF
  /\ entry_addr e < H5F_get_eoa d (mem_type e)
  /\ u64 (entry_addr e + entry_size e) <= H5F_get_eoa d (mem_type e).

(** The driver after the images of the multi-page metadata entries of
    the pages [l] have been written one after the other, [None] when a
    write fails. *)
Fixpoint flush_all (h : gmap Z H5PB_entry_t) (l : list Z) (d : H5FD_t)
  : option H5FD_t :=
  match l with
  | [] => Some d
  | p :: l' =>
      match h !! p with
      | Some e =>
          if is_mpmde e then
            match H5F__accum_write d (mem_type e) (entry_addr e)
                    (entry_size e) (image_ptr e) with
            | Some d' => flush_all h l' d'
            | None => None
            end
          else flush_all h l' d
      | None => flush_all h l' d
      end
  end.

(** The entry at the page [p] of the delayed write list can be
    released at the tick [tick]: its delay has elapsed, it is dirty and
    on no other list, and a multi-page metadata entry is not modified
    this tick and lies below the end of allocation. *)
Definition releasable (pb : H5PB_t) (d : H5FD_t) (tick : Z) (p : Z) : Prop :=
  exists e, ht pb !! p = Some e
    /\ delay_write_until e < tick /\ is_dirty e = true
    /\ (p ∉ LRU pb) /\ (p ∉ tl pb)
    /\ (is_mpmde e = true ->
        modified_this_tick e = false
        /\ 0 < entry_size e /\ page_size pb <= entry_size e
        /\ vfd_swmr_writer pb = true
        /\ H5F_get_eoa d (mem_type e) <> HADDR_UNDEF
        /\ entry_addr e < H5F_get_eoa d (mem_type e)
        /\ u64 (entry_addr e + entry_size e) <= H5F_get_eoa d (mem_type e)).

(** The walk of the delayed write list stops at the tail of [kept]:
    there is none, or its delay has not elapsed. *)
Definition stops_at (pb : H5PB_t) (tick : Z) (kept : list Z) : Prop :=
  match last kept with
  | None => True
  | Some q => exists e, ht pb !! q = Some e /\ tick <= delay_write_until e
  end.

(** A driver write does not move the end of allocation. *)
Definition write_keeps_eoa : Prop :=
  forall d type addr size buf d' t,
    H5F__accum_write d type addr size buf = Some d' ->
    H5F_get_eoa d' t = H5F_get_eoa d t.

End Flush.

(** The list [l] is sorted by decreasing [delay_write_until], from its
    head to its tail. *)
Fixpoint dwl_sorted (h : gmap Z H5PB_entry_t) (l : list Z) : bool :=
  match l with
  | [] => true
  | p :: l' =>
      forallb (λ q, delay_of h q <=? delay_of h p) l' && dwl_sorted h l'
  end.

(** A writer's page buffer at tick 6 with three delayed entries: the
    regular page 1 until tick 3, the multi-page metadata entry at page
    2 until tick 5, and the regular page 4 until tick 9; and its file
    of 128 bytes, at tick 7. *)
Definition delayed_pb : H5PB_t :=
  mkPB 16 8 3 2 0 1 1
    {[ 1 := mkEntry 16 1 16 (replicate 16 x01) H5FD_MEM_OHDR true false true
              true false 3;
       2 := mkEntry 32 2 32 (replicate 32 x02) H5FD_MEM_OHDR true true true
              true false 5;
       4 := mkEntry 64 4 16 (replicate 16 x03) H5FD_MEM_OHDR true false true
              true false 9 ]}
    [] true 1 6 [4; 2; 1] [].

Definition delayed_env : @env mem_debug :=
  mem_env false 0
    (mkF (Some delayed_pb) (replicate 128 x2a) 7 true true true true true 16
       false).

(** ** The walk of [H5PB__make_space], as the claim words it *)

(** The candidate [e] is skipped by a walk that makes space for
    metadata ([md]) or for raw data: it is on the tick list, or it is
    of the other class and that class is at its minimum. *)
Definition skipped (md : bool) (pb : H5PB_t) (e : H5PB_entry_t) : bool :=
  modified_this_tick e
  || (md && negb (is_metadata e) && (curr_rd_pages pb <=? min_rd_pages pb))
  || (negb md && is_metadata e && (curr_md_pages pb <=? min_md_pages pb)).

(** The eviction of the clean entry [e] is refused: its class is
    below its minimum. *)
Definition refused (pb : H5PB_t) (e : H5PB_entry_t) : bool :=
  if is_metadata e then curr_md_pages pb <? min_md_pages pb
  else curr_rd_pages pb <? min_rd_pages pb.

Section Walk.
Context `{Collaborators}.

(** [walk md pb d sp ok pb' d']: the walk from the candidate [sp]
    towards the head of the LRU, in the page buffer [pb] over the
    driver state [d], ends with success ([ok]) or with an error in the
    page buffer [pb'] over [d'].  A flushed candidate goes to the head
    of the LRU; the walk goes on from its predecessor, and from the
    candidate itself when it has none. *)
Inductive walk (md : bool)
  : H5PB_t -> H5FD_t -> option Z -> bool -> H5PB_t -> H5FD_t -> Prop :=
| walk_head_passed pb d :
    walk md pb d None true pb d
| walk_space pb d sp :
    curr_pages pb < max_pages pb ->
    walk md pb d (Some sp) true pb d
| walk_skip pb d sp e ok pb' d' :
    max_pages pb <= curr_pages pb -> ht pb !! sp = Some e ->
    skipped md pb e = true ->
    walk md pb d (dll_prev (LRU pb) sp) ok pb' d' ->
    walk md pb d (Some sp) ok pb' d'
| walk_flush pb d sp e d1 ok pb' d' :
    max_pages pb <= curr_pages pb -> ht pb !! sp = Some e ->
    skipped md pb e = false -> is_dirty e = true ->
    H5F_get_eoa d (mem_type e) <> HADDR_UNDEF ->
    H5F__accum_write d (mem_type e) (entry_addr e) (entry_size e)
      (image_ptr e) = Some d1 ->
    walk md (flushed sp e pb) d1
      (Some (default sp (dll_prev (LRU pb) sp))) ok pb' d' ->
    walk md pb d (Some sp) ok pb' d'
| walk_flush_fails pb d sp e :
    max_pages pb <= curr_pages pb -> ht pb !! sp = Some e ->
    skipped md pb e = false -> is_dirty e = true ->
    H5F_get_eoa d (mem_type e) = HADDR_UNDEF
    \/ H5F__accum_write d (mem_type e) (entry_addr e) (entry_size e)
         (image_ptr e) = None ->
    walk md pb d (Some sp) false pb d
| walk_evict pb d sp e ok pb' d' :
    max_pages pb <= curr_pages pb -> ht pb !! sp = Some e ->
    skipped md pb e = false -> is_dirty e = false ->
    refused pb e = false ->
    walk md (evicted sp e pb) d (dll_prev (LRU pb) sp) ok pb' d' ->
    walk md pb d (Some sp) ok pb' d'
| walk_refused pb d sp e :
    max_pages pb <= curr_pages pb -> ht pb !! sp = Some e ->
    skipped md pb e = false -> is_dirty e = false ->
    refused pb e = true ->
    walk md pb d (Some sp) false pb d.

(** The LRU is well formed: it has no page twice, and its members are
    regular pages of the index without a delay, that are not on the
    delayed write list, that are on the tick list only when modified
    this tick, and that lie below the end of allocation when dirty. *)
Definition lru_wf (pb : H5PB_t) (d : H5FD_t) : Prop :=
  0 < page_size pb /\ NoDup (LRU pb)
  /\ forall p, p ∈ LRU pb ->
       exists e, ht pb !! p = Some e
         /\ is_mpmde e = false /\ delay_write_until e = 0
         /\ entry_size e = page_size pb
         /\ (p ∉ dwl pb)
         /\ (modified_this_tick e = false -> p ∉ tl pb)
         /\ (is_dirty e = true ->
             entry_addr e < H5F_get_eoa d (mem_type e)
             /\ u64 (entry_addr e + entry_size e)
                <= H5F_get_eoa d (mem_type e)).

End Walk.

(** The number of dirty entries among the pages [l]. *)
Definition dirty_count (h : gmap Z H5PB_entry_t) (l : list Z) : nat :=
  length (filter (λ p, (is_dirty <$> h !! p) = Some true) l).

(** A full page buffer of one page, which is dirty, and a full page
    buffer of two pages whose tail is dirty; with their files of 64
    bytes. *)
Definition one_dirty_pb : H5PB_t :=
  mkPB 16 1 1 1 0 0 0
    {[ 0 := mkEntry 0 0 16 (replicate 16 x01) H5FD_MEM_OHDR true false true
              true false 0 ]}
    [0] false 0 0 [] [].

Definition two_pages_pb : H5PB_t :=
  mkPB 16 2 2 2 0 0 0
    {[ 1 := mkEntry 16 1 16 (replicate 16 x01) H5FD_MEM_OHDR true false false
              true false 0;
       2 := mkEntry 32 2 16 (replicate 16 x02) H5FD_MEM_OHDR true false true
              true false 0 ]}
    [1; 2] false 0 0 [] [].

(** ** The configuration of a page buffer *)

(** The fields of the page buffer that are set when it is created. *)
Definition config_eq (pb pb0 : H5PB_t) : Prop :=
  page_size pb = page_size pb0 /\ max_pages pb = max_pages pb0
  /\ min_md_pages pb = min_md_pages pb0
  /\ min_rd_pages pb = min_rd_pages pb0
  /\ vfd_swmr_writer pb = vfd_swmr_writer pb0.

(** The file of the state [s] has a page buffer with the configuration
    of [pb0], and an MPI driver as [mpi] says. *)
Definition same_config `{Collaborators} (pb0 : H5PB_t) (mpi : bool)
  (s : env) : Prop :=
  has_mpi (file s) = mpi
  /\ exists pb, pb_ptr (file s) = Some pb /\ config_eq pb pb0.

(** What a call that has returned has asserted: nothing in a build
    without assertions. *)
Definition asserted `{Collaborators} (b : bool) : Prop :=
  NDEBUG = true \/ b = true.

(** The state [s] after [size] bytes of [buf] have been copied at
    [offset] into the image of the entry [e] of the page [q], and the
    entry has been marked dirty: the entry of the page has the new
    image and is dirty; it is on the LRU when it is a regular page
    without a delay;
    and an entry of raw data has not been given a delay. *)
Definition written `{Collaborators} (q offset size : Z) (buf : bytes)
  (e : H5PB_entry_t) (s : env) : Prop :=
  exists pb' e',
    pb_ptr (file s) = Some pb' /\ ht pb' !! q = Some e'
    /\ memcpy (image_ptr e) offset buf 0 size = Some (image_ptr e')
    /\ entry_addr e' = entry_addr e
    /\ is_metadata e' = is_metadata e /\ is_mpmde e' = is_mpmde e
    /\ is_dirty e' = true
    /\ (is_mpmde e' = false -> delay_write_until e' = 0 -> q ∈ LRU pb')
    /\ (delay_write_until e = 0 -> is_draw (mem_type e) = true ->
        delay_write_until e' = 0).

(** The pages of the page buffer of a state, in increasing order, with
    the address and the dirty flag of their entries. *)
Definition resident_pages `{Collaborators} (s : env)
  : list (Z * (haddr_t * bool)) :=
  match pb_ptr (file s) with
  | Some pb => map_to_list ((λ e, (entry_addr e, is_dirty e)) <$> ht pb)
  | None => []
  end.

(** A file of four zeroed pages of 4096 bytes with an empty page
    buffer, in a build with assertions. *)
Definition four_pages : @env mem_debug :=
  mem_env false HADDR_UNDEF
    (mkF (Some (mkPB 4096 4 0 0 0 1 1 ∅ [] false 0 0 [] [])) (zeros 16384) 0
       false false false true true 4096 false).

(** The file of 64 bytes with the page buffer that is not a writer's,
    after metadata reads of 8 bytes at the addresses 0 and 16. *)
Definition after_two_reads : @env mem_debug :=
  snd (H5PB_read H5FD_MEM_OHDR 16 8 (zeros 8)
         (snd (H5PB_read H5FD_MEM_OHDR 0 8 (zeros 8)
                 (mem_env false HADDR_UNDEF (small_file (small_pb false)))))).

(** ** The index of the reader and the metadata file *)

(** The pages of the index entries increase strictly, as
    [H5FD_vfd_swmr_dump_status] asserts of the index. *)
Fixpoint index_sorted (index : list H5FD_vfd_swmr_idx_entry_t) : bool :=
  match index with
  | [] => true
  | a :: index' =>
      forallb (λ b, hdf5_page_offset a <? hdf5_page_offset b) index'
      && index_sorted index'
  end.

(** The index of the reader is well formed: [num_entries] is the
    length of [entries], it fits the [int] of the binary search with
    its sums, and the entries are sorted. *)
Definition index_wf (v : H5FD_vfd_swmr_t) : Prop :=
  idx_num_entries (md_index v) = Z.of_nat (length (idx_entries (md_index v)))
  /\ idx_num_entries (md_index v) < 2 ^ 30
  /\ index_sorted (idx_entries (md_index v)) = true.

(** The metadata file holds [md] whenever the reader looks at it: the
    writer leaves it alone meanwhile. *)
Definition md_stable `{ReaderCollaborators} (md : bytes) : Prop :=
  forall t, md_file_at t = Some md.

(** The calls of [HDread] that the read loop of [H5FD_vfd_swmr_read]
    makes for [size] bytes that the file holds. *)
Definition io_passes `{ReaderCollaborators} (size : Z) : nat :=
  Z.to_nat ((size + H5_POSIX_MAX_IO_BYTES - 1) / H5_POSIX_MAX_IO_BYTES).

(** The reader after [n] more system calls, with the descriptor of the
    metadata file at [pos]. *)
Definition after_calls (n : nat) (pos : Z) (v : H5FD_vfd_swmr_t)
  : H5FD_vfd_swmr_t :=
  set_md_pos pos (set_clock (n + clock v) v).

(** A reader whose index lists the pages 2, 4 and 9 of the HDF5 file,
    at the pages 5, 6 and 7 of the metadata file. *)
Definition reader_three : H5FD_vfd_swmr_t :=
  mkVfd 0 8 (mkHeader 16 5 36 84)
    (mkIndex 5 3
       [mkIdxEntry 2 5 16 16; mkIdxEntry 4 6 16 32; mkIdxEntry 9 7 16 48])
    false 0 [].

(** A metadata file at tick 5 whose page 5 has the checksum of the
    index, 16: its 16 bytes are 1; and a reader that has loaded its
    header and its index. *)
Definition sound_reader : ReaderCollaborators :=
  mem_reader false (λ _, Some (md_file 5 5 16 x01)).

Definition reader_sound (configured : bool) : H5FD_vfd_swmr_t :=
  mkVfd 0 8 (mkHeader 16 5 36 36) (mkIndex 5 1 [mkIdxEntry 2 5 16 16])
    configured 0 [].

(** That metadata file cut after 90 bytes, in the middle of its page
    5. *)
Definition short_reader : ReaderCollaborators :=
  mem_reader false (λ _, Some (take 90 (md_file 5 5 16 x01))).

(** The cached header and index of [v'] are those of [v], or a header
    and an index of one tick that were loaded together; on a reload a
    new header has a greater tick than the one it replaces.  The
    number of entries of a loaded index is the length of its array. *)
Definition cache_step (open : bool) (v v' : H5FD_vfd_swmr_t) : Prop :=
  md_pages_reserved v' = md_pages_reserved v
  /\ pb_configured v' = pb_configured v
  /\ ((md_header v' = md_header v /\ md_index v' = md_index v
       /\ open = false)
      \/ (hdr_tick_num (md_header v') = idx_tick_num (md_index v')
          /\ idx_num_entries (md_index v')
             = Z.of_nat (length (idx_entries (md_index v')))
          /\ (open = false ->
              hdr_tick_num (md_header v) < hdr_tick_num (md_header v')))).


(** [HDmemcpy(dst, src, n * sizeof(H5FD_vfd_swmr_idx_entry_t))]:
    [None] when one of the two arrays has less than [n] entries, which
    is undefined behaviour in C. *)
Definition memcpy_entries (dst src : list H5FD_vfd_swmr_idx_entry_t) (n : Z)
  : option (list H5FD_vfd_swmr_idx_entry_t) :=
  if (0 <=? n) && (n <=? Z.of_nat (length src))
     && (n <=? Z.of_nat (length dst))
  then Some (take (Z.to_nat n) src ++ drop (Z.to_nat n) dst)
  else None.

(** [H5FD_vfd_swmr_get_tick_and_idx]: [tick_ptr], [num_entries_ptr] and
    [index] are [None] for [NULL] and hold what the pointer points to
    otherwise; the result is what they point to at the return. *)
Definition H5FD_vfd_swmr_get_tick_and_idx `{ReaderCollaborators}
  (reload_hdr_and_index : bool) (tick_ptr num_entries_ptr : option Z)
  (index : option (list H5FD_vfd_swmr_idx_entry_t))
  : RD (option Z * option Z * option (list H5FD_vfd_swmr_idx_entry_t)) :=
  (if reload_hdr_and_index then H5FD__vfd_swmr_load_hdr_and_idx false
   else ret tt) ;;;
  file <- get_vfd ;;
  let tick_ptr :=
    match tick_ptr with
    | Some _ => Some (hdr_tick_num (md_header file))
    | None => None
    end in
  match num_entries_ptr with
  | Some n =>
      index <-
        (match index with
         | Some a =>
             if idx_num_entries (md_index file) <=? n then
               r_assert (negb (n =? 0)) ;;;
               match memcpy_entries a (idx_entries (md_index file))
                       (idx_num_entries (md_index file)) with
               | Some a' => ret (Some a')
               | None => abort MemoryFault
               end
             else ret (Some a)
         | None => ret None
         end) ;;
      ret (tick_ptr, Some (idx_num_entries (md_index file)), index)
  | None => ret (tick_ptr, None, index)
  end.

(** ** States of the page buffer *)

(** The page buffer after [H5PB__create_new_page] has made the entry of
    the page [page] for [H5PB__load_page], before the page is read: the
    image of the entry is as it was allocated. *)
Definition unloaded_page `{Collaborators} (type : H5FD_mem_t) (page : Z)
  (pb : H5PB_t) : H5PB_t :=
  let e := mkEntry (page * page_size pb) page (page_size pb)
             (replicate (Z.to_nat (page_size pb)) uninit_byte) type
             (negb (is_draw type)) false false false false 0 in
  set_LRU (page :: LRU pb)
    (add_counts 1 (if is_draw type then 0 else 1)
       (if is_draw type then 1 else 0) 0
       (set_ht (<[page := e]> (ht pb)) pb)).

(** The call [m] from the state [s] does not return: it stops at an
    assertion that does not hold or at a fault, and the state is as it
    was. *)
Definition faults {S A} (m : ST S A) (s : S) : Prop :=
  m s = (Abort AssertionFailed, s) \/ m s = (Abort MemoryFault, s).

(** The page buffer after the entry [e] of the page [p] has left the
    index and the lists. *)
Definition removed (p : Z) (e : H5PB_entry_t) (pb : H5PB_t) : H5PB_t :=
  add_counts (-1)
    (if is_mpmde e then 0 else if is_metadata e then -1 else 0)
    (if is_mpmde e then 0 else if is_metadata e then 0 else -1)
    (if is_mpmde e then -1 else 0)
    (set_ht (delete p (ht pb))
       (set_LRU (dll_remove p (LRU pb))
          (set_dwl (dll_remove p (dwl pb))
             (set_tl (dll_remove p (tl pb)) pb)))).

(** The driver after the images of the dirty entries of the pages [l]
    have been written one after the other, [None] when a write
    fails. *)
Fixpoint flush_writes `{Collaborators} (h : gmap Z H5PB_entry_t)
  (l : list Z) (d : H5FD_t) : option H5FD_t :=
  match l with
  | [] => Some d
  | p :: l' =>
      match h !! p with
      | Some e =>
          if is_dirty e then
            match H5F__accum_write d (mem_type e) (entry_addr e)
                    (entry_size e) (image_ptr e) with
            | Some d' => flush_writes h l' d'
            | None => None
            end
          else flush_writes h l' d
      | None => flush_writes h l' d
      end
  end.

(** Every dirty entry of the pages [l] can be flushed over the driver
    state [d]: what [H5PB__flush_entry] asserts of it holds, and a
    regular page is on the LRU. *)
Definition flush_ready `{Collaborators} (pb : H5PB_t) (d : H5FD_t)
  (l : list Z) : Prop :=
  forall p e, p ∈ l -> ht pb !! p = Some e -> is_dirty e = true ->
    flushable pb d e /\ (is_mpmde e = false -> p ∈ LRU pb).

(** What the release of the tick list leaves of the entry [e]: nothing
    of a multi-page metadata entry without a delay, which is flushed
    and evicted; the entry, no more modified this tick, otherwise. *)
Definition tick_released (e : H5PB_entry_t) : option H5PB_entry_t :=
  if is_mpmde e && (delay_write_until e =? 0) then None
  else Some (set_modified_this_tick false e).

(** The entry of the page [p] of the tick list can be released over
    the driver state [d]: a multi-page metadata entry is dirty, and one
    without a delay is on no other list and lies below the end of
    allocation. *)
Definition tick_ready `{Collaborators} (pb : H5PB_t) (d : H5FD_t) (p : Z)
  : Prop :=
  exists e, ht pb !! p = Some e
    /\ (is_mpmde e = true ->
        is_dirty e = true
        /\ (delay_write_until e = 0 ->
            (p ∉ LRU pb) /\ (p ∉ dwl pb)
            /\ 0 < entry_size e /\ page_size pb <= entry_size e
            /\ H5F_get_eoa d (mem_type e) <> HADDR_UNDEF
            /\ entry_addr e < H5F_get_eoa d (mem_type e)
            /\ u64 (entry_addr e + entry_size e)
               <= H5F_get_eoa d (mem_type e))).

(** The writer's file after 32 more bytes of metadata have been written
    at the address 16: a multi-page metadata entry of two pages. *)
Definition writer_written_twice : @env mem_debug :=
  snd (do_call (Write H5FD_MEM_OHDR 16 32 (replicate 32 x07)) writer_written).

(** * The encoding of references ([H5Rint.c])

    The functions that write the object token and the strings of a
    reference into a buffer and read them back. *)

(** The build and the macros that these functions take from headers
    outside the sources at hand:
    - [H5R_NDEBUG]: when set, [HDassert] compiles to nothing;
    - [UINT16ENCODE n] is the two bytes that the macro writes for the
      value [n], and [UINT16DECODE] the value that the macro reads
      from two bytes;
    - [H5R_uninit_byte] is what a byte of a block from [H5MM_malloc]
      happens to hold. *)
Class RefCollaborators := {
  H5R_NDEBUG : bool;
  UINT16ENCODE : Z -> byte * byte;
  UINT16DECODE : byte * byte -> Z;
  H5R_uninit_byte : byte
}.

(** [#define H5R_MAX_STRING_LEN (1 << 16)]. *)
Definition H5R_MAX_STRING_LEN : Z := Z.shiftl 1 16.

(** [sizeof(uint8_t)] and [sizeof(uint16_t)]. *)
Definition H5_SIZEOF_UINT8_T : Z := 1.
Definition sizeof_uint16_t : Z := 2.

(** [(uint8_t)z]. *)
Definition uint8_t (z : Z) : byte :=
  default x00 (Byte.of_N (Z.to_N (z mod 256))).

(** [HDstrlen]: the number of bytes before the first 0 byte, [None]
    when the scan leaves the array. *)
Fixpoint HDstrlen (s : bytes) : option Z :=
  match s with
  | [] => None
  | x :: s' =>
      if decide (x = x00) then Some 0
      else match HDstrlen s' with
           | Some n => Some (n + 1)
           | None => None
           end
  end.

(** [H5R__encode_obj_token(obj_token, token_size, buf, nalloc)].
    [obj_token] is the [H5VL_token_t], an array of
    [sizeof(H5VL_token_t)] bytes; [buf] is [None] for a NULL pointer.
    The result is the buffer and [*nalloc] after the call. *)
Definition H5R__encode_obj_token (obj_token : bytes) (token_size : Z)
    (buf : option bytes) (nalloc : Z) : outcome (option bytes * Z) :=
  let nalloc' := u64 (token_size + H5_SIZEOF_UINT8_T) in
  match buf with
  | Some b =>
      if token_size <=? nalloc then
        (* *p++ = (uint8_t)(token_size & 0xff) *)
        match blit b 0 [uint8_t (Z.land token_size 255)] with
        | None => Abort MemoryFault
        | Some b1 =>
            (* H5MM_memcpy(p, obj_token, token_size) *)
            match memcpy b1 1 obj_token 0 token_size with
            | None => Abort MemoryFault
            | Some b2 => Ok (Some b2, nalloc')
            end
        end
      else Ok (buf, nalloc')
  | None => Ok (None, nalloc')
  end.

(** [H5R__decode_obj_token(buf, nbytes, obj_token, token_size)].  The
    result is [*nbytes], the token and [*token_size] after the
    call. *)
Definition H5R__decode_obj_token (buf : bytes) (nbytes : Z)
    (obj_token : bytes) : outcome (Z * bytes * Z) :=
  if nbytes <? H5_SIZEOF_UINT8_T then Fail
  else
    (* *token_size = *p++ *)
    match buf with
    | [] => Abort MemoryFault
    | x :: _ =>
        let token_size := Z.of_N (Byte.to_N x) in
        if token_size >? blen obj_token then Fail
        else
          match memcpy obj_token 0 buf 1 token_size with
          | None => Abort MemoryFault
          | Some t => Ok (u64 (token_size + H5_SIZEOF_UINT8_T), t, token_size)
          end
    end.

Section References.
Context `{RefCollaborators}.

(** [H5R__encode_string(string, buf, nalloc)].  [string] is the array
    that holds the string and its terminator. *)
Definition H5R__encode_string (string : bytes) (buf : option bytes)
    (nalloc : Z) : outcome (option bytes * Z) :=
  match HDstrlen string with
  | None => Abort MemoryFault
  | Some string_len =>
      if string_len >? H5R_MAX_STRING_LEN then Fail
      else
        let buf_size := u64 (string_len + sizeof_uint16_t) in
        match buf with
        | Some b =>
            if buf_size <=? nalloc then
              (* UINT16ENCODE(p, string_len) *)
              let '(lo, hi) := UINT16ENCODE string_len in
              match blit b 0 [lo; hi] with
              | None => Abort MemoryFault
              | Some b1 =>
                  (* H5MM_memcpy(p, string, string_len) *)
                  match memcpy b1 2 string 0 string_len with
                  | None => Abort MemoryFault
                  | Some b2 => Ok (Some b2, buf_size)
                  end
              end
            else Ok (buf, buf_size)
        | None => Ok (None, buf_size)
        end
  end.

(** [H5R__decode_string(buf, nbytes, string_ptr)].  The result is the
    string allocated, with its terminator, and [*nbytes] after the
    call.  Allocation does not fail. *)
Definition H5R__decode_string (buf : bytes) (nbytes : Z)
    : outcome (bytes * Z) :=
  if nbytes <? sizeof_uint16_t then Fail
  else
    (* UINT16DECODE(p, string_len) *)
    match buf with
    | lo :: hi :: _ =>
        let string_len := UINT16DECODE (lo, hi) in
        if negb H5R_NDEBUG && negb (string_len <=? H5R_MAX_STRING_LEN)
        then Abort AssertionFailed
        else
          (* H5MM_memcpy(string, p, string_len) *)
          let string :=
            replicate (Z.to_nat (u64 (string_len + 1))) H5R_uninit_byte in
          match memcpy string 0 buf 2 string_len with
          | None => Abort MemoryFault
          | Some s1 =>
              (* string[string_len] = '\0' *)
              match blit s1 string_len [x00] with
              | None => Abort MemoryFault
              | Some s2 => Ok (s2, u64 (sizeof_uint16_t + string_len))
              end
          end
    | _ => Abort MemoryFault
    end.

End References.

(** The macros as little-endian and truncating to 16 bits, for the
    runs. *)
Definition le16_collaborators (ndebug : bool) : RefCollaborators := {|
  H5R_NDEBUG := ndebug;
  UINT16ENCODE n := (uint8_t n, uint8_t (n / 256));
  UINT16DECODE p :=
    Z.of_N (Byte.to_N (fst p)) + 256 * Z.of_N (Byte.to_N (snd p));
  H5R_uninit_byte := xaa
|}.

(** * Properties *)

(** ** Machine integers and buffers *)

Lemma u64_small z : 0 <= z < 2 ^ 64 -> u64 z = z.
Proof. intros Hz. unfold u64. apply Z.mod_small. exact Hz. Qed.

Lemma u64_range z : 0 <= u64 z < 2 ^ 64.
Proof. unfold u64. apply Z.mod_pos_bound. lia. Qed.

Lemma u32_small z : 0 <= z < 2 ^ 32 -> u32 z = z.
Proof. intros Hz. unfold u32. apply Z.mod_small. exact Hz. Qed.

Lemma blen_nonneg b : 0 <= blen b.
Proof. unfold blen. lia. Qed.

Lemma blen_app a b : blen (a ++ b) = blen a + blen b.
Proof. unfold blen. rewrite length_app. lia. Qed.

Lemma sub_bytes_Some src off n :
  0 <= off -> 0 <= n -> off + n <= blen src ->
  sub_bytes src off n = Some (take (Z.to_nat n) (drop (Z.to_nat off) src)).
Proof.
  intros H1 H2 H3. unfold sub_bytes.
  destruct (Z.leb_spec 0 off); [|lia].
  destruct (Z.leb_spec 0 n); [|lia].
  destruct (Z.leb_spec (off + n) (blen src)); [|lia].
  reflexivity.
Qed.

Lemma sub_bytes_length src off n s :
  sub_bytes src off n = Some s -> blen s = n.
Proof.
  unfold sub_bytes.
  destruct (Z.leb_spec 0 off); simpl; [|discriminate].
  destruct (Z.leb_spec 0 n); simpl; [|discriminate].
  destruct (Z.leb_spec (off + n) (blen src)); simpl; [|discriminate].
  intros [= <-]. unfold blen in *.
  rewrite length_take, length_drop. lia.
Qed.

Lemma blit_Some dst off src :
  0 <= off -> off + blen src <= blen dst ->
  blit dst off src
  = Some (take (Z.to_nat off) dst ++ src
          ++ drop (Z.to_nat off + length src) dst).
Proof.
  intros H1 H2. unfold blit.
  destruct (Z.leb_spec 0 off); [|lia].
  destruct (Z.leb_spec (off + blen src) (blen dst)); [|lia].
  reflexivity.
Qed.

Lemma blit_length dst off src r :
  blit dst off src = Some r -> blen r = blen dst.
Proof.
  unfold blit.
  destruct (Z.leb_spec 0 off); simpl; [|discriminate].
  destruct (Z.leb_spec (off + blen src) (blen dst)); simpl; [|discriminate].
  intros [= <-]. unfold blen in *.
  rewrite !length_app, length_take, length_drop. lia.
Qed.

(** Reading back the range a [blit] has written gives the bytes
    written. *)
Lemma sub_bytes_blit dst off src r :
  blit dst off src = Some r -> sub_bytes r off (blen src) = Some src.
Proof.
  intros Hb. pose proof (blit_length _ _ _ _ Hb) as Hlen. revert Hb.
  unfold blit.
  destruct (Z.leb_spec 0 off); simpl; [|discriminate].
  destruct (Z.leb_spec (off + blen src) (blen dst)); simpl; [|discriminate].
  intros [= <-].
  rewrite sub_bytes_Some; [|lia|apply blen_nonneg|lia].
  f_equal. unfold blen in *.
  rewrite drop_app_length'; [|rewrite length_take; lia].
  rewrite Nat2Z.id. rewrite take_app_length. reflexivity.
Qed.

Lemma memcpy_Some dst doff src soff n :
  0 <= soff -> 0 <= n -> soff + n <= blen src ->
  0 <= doff -> doff + n <= blen dst ->
  exists r, memcpy dst doff src soff n = Some r /\ blen r = blen dst.
Proof.
  intros H1 H2 H3 H4 H5. unfold memcpy.
  rewrite sub_bytes_Some by lia.
  set (c := take (Z.to_nat n) (drop (Z.to_nat soff) src)).
  assert (Hc : blen c = n).
  { unfold c, blen in *. rewrite length_take, length_drop. lia. }
  rewrite blit_Some by lia.
  eexists. split; [reflexivity|].
  unfold blen in *. rewrite !length_app, length_take, length_drop. lia.
Qed.

(** Copying [n] bytes into an image and copying the same range out
    again gives the bytes copied in. *)
Lemma memcpy_roundtrip img off buf n img' out :
  memcpy img off buf 0 n = Some img' ->
  blen buf = n -> blen out = n ->
  memcpy out 0 img' off n = Some buf.
Proof.
  intros Hm Hbuf Hout. unfold memcpy in *.
  destruct (sub_bytes buf 0 n) as [c|] eqn:Hc; [|discriminate].
  assert (c = buf) as ->.
  { revert Hc. unfold sub_bytes.
    destruct (_ && _); [|discriminate]. intros [= <-].
    simpl. rewrite drop_0. apply take_ge. unfold blen in *. lia. }
  pose proof (sub_bytes_blit _ _ _ _ Hm) as Hr. rewrite Hbuf in Hr.
  rewrite Hr. rewrite blit_Some; [|lia|lia].
  simpl. rewrite drop_ge; [|unfold blen in *; lia].
  rewrite app_nil_r. reflexivity.
Qed.

(** ** Running the monad *)

Section Run.
Context `{Collaborators}.

Lemma run_bind_ok {S A B} (m : ST S A) (k : A -> ST S B) s a s1 :
  m s = (Ok a, s1) -> bind m k s = k a s1.
Proof. intros Hm. unfold bind. rewrite Hm. reflexivity. Qed.

Lemma run_bind_fail {S A B} (m : ST S A) (k : A -> ST S B) s s1 :
  m s = (Fail, s1) -> bind m k s = (Fail, s1).
Proof. intros Hm. unfold bind. rewrite Hm. reflexivity. Qed.

Lemma run_bind_abort {S A B} (m : ST S A) (k : A -> ST S B) s w s1 :
  m s = (Abort w, s1) -> bind m k s = (Abort w, s1).
Proof. intros Hm. unfold bind. rewrite Hm. reflexivity. Qed.

Lemma bind_ok_inv {S A B} (m : ST S A) (k : A -> ST S B) s b s2 :
  bind m k s = (Ok b, s2) ->
  exists a s1, m s = (Ok a, s1) /\ k a s1 = (Ok b, s2).
Proof.
  unfold bind. destruct (m s) as [[a| |w] s1]; try discriminate.
  intros Hk. exists a, s1. split; [reflexivity|exact Hk].
Qed.

Lemma run_assert b s :
  NDEBUG = true \/ b = true -> HDassert b s = (Ok tt, s).
Proof.
  unfold HDassert. intros [-> | ->]; [reflexivity|].
  destruct NDEBUG; reflexivity.
Qed.

Lemma run_assert_fails b s :
  NDEBUG = false -> b = false -> HDassert b s = (Abort AssertionFailed, s).
Proof. unfold HDassert. intros -> ->. reflexivity. Qed.

Lemma run_assert_cases b s :
  HDassert b s = (Ok tt, s) \/ HDassert b s = (Abort AssertionFailed, s).
Proof.
  unfold HDassert. destruct NDEBUG; [left; reflexivity|].
  destruct b; [left|right]; reflexivity.
Qed.

Lemma run_get_pb s pb :
  pb_ptr (file s) = Some pb -> get_pb s = (Ok pb, s).
Proof. intros Hp. unfold get_pb. rewrite Hp. reflexivity. Qed.

Lemma run_get_entry s pb p e :
  pb_ptr (file s) = Some pb -> ht pb !! p = Some e ->
  get_entry p s = (Ok e, s).
Proof. intros Hp He. unfold get_entry. rewrite Hp, He. reflexivity. Qed.

Lemma run_search_hit s pb p e :
  pb_ptr (file s) = Some pb -> ht pb !! p = Some e ->
  H5PB__SEARCH_INDEX p s = (Ok (Some p), s).
Proof.
  intros Hp He. unfold H5PB__SEARCH_INDEX.
  rewrite (run_bind_ok _ _ _ _ _ (run_get_pb _ _ Hp)).
  rewrite He. reflexivity.
Qed.

Lemma run_search_miss s pb p :
  pb_ptr (file s) = Some pb -> ht pb !! p = None ->
  H5PB__SEARCH_INDEX p s = (Ok None, s).
Proof.
  intros Hp He. unfold H5PB__SEARCH_INDEX.
  rewrite (run_bind_ok _ _ _ _ _ (run_get_pb _ _ Hp)).
  rewrite He. reflexivity.
Qed.

Lemma run_put_pb pb s : put_pb pb s = (Ok tt, with_pb pb s).
Proof. reflexivity. Qed.

Lemma pb_ptr_with_pb pb s : pb_ptr (file (with_pb pb s)) = Some pb.
Proof. reflexivity. Qed.

Lemma with_pb_with_pb pb pb' s : with_pb pb (with_pb pb' s) = with_pb pb s.
Proof. reflexivity. Qed.

Lemma with_pb_same pb s : pb_ptr (file s) = Some pb -> with_pb pb s = s.
Proof.
  destruct s as [a [o d t b1 b2 b3 b4 b5 z b6]]. simpl. intros ->.
  reflexivity.
Qed.

Lemma run_put_entry s pb p e :
  pb_ptr (file s) = Some pb ->
  put_entry p e s = (Ok tt, with_pb (set_ht (<[p := e]> (ht pb)) pb) s).
Proof. intros Hp. unfold put_entry. rewrite Hp. reflexivity. Qed.

End Run.

(** ** C8: the tick of the page buffer *)

Section SetTick.
Context `{Collaborators}.

Lemma set_tick_run (s : env) (pb : H5PB_t) :
  pb_ptr (file s) = Some pb ->
  f_vfd_swmr (file s) = true ->
  f_vfd_swmr_writer (file s) = true ->
  vfd_swmr_writer pb = true ->
  H5PB_vfd_swmr__set_tick s
  = if tick_num (file s) =? u64 (cur_tick pb + 1)
    then (Ok tt, with_pb (set_cur_tick (tick_num (file s)) pb) s)
    else (Fail, s).
Proof.
  intros Hpb Hv Hw Hpw.
  unfold H5PB_vfd_swmr__set_tick.
  unfold bind at 1, get_f.
  rewrite (run_bind_ok _ _ _ _ _ (run_assert _ _ (or_intror Hv))).
  rewrite (run_bind_ok _ _ _ _ _ (run_assert _ _ (or_intror Hw))).
  rewrite (run_bind_ok _ _ _ _ _ (run_get_pb _ _ Hpb)).
  rewrite (run_bind_ok _ _ _ _ _ (run_assert _ _ (or_intror Hpw))).
  destruct (tick_num (file s) =? u64 (cur_tick pb + 1)); reflexivity.
Qed.

(** C8.  When the page buffer of a VFD SWMR writer is told to
    synchronise its tick, the call succeeds exactly when the tick of
    the file is the tick of the page buffer plus 1 (in 64 bit unsigned
    arithmetic) and then takes that tick; for any other tick of the
    file the call fails and leaves the state, and so the tick of the
    page buffer, as it was.  Hence the tick of the page buffer grows by
    exactly 1 with every tick it is told of. *)
Theorem set_tick_increments_by_one (s : env) (pb : H5PB_t) :
  pb_ptr (file s) = Some pb ->
  f_vfd_swmr (file s) = true ->
  f_vfd_swmr_writer (file s) = true ->
  vfd_swmr_writer pb = true ->
  (tick_num (file s) = u64 (cur_tick pb + 1) ->
   H5PB_vfd_swmr__set_tick s
   = (Ok tt, with_pb (set_cur_tick (tick_num (file s)) pb) s)
   /\ (0 <= cur_tick pb < 2 ^ 64 - 1 ->
       tick_num (file s) = cur_tick pb + 1))
  /\ (tick_num (file s) <> u64 (cur_tick pb + 1) ->
      H5PB_vfd_swmr__set_tick s = (Fail, s)).
Proof.
  intros Hpb Hv Hw Hpw.
  rewrite (set_tick_run s pb Hpb Hv Hw Hpw).
  destruct (Z.eqb_spec (tick_num (file s)) (u64 (cur_tick pb + 1)))
    as [Heq|Hne].
  - split; [|contradiction]. intros _. split; [reflexivity|].
    intros Hr. rewrite Heq. apply u64_small. lia.
  - split; [contradiction|]. intros _. reflexivity.
Qed.

End SetTick.

(** The writer at tick 6 whose page buffer is at tick 5: the page
    buffer goes to tick 6. *)
Lemma set_tick_increments_by_one_witness :
  @H5PB_vfd_swmr__set_tick mem_debug (mem_env false 0 (writer_file 6 5))
  = (Ok tt, mem_env false 0 (writer_file 6 6))
  /\ @H5PB_vfd_swmr__set_tick mem_debug (mem_env false 0 (writer_file 7 5))
     = (Fail, mem_env false 0 (writer_file 7 5)).
Proof.
  split.
  - apply (@set_tick_increments_by_one mem_debug
             (mem_env false 0 (writer_file 6 5))
             (mkPB 16 4 0 0 0 1 1 ∅ [] true 0 5 [] []));
      reflexivity.
  - apply (@set_tick_increments_by_one mem_debug
             (mem_env false 0 (writer_file 7 5))
             (mkPB 16 4 0 0 0 1 1 ∅ [] true 0 5 [] []));
      try reflexivity.
    vm_compute. discriminate.
Defined.


(** ** C6: the header and the index of the reader *)

Section ReaderLoad.
Context `{ReaderCollaborators}.

Lemma same_cache_refl v : same_cache v v.
Proof. repeat split. Qed.

Lemma same_cache_trans v1 v2 v3 :
  same_cache v1 v2 -> same_cache v2 v3 -> same_cache v1 v3.
Proof.
  intros (a1 & a2 & a3 & a4) (b1 & b2 & b3 & b4).
  repeat split; congruence.
Qed.

Lemma keeps_ret {A} (a : A) : keeps_cache (ret a).
Proof. intros v. apply same_cache_refl. Qed.

Lemma keeps_error {A} : keeps_cache (@error _ A).
Proof. intros v. apply same_cache_refl. Qed.

Lemma keeps_abort {A} w : keeps_cache (@abort _ A w).
Proof. intros v. apply same_cache_refl. Qed.

Lemma keeps_bind {A B} (m : RD A) (k : A -> RD B) :
  keeps_cache m -> (forall a, keeps_cache (k a)) -> keeps_cache (bind m k).
Proof.
  intros Hm Hk v. unfold bind. specialize (Hm v).
  destruct (m v) as [[a| |w] v1]; simpl in *; try exact Hm.
  eapply same_cache_trans; [exact Hm|apply Hk].
Qed.

Lemma keeps_try {A} (m : RD A) : keeps_cache m -> keeps_cache (try m).
Proof.
  intros Hm v. unfold try. specialize (Hm v).
  destruct (m v) as [[a| |w] v1]; exact Hm.
Qed.

Lemma keeps_assert b : keeps_cache (r_assert b).
Proof.
  unfold r_assert. destruct R_NDEBUG; [apply keeps_ret|].
  destruct b; [apply keeps_ret|apply keeps_abort].
Qed.

Lemma keeps_tick : keeps_cache tick.
Proof. intros v. repeat split. Qed.

Lemma keeps_sleep n : keeps_cache (H5_nanosleep n).
Proof. intros v. repeat split. Qed.

Lemma keeps_get_vfd : keeps_cache get_vfd.
Proof. intros v. apply same_cache_refl. Qed.

Lemma keeps_md_now : keeps_cache md_now.
Proof.
  unfold md_now. apply keeps_bind; [apply keeps_get_vfd|]. intros v0.
  apply keeps_bind; [apply keeps_tick|]. intros _. apply keeps_ret.
Qed.

Lemma keeps_fstat : keeps_cache HDfstat.
Proof.
  unfold HDfstat. apply keeps_bind; [apply keeps_md_now|].
  intros [b|]; [apply keeps_ret|apply keeps_error].
Qed.

Lemma keeps_lseek off : keeps_cache (HDlseek off).
Proof.
  unfold HDlseek. apply keeps_bind; [apply keeps_tick|]. intros _.
  destruct (2 ^ 63 <=? off); [apply keeps_error|].
  intros v. repeat split.
Qed.

Lemma keeps_read n : keeps_cache (HDread n).
Proof.
  unfold HDread. apply keeps_bind; [apply keeps_md_now|]. intros c.
  apply keeps_bind; [apply keeps_get_vfd|]. intros v0.
  destruct c as [b|]; [|apply keeps_ret]. intros v. repeat split.
Qed.

Lemma keeps_decode_at image p n : keeps_cache (decode_at image p n).
Proof.
  unfold decode_at. destruct (sub_bytes image p n);
    [apply keeps_ret|apply keeps_abort].
Qed.

Lemma keeps_stat_loop fuel need r ns :
  keeps_cache (stat_loop fuel need r ns).
Proof.
  revert r ns. induction fuel as [|fuel IH]; intros r ns; simpl.
  - apply keeps_abort.
  - apply keeps_bind; [apply keeps_fstat|]. intros sz.
    destruct (need <=? sz); [apply keeps_ret|].
    apply keeps_bind; [apply keeps_sleep|]. intros _.
    destruct (u32 (r - 1) =? 0); [apply keeps_ret|apply IH].
Qed.

Lemma keeps_image_loop fuel off n magic r ns :
  keeps_cache (image_loop fuel off n magic r ns).
Proof.
  revert r ns. induction fuel as [|fuel IH]; intros r ns; simpl.
  - apply keeps_abort.
  - apply keeps_bind; [apply keeps_lseek|]. intros _.
    apply keeps_bind; [apply keeps_read|]. intros [image|];
      [|apply keeps_error].
    destruct (blen image <? n); [apply keeps_error|].
    destruct (H5F_get_checksums image n) as [sc cc].
    destruct (_ && _); [apply keeps_ret|].
    apply keeps_bind; [apply keeps_sleep|]. intros _.
    destruct (u32 (r - 1) =? 0); [apply keeps_ret|apply IH].
Qed.

Lemma keeps_header_deserialize :
  keeps_cache H5FD__vfd_swmr_header_deserialize.
Proof.
  unfold H5FD__vfd_swmr_header_deserialize.
  apply keeps_bind; [apply keeps_stat_loop|]. intros fr.
  apply keeps_bind;
    [destruct (fr =? 0); [apply keeps_error|apply keeps_ret]|]. intros _.
  apply keeps_bind; [apply keeps_image_loop|]. intros [hr image].
  apply keeps_bind;
    [destruct (hr =? 0); [apply keeps_error|apply keeps_ret]|]. intros _.
  repeat (apply keeps_bind; [apply keeps_decode_at|]; intros ?).
  apply keeps_bind; [apply keeps_assert|]. intros _. apply keeps_ret.
Qed.

Lemma try_header_cache v hdr v1 :
  try H5FD__vfd_swmr_header_deserialize v = (Ok (Some hdr), v1) ->
  same_cache v v1.
Proof.
  intros Ht. pose proof (keeps_try _ keeps_header_deserialize v) as Hk.
  rewrite Ht in Hk. exact Hk.
Qed.

(** The pass, once the header is loaded and fits the reserved pages:
    what is left is the comparison of the ticks. *)
Lemma load_pass_after_header open v hdr v1 :
  try H5FD__vfd_swmr_header_deserialize v = (Ok (Some hdr), v1) ->
  u64 (H5FD_MD_HEADER_SIZE + hdr_index_length hdr)
  <= u64 (md_pages_reserved v * hdr_fs_page_size hdr) ->
  load_hdr_and_idx_pass open v
  = (let local := hdr_tick_num (md_header v) in
     if negb open && (hdr_tick_num hdr =? local) then ret LoadBreak
     else if negb open && (hdr_tick_num hdr <? local) then error
     else
       r_assert ((local <? hdr_tick_num hdr) || open) ;;;
       i <- try (H5FD__vfd_swmr_index_deserialize hdr) ;;
       match i with
       | None => ret LoadRetry
       | Some idx =>
           if hdr_tick_num hdr =? idx_tick_num idx then
             (λ v, (Ok LoadBreak, set_md hdr idx v))
           else if u64 (idx_tick_num idx + 1) <? hdr_tick_num hdr
           then error
           else ret LoadRetry
       end) v1.
Proof.
  intros Ht Hfit. destruct (try_header_cache _ _ _ Ht) as (Hh & _ & Hr & _).
  unfold load_hdr_and_idx_pass.
  rewrite (run_bind_ok _ _ _ _ _ Ht). unfold bind at 1, get_vfd.
  rewrite Hr, Hh.
  destruct (Z.ltb_spec (u64 (md_pages_reserved v * hdr_fs_page_size hdr))
              (u64 (H5FD_MD_HEADER_SIZE + hdr_index_length hdr))); [lia|].
  reflexivity.
Qed.

Lemma r_assert_true b v :
  R_NDEBUG = true \/ b = true -> r_assert b v = (Ok tt, v).
Proof.
  unfold r_assert. intros [-> | ->]; [reflexivity|].
  destruct R_NDEBUG; reflexivity.
Qed.

(** The loop, from its result on one pass. *)
Lemma load_loop_break fuel open r ns v v1 :
  load_hdr_and_idx_pass open v = (Ok LoadBreak, v1) ->
  load_hdr_and_idx_loop (S fuel) open r ns v = (Ok r, v1).
Proof. intros Hp. simpl. rewrite (run_bind_ok _ _ _ _ _ Hp). reflexivity. Qed.

Lemma load_loop_fail fuel open r ns v v1 :
  load_hdr_and_idx_pass open v = (Fail, v1) ->
  load_hdr_and_idx_loop (S fuel) open r ns v = (Fail, v1).
Proof. intros Hp. simpl. rewrite (run_bind_fail _ _ _ _ Hp). reflexivity. Qed.

Lemma load_loop_retry fuel open r ns v v1 :
  load_hdr_and_idx_pass open v = (Ok LoadRetry, v1) ->
  load_hdr_and_idx_loop (S fuel) open r ns v
  = if u32 (r - 1) =? 0 then (Ok 0, after_sleep ns v1)
    else load_hdr_and_idx_loop fuel open (u32 (r - 1)) (u64 (ns * 2))
           (after_sleep ns v1).
Proof.
  intros Hp. simpl. rewrite (run_bind_ok _ _ _ _ _ Hp).
  unfold bind, H5_nanosleep. fold (after_sleep ns v1).
  destruct (u32 (r - 1) =? 0); reflexivity.
Qed.

(** When every pass asks for a retry the loop ends with its counter
    at 0. *)
Lemma load_loop_exhausted open :
  (forall v, exists v', load_hdr_and_idx_pass open v = (Ok LoadRetry, v')) ->
  forall fuel r ns v,
    0 < r < 2 ^ 32 -> r <= Z.of_nat fuel ->
    exists v', load_hdr_and_idx_loop fuel open r ns v = (Ok 0, v').
Proof.
  intros Hall fuel. induction fuel as [|fuel IH]; intros r ns v Hr Hf;
    [lia|].
  destruct (Hall v) as [v1 Hp].
  rewrite (load_loop_retry _ _ _ _ _ _ Hp).
  rewrite u32_small by lia.
  destruct (Z.eqb_spec (r - 1) 0) as [Hz|Hz]; [eexists; reflexivity|].
  apply IH; lia.
Qed.

Lemma do_while_fuel_pos r :
  0 < r -> do_while_fuel r = S (Z.to_nat (r - 1)).
Proof.
  intros Hr. unfold do_while_fuel.
  destruct (Z.eqb_spec r 0); [lia|].
  rewrite <- Z2Nat.inj_succ by lia. f_equal. lia.
Qed.


End ReaderLoad.



(** ** C10: the checksum of a page read from the metadata file *)

Section ReaderRead.
Context `{ReaderCollaborators}.

Lemma keeps_read_while fuel size p buf :
  keeps_cache (read_while fuel size p buf).
Proof.
  revert size p buf. induction fuel as [|fuel IH]; intros size p buf; simpl.
  - apply keeps_abort.
  - destruct (0 <? size); [|apply keeps_ret].
    apply keeps_bind; [apply keeps_read|]. intros [d|]; [|apply keeps_error].
    apply keeps_bind; [apply keeps_assert|]. intros _.
    destruct (blit buf p d); [apply IH|apply keeps_abort].
Qed.

Lemma quiet_bind {A B} (m : RD A) (k : A -> RD B) :
  quiet m -> (forall a, quiet (k a)) -> quiet (bind m k).
Proof.
  intros Hm Hk v. unfold bind. specialize (Hm v).
  destruct (m v) as [[a| |w] v1]; simpl in *; try exact Hm.
  rewrite <- Hm. apply Hk.
Qed.

Lemma quiet_read n : quiet (HDread n).
Proof.
  unfold HDread, md_now. intros v. unfold bind, get_vfd, tick, ret. simpl.
  destruct (md_file_at (clock v)); reflexivity.
Qed.

Lemma quiet_read_while fuel size p buf : quiet (read_while fuel size p buf).
Proof.
  revert size p buf. induction fuel as [|fuel IH]; intros size p buf; simpl.
  - intros v. reflexivity.
  - destruct (0 <? size); [|intros v; reflexivity].
    apply quiet_bind; [apply quiet_read|]. intros [d|];
      [|intros v; reflexivity].
    apply quiet_bind.
    + intros v. unfold r_assert. destruct R_NDEBUG; [reflexivity|].
      destruct (blen d <=? size); reflexivity.
    + intros _. destruct (blit buf p d); [apply IH|intros v; reflexivity].
Qed.

Lemma run_lseek off v :
  off < 2 ^ 63 -> HDlseek off v = (Ok tt, after_lseek off v).
Proof.
  intros Hoff. unfold HDlseek, bind, tick.
  destruct (Z.leb_spec (2 ^ 63) off); [lia|]. reflexivity.
Qed.

(** A pass of the retry loop that finds the checksum right ends the
    loop, with the retries that are left. *)
Lemma entry_loop_match fuel io_fuel e fs po size buf r ns v d v2 :
  let off := u64 (u64 (md_file_page_offset e * fs) + po) in
  off < 2 ^ 63 ->
  read_while io_fuel size 0 buf (after_lseek off v) = (Ok d, v2) ->
  (if pb_configured v then H5_checksum_metadata d (ie_length e) 0
   else chksum e) = chksum e ->
  entry_loop (S fuel) io_fuel e fs po size buf r ns v = (Ok (r, d), v2).
Proof.
  intros off Hoff Hread Hsum. simpl. fold off.
  rewrite (run_bind_ok _ _ _ _ _ (run_lseek _ _ Hoff)).
  rewrite (run_bind_ok _ _ _ _ _ Hread).
  unfold bind at 1, get_vfd.
  pose proof (keeps_read_while io_fuel size 0 buf (after_lseek off v)) as Hk.
  rewrite Hread in Hk. destruct Hk as (_ & _ & _ & Hc). simpl in Hc.
  rewrite Hc, Hsum, Z.eqb_refl. reflexivity.
Qed.

(** Passes that find nothing left to read and the checksum wrong: the
    loop sleeps with doubled delays until its counter is 0. *)
Lemma entry_loop_mismatch io_fuel e fs po buf :
  let off := u64 (u64 (md_file_page_offset e * fs) + po) in
  off < 2 ^ 63 -> (0 < io_fuel)%nat ->
  H5_checksum_metadata buf (ie_length e) 0 <> chksum e ->
  forall fuel r ns v,
    pb_configured v = true -> 0 < r < 2 ^ 32 -> r <= Z.of_nat fuel ->
    exists v',
      entry_loop fuel io_fuel e fs po 0 buf r ns v = (Ok (0, buf), v')
      /\ slept v' = backoff (Z.to_nat r) ns ++ slept v
      /\ same_cache v v'.
Proof.
  intros off Hoff Hio Hsum fuel.
  induction fuel as [|fuel IH]; intros r ns v Hc Hr Hf; [lia|].
  simpl. fold off.
  rewrite (run_bind_ok _ _ _ _ _ (run_lseek _ _ Hoff)).
  destruct io_fuel as [|io']; [lia|].
  assert (Hrw : read_while (S io') 0 0 buf (after_lseek off v)
                = (Ok buf, after_lseek off v)) by reflexivity.
  rewrite (run_bind_ok _ _ _ _ _ Hrw).
  unfold bind at 1, get_vfd.
  change (pb_configured (after_lseek off v)) with (pb_configured v).
  rewrite Hc.
  destruct (Z.eqb_spec (chksum e) (H5_checksum_metadata buf (ie_length e) 0))
    as [Heq|_]; [congruence|].
  unfold bind at 1, H5_nanosleep.
  rewrite u32_small by lia.
  assert (Hn : Z.to_nat r = S (Z.to_nat (r - 1))).
  { rewrite <- Z2Nat.inj_succ by lia. f_equal. lia. }
  destruct (Z.eqb_spec (r - 1) 0) as [Hz|Hz].
  - eexists. split; [reflexivity|]. split; [|repeat split].
    rewrite Hn, Hz. reflexivity.
  - edestruct (IH (r - 1) (u64 (ns * 2))) as (v' & Hl & Hs & Hk);
      [|lia|lia|].
    2:{ exists v'. split; [exact Hl|]. split.
        - rewrite Hs, Hn. simpl. rewrite <- app_assoc. reflexivity.
        - eapply same_cache_trans; [|exact Hk]. repeat split. }
    simpl. exact Hc.
Qed.

Lemma run_index_at index i e v :
  0 <= i -> index !! Z.to_nat i = Some e -> index_at index i v = (Ok e, v).
Proof.
  intros Hi He. unfold index_at.
  destruct (Z.ltb_spec i 0); [lia|]. rewrite He. reflexivity.
Qed.

(** C10.  A read of the reader driver that finds its page in the
    index and reads [d] from the metadata file.  Before the page
    buffer is configured the computed checksum is the stored one: the
    call returns [d] after the first read, whatever [d] holds, without
    a sleep.  Once [pb_configured] is set the checksum of the buffer is
    computed and compared with the one of the index entry: the call
    returns [d] when they agree, and otherwise makes all its retries,
    with doubled sleeps, and fails.  [H5FD_vfd_swmr_set_pb_configured]
    sets the flag. *)
Theorem vfd_swmr_read_checksum (io_fuel : nat) (type : H5FD_mem_t)
  (addr : haddr_t) (size : Z) (buf : bytes) (v : H5FD_vfd_swmr_t)
  (i : Z) (e : H5FD_vfd_swmr_idx_entry_t) (d : bytes)
  (v2 : H5FD_vfd_swmr_t) :
  let fs := hdr_fs_page_size (md_header v) in
  let po := u64 (addr - u64 (addr / fs * fs)) in
  let off := u64 (u64 (md_file_page_offset e * fs) + po) in
  let MAX := H5FD_VFD_SWMR_MD_INDEX_RETRY_MAX in
  fs <> 0 -> 0 < MAX < 2 ^ 32 -> (0 < io_fuel)%nat ->
  index_search (S (Z.to_nat (to_int (idx_num_entries (md_index v)))))
    (idx_entries (md_index v)) (addr / fs) 0
    (to_int (idx_num_entries (md_index v)) - 1) 0 v = (Ok (true, i), v) ->
  0 <= i -> idx_entries (md_index v) !! Z.to_nat i = Some e ->
  R_NDEBUG = true
  \/ (u64 (addr / fs * fs) <= addr
      /\ (po = 0 \/ (pb_configured v = false /\ u64 (po + size) <= fs))
      /\ u64 (hdf5_page_offset e * fs) <= addr
      /\ addr < u64 (u64 (hdf5_page_offset e + 1) * fs)
      /\ (pb_configured v = false \/ size = ie_length e)) ->
  off < 2 ^ 63 ->
  read_while io_fuel size 0 buf (after_lseek off v) = (Ok d, v2) ->
  (pb_configured v = false ->
   H5FD_vfd_swmr_read io_fuel type addr size buf v = (Ok d, v2)
   /\ slept v2 = slept v)
  /\ (pb_configured v = true ->
      (H5_checksum_metadata d (ie_length e) 0 = chksum e ->
       H5FD_vfd_swmr_read io_fuel type addr size buf v = (Ok d, v2))
      /\ (H5_checksum_metadata d (ie_length e) 0 <> chksum e ->
          exists v',
            H5FD_vfd_swmr_read io_fuel type addr size buf v = (Fail, v')
            /\ slept v' = backoff (Z.to_nat MAX) 1 ++ slept v2))
  /\ pb_configured (snd (H5FD_vfd_swmr_set_pb_configured v)) = true.
Proof.
  intros fs po off MAX Hfs Hmax Hio Hsearch Hi He Hassert Hoff Hread.
  subst MAX. set (MAX := H5FD_VFD_SWMR_MD_INDEX_RETRY_MAX) in *.
  assert (Hrun : H5FD_vfd_swmr_read io_fuel type addr size buf v
    = (r <- entry_loop (do_while_fuel MAX) io_fuel e fs po size buf MAX 1 ;;
       let '(entry_retries, buf) := r in
       if entry_retries =? 0 then error else ret buf) v).
  { unfold H5FD_vfd_swmr_read. unfold bind at 1, get_vfd. fold fs.
    destruct (Z.eqb_spec fs 0) as [|_]; [contradiction|].
    unfold bind at 1, ret at 1.
    rewrite (run_bind_ok _ _ _ _ _ Hsearch).
    rewrite (run_bind_ok _ _ _ _ _ (run_index_at _ _ _ _ Hi He)).
    fold po.
    assert (Ha : forall b, (R_NDEBUG = true \/ b = true) ->
                           forall k : unit -> RD bytes,
                             bind (r_assert b) k v = k tt v).
    { intros b Hb k. apply run_bind_ok, r_assert_true, Hb. }
    rewrite Ha.
    2:{ destruct Hassert as [Hn|(H1 & _)]; [left; exact Hn|right].
        apply Z.leb_le. exact H1. }
    rewrite Ha.
    2:{ destruct Hassert as [Hn|(_ & H2 & _)]; [left; exact Hn|right].
        destruct H2 as [Hp|[Hc Hle]]; apply orb_true_iff; [left|right].
        - apply Z.eqb_eq. exact Hp.
        - apply andb_true_iff. split; [rewrite Hc; reflexivity|].
          apply Z.leb_le. exact Hle. }
    rewrite Ha.
    2:{ destruct Hassert as [Hn|(_ & _ & H3 & _)]; [left; exact Hn|right].
        apply Z.leb_le. exact H3. }
    rewrite Ha.
    2:{ destruct Hassert as [Hn|(_ & _ & _ & H4 & _)];
          [left; exact Hn|right].
        apply Z.ltb_lt. exact H4. }
    rewrite Ha.
    2:{ destruct Hassert as [Hn|(_ & _ & _ & _ & H5)];
          [left; exact Hn|right].
        destruct H5 as [Hc|Hs]; apply orb_true_iff; [left|right].
        - rewrite Hc. reflexivity.
        - apply Z.eqb_eq. exact Hs. }
    reflexivity. }
  rewrite Hrun, (do_while_fuel_pos _ (proj1 Hmax)).
  assert (Hnz : (MAX =? 0) = false) by (apply Z.eqb_neq; lia).
  pose proof (keeps_read_while io_fuel size 0 buf (after_lseek off v)) as Hk.
  rewrite Hread in Hk. simpl in Hk.
  split; [|split].
  - intros Hc. split.
    + erewrite run_bind_ok;
        [|eapply entry_loop_match; [exact Hoff|exact Hread|]].
      * cbv beta iota. rewrite Hnz. reflexivity.
      * rewrite Hc. reflexivity.
    + pose proof (quiet_read_while io_fuel size 0 buf (after_lseek off v))
        as Hq.
      rewrite Hread in Hq. exact Hq.
  - intros Hc. split.
    + intros Hsum.
      erewrite run_bind_ok;
        [|eapply entry_loop_match; [exact Hoff|exact Hread|]].
      * cbv beta iota. rewrite Hnz. reflexivity.
      * rewrite Hc. exact Hsum.
    + intros Hsum. unfold bind at 1. simpl entry_loop. fold off.
      rewrite (run_bind_ok _ _ _ _ _ (run_lseek _ _ Hoff)).
      rewrite (run_bind_ok _ _ _ _ _ Hread).
      unfold bind at 1, get_vfd.
      destruct Hk as (_ & _ & _ & Hpc). rewrite Hpc.
      change (pb_configured (after_lseek off v)) with (pb_configured v).
      rewrite Hc.
      destruct (Z.eqb_spec (chksum e)
                  (H5_checksum_metadata d (ie_length e) 0)) as [Heq|_];
        [congruence|].
      unfold bind at 1, H5_nanosleep. fold (after_sleep 1 v2).
      rewrite u32_small by lia. change (u64 (1 * 2)) with 2.
      assert (Hn : Z.to_nat MAX = S (Z.to_nat (MAX - 1))).
      { rewrite <- Z2Nat.inj_succ by lia. f_equal. lia. }
      destruct (Z.eqb_spec (MAX - 1) 0) as [Hz|Hz].
      * eexists. split; [reflexivity|]. rewrite Hn, Hz. reflexivity.
      * destruct (entry_loop_mismatch io_fuel e fs po d Hoff Hio Hsum
                    (Z.to_nat (MAX - 1)) (MAX - 1) 2 (after_sleep 1 v2))
          as (v' & Hl & Hs & _); [|lia|lia|].
        { simpl. rewrite Hpc. exact Hc. }
        exists v'. rewrite Hl. simpl. split; [reflexivity|].
        rewrite Hs, Hn. simpl. rewrite <- app_assoc. reflexivity.
  - reflexivity.
Qed.

End ReaderRead.

(** A read of page 2, whose bytes in the metadata file do not have the
    checksum of the index: a reader whose page buffer is not
    configured returns them at once. *)
Lemma vfd_swmr_read_checksum_witness :
  fst (@H5FD_vfd_swmr_read torn_reader 4 H5FD_MEM_OHDR 32 16 (zeros 16)
         (reader_at 5 false))
  = Ok (replicate 16 x01)
  /\ @H5_checksum_metadata torn_reader (replicate 16 x01) 16 0 <> 7.
Proof.
  split.
  - refine (f_equal fst
              (proj1 (proj1 (@vfd_swmr_read_checksum torn_reader 4
                               H5FD_MEM_OHDR 32 16 (zeros 16)
                               (reader_at 5 false) 0 (mkIdxEntry 2 5 16 7)
                               (replicate 16 x01)
                               (mkVfd 96 8 header_5 index_5 false 2 [])
                               _ _ _ _ _ _ _ _ _) eq_refl)));
      try (vm_compute; reflexivity); try (vm_compute; discriminate).
    + simpl. lia.
    + simpl. lia.
    + right. repeat split; try (vm_compute; reflexivity);
        try (vm_compute; discriminate).
      left. reflexivity.
      left. reflexivity.
  - vm_compute. discriminate.
Defined.


(** ** C2: a metadata read that finds a multi-page metadata entry *)

Section ReadMetaMpmde.
Context `{Collaborators}.

(** With assertions compiled in, a call that reaches an assertion
    either goes on or stops there. *)
Lemma bind_assert_debug {A} b (k : unit -> PB A) s :
  NDEBUG = false ->
  bind (HDassert b) k s
  = if b then k tt s else (Abort AssertionFailed, s).
Proof. intros Hn. unfold bind, HDassert. rewrite Hn. destruct b; reflexivity. Qed.

Lemma bind_assert_ndebug {A} b (k : unit -> PB A) s :
  NDEBUG = true -> bind (HDassert b) k s = k tt s.
Proof. intros Hn. unfold bind, HDassert. rewrite Hn. reflexivity. Qed.


End ReadMetaMpmde.




(** ** C3: a metadata read of a page or more that finds a regular entry *)

Section ReadMetaRegular.
Context `{Collaborators}.

Lemma run_when_false (m : PB unit) s : when false m s = (Ok tt, s).
Proof. reflexivity. Qed.

Lemma run_unlink_LRU s pb p :
  pb_ptr (file s) = Some pb -> p ∈ LRU pb ->
  unlink LRU set_LRU p s = (Ok tt, with_pb (set_LRU (dll_remove p (LRU pb)) pb) s).
Proof.
  intros Hp Hin. unfold unlink.
  rewrite (run_bind_ok _ _ _ _ _ (run_get_pb _ _ Hp)).
  rewrite bool_decide_eq_true_2 by exact Hin. reflexivity.
Qed.

Lemma run_access s pb p :
  pb_ptr (file s) = Some pb -> p ∈ LRU pb ->
  H5PB__UPDATE_RP_FOR_ACCESS p s = (Ok tt, with_pb (accessed p pb) s).
Proof.
  intros Hp Hin. unfold H5PB__UPDATE_RP_FOR_ACCESS.
  rewrite (run_bind_ok _ _ _ _ _ (run_get_pb _ _ Hp)).
  rewrite bool_decide_eq_true_2 by exact Hin. reflexivity.
Qed.

Lemma dll_remove_not_in p l : p ∉ dll_remove p l.
Proof.
  unfold dll_remove. intros Hin. apply list_elem_of_filter in Hin.
  destruct Hin as [Hne _]. apply Hne. reflexivity.
Qed.

Lemma links_null_not_in l p : p ∉ l -> links_null l p = true.
Proof.
  intros Hn. unfold links_null. rewrite bool_decide_eq_true_2 by exact Hn.
  reflexivity.
Qed.

Lemma run_delete_from_index s pb p e :
  pb_ptr (file s) = Some pb -> ht pb !! p = Some e ->
  H5PB__DELETE_FROM_INDEX p s
  = (Ok tt,
     with_pb (add_counts (-1)
                (if is_mpmde e then 0 else if is_metadata e then -1 else 0)
                (if is_mpmde e then 0 else if is_metadata e then 0 else -1)
                (if is_mpmde e then -1 else 0)
                (set_ht (delete p (ht pb)) pb)) s).
Proof.
  intros Hp He. unfold H5PB__DELETE_FROM_INDEX.
  rewrite (run_bind_ok _ _ _ _ _ (run_get_entry _ _ _ _ Hp He)).
  unfold modify_pb.
  rewrite (run_bind_ok _ _ _ _ _ (run_get_pb _ _ Hp)).
  apply run_put_pb.
Qed.

Lemma run_deallocate s pb p e :
  pb_ptr (file s) = Some pb -> ht pb !! p = None ->
  0 < entry_size e -> is_dirty e = false ->
  p ∉ LRU pb -> p ∉ dwl pb -> p ∉ tl pb ->
  H5PB__deallocate_page p e s = (Ok tt, s).
Proof.
  intros Hp He Hsz Hdirty Hlru Hdwl Htl. unfold H5PB__deallocate_page.
  rewrite (run_bind_ok _ _ _ _ _ (run_get_pb _ _ Hp)).
  rewrite (run_bind_ok _ _ _ _ _
             (run_assert _ _ (or_intror (proj2 (Z.ltb_lt _ _) Hsz)))).
  rewrite Hdirty.
  rewrite (run_bind_ok _ _ _ _ _ (run_assert true _ (or_intror eq_refl))).
  rewrite (links_null_not_in _ _ Hlru), (links_null_not_in _ _ Hdwl),
    (links_null_not_in _ _ Htl).
  rewrite (run_bind_ok _ _ _ _ _ (run_assert true _ (or_intror eq_refl))).
  rewrite (run_bind_ok _ _ _ _ _ (run_assert true _ (or_intror eq_refl))).
  rewrite He. reflexivity.
Qed.

(** The forced eviction of a clean entry that is on no list but,
    when it is a regular page, the LRU. *)
Lemma run_evict_clean s pb p e :
  pb_ptr (file s) = Some pb -> ht pb !! p = Some e ->
  0 < entry_size e -> modified_this_tick e = false ->
  delay_write_until e = 0 -> is_dirty e = false ->
  (is_mpmde e = false -> p ∈ LRU pb) ->
  (is_mpmde e = true -> p ∉ LRU pb) ->
  p ∉ dwl pb -> p ∉ tl pb ->
  H5PB__evict_entry p true s = (Ok tt, with_pb (evicted p e pb) s).
Proof.
  intros Hp He Hsz Hmod Hdel Hdirty Hlru Hlru' Hdwl Htl.
  unfold H5PB__evict_entry.
  rewrite (run_bind_ok _ _ _ _ _ (run_get_pb _ _ Hp)).
  rewrite (run_bind_ok _ _ _ _ _ (run_get_entry _ _ _ _ Hp He)).
  rewrite (run_bind_ok _ _ _ _ _
             (run_assert _ _ (or_intror (proj2 (Z.ltb_lt _ _) Hsz)))).
  rewrite Hmod, Hdel, Hdirty. cbn [negb andb].
  rewrite (run_bind_ok _ _ _ _ _ (run_assert true _ (or_intror eq_refl))).
  rewrite (run_bind_ok _ _ _ _ _ (run_assert (0 =? 0) _ (or_intror eq_refl))).
  unfold bind at 1, ret at 1. unfold bind at 1, ret at 1.
  rewrite (run_bind_ok _ _ _ _ _ (run_get_entry _ _ _ _ Hp He)).
  unfold evicted.
  destruct (is_mpmde e) eqn:Hm; cbn [negb].
  - rewrite (run_bind_ok _ _ _ _ _ (run_when_false _ _)).
    rewrite (run_bind_ok _ _ _ _ _ (run_delete_from_index _ _ _ _ Hp He)).
    rewrite Hm.
    erewrite run_deallocate; [reflexivity|apply pb_ptr_with_pb|..];
      cbn [LRU dwl tl add_counts set_ht ht]; auto.
    apply lookup_delete_eq.
  - unfold when, H5PB__UPDATE_RP_FOR_EVICTION.
    rewrite (run_bind_ok _ _ _ _ _ (run_unlink_LRU _ _ _ Hp (Hlru eq_refl))).
    rewrite (run_bind_ok _ _ _ _ _
               (run_delete_from_index
                  (with_pb (set_LRU (dll_remove p (LRU pb)) pb) s)
                  (set_LRU (dll_remove p (LRU pb)) pb) p e eq_refl He)).
    rewrite Hm.
    erewrite run_deallocate; [reflexivity|apply pb_ptr_with_pb|..];
      cbn [LRU dwl tl add_counts set_ht set_LRU ht]; auto.
    + apply lookup_delete_eq.
    + apply dll_remove_not_in.
Qed.
Lemma run_accum_read s type addr size buf :
  accum_read type addr size buf s
  = match H5F__accum_read (lf (file s)) type addr size with
    | None => (Fail, s)
    | Some d =>
        match blit buf 0 d with
        | Some b => (Ok b, s)
        | None => (Abort MemoryFault, s)
        end
    end.
Proof.
  unfold accum_read, bind, get_f.
  destruct (H5F__accum_read (lf (file s)) type addr size) as [d|];
    [|reflexivity].
  destruct (blit buf 0 d); reflexivity.
Qed.

(** The start of [H5PB__read_meta] for a page aligned read of a page
    or more that finds a regular entry: what is left is the test of
    [prev_addr]. *)
Lemma read_meta_case_8 s pb type addr size buf e :
  pb_ptr (file s) = Some pb ->
  u64 (addr / page_size pb * page_size pb) = addr ->
  page_size pb <= size ->
  ht pb !! (addr / page_size pb) = Some e ->
  is_mpmde e = false ->
  min_rd_pages pb < max_pages pb -> is_draw type = false ->
  is_metadata e = true -> entry_size e = page_size pb ->
  H5PB__read_meta type addr size buf s
  = (buf' <-
       (if addr =? prev_addr s then
          HDassert (negb (is_dirty e)) ;;;
          H5PB__evict_entry (addr / page_size pb) true ;;;
          accum_read type addr size buf
        else
          buf1 <- do_memcpy buf 0 (image_ptr e) 0 (entry_size e) ;;
          when (negb (is_mpmde e) && (delay_write_until e =? 0))
            (H5PB__UPDATE_RP_FOR_ACCESS (addr / page_size pb)) ;;;
          ret buf1) ;;
     put_prev_addr addr ;;; ret buf') s.
Proof.
  intros Hpb Hal Hsz He Hm Hrd Htype Hmd Hes.
  unfold H5PB__read_meta.
  rewrite (run_bind_ok _ _ _ _ _ (run_get_pb _ _ Hpb)).
  rewrite (run_bind_ok _ _ _ _ _
             (run_assert _ _ (or_intror (proj2 (Z.ltb_lt _ _) Hrd)))).
  rewrite Htype.
  rewrite (run_bind_ok _ _ _ _ _ (run_assert true _ (or_intror eq_refl))).
  rewrite Hal, Z.eqb_refl. cbn [negb].
  destruct (Z.leb_spec (page_size pb) size); [|lia].
  unfold bind at 1. symmetry. unfold bind at 1. symmetry.
  rewrite (run_bind_ok _ _ _ _ _ (run_search_hit _ _ _ _ Hpb He)).
  rewrite (run_bind_ok _ _ _ _ _ (run_get_entry _ _ _ _ Hpb He)).
  rewrite Hmd.
  rewrite (run_bind_ok _ _ _ _ _ (run_assert true _ (or_intror eq_refl))).
  rewrite Hm. cbn [negb].
  rewrite Hes, Z.eqb_refl.
  rewrite (run_bind_ok _ _ _ _ _ (run_assert true _ (or_intror eq_refl))).
  unfold bind at 1, get_prev_addr.
  destruct (addr =? prev_addr s); reflexivity.
Qed.

(** C3.  A page aligned metadata read of a page or more that finds a
    regular entry at its page.  When the metadata read before it was
    for the same address, the entry, which is clean, is evicted, and
    the whole read is what the file driver gives for the address and
    the size.  When the read before it was for another address, the
    read is clipped to one page and the buffer is filled from the
    image of the entry, which stays and moves to the head of the
    LRU. *)
Theorem read_meta_speculative_then_exact (s : env) (pb : H5PB_t)
  (type : H5FD_mem_t) (addr : haddr_t) (size : Z) (buf : bytes)
  (e : H5PB_entry_t) :
  let page := addr / page_size pb in
  pb_ptr (file s) = Some pb ->
  u64 (page * page_size pb) = addr ->
  page_size pb <= size ->
  ht pb !! page = Some e ->
  is_mpmde e = false ->
  min_rd_pages pb < max_pages pb -> is_draw type = false ->
  is_metadata e = true -> entry_size e = page_size pb ->
  0 < page_size pb -> delay_write_until e = 0 -> page ∈ LRU pb ->
  (prev_addr s = addr ->
   is_dirty e = false -> modified_this_tick e = false ->
   page ∉ dwl pb -> page ∉ tl pb ->
   let s' := with_pb (evicted page e pb) s in
   H5PB__read_meta type addr size buf s
   = match H5F__accum_read (lf (file s)) type addr size with
     | None => (Fail, s')
     | Some d =>
         match blit buf 0 d with
         | Some b => (Ok b, mkEnv _ addr (file s'))
         | None => (Abort MemoryFault, s')
         end
     end)
  /\ (prev_addr s <> addr ->
      forall b,
        memcpy buf 0 (image_ptr e) 0 (page_size pb) = Some b ->
        H5PB__read_meta type addr size buf s
        = (Ok b, mkEnv _ addr (file (with_pb (accessed page pb) s)))).
Proof.
  intros page Hpb Hal Hsz He Hm Hrd Htype Hmd Hes Hps Hdel Hlru.
  rewrite (read_meta_case_8 s pb type addr size buf e Hpb Hal Hsz He Hm Hrd
             Htype Hmd Hes).
  fold page. split.
  - intros Hprev Hdirty Hmod Hdwl Htl s'.
    rewrite Hprev, Z.eqb_refl, Hdirty. cbn [negb].
    unfold bind at 1.
    rewrite (run_bind_ok _ _ _ _ _ (run_assert true _ (or_intror eq_refl))).
    rewrite (run_bind_ok _ _ _ _ _
               (run_evict_clean s pb page e Hpb He ltac:(lia) Hmod Hdel Hdirty
                  (fun _ => Hlru) ltac:(congruence) Hdwl Htl)).
    rewrite run_accum_read. fold s'.
    change (lf (file s')) with (lf (file s)).
    destruct (H5F__accum_read (lf (file s)) type addr size) as [d|];
      [|reflexivity].
    destruct (blit buf 0 d); reflexivity.
  - intros Hprev b Hb.
    destruct (Z.eqb_spec addr (prev_addr s)) as [Heq|_]; [congruence|].
    unfold bind at 1. unfold do_memcpy. rewrite Hes, Hb.
    unfold bind at 1, ret at 1.
    rewrite Hm, Hdel. cbn [negb andb Z.eqb when].
    rewrite (run_bind_ok _ _ _ _ _ (run_access _ _ _ Hpb Hlru)).
    reflexivity.
Qed.

End ReadMetaRegular.

(** A read of two pages at the address of a clean regular page: after
    a metadata read at the same address the page is evicted and the
    driver gives the two pages; after one elsewhere the entry gives
    one page, and stays. *)
Lemma read_meta_speculative_then_exact_witness :
  (let r := @H5PB__read_meta mem_debug H5FD_MEM_OHDR 16 32 (zeros 32)
              (mem_env false 16 (small_file regular_pb)) in
   fst r = Ok (replicate 32 x2a)
   /\ (ht <$> pb_ptr (file (snd r))) = Some ∅)
  /\ (let r := @H5PB__read_meta mem_debug H5FD_MEM_OHDR 16 32 (zeros 32)
                 (mem_env false 0 (small_file regular_pb)) in
      fst r = Ok (replicate 16 x01 ++ zeros 16)
      /\ (ht <$> pb_ptr (file (snd r))) = Some {[ 1 := regular_entry ]}).
Proof.
  split.
  - rewrite (proj1 (@read_meta_speculative_then_exact mem_debug
                      (mem_env false 16 (small_file regular_pb)) regular_pb
                      H5FD_MEM_OHDR 16 32 (zeros 32) regular_entry
                      eq_refl eq_refl ltac:(simpl; lia) eq_refl eq_refl
                      ltac:(simpl; lia) eq_refl eq_refl eq_refl
                      ltac:(simpl; lia) eq_refl ltac:(left))
               eq_refl eq_refl eq_refl
               ltac:(apply not_elem_of_nil) ltac:(apply not_elem_of_nil)).
    vm_compute. split; reflexivity.
  - rewrite (proj2 (@read_meta_speculative_then_exact mem_debug
                      (mem_env false 0 (small_file regular_pb)) regular_pb
                      H5FD_MEM_OHDR 16 32 (zeros 32) regular_entry
                      eq_refl eq_refl ltac:(simpl; lia) eq_refl eq_refl
                      ltac:(simpl; lia) eq_refl eq_refl eq_refl
                      ltac:(simpl; lia) eq_refl ltac:(left))
               ltac:(vm_compute; discriminate)
               (replicate 16 x01 ++ zeros 16) eq_refl).
    vm_compute. split; reflexivity.
Defined.


(** ** C9: the address of the last metadata read *)

Section PrevAddr.

(** A metadata read that returns has stored its address in
    [prev_addr]. *)
Lemma read_meta_sets_prev_addr `{Collaborators} type addr size buf s b s' :
  H5PB__read_meta type addr size buf s = (Ok b, s') -> prev_addr s' = addr.
Proof.
  unfold H5PB__read_meta. intros Hr.
  apply bind_ok_inv in Hr. destruct Hr as (pb & s1 & _ & Hr).
  apply bind_ok_inv in Hr. destruct Hr as (u1 & s2 & _ & Hr).
  apply bind_ok_inv in Hr. destruct Hr as (u2 & s3 & _ & Hr).
  apply bind_ok_inv in Hr. destruct Hr as (buf' & s4 & _ & Hr).
  unfold bind, put_prev_addr, ret in Hr. injection Hr as _ <-.
  reflexivity.
Qed.


End PrevAddr.

(** ** Weakest preconditions *)

Lemma wp_ret {S A} (a : A) (Q : A -> S -> Prop) E s :
  Q a s -> wp (ret a) Q E s.
Proof. intros HQ. exact HQ. Qed.

Lemma wp_error {S A} (Q : A -> S -> Prop) (E : S -> Prop) s :
  E s -> wp error Q E s.
Proof. intros HE. exact HE. Qed.

Lemma wp_abort {S A} w (Q : A -> S -> Prop) (E : S -> Prop) s :
  wp (abort w) Q E s.
Proof. exact I. Qed.

Lemma wp_bind {S A B} (m : ST S A) (k : A -> ST S B) Q E s :
  wp m (λ a s', wp (k a) Q E s') E s -> wp (bind m k) Q E s.
Proof.
  unfold wp, bind. destruct (m s) as [[a| |w] s']; intros Hm; exact Hm.
Qed.

Lemma wp_mono {S A} (m : ST S A) (Q Q' : A -> S -> Prop) (E E' : S -> Prop)
  s :
  wp m Q E s -> (forall a s', Q a s' -> Q' a s') ->
  (forall s', E s' -> E' s') -> wp m Q' E' s.
Proof.
  unfold wp. destruct (m s) as [[a| |w] s']; intros Hm HQ HE; auto.
Qed.

Lemma wp_on_error {S A} (m : ST S A) cleanup (Q : A -> S -> Prop) E s :
  wp m Q (λ s', wp cleanup (λ _ s'', E s'') E s') s ->
  wp (on_error m cleanup) Q E s.
Proof.
  unfold wp, on_error. destruct (m s) as [[a| |w] s']; intros Hm; auto.
  destruct (cleanup s') as [[a| |w] s'']; auto.
Qed.

Section WpEnv.
Context `{Collaborators}.

Lemma wp_assert b (Q : unit -> env -> Prop) E s :
  Q tt s -> wp (HDassert b) Q E s.
Proof.
  intros HQ. unfold wp. destruct (run_assert_cases b s) as [-> | ->];
    [exact HQ|exact I].
Qed.

Lemma wp_get_f (Q : H5F_t H5FD_t -> env -> Prop) E s :
  Q (file s) s -> wp get_f Q E s.
Proof. intros HQ. exact HQ. Qed.

Lemma wp_put_f f (Q : unit -> env -> Prop) E s :
  Q tt (mkEnv _ (prev_addr s) f) -> wp (put_f f) Q E s.
Proof. intros HQ. exact HQ. Qed.

Lemma wp_get_prev_addr (Q : haddr_t -> env -> Prop) E s :
  Q (prev_addr s) s -> wp get_prev_addr Q E s.
Proof. intros HQ. exact HQ. Qed.

Lemma wp_put_prev_addr a (Q : unit -> env -> Prop) E s :
  Q tt (mkEnv _ a (file s)) -> wp (put_prev_addr a) Q E s.
Proof. intros HQ. exact HQ. Qed.

Lemma wp_get_pb (Q : H5PB_t -> env -> Prop) E s :
  (forall pb, pb_ptr (file s) = Some pb -> Q pb s) -> wp get_pb Q E s.
Proof.
  intros HQ. unfold wp, get_pb. destruct (pb_ptr (file s)); [|exact I].
  apply HQ. reflexivity.
Qed.

Lemma wp_put_pb pb (Q : unit -> env -> Prop) E s :
  Q tt (with_pb pb s) -> wp (put_pb pb) Q E s.
Proof. intros HQ. exact HQ. Qed.

Lemma wp_get_entry p (Q : H5PB_entry_t -> env -> Prop) E s :
  (forall pb e, pb_ptr (file s) = Some pb -> ht pb !! p = Some e -> Q e s) ->
  wp (get_entry p) Q E s.
Proof.
  intros HQ. unfold wp, get_entry. destruct (pb_ptr (file s)) as [pb|];
    [|exact I].
  destruct (ht pb !! p) as [e|] eqn:He; [|exact I].
  apply (HQ pb e); [reflexivity|exact He].
Qed.

Lemma wp_put_entry p e (Q : unit -> env -> Prop) E s :
  (forall pb, pb_ptr (file s) = Some pb ->
              Q tt (with_pb (set_ht (<[p := e]> (ht pb)) pb) s)) ->
  wp (put_entry p e) Q E s.
Proof.
  intros HQ. unfold wp, put_entry. destruct (pb_ptr (file s)) as [pb|];
    [|exact I].
  apply HQ. reflexivity.
Qed.

Lemma wp_do_memcpy dst doff src soff n (Q : bytes -> env -> Prop) E s :
  (forall b, memcpy dst doff src soff n = Some b -> Q b s) ->
  wp (do_memcpy dst doff src soff n) Q E s.
Proof.
  intros HQ. unfold wp, do_memcpy.
  destruct (memcpy dst doff src soff n) as [b|]; [|exact I].
  apply HQ. reflexivity.
Qed.

Lemma wp_get_pb_known pb (Q : H5PB_t -> env -> Prop) E s :
  pb_ptr (file s) = Some pb -> Q pb s -> wp get_pb Q E s.
Proof. intros Hpb HQ. unfold wp. rewrite (run_get_pb s pb Hpb). exact HQ. Qed.

Lemma wp_get_entry_known pb p (Q : H5PB_entry_t -> env -> Prop) E s :
  pb_ptr (file s) = Some pb ->
  (forall e, ht pb !! p = Some e -> Q e s) -> wp (get_entry p) Q E s.
Proof.
  intros Hpb HQ. apply wp_get_entry. intros pb' e Hpb' He.
  apply HQ. congruence.
Qed.

Lemma wp_put_entry_known pb p e (Q : unit -> env -> Prop) E s :
  pb_ptr (file s) = Some pb ->
  Q tt (with_pb (set_ht (<[p := e]> (ht pb)) pb) s) ->
  wp (put_entry p e) Q E s.
Proof.
  intros Hpb HQ. unfold wp. rewrite (run_put_entry s pb p e Hpb). exact HQ.
Qed.

Lemma wp_search_known pb page (Q : option Z -> env -> Prop) E s :
  pb_ptr (file s) = Some pb ->
  (forall e, ht pb !! page = Some e -> Q (Some page) s) ->
  (ht pb !! page = None -> Q None s) ->
  wp (H5PB__SEARCH_INDEX page) Q E s.
Proof.
  intros Hpb H1 H2. unfold H5PB__SEARCH_INDEX.
  apply wp_bind, (wp_get_pb_known pb _ _ _ Hpb), wp_ret.
  destruct (ht pb !! page) as [e|]; [apply (H1 e); reflexivity|].
  apply H2. reflexivity.
Qed.

Lemma wp_search page (Q : option Z -> env -> Prop) E s :
  (forall pb, pb_ptr (file s) = Some pb ->
     (forall e, ht pb !! page = Some e -> Q (Some page) s)
     /\ (ht pb !! page = None -> Q None s)) ->
  wp (H5PB__SEARCH_INDEX page) Q E s.
Proof.
  intros HQ. unfold H5PB__SEARCH_INDEX. apply wp_bind, wp_get_pb.
  intros pb Hpb. apply wp_ret. destruct (HQ pb Hpb) as [H1 H2].
  destruct (ht pb !! page) as [e|]; [apply (H1 e); reflexivity|].
  apply H2. reflexivity.
Qed.

End WpEnv.


(** ** C4: what the LRU holds *)

Lemma not_in_dll_remove p l : p ∉ dll_remove p l.
Proof.
  unfold dll_remove. intros Hin. apply list_elem_of_filter in Hin.
  destruct Hin as [Hne _]. apply Hne. reflexivity.
Qed.

Lemma in_dll_remove p q l : q ∈ dll_remove p l -> q ∈ l.
Proof.
  unfold dll_remove. intros Hin. apply list_elem_of_filter in Hin.
  apply Hin.
Qed.

Lemma pure_in h l p e :
  pure h l -> p ∈ l -> h !! p = Some e ->
  is_mpmde e = false /\ ~ 0 < delay_write_until e.
Proof.
  intros Hp Hin He. destruct (Hp p Hin) as (e' & He' & Hm & Hd).
  rewrite He in He'. injection He' as <-. split; assumption.
Qed.

Lemma pure_not_in h l p e :
  pure h l -> h !! p = Some e -> is_mpmde e = true -> p ∉ l.
Proof.
  intros Hp He Hm Hin. destruct (pure_in h l p e Hp Hin He) as [Hm' _].
  congruence.
Qed.

Lemma pure_not_in_none h l p : pure h l -> h !! p = None -> p ∉ l.
Proof.
  intros Hp He Hin. destruct (Hp p Hin) as (e' & He' & _). congruence.
Qed.

Lemma pure_insert_out h l p e :
  pure h l -> p ∉ l -> pure (<[p := e]> h) l.
Proof.
  intros Hp Hout q Hq. destruct (Hp q Hq) as (e' & He' & Hm & Hd).
  exists e'. rewrite lookup_insert_ne; [auto|]. intros ->. auto.
Qed.

Lemma pure_insert_ok h l p e :
  pure h l -> is_mpmde e = false -> ~ 0 < delay_write_until e ->
  pure (<[p := e]> h) l.
Proof.
  intros Hp Hm Hd q Hq. destruct (decide (p = q)) as [->|Hne].
  - exists e. rewrite lookup_insert_eq. auto.
  - destruct (Hp q Hq) as (e' & He' & Hm' & Hd'). exists e'.
    rewrite lookup_insert_ne; auto.
Qed.

Lemma pure_insert_same h l p e e' :
  pure h l -> h !! p = Some e -> is_mpmde e' = is_mpmde e ->
  delay_write_until e' = delay_write_until e ->
  pure (<[p := e']> h) l.
Proof.
  intros Hp He Hm Hd. destruct (decide (p ∈ l)) as [Hin|Hout].
  - destruct (pure_in h l p e Hp Hin He) as [Hm' Hd'].
    apply pure_insert_ok; [assumption|congruence|rewrite Hd; assumption].
  - apply pure_insert_out; assumption.
Qed.

Lemma pure_delete h l p : pure h l -> p ∉ l -> pure (delete p h) l.
Proof.
  intros Hp Hout q Hq. destruct (Hp q Hq) as (e' & He' & Hm & Hd).
  exists e'. rewrite lookup_delete_ne; [auto|]. intros ->. auto.
Qed.

Lemma pure_remove h l p : pure h l -> pure h (dll_remove p l).
Proof. intros Hp q Hq. apply Hp. apply (in_dll_remove p). exact Hq. Qed.

Lemma pure_cons h l p e :
  pure h l -> h !! p = Some e -> is_mpmde e = false ->
  ~ 0 < delay_write_until e -> pure h (p :: l).
Proof.
  intros Hp He Hm Hd q Hq. apply elem_of_cons in Hq.
  destruct Hq as [->|Hq]; [exists e; auto|apply Hp; exact Hq].
Qed.

Lemma pure_snoc h l p e :
  pure h l -> h !! p = Some e -> is_mpmde e = false ->
  ~ 0 < delay_write_until e -> pure h (l ++ [p]).
Proof.
  intros Hp He Hm Hd q Hq. apply elem_of_app in Hq.
  destruct Hq as [Hq|Hq]; [apply Hp; exact Hq|].
  apply elem_of_cons in Hq. destruct Hq as [->|Hq]; [exists e; auto|].
  exfalso. exact (not_elem_of_nil _ Hq).
Qed.

Lemma pure_cons_insert h l p e :
  pure h l -> p ∉ l -> is_mpmde e = false -> ~ 0 < delay_write_until e ->
  pure (<[p := e]> h) (p :: l).
Proof.
  intros Hp Hout Hm Hd. eapply pure_cons.
  - apply pure_insert_out; eassumption.
  - apply lookup_insert_eq.
  - exact Hm.
  - exact Hd.
Qed.

Lemma pure_insert_if h l p e e' :
  pure h l -> h !! p = Some e -> is_mpmde e' = is_mpmde e ->
  ~ 0 < delay_write_until e' -> pure (<[p := e']> h) l.
Proof.
  intros Hp He Hm Hd. destruct (decide (p ∈ l)) as [Hin|Hout].
  - destruct (pure_in h l p e Hp Hin He) as [Hm' _].
    apply pure_insert_ok; [assumption|congruence|assumption].
  - apply pure_insert_out; assumption.
Qed.

Lemma pure_cons_insert_ok h l p e :
  pure h l -> is_mpmde e = false -> ~ 0 < delay_write_until e ->
  pure (<[p := e]> h) (p :: l).
Proof.
  intros Hp Hm Hd. eapply pure_cons.
  - apply pure_insert_ok; eassumption.
  - apply lookup_insert_eq.
  - exact Hm.
  - exact Hd.
Qed.

Lemma pure_snoc_insert_ok h l p e :
  pure h l -> is_mpmde e = false -> ~ 0 < delay_write_until e ->
  pure (<[p := e]> h) (l ++ [p]).
Proof.
  intros Hp Hm Hd. eapply pure_snoc.
  - apply pure_insert_ok; eassumption.
  - apply lookup_insert_eq.
  - exact Hm.
  - exact Hd.
Qed.

Lemma pure_nil h : pure h [].
Proof. intros q Hq. exfalso. exact (not_elem_of_nil _ Hq). Qed.

Section Purity.
Context `{Collaborators}.

Lemma wp_call {A} (m : PB A) (Q : A -> env -> Prop) (E : env -> Prop) s :
  keeps m -> inv s -> (forall a s', inv s' -> Q a s') ->
  (forall s', inv s' -> E s') -> wp m Q E s.
Proof.
  intros Hk Hs HQ HE. apply (wp_mono _ _ _ _ _ _ (Hk s Hs)); auto.
Qed.

Lemma inv_with_pb pb s : pure (ht pb) (LRU pb) -> inv (with_pb pb s).
Proof. intros Hp pb' Hpb'. simpl in Hpb'. injection Hpb' as <-. exact Hp. Qed.

Lemma inv_pure s pb :
  inv s -> pb_ptr (file s) = Some pb -> pure (ht pb) (LRU pb).
Proof. intros Hs Hpb. exact (Hs pb Hpb). Qed.

Lemma inv_env a f s :
  inv s -> pb_ptr f = pb_ptr (file s) -> inv (mkEnv _ a f).
Proof. intros Hs Hf pb Hpb. simpl in Hpb. apply Hs. congruence. Qed.

Lemma inv_none a f : pb_ptr f = None -> inv (mkEnv _ a f).
Proof. intros Hf pb Hpb. simpl in Hpb. congruence. Qed.

End Purity.

Create HintDb pure.
Create HintDb keeps.

#[local] Hint Resolve pure_insert_out pure_insert_ok pure_delete
  pure_remove pure_nil not_in_dll_remove : pure.

(** The invariant of the state of the goal, from the purity of the
    page buffer of the state it comes from. *)
Ltac inv_hyp :=
  match goal with
  | Hs : inv ?s, Hpb : pb_ptr (file ?s) = Some ?pb |- _ =>
      lazymatch goal with
      | _ : pure (ht pb) (LRU pb) |- _ => fail
      | _ => pose proof (inv_pure s pb Hs Hpb)
      end
  end.

(** A page that cannot be on the LRU. *)
Ltac not_on_lru :=
  match goal with
  | Hm : negb (is_mpmde ?e) = false, He : ?h !! ?p = Some ?e,
    Hp : pure ?h ?l |- ?p ∉ ?l =>
      eapply pure_not_in;
      [exact Hp | exact He | apply negb_false_iff; exact Hm]
  | Hm : is_mpmde ?e = true, He : ?h !! ?p = Some ?e,
    Hp : pure ?h ?l |- ?p ∉ ?l =>
      exact (pure_not_in h l p e Hp He Hm)
  | Hn : ?h !! ?p = None, Hp : pure ?h ?l |- ?p ∉ ?l =>
      exact (pure_not_in_none h l p Hp Hn)
  | Hb : bool_decide (?p ∈ ?l) = false |- ?p ∉ ?l =>
      apply bool_decide_eq_false; exact Hb
  end.

(** A page that is on the LRU, and its entry. *)
Ltac on_lru :=
  match goal with
  | Hb : bool_decide (?p ∈ ?l) = true, Hp : pure ?h ?l |- _ =>
      let e := fresh "e" in let He := fresh "He" in
      let Hm := fresh "Hm" in let Hd := fresh "Hd" in
      destruct (Hp p (proj1 (bool_decide_eq_true _) Hb))
        as (e & He & Hm & Hd);
      clear Hb
  end.

(** The purity of an index whose entries have been assigned fields
    that purity does not read. *)
Ltac pure_same :=
  simpl;
  repeat match goal with
  | |- pure (<[?p := _]> (<[?p := ?e1]> ?h)) ?l =>
      eapply (pure_insert_same _ l p e1);
      [ | apply lookup_insert_eq | reflexivity | reflexivity ]
  | He : ?h !! ?p = Some ?e |- pure (<[?p := _]> ?h) ?l =>
      eapply (pure_insert_same h l p e);
      [ | exact He | reflexivity | reflexivity ]
  end;
  try assumption.

(** The purity of an index after an entry without a delay has been
    assigned. *)
Ltac pure_entry :=
  simpl in *; rewrite ?insert_insert_eq;
  first
    [ apply pure_cons_insert_ok;
      [ assumption
      | simpl; first [ assumption | apply negb_true_iff; assumption ]
      | simpl; lia ]
    | apply pure_snoc_insert_ok;
      [ assumption
      | simpl; first [ assumption | apply negb_true_iff; assumption ]
      | simpl; lia ]
    | eapply pure_insert_if;
      [ eassumption | eassumption | reflexivity | simpl; lia ] ].

Ltac inv_done :=
  try assumption;
  try inv_hyp;
  lazymatch goal with
  | |- inv (with_pb _ _) =>
      apply inv_with_pb; simpl; try solve [pure_same]; eauto 6 with pure
  | |- inv (mkEnv _ _ _) =>
      first [ eapply inv_env; [eassumption|reflexivity]
            | apply inv_none; reflexivity
            | intros ? [= <-]; simpl; apply pure_nil
            | idtac ]
  | |- inv _ => idtac
  | |- _ => intros; try assumption
  end.


(** The entry of a page in an index is unique. *)
Ltac same_entry :=
  repeat match goal with
  | H : ht _ !! _ = Some _ |- _ => progress (simpl in H)
  | H : <[?p := ?e]> _ !! ?p = Some ?e' |- _ =>
      rewrite lookup_insert_eq in H;
      first [ is_var e'; injection H as <- | injection H as -> | idtac ]
  | H1 : ?h !! ?p = Some ?e1, H2 : ?h !! ?p = Some ?e2 |- _ =>
      first [ constr_eq e1 e2; clear H2
            | is_var e2;
              let E := fresh in
              assert (E : e2 = e1) by congruence; subst e2; clear H2 ]
  end.

Ltac fields :=
  cbn [entry_addr entry_page entry_size image_ptr mem_type is_metadata
       is_mpmde is_dirty loaded modified_this_tick delay_write_until].

(** A call that is known to keep the invariant. *)
Ltac wp_known_call :=
  lazymatch goal with
  | |- wp ?m _ _ _ =>
      let K := fresh "K" in
      assert (K : keeps m) by (solve [eauto with keeps]);
      apply (wp_call m _ _ _ K);
      [ inv_done | intros ? ? ?; try assumption | intros ? ?; inv_done ];
      try clear K
  end.

(** One step through a call. *)
Ltac wp_step :=
  lazymatch goal with
  | |- wp (bind _ _) _ _ _ => apply wp_bind
  | |- wp (ret _) _ _ _ => apply wp_ret
  | |- wp error _ _ _ => apply wp_error
  | |- wp (abort _) _ _ _ => apply wp_abort
  | |- wp (HDassert _) _ _ _ => apply wp_assert
  | |- wp get_f _ _ _ => apply wp_get_f
  | |- wp (put_f _) _ _ _ => apply wp_put_f
  | |- wp get_prev_addr _ _ _ => apply wp_get_prev_addr
  | |- wp (put_prev_addr _) _ _ _ => apply wp_put_prev_addr
  | |- wp get_pb _ _ (with_pb ?pb' ?s) =>
      apply (wp_get_pb_known pb' _ _ _ (pb_ptr_with_pb pb' s))
  | |- wp get_pb _ _ ?s =>
      lazymatch goal with
      | Hpb : pb_ptr (file s) = Some ?pb |- _ =>
          apply (wp_get_pb_known pb _ _ _ Hpb)
      | _ => apply wp_get_pb;
             let pb := fresh "pb" in
             let Hpb := fresh "Hpb" in intros pb Hpb
      end
  | |- wp (put_pb _) _ _ _ => apply wp_put_pb; rewrite ?with_pb_with_pb
  | |- wp (get_entry _) _ _ (with_pb ?pb' ?s) =>
      apply (wp_get_entry_known pb' _ _ _ _ (pb_ptr_with_pb pb' s));
      let e := fresh "e" in let He := fresh "He" in
      intros e He; same_entry
  | |- wp (get_entry _) _ _ ?s =>
      lazymatch goal with
      | Hpb : pb_ptr (file s) = Some ?pb |- _ =>
          apply (wp_get_entry_known pb _ _ _ _ Hpb);
          let e := fresh "e" in let He := fresh "He" in
          intros e He; same_entry
      | _ => apply wp_get_entry;
             let pb := fresh "pb" in let e := fresh "e" in
             let Hpb := fresh "Hpb" in let He := fresh "He" in
             intros pb e Hpb He
      end
  | |- wp (put_entry _ _) _ _ (with_pb ?pb' ?s) =>
      apply (wp_put_entry_known pb' _ _ _ _ _ (pb_ptr_with_pb pb' s));
      rewrite ?with_pb_with_pb
  | |- wp (put_entry _ _) _ _ ?s =>
      lazymatch goal with
      | Hpb : pb_ptr (file s) = Some ?pb |- _ =>
          apply (wp_put_entry_known pb _ _ _ _ _ Hpb)
      | _ => apply wp_put_entry;
             let pb := fresh "pb" in let Hpb := fresh "Hpb" in
             intros pb Hpb
      end
  | |- wp (H5PB__SEARCH_INDEX _) _ _ (with_pb ?pb' ?s) =>
      apply (wp_search_known pb' _ _ _ _ (pb_ptr_with_pb pb' s));
      [ let e := fresh "e" in let He := fresh "He" in
        intros e He; same_entry
      | let Hn := fresh "Hnone" in intros Hn ]
  | |- wp (H5PB__SEARCH_INDEX _) _ _ ?s =>
      lazymatch goal with
      | Hpb : pb_ptr (file s) = Some ?pb |- _ =>
          apply (wp_search_known pb _ _ _ _ Hpb);
          [ let e := fresh "e" in let He := fresh "He" in
            intros e He; same_entry
          | let Hn := fresh "Hnone" in intros Hn ]
      | _ => apply wp_search;
             let pb := fresh "pb" in let Hpb := fresh "Hpb" in
             intros pb Hpb; split;
             [ let e := fresh "e" in let He := fresh "He" in
               intros e He; same_entry
             | let Hn := fresh "Hnone" in intros Hn ]
      end
  | |- wp (do_memcpy _ _ _ _ _) _ _ _ =>
      apply wp_do_memcpy; let b := fresh "b" in intros b _
  | |- wp (modify_pb _) _ _ _ => unfold modify_pb
  | |- wp (modify_entry _ _) _ _ _ => unfold modify_entry
  | |- wp (when _ _) _ _ _ => unfold when
  | |- wp (if ?b then _ else _) _ _ _ => destruct b eqn:?
  | |- wp (match ?x with _ => _ end) _ _ _ => destruct x eqn:?
  | |- wp (let _ := _ in _) _ _ _ => cbv zeta; fields
  | |- wp (H5PB__allocate_page _ _) _ _ _ => unfold H5PB__allocate_page
  | |- wp (H5PB__INSERT_IN_INDEX _) _ _ _ => unfold H5PB__INSERT_IN_INDEX
  | |- wp (H5PB__DELETE_FROM_INDEX _) _ _ _ =>
      unfold H5PB__DELETE_FROM_INDEX
  | |- wp (H5PB__UPDATE_RP_FOR_INSERTION _) _ _ _ =>
      unfold H5PB__UPDATE_RP_FOR_INSERTION
  | |- wp (H5PB__UPDATE_RP_FOR_INSERT_APPEND _) _ _ _ =>
      unfold H5PB__UPDATE_RP_FOR_INSERT_APPEND
  | |- wp (H5PB__UPDATE_RP_FOR_EVICTION _) _ _ _ =>
      unfold H5PB__UPDATE_RP_FOR_EVICTION
  | |- wp (H5PB__UPDATE_RP_FOR_REMOVE _) _ _ _ =>
      unfold H5PB__UPDATE_RP_FOR_REMOVE
  | |- wp (H5PB__UPDATE_RP_FOR_FLUSH _) _ _ _ =>
      unfold H5PB__UPDATE_RP_FOR_FLUSH
  | |- wp (H5PB__INSERT_IN_DWL _) _ _ _ => unfold H5PB__INSERT_IN_DWL
  | |- wp (H5PB__REMOVE_FROM_DWL _) _ _ _ => unfold H5PB__REMOVE_FROM_DWL
  | |- wp (H5PB__INSERT_IN_TL _) _ _ _ => unfold H5PB__INSERT_IN_TL
  | |- wp (H5PB__REMOVE_FROM_TL _) _ _ _ => unfold H5PB__REMOVE_FROM_TL
  | |- wp (unlink _ _ _) _ _ _ => unfold unlink
  | |- wp (link_head _ _ _) _ _ _ => unfold link_head
  | |- wp (H5PB__UPDATE_RP_FOR_ACCESS ?p) _ _ _ =>
      first [ wp_known_call | unfold H5PB__UPDATE_RP_FOR_ACCESS ]
  | |- wp _ _ _ _ => wp_known_call
  end.

Ltac wp_steps := repeat wp_step.
Section Keeps.
Context `{Collaborators}.

Lemma keeps_accum_read type addr size buf :
  keeps (accum_read type addr size buf).
Proof. intros s Hs. unfold accum_read. wp_steps; inv_done. Qed.

Lemma keeps_accum_write type addr size buf :
  keeps (accum_write type addr size buf).
Proof. intros s Hs. unfold accum_write. wp_steps; inv_done. Qed.

Lemma keeps_mark_entry_clean p : keeps (H5PB__mark_entry_clean p).
Proof.
  intros s Hs. unfold H5PB__mark_entry_clean. wp_steps; inv_done.
Qed.

Lemma keeps_deallocate_page p e : keeps (H5PB__deallocate_page p e).
Proof. intros s Hs. unfold H5PB__deallocate_page. wp_steps; inv_done. Qed.

#[local] Hint Resolve keeps_accum_read keeps_accum_write
  keeps_mark_entry_clean keeps_deallocate_page : keeps.

Lemma keeps_create_new_page addr size type clean :
  keeps (H5PB__create_new_page addr size type clean).
Proof.
  intros s Hs. unfold H5PB__create_new_page.
  wp_steps; try (apply wp_on_error; wp_steps); inv_done.
  - apply pure_cons_insert; simpl;
      [assumption| |apply negb_true_iff; assumption|lia].
    eapply pure_not_in_none; eassumption.
  - apply pure_insert_out; [assumption|].
    eapply pure_not_in_none; eassumption.
Qed.

Lemma keeps_evict_entry p force : keeps (H5PB__evict_entry p force).
Proof.
  intros s Hs. unfold H5PB__evict_entry.
  wp_steps; inv_done; (apply pure_delete; [assumption|not_on_lru]).
Qed.

Lemma keeps_access p : keeps (H5PB__UPDATE_RP_FOR_ACCESS p).
Proof.
  intros s Hs. wp_steps; inv_done. on_lru.
  eapply pure_cons; eauto with pure.
Qed.

#[local] Hint Resolve keeps_create_new_page keeps_evict_entry
  keeps_access : keeps.

Lemma keeps_flush_entry p : keeps (H5PB__flush_entry p).
Proof. intros s Hs. unfold H5PB__flush_entry. wp_steps; inv_done. Qed.

#[local] Hint Resolve keeps_flush_entry : keeps.

Lemma keeps_make_space_loop fuel md sp :
  keeps (make_space_loop fuel md sp).
Proof.
  revert sp. induction fuel as [|fuel IH]; intros sp s Hs; simpl.
  - wp_steps.
  - pose proof (IH : forall sp, keeps (make_space_loop fuel md sp)).
    wp_steps; inv_done.
Qed.

#[local] Hint Resolve keeps_make_space_loop : keeps.

Lemma keeps_make_space type : keeps (H5PB__make_space type).
Proof. intros s Hs. unfold H5PB__make_space. wp_steps; inv_done. Qed.

#[local] Hint Resolve keeps_make_space : keeps.

Lemma keeps_modify_entry p g :
  (forall e, is_mpmde (g e) = is_mpmde e) ->
  (forall e, delay_write_until (g e) = delay_write_until e) ->
  keeps (modify_entry p g).
Proof.
  intros Hm Hd s Hs. wp_steps. inv_done. eapply pure_insert_same; eauto.
Qed.

Lemma keeps_load_page addr type : keeps (H5PB__load_page addr type).
Proof. intros s Hs. unfold H5PB__load_page. wp_steps; inv_done. Qed.

#[local] Hint Resolve keeps_load_page : keeps.

Lemma keeps_mark_entry_dirty p : keeps (H5PB__mark_entry_dirty p).
Proof.
  intros s Hs. unfold H5PB__mark_entry_dirty. wp_steps; inv_done.
  all: simpl in *.
  all: match goal with
       | He : ?h !! ?p = Some ?e, Hp : pure ?h ?l |- pure _ ?l =>
           destruct (decide (p ∈ l)) as [Hin|Hout];
           [destruct (pure_in _ _ _ _ Hp Hin He) as [Hm Hd]
           |solve [eauto with pure]]
       end.
  all: try (apply pure_insert_ok; [apply pure_insert_ok| |]; simpl;
            try assumption; try lia).
  rewrite Hm in *. discriminate.
Qed.

#[local] Hint Resolve keeps_mark_entry_dirty : keeps.

Lemma keeps_read_meta type addr size buf :
  keeps (H5PB__read_meta type addr size buf).
Proof. intros s Hs. unfold H5PB__read_meta. wp_steps; inv_done. Qed.

Lemma keeps_read_raw_pages n addr size fpa lpa ntp i sp sa buf :
  keeps (read_raw_pages n addr size fpa lpa ntp i sp sa buf).
Proof.
  revert i sp sa buf. induction n as [|n IH]; intros i sp sa buf s Hs; simpl.
  - wp_steps. assumption.
  - pose proof (IH : forall i sp sa buf,
                  keeps (read_raw_pages n addr size fpa lpa ntp i sp sa buf)).
    wp_steps; inv_done.
Qed.

#[local] Hint Resolve keeps_read_meta keeps_read_raw_pages : keeps.

Lemma keeps_read_raw type addr size buf :
  keeps (H5PB__read_raw type addr size buf).
Proof. intros s Hs. unfold H5PB__read_raw. wp_steps; inv_done. Qed.

Lemma keeps_write_meta type addr size buf :
  keeps (H5PB__write_meta type addr size buf).
Proof. intros s Hs. unfold H5PB__write_meta. wp_steps; inv_done. Qed.

Lemma keeps_write_raw_pages n addr size fpa lpa ntp i sp sa buf :
  keeps (write_raw_pages n addr size fpa lpa ntp i sp sa buf).
Proof.
  revert i sp sa. induction n as [|n IH]; intros i sp sa s Hs; simpl.
  - wp_steps. assumption.
  - pose proof (IH : forall i sp sa,
                  keeps (write_raw_pages n addr size fpa lpa ntp i sp sa
                           buf)).
    wp_steps; inv_done.
Qed.

#[local] Hint Resolve keeps_read_raw keeps_write_meta
  keeps_write_raw_pages : keeps.

Lemma keeps_write_raw type addr size buf :
  keeps (H5PB__write_raw type addr size buf).
Proof. intros s Hs. unfold H5PB__write_raw. wp_steps; inv_done. Qed.

#[local] Hint Resolve keeps_write_raw : keeps.

Lemma keeps_add_new_page type page_addr :
  keeps (H5PB_add_new_page type page_addr).
Proof. intros s Hs. unfold H5PB_add_new_page. wp_steps; inv_done. Qed.

Lemma keeps_create size meta raw : keeps (H5PB_create size meta raw).
Proof.
  intros s Hs. unfold H5PB_create. wp_steps; inv_done.
Qed.

Lemma keeps_flush_pages l : keeps (flush_pages l).
Proof.
  induction l as [|p l IH]; intros s Hs; simpl.
  - wp_steps. assumption.
  - wp_steps; inv_done.
Qed.

Lemma keeps_dest_pages l : keeps (dest_pages l).
Proof.
  induction l as [|p l IH]; intros s Hs; simpl.
  - wp_steps. assumption.
  - wp_steps; inv_done.
Qed.

#[local] Hint Resolve keeps_flush_pages keeps_dest_pages : keeps.

Lemma keeps_flush : keeps H5PB_flush.
Proof. intros s Hs. unfold H5PB_flush. wp_steps; inv_done. Qed.

Lemma keeps_dest : keeps H5PB_dest.
Proof. intros s Hs. unfold H5PB_dest. wp_steps; inv_done. Qed.

Lemma keeps_page_exists addr : keeps (H5PB_page_exists addr).
Proof. intros s Hs. unfold H5PB_page_exists. wp_steps; inv_done. Qed.

Lemma keeps_H5PB_read type addr size buf : keeps (H5PB_read type addr size buf).
Proof. intros s Hs. unfold H5PB_read. wp_steps; inv_done. Qed.

Lemma keeps_H5PB_write type addr size buf :
  keeps (H5PB_write type addr size buf).
Proof. intros s Hs. unfold H5PB_write. wp_steps; inv_done. Qed.

Lemma keeps_update_entry addr size buf :
  keeps (H5PB_update_entry addr size buf).
Proof. intros s Hs. unfold H5PB_update_entry. wp_steps; inv_done. Qed.

Lemma keeps_set_tick : keeps H5PB_vfd_swmr__set_tick.
Proof. intros s Hs. unfold H5PB_vfd_swmr__set_tick. wp_steps; inv_done. Qed.

Lemma keeps_remove_entry addr : keeps (H5PB_remove_entry addr).
Proof.
  intros s Hs. unfold H5PB_remove_entry. wp_steps; inv_done; pure_entry.
Qed.

Lemma keeps_release_delayed_writes_loop fuel :
  keeps (release_delayed_writes_loop fuel).
Proof.
  induction fuel as [|fuel IH]; intros s Hs; simpl.
  - wp_steps.
  - wp_steps; inv_done; pure_entry.
Qed.

Lemma keeps_release_tick_list_loop fuel :
  keeps (release_tick_list_loop fuel).
Proof.
  induction fuel as [|fuel IH]; intros s Hs; simpl.
  - wp_steps.
  - wp_steps; inv_done.
Qed.

#[local] Hint Resolve keeps_release_delayed_writes_loop
  keeps_release_tick_list_loop : keeps.

Lemma keeps_release_delayed_writes :
  keeps H5PB_vfd_swmr__release_delayed_writes.
Proof.
  intros s Hs. unfold H5PB_vfd_swmr__release_delayed_writes.
  wp_steps; inv_done.
Qed.

Lemma keeps_release_tick_list : keeps H5PB_vfd_swmr__release_tick_list.
Proof.
  intros s Hs. unfold H5PB_vfd_swmr__release_tick_list.
  wp_steps; inv_done.
Qed.

(** Every call of the interface keeps the invariant. *)
Lemma keeps_do_call c : keeps (do_call c).
Proof.
  destruct c; simpl;
    auto using keeps_add_new_page, keeps_create, keeps_dest, keeps_flush,
      keeps_remove_entry, keeps_update_entry, keeps_release_delayed_writes,
      keeps_release_tick_list, keeps_set_tick, keeps_H5PB_write.
  - intros s Hs. wp_step.
    apply (wp_call _ _ _ _ (keeps_page_exists addr) Hs); [|auto].
    intros a s' Hs'. wp_steps. assumption.
  - intros s Hs. wp_step.
    apply (wp_call _ _ _ _ (keeps_H5PB_read type addr size buf) Hs); [|auto].
    intros a s' Hs'. wp_steps. assumption.
Qed.

Lemma reachable_inv s : reachable s -> inv s.
Proof.
  induction 1 as [s Hnone|s c r s' Hr IH Hc Hna|s s' Hr IH Hsame].
  - intros pb Hpb. congruence.
  - pose proof (keeps_do_call c s IH) as Hk. unfold wp in Hk.
    rewrite Hc in Hk. destruct r as [a| |w]; [exact Hk|exact Hk|].
    exfalso. exact (Hna w eq_refl).
  - intros pb Hpb. apply IH. congruence.
Qed.

(** C4, amended.  In every reachable state the members of the LRU are
    entries of the index that are not multi-page metadata entries and
    have no delay. *)
Theorem lru_has_no_mpmde_and_no_delayed_entry s pb p :
  reachable s -> pb_ptr (file s) = Some pb -> p ∈ LRU pb ->
  exists e, ht pb !! p = Some e /\ is_mpmde e = false
            /\ ~ 0 < delay_write_until e.
Proof. intros Hr Hpb Hin. exact (reachable_inv s Hr pb Hpb p Hin). Qed.

End Keeps.

(** The state after a writer has written 8 bytes of metadata is
    reachable. *)
Lemma writer_written_reachable : reachable writer_written.
Proof.
  assert (H0 : reachable writer_opened) by (apply reachable_open; reflexivity).
  assert (H1 : reachable writer_created).
  { eapply (reachable_call writer_opened (Create 64 25 25));
      [exact H0|apply surjective_pairing|vm_compute; discriminate]. }
  eapply (reachable_call writer_created
            (Write H5FD_MEM_OHDR 0 8 (replicate 8 x01)));
    [exact H1|apply surjective_pairing|vm_compute; discriminate].
Qed.

(** After a writer has written 8 bytes of metadata at address 0, page
    0 is on the LRU and its entry is modified this tick: the clause of
    the claim on [modified_this_tick] does not hold. *)
Lemma lru_holds_entry_modified_this_tick :
  reachable writer_written
  /\ LRU (page_buffer writer_written) = [0]
  /\ (modified_this_tick <$> ht (page_buffer writer_written) !! 0)
     = Some true.
Proof.
  split; [exact writer_written_reachable|].
  split; vm_compute; reflexivity.
Qed.

(** Page 0 of that state, through the theorem. *)
Lemma lru_has_no_mpmde_and_no_delayed_entry_witness :
  exists e, ht (page_buffer writer_written) !! 0 = Some e
            /\ is_mpmde e = false /\ ~ 0 < delay_write_until e.
Proof.
  apply (lru_has_no_mpmde_and_no_delayed_entry writer_written).
  - exact writer_written_reachable.
  - vm_compute. reflexivity.
  - vm_compute. constructor.
Defined.

(** ** Calls that return *)

Lemma twp_ret {S A} (a : A) (Q : A -> S -> Prop) E s :
  Q a s -> twp (ret a) Q E s.
Proof. intros HQ. exact HQ. Qed.

Lemma twp_error {S A} (Q : A -> S -> Prop) (E : S -> Prop) s :
  E s -> twp error Q E s.
Proof. intros HE. exact HE. Qed.

Lemma twp_bind {S A B} (m : ST S A) (k : A -> ST S B) Q E s :
  twp m (λ a s', twp (k a) Q E s') E s -> twp (bind m k) Q E s.
Proof.
  unfold twp, bind. destruct (m s) as [[a| |w] s']; intros Hm; exact Hm.
Qed.

Lemma twp_mono {S A} (m : ST S A) (Q Q' : A -> S -> Prop) (E E' : S -> Prop)
  s :
  twp m Q E s -> (forall a s', Q a s' -> Q' a s') ->
  (forall s', E s' -> E' s') -> twp m Q' E' s.
Proof.
  unfold twp. destruct (m s) as [[a| |w] s']; intros Hm HQ HE; auto.
Qed.

(** The result of a call, from its precondition. *)
Lemma twp_run {S A} (m : ST S A) (r : outcome A * S) s :
  twp m (λ a s', (Ok a, s') = r) (λ s', (Fail, s') = r) s -> m s = r.
Proof.
  unfold twp. destruct (m s) as [[a| |w] s']; intros Hm;
    [exact Hm|exact Hm|destruct Hm].
Qed.

(** A call whose result is known. *)
Lemma twp_ok {S A} (m : ST S A) a s' (Q : A -> S -> Prop) E s :
  m s = (Ok a, s') -> Q a s' -> twp m Q E s.
Proof. intros Hm HQ. unfold twp. rewrite Hm. exact HQ. Qed.

Lemma twp_fail {S A} (m : ST S A) s' (Q : A -> S -> Prop) (E : S -> Prop) s :
  m s = (Fail, s') -> E s' -> twp m Q E s.
Proof. intros Hm HE. unfold twp. rewrite Hm. exact HE. Qed.

Section TwpEnv.
Context `{Collaborators}.

Lemma twp_assert b (Q : unit -> env -> Prop) E s :
  NDEBUG = true \/ b = true -> Q tt s -> twp (HDassert b) Q E s.
Proof.
  intros Hb HQ. unfold twp. rewrite (run_assert b s Hb). exact HQ.
Qed.

Lemma twp_get_f (Q : H5F_t H5FD_t -> env -> Prop) E s :
  Q (file s) s -> twp get_f Q E s.
Proof. intros HQ. exact HQ. Qed.

Lemma twp_put_f f (Q : unit -> env -> Prop) E s :
  Q tt (mkEnv _ (prev_addr s) f) -> twp (put_f f) Q E s.
Proof. intros HQ. exact HQ. Qed.

Lemma twp_get_prev_addr (Q : haddr_t -> env -> Prop) E s :
  Q (prev_addr s) s -> twp get_prev_addr Q E s.
Proof. intros HQ. exact HQ. Qed.

Lemma twp_put_prev_addr a (Q : unit -> env -> Prop) E s :
  Q tt (mkEnv _ a (file s)) -> twp (put_prev_addr a) Q E s.
Proof. intros HQ. exact HQ. Qed.

Lemma twp_get_pb pb (Q : H5PB_t -> env -> Prop) E s :
  pb_ptr (file s) = Some pb -> Q pb s -> twp get_pb Q E s.
Proof.
  intros Hpb HQ. unfold twp. rewrite (run_get_pb s pb Hpb). exact HQ.
Qed.

Lemma twp_put_pb pb (Q : unit -> env -> Prop) E s :
  Q tt (with_pb pb s) -> twp (put_pb pb) Q E s.
Proof. intros HQ. exact HQ. Qed.

Lemma twp_get_entry pb p e (Q : H5PB_entry_t -> env -> Prop) E s :
  pb_ptr (file s) = Some pb -> ht pb !! p = Some e -> Q e s ->
  twp (get_entry p) Q E s.
Proof.
  intros Hpb He HQ. unfold twp. rewrite (run_get_entry s pb p e Hpb He).
  exact HQ.
Qed.

Lemma twp_put_entry pb p e (Q : unit -> env -> Prop) E s :
  pb_ptr (file s) = Some pb ->
  Q tt (with_pb (set_ht (<[p := e]> (ht pb)) pb) s) ->
  twp (put_entry p e) Q E s.
Proof.
  intros Hpb HQ. unfold twp. rewrite (run_put_entry s pb p e Hpb). exact HQ.
Qed.

Lemma twp_search pb page (Q : option Z -> env -> Prop) E s :
  pb_ptr (file s) = Some pb ->
  Q (match ht pb !! page with Some _ => Some page | None => None end) s ->
  twp (H5PB__SEARCH_INDEX page) Q E s.
Proof.
  intros Hpb HQ. unfold H5PB__SEARCH_INDEX.
  apply twp_bind, (twp_get_pb pb _ _ _ Hpb), twp_ret. exact HQ.
Qed.

Lemma twp_do_memcpy dst doff src soff n b (Q : bytes -> env -> Prop) E s :
  memcpy dst doff src soff n = Some b -> Q b s ->
  twp (do_memcpy dst doff src soff n) Q E s.
Proof. intros Hm HQ. unfold twp, do_memcpy. rewrite Hm. exact HQ. Qed.

Lemma pb_ptr_with_lf d s : pb_ptr (file (with_lf d s)) = pb_ptr (file s).
Proof. reflexivity. Qed.

Lemma with_pb_with_lf pb d s :
  with_lf d (with_pb pb s) = with_pb pb (with_lf d s).
Proof. reflexivity. Qed.

Lemma with_lf_with_lf d d' s : with_lf d (with_lf d' s) = with_lf d s.
Proof. reflexivity. Qed.

End TwpEnv.

(** The fields of entries and page buffers that have been assigned. *)
Ltac proj_simpl :=
  cbn [entry_addr entry_page entry_size image_ptr mem_type is_metadata
       is_mpmde is_dirty loaded modified_this_tick delay_write_until
       set_image set_is_dirty set_loaded set_modified_this_tick
       set_delay_write_until
       page_size max_pages curr_pages curr_md_pages curr_rd_pages
       min_md_pages min_rd_pages ht LRU vfd_swmr_writer mpmde_count cur_tick
       dwl tl set_ht set_LRU set_dwl set_tl set_cur_tick add_counts].

(** A boolean test that holds. *)
Ltac bool_to_prop :=
  rewrite ?andb_true_iff, ?orb_true_iff, ?negb_true_iff, ?negb_false_iff,
    ?andb_false_iff, ?orb_false_iff, ?Z.ltb_lt, ?Z.leb_le, ?Z.eqb_eq,
    ?Z.ltb_ge, ?Z.leb_gt, ?Z.eqb_neq, ?bool_decide_eq_true,
    ?bool_decide_eq_false.

Ltac test_true :=
  proj_simpl; bool_to_prop;
  first [ assumption | reflexivity | lia | congruence
        | intuition (first [assumption | congruence | lia]) ].

(** An assertion that holds: [left] in a build without assertions,
    its test otherwise. *)
Ltac assertion :=
  first [ left; assumption
        | right; first [ assumption | solve [test_true] ]
        | idtac ].

(** The page buffer of the state of the goal. *)
Ltac state_pb s k :=
  lazymatch s with
  | with_pb ?pb' ?s0 => k pb' (pb_ptr_with_pb pb' s0)
  | with_lf ?d ?s0 =>
      state_pb s0 ltac:(fun pb Hpb =>
        k pb (Hpb : pb_ptr (file (with_lf d s0)) = Some pb))
  | _ =>
      lazymatch goal with
      | Hpb : pb_ptr (file s) = Some ?pb |- _ => k pb Hpb
      end
  end.

(** One step through a call that returns. *)
Ltac twp_step :=
  lazymatch goal with
  | |- twp (bind _ _) _ _ _ => apply twp_bind
  | |- twp (ret _) _ _ _ => apply twp_ret
  | |- twp error _ _ _ => apply twp_error
  | |- twp (HDassert _) _ _ _ => apply twp_assert; [assertion|]
  | |- twp get_f _ _ _ => apply twp_get_f
  | |- twp (put_f _) _ _ _ => apply twp_put_f
  | |- twp get_prev_addr _ _ _ => apply twp_get_prev_addr
  | |- twp (put_prev_addr _) _ _ _ => apply twp_put_prev_addr
  | |- twp get_pb _ _ ?s =>
      state_pb s ltac:(fun pb Hpb => apply (twp_get_pb pb _ _ _ Hpb))
  | |- twp (put_pb _) _ _ _ => apply twp_put_pb; rewrite ?with_pb_with_pb
  | |- twp (get_entry ?p) _ _ ?s =>
      state_pb s ltac:(fun pb Hpb =>
        eapply (twp_get_entry pb p _ _ _ _ Hpb);
        [ simpl; rewrite ?lookup_insert_eq; first [eassumption|reflexivity]
        | ])
  | |- twp (put_entry _ _) _ _ ?s =>
      state_pb s ltac:(fun pb Hpb =>
        apply (twp_put_entry pb _ _ _ _ _ Hpb); rewrite ?with_pb_with_pb)
  | |- twp (H5PB__SEARCH_INDEX _) _ _ ?s =>
      state_pb s ltac:(fun pb Hpb => apply (twp_search pb _ _ _ _ Hpb))
  | |- twp (modify_pb _) _ _ _ => unfold modify_pb
  | |- twp (modify_entry _ _) _ _ _ => unfold modify_entry
  | |- twp (when _ _) _ _ _ => unfold when
  | |- twp (let _ := _ in _) _ _ _ => cbv zeta; fields
  | |- twp (H5PB__INSERT_IN_INDEX _) _ _ _ => unfold H5PB__INSERT_IN_INDEX
  | |- twp (H5PB__DELETE_FROM_INDEX _) _ _ _ =>
      unfold H5PB__DELETE_FROM_INDEX
  | |- twp (H5PB__UPDATE_RP_FOR_INSERTION _) _ _ _ =>
      unfold H5PB__UPDATE_RP_FOR_INSERTION
  | |- twp (H5PB__UPDATE_RP_FOR_INSERT_APPEND _) _ _ _ =>
      unfold H5PB__UPDATE_RP_FOR_INSERT_APPEND
  | |- twp (H5PB__UPDATE_RP_FOR_EVICTION _) _ _ _ =>
      unfold H5PB__UPDATE_RP_FOR_EVICTION
  | |- twp (H5PB__UPDATE_RP_FOR_REMOVE _) _ _ _ =>
      unfold H5PB__UPDATE_RP_FOR_REMOVE
  | |- twp (H5PB__UPDATE_RP_FOR_FLUSH _) _ _ _ =>
      unfold H5PB__UPDATE_RP_FOR_FLUSH
  | |- twp (H5PB__UPDATE_RP_FOR_ACCESS _) _ _ _ =>
      unfold H5PB__UPDATE_RP_FOR_ACCESS
  | |- twp (H5PB__INSERT_IN_DWL _) _ _ _ => unfold H5PB__INSERT_IN_DWL
  | |- twp (H5PB__REMOVE_FROM_DWL _) _ _ _ => unfold H5PB__REMOVE_FROM_DWL
  | |- twp (H5PB__INSERT_IN_TL _) _ _ _ => unfold H5PB__INSERT_IN_TL
  | |- twp (H5PB__REMOVE_FROM_TL _) _ _ _ => unfold H5PB__REMOVE_FROM_TL
  | |- twp (unlink _ _ _) _ _ _ => unfold unlink
  | |- twp (link_head _ _ _) _ _ _ => unfold link_head
  end.

(** A test of the code whose value is known. *)
Ltac twp_if :=
  lazymatch goal with
  | |- twp (if ?b then _ else _) _ _ _ =>
      first [ progress proj_simpl
            | replace b with true by (symmetry; test_true)
            | replace b with false by (symmetry; test_true) ];
      cbv iota
  end.

(** A test of the code that holds, or does not, with the reason left
    to prove. *)
Ltac twp_true :=
  lazymatch goal with
  | |- twp (if ?b then _ else _) _ _ _ =>
      let Hb := fresh "Hb" in
      assert (Hb : b = true); [proj_simpl; bool_to_prop|rewrite Hb; clear Hb]
  end.

Ltac twp_false :=
  lazymatch goal with
  | |- twp (if ?b then _ else _) _ _ _ =>
      let Hb := fresh "Hb" in
      assert (Hb : b = false); [proj_simpl; bool_to_prop|rewrite Hb; clear Hb]
  end.

Ltac twp_steps := repeat first [twp_step | twp_if].

(** ** Flushes and evictions *)

Section FlushEvict.
Context `{Collaborators}.

Lemma run_accum_write_ok s type addr size buf d :
  H5F__accum_write (lf (file s)) type addr size buf = Some d ->
  accum_write type addr size buf s = (Ok tt, with_lf d s).
Proof.
  intros Hw. unfold accum_write, bind, get_f. rewrite Hw. reflexivity.
Qed.

Lemma run_accum_write_fails s type addr size buf :
  H5F__accum_write (lf (file s)) type addr size buf = None ->
  accum_write type addr size buf s = (Fail, s).
Proof.
  intros Hw. unfold accum_write, bind, get_f. rewrite Hw. reflexivity.
Qed.

Lemma run_flush_entry s pb p e d :
  pb_ptr (file s) = Some pb -> ht pb !! p = Some e ->
  flushable pb (lf (file s)) e ->
  (is_mpmde e = false -> p ∈ LRU pb) ->
  H5F__accum_write (lf (file s)) (mem_type e) (entry_addr e) (entry_size e)
    (image_ptr e) = Some d ->
  H5PB__flush_entry p s = (Ok tt, with_pb (flushed p e pb) (with_lf d s)).
Proof.
  intros Hpb He (Hsz & Hps & Hsize & Hdirty & Hw & Hdel & Hu & Ha & Hb) Hlru
    Hwr.
  apply twp_run. unfold H5PB__flush_entry. twp_steps.
  eapply twp_ok; [apply run_accum_write_ok; exact Hwr|].
  unfold H5PB__mark_entry_clean. twp_steps.
  unfold flushed. rewrite Hdel. 
  destruct (is_mpmde e) eqn:Hm; cbn [negb andb Z.eqb]; twp_steps.
  - reflexivity.
  - reflexivity.
Qed.

End FlushEvict.

(** ** C7: the release of the delayed writes *)

Lemma dll_remove_id p l : p ∉ l -> dll_remove p l = l.
Proof.
  unfold dll_remove. induction l as [|q l IH]; intros Hout; [reflexivity|].
  apply not_elem_of_cons in Hout. destruct Hout as [Hne Hout].
  rewrite filter_cons_True by (intros ->; apply Hne; reflexivity).
  rewrite IH by exact Hout. reflexivity.
Qed.

Lemma dll_remove_snoc p l : p ∉ l -> dll_remove p (l ++ [p]) = l.
Proof.
  intros Hout. unfold dll_remove. rewrite filter_app.
  fold (dll_remove p l). rewrite (dll_remove_id p l Hout).
  rewrite filter_cons_False by (intros Hne; apply Hne; reflexivity).
  rewrite filter_nil. apply app_nil_r.
Qed.

Lemma filter_agree (P Q : Z -> Prop) `{!forall x, Decision (P x)}
  `{!forall x, Decision (Q x)} (l : list Z) :
  (forall x, x ∈ l -> P x <-> Q x) -> filter P l = filter Q l.
Proof.
  induction l as [|x l IH]; intros Hag; [reflexivity|].
  assert (Hl : filter P l = filter Q l).
  { apply IH. intros y Hy. apply Hag. right. exact Hy. }
  destruct (decide (P x)) as [HP|HP].
  - rewrite (filter_cons_True P x l HP).
    rewrite (filter_cons_True Q x l) by (apply Hag; [left|exact HP]).
    rewrite Hl. reflexivity.
  - rewrite (filter_cons_False P x l HP).
    rewrite (filter_cons_False Q x l)
      by (intros HQ; apply HP, Hag; [left|exact HQ]).
    exact Hl.
Qed.

Lemma released_dwl p e pb : dwl (released p e pb) = dll_remove p (dwl pb).
Proof. unfold released. destruct (is_mpmde e); reflexivity. Qed.

Lemma released_LRU p e pb :
  LRU (released p e pb) = if is_mpmde e then LRU pb else LRU pb ++ [p].
Proof. unfold released. destruct (is_mpmde e); reflexivity. Qed.

Lemma released_tl p e pb : tl (released p e pb) = tl pb.
Proof. unfold released. destruct (is_mpmde e); reflexivity. Qed.

Lemma released_page_size p e pb :
  page_size (released p e pb) = page_size pb.
Proof. unfold released. destruct (is_mpmde e); reflexivity. Qed.

Lemma released_writer p e pb :
  vfd_swmr_writer (released p e pb) = vfd_swmr_writer pb.
Proof. unfold released. destruct (is_mpmde e); reflexivity. Qed.

Lemma released_ht_ne p e pb q :
  q <> p -> ht (released p e pb) !! q = ht pb !! q.
Proof.
  intros Hne. unfold released. destruct (is_mpmde e); simpl.
  - apply lookup_delete_ne. congruence.
  - apply lookup_insert_ne. congruence.
Qed.

Lemma released_ht_eq p e pb :
  ht (released p e pb) !! p
  = if is_mpmde e then None else Some (set_delay_write_until 0 e).
Proof.
  unfold released. destruct (is_mpmde e); simpl.
  - apply lookup_delete_eq.
  - apply lookup_insert_eq.
Qed.

Lemma is_regular_agree h h' p :
  h' !! p = h !! p -> is_regular h' p = is_regular h p.
Proof. intros Heq. unfold is_regular. rewrite Heq. reflexivity. Qed.

Section ReleaseDelayedWrites.
Context `{Collaborators}.

Lemma flush_all_agree h h' l d :
  (forall p, p ∈ l -> h' !! p = h !! p) ->
  flush_all h' l d = flush_all h l d.
Proof.
  revert d. induction l as [|p l IH]; intros d Hag; [reflexivity|]. simpl.
  rewrite (Hag p) by left.
  assert (Hl : forall d0, flush_all h' l d0 = flush_all h l d0).
  { intros d0. apply IH. intros q Hq. apply Hag. right. exact Hq. }
  destruct (h !! p) as [e|]; [|apply Hl].
  destruct (is_mpmde e); [|apply Hl].
  destruct (H5F__accum_write d (mem_type e) (entry_addr e) (entry_size e)
              (image_ptr e)); [apply Hl|reflexivity].
Qed.

Lemma with_lf_same s : with_lf (lf (file s)) s = s.
Proof. destruct s as [a [o d t b1 b2 b3 b4 b5 z b6]]. reflexivity. Qed.

(** The loop leaves the list alone when its tail has not elapsed. *)
Lemma release_loop_stops fuel s pb kept :
  pb_ptr (file s) = Some pb -> dwl pb = kept ->
  stops_at pb (tick_num (file s)) kept ->
  release_delayed_writes_loop (S fuel) s = (Ok tt, s).
Proof.
  intros Hpb Hdwl Hstop. apply twp_run. simpl. twp_steps.
  unfold dll_tail. rewrite Hdwl. unfold stops_at in Hstop.
  destruct (last kept) as [q|]; [|twp_steps; reflexivity].
  destruct Hstop as (e & He & Hle). twp_steps. reflexivity.
Qed.

(** A pass of the loop for a regular page at the tail. *)
Lemma release_loop_regular fuel s pb l p e r :
  pb_ptr (file s) = Some pb -> dwl pb = l ++ [p] -> ht pb !! p = Some e ->
  delay_write_until e < tick_num (file s) -> is_dirty e = true ->
  is_mpmde e = false -> p ∉ LRU pb ->
  release_delayed_writes_loop fuel (with_pb (released p e pb) s) = (Ok tt, r) ->
  release_delayed_writes_loop (S fuel) s = (Ok tt, r).
Proof.
  intros Hpb Hdwl He Hd Hdirty Hm Hlru Hloop. apply twp_run. simpl.
  twp_steps. unfold dll_tail. rewrite Hdwl, last_snoc. twp_steps.
  twp_true. { rewrite Hdwl. apply elem_of_app. right. left. }
  rewrite Hm. twp_steps.
  eapply twp_ok; [|reflexivity].
  rewrite <- Hloop. unfold released. rewrite Hm. reflexivity.
Qed.

(** A pass of the loop for a multi-page metadata entry at the tail. *)
Lemma release_loop_mpmde fuel s pb l p e d r :
  pb_ptr (file s) = Some pb -> dwl pb = l ++ [p] -> ht pb !! p = Some e ->
  delay_write_until e < tick_num (file s) -> is_dirty e = true ->
  is_mpmde e = true -> p ∉ LRU pb -> p ∉ tl pb ->
  modified_this_tick e = false ->
  flushable pb (lf (file s)) (set_delay_write_until 0 e) ->
  H5F__accum_write (lf (file s)) (mem_type e) (entry_addr e) (entry_size e)
    (image_ptr e) = Some d ->
  release_delayed_writes_loop fuel
    (with_pb (released p e pb) (with_lf d s)) = (Ok tt, r) ->
  release_delayed_writes_loop (S fuel) s = (Ok tt, r).
Proof.
  intros Hpb Hdwl He Hd Hdirty Hm Hlru Htl Hmod Hfl Hwr Hloop.
  apply twp_run. simpl.
  twp_steps. unfold dll_tail. rewrite Hdwl, last_snoc. twp_steps.
  twp_true. { rewrite Hdwl. apply elem_of_app. right. left. }
  rewrite Hm. twp_steps.
  set (e0 := set_delay_write_until 0 e).
  set (pb0 := set_dwl (dll_remove p (dwl pb))
                (set_ht (<[p := e0]> (ht pb)) pb)).
  assert (He0 : ht pb0 !! p = Some e0) by apply lookup_insert_eq.
  eapply twp_ok.
  { apply (run_flush_entry (with_pb pb0 s) pb0 p e0 d (pb_ptr_with_pb _ _)
             He0 Hfl).
    - unfold e0. simpl. congruence.
    - exact Hwr. }
  set (pb1 := flushed p e0 pb0).
  assert (He1 : ht pb1 !! p = Some (set_is_dirty false e0)).
  { unfold pb1, flushed. simpl. rewrite Hm. simpl. apply lookup_insert_eq. }
  destruct Hfl as (Hsz & _).
  eapply twp_ok.
  { apply (run_evict_clean _ pb1 p (set_is_dirty false e0)
             (pb_ptr_with_pb _ _) He1); simpl; try assumption; try reflexivity.
    - congruence.
    - intros _. unfold pb1, flushed. simpl. rewrite Hm. simpl. exact Hlru.
    - unfold pb1, flushed. simpl. rewrite Hm. simpl.
      apply dll_remove_not_in.
    - unfold pb1, flushed. simpl. rewrite Hm. simpl. exact Htl. }
  eapply twp_ok; [|reflexivity].
  rewrite <- Hloop. f_equal. rewrite with_pb_with_pb.
  unfold with_pb at 1 3. f_equal.
  unfold evicted, released, pb1, flushed, pb0, e0. simpl. rewrite Hm. simpl.
  rewrite !delete_insert_eq. reflexivity.
Qed.

Lemma release_loop kept tick rel :
  write_keeps_eoa ->
  forall fuel s pb d',
    pb_ptr (file s) = Some pb -> tick_num (file s) = tick ->
    dwl pb = kept ++ rel -> NoDup (kept ++ rel) ->
    stops_at pb tick kept ->
    (forall p, p ∈ rel -> releasable pb (lf (file s)) tick p) ->
    flush_all (ht pb) (reverse rel) (lf (file s)) = Some d' ->
    (length rel < fuel)%nat ->
    exists pb',
      release_delayed_writes_loop fuel s
      = (Ok tt, with_pb pb' (with_lf d' s))
      /\ dwl pb' = kept
      /\ LRU pb'
         = LRU pb ++ filter (λ p, is_regular (ht pb) p = true) (reverse rel)
      /\ tl pb' = tl pb
      /\ (forall p, p ∈ rel ->
            ht pb' !! p
            = if is_regular (ht pb) p
              then set_delay_write_until 0 <$> ht pb !! p
              else None)
      /\ (forall p, p ∉ rel -> ht pb' !! p = ht pb !! p).
Proof.
  intros Heoa. induction rel as [|p rel IH] using rev_ind;
    intros fuel s pb d' Hpb Htick Hdwl Hnd Hstop Hrel Hfl Hfuel.
  - simpl in Hfl. injection Hfl as <-. rewrite app_nil_r in Hdwl.
    destruct fuel as [|fuel]; [simpl in Hfuel; lia|].
    exists pb. rewrite with_lf_same, (with_pb_same pb s Hpb).
    rewrite <- Htick in Hstop.
    rewrite (release_loop_stops fuel s pb kept Hpb Hdwl Hstop).
    repeat split; try assumption.
    + simpl. rewrite app_nil_r. reflexivity.
    + intros q Hq. exfalso. exact (not_elem_of_nil _ Hq).
  - destruct fuel as [|fuel]; [simpl in Hfuel; lia|].
    rewrite length_app in Hfuel. simpl in Hfuel.
    rewrite app_assoc in Hdwl, Hnd.
    apply NoDup_app in Hnd. destruct Hnd as (Hnd & Hnp & _).
    assert (Hout : p ∉ kept ++ rel).
    { intros Hin. apply (Hnp p Hin). left. }
    destruct (Hrel p) as (e & He & Hd & Hdirty & Hlru & Htl & Hmp).
    { apply elem_of_app. right. left. }
    rewrite reverse_app in Hfl. simpl in Hfl. rewrite He in Hfl.
    assert (Hne : forall q, q ∈ kept ++ rel -> q <> p).
    { intros q Hq ->. exact (Hout Hq). }
    assert (Hht : forall q, q ∈ kept ++ rel ->
                    ht (released p e pb) !! q = ht pb !! q).
    { intros q Hq. apply released_ht_ne. apply Hne. exact Hq. }
    assert (Hdwl1 : dwl (released p e pb) = kept ++ rel).
    { rewrite released_dwl, Hdwl. apply dll_remove_snoc. exact Hout. }
    assert (Hstop1 : stops_at (released p e pb) tick kept).
    { unfold stops_at in *. destruct (last kept) as [q|] eqn:Hq; [|exact I].
      rewrite Hht; [exact Hstop|].
      apply elem_of_app. left. apply last_Some_elem_of. exact Hq. }
    assert (Hreg : forall q, q ∈ rel ->
              is_regular (ht (released p e pb)) q = is_regular (ht pb) q).
    { intros q Hq. apply is_regular_agree, Hht, elem_of_app. right.
      exact Hq. }
    assert (Hagree : forall d0,
              flush_all (ht (released p e pb)) (reverse rel) d0
              = flush_all (ht pb) (reverse rel) d0).
    { intros d0. apply flush_all_agree. intros q Hq. apply Hht.
      apply elem_of_app. right. apply elem_of_reverse. exact Hq. }
    assert (Hpost : forall pb' : H5PB_t,
              dwl pb' = kept ->
              LRU pb'
              = LRU (released p e pb)
                ++ filter (λ q, is_regular (ht (released p e pb)) q = true)
                     (reverse rel) ->
              tl pb' = tl (released p e pb) ->
              (forall q, q ∈ rel ->
                 ht pb' !! q
                 = if is_regular (ht (released p e pb)) q
                   then set_delay_write_until 0
                        <$> ht (released p e pb) !! q
                   else None) ->
              (forall q, q ∉ rel -> ht pb' !! q = ht (released p e pb) !! q) ->
              dwl pb' = kept
              /\ LRU pb'
                 = LRU pb
                   ++ filter (λ q, is_regular (ht pb) q = true)
                        (reverse (rel ++ [p]))
              /\ tl pb' = tl pb
              /\ (forall q, q ∈ rel ++ [p] ->
                    ht pb' !! q
                    = if is_regular (ht pb) q
                      then set_delay_write_until 0 <$> ht pb !! q
                      else None)
              /\ (forall q, q ∉ rel ++ [p] -> ht pb' !! q = ht pb !! q)).
    { intros pb' H1 H2 H3 H4 H5.
      assert (Hp : p ∉ rel).
      { intros Hin. apply Hout, elem_of_app. right. exact Hin. }
      split; [exact H1|]. split; [|split; [|split]].
      - rewrite H2, released_LRU, reverse_app. simpl.
        rewrite (filter_agree
                   (λ q, is_regular (ht (released p e pb)) q = true)
                   (λ q, is_regular (ht pb) q = true) (reverse rel)).
        2:{ intros q Hq. rewrite Hreg; [reflexivity|].
            apply elem_of_reverse. exact Hq. }
        assert (Hrp : is_regular (ht pb) p = negb (is_mpmde e)).
        { unfold is_regular. rewrite He. reflexivity. }
        destruct (is_mpmde e); simpl in Hrp.
        + rewrite filter_cons_False by (rewrite Hrp; discriminate).
          reflexivity.
        + rewrite filter_cons_True by exact Hrp.
          rewrite <- app_assoc. reflexivity.
      - rewrite H3. apply released_tl.
      - intros q Hq. apply elem_of_app in Hq. destruct Hq as [Hq|Hq].
        + rewrite (H4 q Hq), (Hreg q Hq), Hht; [reflexivity|].
          apply elem_of_app. right. exact Hq.
        + apply list_elem_of_singleton in Hq. subst q.
          rewrite (H5 p Hp), released_ht_eq. unfold is_regular.
          rewrite He. destruct (is_mpmde e); reflexivity.
      - intros q Hq. rewrite H5.
        + apply released_ht_ne. intros ->. apply Hq, elem_of_app. right. left.
        + intros Hin. apply Hq, elem_of_app. left. exact Hin. }
    destruct (is_mpmde e) eqn:Hm.
    + destruct (Hmp eq_refl) as (Hmod & Hsz & Hps & Hw & Hu & Ha & Hb).
      destruct (H5F__accum_write (lf (file s)) (mem_type e) (entry_addr e)
                  (entry_size e) (image_ptr e)) as [d|] eqn:Hwr;
        [|discriminate].
      destruct (IH fuel (with_pb (released p e pb) (with_lf d s))
                  (released p e pb) d') as (pb' & Hrun & H1 & H2 & H3 & H4 & H5).
      * apply pb_ptr_with_pb.
      * exact Htick.
      * exact Hdwl1.
      * exact Hnd.
      * exact Hstop1.
      * intros q Hq. destruct (Hrel q) as (eq & Heq & Hdq & Hdirtyq & Hlruq
                                           & Htlq & Hmq).
        { apply elem_of_app. left. exact Hq. }
        exists eq. simpl. rewrite Hht by (apply elem_of_app; right; exact Hq).
        rewrite Heq.
        rewrite released_LRU, released_tl, released_page_size,
          released_writer, Hm.
        rewrite !(Heoa _ _ _ _ _ _ _ Hwr).
        split; [reflexivity|]. split; [exact Hdq|]. split; [exact Hdirtyq|].
        split; [exact Hlruq|]. split; [exact Htlq|]. exact Hmq.
      * simpl. rewrite Hagree. exact Hfl.
      * lia.
      * exists pb'. split; [|apply Hpost; assumption].
        apply (release_loop_mpmde fuel s pb (kept ++ rel) p e d _ Hpb Hdwl He);
          try assumption.
        { rewrite Htick. exact Hd. }
        { unfold flushable. simpl. repeat split; auto. }
    + destruct (IH fuel (with_pb (released p e pb) s) (released p e pb) d')
        as (pb' & Hrun & H1 & H2 & H3 & H4 & H5).
      * apply pb_ptr_with_pb.
      * exact Htick.
      * exact Hdwl1.
      * exact Hnd.
      * exact Hstop1.
      * intros q Hq. destruct (Hrel q) as (eq & Heq & Hdq & Hdirtyq & Hlruq
                                           & Htlq & Hmq).
        { apply elem_of_app. left. exact Hq. }
        exists eq. simpl. rewrite Hht by (apply elem_of_app; right; exact Hq).
        rewrite Heq.
        rewrite released_LRU, released_tl, released_page_size,
          released_writer, Hm.
        split; [reflexivity|]. split; [exact Hdq|]. split; [exact Hdirtyq|].
        split; [|split; [exact Htlq|exact Hmq]].
        intros Hin. apply elem_of_app in Hin. destruct Hin as [Hin|Hin];
          [exact (Hlruq Hin)|].
        apply list_elem_of_singleton in Hin. subst q.
        apply Hout, elem_of_app. right. exact Hq.
      * simpl. rewrite Hagree. exact Hfl.
      * lia.
      * exists pb'. split; [|apply Hpost; assumption].
        apply (release_loop_regular fuel s pb (kept ++ rel) p e _ Hpb Hdwl He);
          try assumption.
        { rewrite Htick. exact Hd. }
Qed.

End ReleaseDelayedWrites.

Lemma filter_none (P : Z -> Prop) `{!forall x, Decision (P x)} (l : list Z) :
  (forall x, x ∈ l -> ~ P x) -> filter P l = [].
Proof.
  induction l as [|x l IH]; intros Hl; [reflexivity|].
  rewrite filter_cons_False by (apply Hl; left).
  apply IH. intros y Hy. apply Hl. right. exact Hy.
Qed.

Lemma filter_all (P : Z -> Prop) `{!forall x, Decision (P x)} (l : list Z) :
  (forall x, x ∈ l -> P x) -> filter P l = l.
Proof.
  induction l as [|x l IH]; intros Hl; [reflexivity|].
  rewrite filter_cons_True by (apply Hl; left).
  f_equal. apply IH. intros y Hy. apply Hl. right. exact Hy.
Qed.

Lemma dwl_sorted_split h tick l :
  dwl_sorted h l = true ->
  l = filter (λ p, tick <= delay_of h p) l
      ++ filter (λ p, delay_of h p < tick) l.
Proof.
  induction l as [|p l IH]; intros Hs; [reflexivity|].
  simpl in Hs. apply andb_true_iff in Hs. destruct Hs as [Hall Hs].
  destruct (decide (tick <= delay_of h p)) as [Hle|Hlt].
  - rewrite filter_cons_True by exact Hle.
    rewrite filter_cons_False by lia.
    simpl. f_equal. apply IH. exact Hs.
  - rewrite filter_cons_False by exact Hlt.
    rewrite filter_cons_True by lia.
    assert (Hl : forall q, q ∈ l -> delay_of h q < tick).
    { intros q Hq. rewrite forallb_forall in Hall.
      assert (Hq' : In q l) by (apply list_elem_of_In; exact Hq).
      specialize (Hall q Hq'). apply Z.leb_le in Hall. lia. }
    rewrite (filter_none (λ p0, tick <= delay_of h p0) l)
      by (intros q Hq; specialize (Hl q Hq); lia).
    rewrite (filter_all (λ p0, delay_of h p0 < tick) l Hl).
    reflexivity.
Qed.

Section ReleaseDelayedWritesTheorem.
Context `{Collaborators}.

(** C7.  When the delayed write list is sorted by decreasing delay,
    the call returns and has released the members whose delay is less
    than the tick of the file, from the tail on: the others are the
    list after the call; the regular pages among the released ones are
    on the tail of the LRU in the order of their release, with their
    delay cleared; the multi-page metadata entries among them have
    been written through the driver and are no more in the index; and
    no other entry has changed. *)
Theorem release_delayed_writes_releases_elapsed (s : env) (pb : H5PB_t)
  (d' : H5FD_t) :
  let tick := tick_num (file s) in
  let rel := filter (λ p, delay_of (ht pb) p < tick) (dwl pb) in
  let kept := filter (λ p, tick <= delay_of (ht pb) p) (dwl pb) in
  write_keeps_eoa ->
  pb_ptr (file s) = Some pb ->
  f_vfd_swmr (file s) = true -> f_vfd_swmr_writer (file s) = true ->
  vfd_swmr_writer pb = true ->
  NoDup (dwl pb) -> dwl_sorted (ht pb) (dwl pb) = true ->
  (forall p, p ∈ dwl pb -> is_Some (ht pb !! p)) ->
  (forall p, p ∈ rel -> releasable pb (lf (file s)) tick p) ->
  flush_all (ht pb) (reverse rel) (lf (file s)) = Some d' ->
  exists pb',
    H5PB_vfd_swmr__release_delayed_writes s
    = (Ok tt, with_pb pb' (with_lf d' s))
    /\ dwl pb' = kept
    /\ LRU pb'
       = LRU pb ++ filter (λ p, is_regular (ht pb) p = true) (reverse rel)
    /\ tl pb' = tl pb
    /\ (forall p, p ∈ rel ->
          ht pb' !! p
          = if is_regular (ht pb) p
            then set_delay_write_until 0 <$> ht pb !! p
            else None)
    /\ (forall p, p ∉ rel -> ht pb' !! p = ht pb !! p).
Proof.
  intros tick rel kept Heoa Hpb Hf1 Hf2 Hw Hnd Hsorted Hin Hrel Hfl.
  pose proof (dwl_sorted_split (ht pb) tick (dwl pb) Hsorted) as Hsplit.
  fold rel kept in Hsplit.
  assert (Hstop : stops_at pb tick kept).
  { unfold stops_at. destruct (last kept) as [q|] eqn:Hq; [|exact I].
    apply last_Some_elem_of in Hq. unfold kept in Hq.
    apply list_elem_of_filter in Hq. destruct Hq as [Hle Hq].
    destruct (Hin q Hq) as [e He]. exists e. split; [exact He|].
    unfold delay_of in Hle. rewrite He in Hle. exact Hle. }
  destruct (release_loop kept tick rel Heoa (S (length (dwl pb))) s pb d')
    as (pb' & Hrun & Hpost); try assumption.
  - reflexivity.
  - rewrite <- Hsplit. exact Hnd.
  - pose proof (f_equal length Hsplit) as Hlen.
    rewrite length_app in Hlen. lia.
  - exists pb'. split; [|exact Hpost].
    rewrite <- Hrun. apply twp_run.
    unfold H5PB_vfd_swmr__release_delayed_writes. twp_steps.
    unfold twp.
    destruct (release_delayed_writes_loop (S (length (dwl pb))) s)
      as [[[]| |w] s1]; try reflexivity.
    discriminate Hrun.
Qed.

End ReleaseDelayedWritesTheorem.

(** A write of the driver in memory keeps the length of the file. *)
Lemma mem_write_keeps_eoa ndebug delay :
  @write_keeps_eoa (mem_collaborators ndebug delay).
Proof.
  intros d type addr size buf d' t Hw. simpl in *. unfold mem_write in Hw.
  unfold mem_eoa. destruct (sub_bytes buf 0 size) as [b|]; [|discriminate].
  apply (blit_length _ _ _ _ Hw).
Qed.

(** At tick 7 the pages 1 and 2 are released and page 4 is kept: page
    1 goes to the LRU without delay, the entry of page 2 is written to
    the file and evicted. *)
Lemma release_delayed_writes_releases_elapsed_witness :
  exists pb' d',
    H5PB_vfd_swmr__release_delayed_writes delayed_env
    = (Ok tt, with_pb pb' (with_lf d' delayed_env))
    /\ dwl pb' = [4] /\ LRU pb' = [1]
    /\ (delay_write_until <$> ht pb' !! 1) = Some 0
    /\ ht pb' !! 2 = None
    /\ ht pb' !! 4 = ht delayed_pb !! 4
    /\ sub_bytes d' 32 32 = Some (replicate 32 x02).
Proof.
  destruct (release_delayed_writes_releases_elapsed delayed_env delayed_pb
              (replicate 32 x2a ++ replicate 32 x02 ++ replicate 64 x2a))
    as (pb' & Hrun & Hdwl & Hlru & _ & Hrel & Hkept).
  - apply mem_write_keeps_eoa.
  - reflexivity.
  - reflexivity.
  - reflexivity.
  - reflexivity.
  - apply (bool_decide_unpack _). vm_compute. exact I.
  - reflexivity.
  - intros p Hp. apply (bool_decide_unpack _).
    apply elem_of_cons in Hp. destruct Hp as [->|Hp]; [vm_compute; exact I|].
    apply elem_of_cons in Hp. destruct Hp as [->|Hp]; [vm_compute; exact I|].
    apply elem_of_cons in Hp. destruct Hp as [->|Hp]; [vm_compute; exact I|].
    exfalso. exact (not_elem_of_nil _ Hp).
  - intros p Hp. apply list_elem_of_filter in Hp. destruct Hp as [Hlt Hp].
    apply elem_of_cons in Hp. destruct Hp as [->|Hp];
      [vm_compute in Hlt; discriminate|].
    apply elem_of_cons in Hp. destruct Hp as [->|Hp].
    { eexists. split; [reflexivity|]. simpl.
      repeat split; try reflexivity; try apply not_elem_of_nil;
        try (vm_compute; congruence). }
    apply elem_of_cons in Hp. destruct Hp as [->|Hp].
    { eexists. split; [reflexivity|]. simpl.
      repeat split; try reflexivity; try apply not_elem_of_nil;
        try discriminate. }
    exfalso. exact (not_elem_of_nil _ Hp).
  - vm_compute. reflexivity.
  - exists pb', (replicate 32 x2a ++ replicate 32 x02 ++ replicate 64 x2a).
    split; [exact Hrun|]. split; [exact Hdwl|]. split; [exact Hlru|].
    split; [|split; [|split]].
    + rewrite (Hrel 1); [reflexivity|]. vm_compute.
      apply elem_of_cons. right. left.
    + rewrite (Hrel 2); [reflexivity|]. vm_compute. left.
    + apply Hkept. intros Hin. apply list_elem_of_filter in Hin.
      destruct Hin as [Hlt _]. vm_compute in Hlt. discriminate.
    + vm_compute. reflexivity.
Defined.

(** ** C5: the walk of [H5PB__make_space] *)

Lemma dll_prev_head c l : c ∉ l -> dll_prev (c :: l) c = None.
Proof.
  revert c. induction l as [|q l IH]; intros c Hout; [reflexivity|].
  apply not_elem_of_cons in Hout. destruct Hout as [Hne Hout].
  simpl. rewrite bool_decide_eq_false_2 by congruence.
  destruct l as [|r l]; [reflexivity|].
  apply not_elem_of_cons in Hout. destruct Hout as [Hne' Hout].
  rewrite bool_decide_eq_false_2 by congruence.
  specialize (IH c). simpl in IH.
Abort.

Lemma dll_prev_not_in c l : c ∉ l -> dll_prev l c = None.
Proof.
  induction l as [|q l IH]; intros Hout; [reflexivity|].
  apply not_elem_of_cons in Hout. destruct Hout as [Hne Hout].
  simpl. destruct l as [|r l]; [reflexivity|].
  rewrite bool_decide_eq_false_2.
  - apply IH. exact Hout.
  - intros ->. apply Hout. left.
Qed.

Lemma dll_prev_at_head c l : c ∉ l -> dll_prev (c :: l) c = None.
Proof.
  intros Hout. simpl. destruct l as [|r l]; [reflexivity|].
  rewrite bool_decide_eq_false_2.
  - apply dll_prev_not_in. exact Hout.
  - intros ->. apply Hout. left.
Qed.

Lemma dll_prev_middle pre c post :
  NoDup (pre ++ c :: post) -> dll_prev (pre ++ c :: post) c = last pre.
Proof.
  induction pre as [|q pre IH]; intros Hnd.
  - simpl in Hnd. apply NoDup_cons in Hnd. destruct Hnd as [Hout _].
    apply dll_prev_at_head. exact Hout.
  - change ((q :: pre) ++ c :: post) with (q :: (pre ++ c :: post)) in *.
    apply NoDup_cons in Hnd. destruct Hnd as [Hq Hnd].
    destruct pre as [|r pre].
    + simpl. rewrite bool_decide_eq_true_2 by reflexivity. reflexivity.
    + change (dll_prev (q :: (r :: pre) ++ c :: post) c)
        with (if bool_decide (r = c) then Some q
              else dll_prev ((r :: pre) ++ c :: post) c).
      rewrite bool_decide_eq_false_2.
      * rewrite (IH Hnd). symmetry. apply last_cons_cons.
      * intros ->. simpl in Hnd. apply NoDup_cons in Hnd.
        destruct Hnd as [Hc _]. apply Hc, elem_of_app. right. left.
Qed.

Lemma dll_remove_middle pre c post :
  NoDup (pre ++ c :: post) -> dll_remove c (pre ++ c :: post) = pre ++ post.
Proof.
  intros Hnd. apply NoDup_app in Hnd. destruct Hnd as (_ & Hpre & Hpost).
  apply NoDup_cons in Hpost. destruct Hpost as [Hc _].
  unfold dll_remove. rewrite filter_app.
  rewrite filter_cons_False by (intros Hne; apply Hne; reflexivity).
  fold (dll_remove c pre). fold (dll_remove c post).
  rewrite (dll_remove_id c pre), (dll_remove_id c post); [reflexivity| |].
  - exact Hc.
  - intros Hin. apply (Hpre c Hin). left.
Qed.

Section MakeSpace.
Context `{Collaborators}.

(** The eviction, without [force], of a clean entry whose class is at
    its minimum or above. *)
Lemma run_evict_unforced s pb p e :
  pb_ptr (file s) = Some pb -> ht pb !! p = Some e ->
  0 < entry_size e -> modified_this_tick e = false ->
  delay_write_until e = 0 -> is_dirty e = false -> refused pb e = false ->
  is_mpmde e = false -> p ∈ LRU pb -> p ∉ dwl pb -> p ∉ tl pb ->
  H5PB__evict_entry p false s = (Ok tt, with_pb (evicted p e pb) s).
Proof.
  intros Hpb He Hsz Hmod Hdel Hdirty Href Hm Hlru Hdwl Htl.
  apply twp_run. unfold H5PB__evict_entry. twp_steps.
  unfold refused in Href.
  destruct (is_metadata e) eqn:Hmd; cbn [negb andb]; rewrite Href;
    cbn [negb andb]; twp_steps.
  all: unfold H5PB__deallocate_page; twp_steps.
  all: try (right; proj_simpl;
            rewrite ?links_null_not_in
              by first [assumption|apply dll_remove_not_in];
            reflexivity).
  all: proj_simpl; rewrite lookup_delete_eq; twp_steps.
  all: unfold evicted; rewrite Hm, Hmd; reflexivity.
Qed.

Lemma loop_head_passed fuel md s pb :
  pb_ptr (file s) = Some pb ->
  make_space_loop (S fuel) md None s = (Ok None, s).
Proof.
  intros Hpb. simpl.
  rewrite (run_bind_ok _ _ _ _ _ (run_get_pb _ _ Hpb)). reflexivity.
Qed.

Lemma loop_space fuel md s pb sp :
  pb_ptr (file s) = Some pb -> curr_pages pb < max_pages pb ->
  make_space_loop (S fuel) md (Some sp) s = (Ok (Some sp), s).
Proof.
  intros Hpb Hlt. simpl.
  rewrite (run_bind_ok _ _ _ _ _ (run_get_pb _ _ Hpb)).
  rewrite (proj2 (Z.leb_gt _ _) Hlt). reflexivity.
Qed.

(** The pass of the loop for a candidate, when the page buffer is
    full. *)
Lemma loop_pass fuel md s pb sp e :
  pb_ptr (file s) = Some pb -> max_pages pb <= curr_pages pb ->
  ht pb !! sp = Some e ->
  make_space_loop (S fuel) md (Some sp) s
  = if skipped md pb e then
      make_space_loop fuel md (dll_prev (LRU pb) sp) s
    else if is_dirty e then
      (H5PB__flush_entry sp ;;;
       make_space_loop fuel md
         (Some (default sp (dll_prev (LRU pb) sp)))) s
    else
      (H5PB__evict_entry sp false ;;;
       make_space_loop fuel md (dll_prev (LRU pb) sp)) s.
Proof.
  intros Hpb Hfull He. simpl.
  rewrite (run_bind_ok _ _ _ _ _ (run_get_pb _ _ Hpb)).
  rewrite (proj2 (Z.leb_le _ _) Hfull).
  rewrite (run_bind_ok _ _ _ _ _ (run_get_entry _ _ _ _ Hpb He)).
  unfold skipped.
  destruct (modified_this_tick e); [reflexivity|]. cbn [orb].
  destruct (md && negb (is_metadata e)
            && (curr_rd_pages pb <=? min_rd_pages pb)); [reflexivity|].
  cbn [orb].
  destruct (negb md && is_metadata e
            && (curr_md_pages pb <=? min_md_pages pb)); [reflexivity|].
  destruct (is_dirty e); [|reflexivity].
  destruct (dll_prev (LRU pb) sp); reflexivity.
Qed.

Lemma run_flush_entry_fails s pb p e :
  pb_ptr (file s) = Some pb -> ht pb !! p = Some e ->
  0 < entry_size e -> page_size pb <= entry_size e ->
  entry_size e = page_size pb \/ is_mpmde e = true ->
  is_dirty e = true ->
  vfd_swmr_writer pb = true \/ is_mpmde e = false ->
  delay_write_until e = 0 ->
  (H5F_get_eoa (lf (file s)) (mem_type e) <> HADDR_UNDEF ->
   entry_addr e < H5F_get_eoa (lf (file s)) (mem_type e)
   /\ u64 (entry_addr e + entry_size e)
      <= H5F_get_eoa (lf (file s)) (mem_type e)) ->
  H5F_get_eoa (lf (file s)) (mem_type e) = HADDR_UNDEF
  \/ H5F__accum_write (lf (file s)) (mem_type e) (entry_addr e)
       (entry_size e) (image_ptr e) = None ->
  H5PB__flush_entry p s = (Fail, s).
Proof.
  intros Hpb He Hsz Hps Hsize Hdirty Hw Hdel Heoa Hfail.
  apply twp_run. unfold H5PB__flush_entry. twp_steps.
  destruct (Z.eqb_spec HADDR_UNDEF
              (H5F_get_eoa (lf (file s)) (mem_type e))) as [Hu|Hu].
  - twp_steps. reflexivity.
  - destruct Hfail as [Hfail|Hfail]; [congruence|].
    destruct Heoa as [Ha Hb]; [congruence|].
    twp_steps.
    eapply twp_fail; [apply run_accum_write_fails; exact Hfail|].
    reflexivity.
Qed.

End MakeSpace.

Lemma dirty_count_app h l1 l2 :
  dirty_count h (l1 ++ l2) = (dirty_count h l1 + dirty_count h l2)%nat.
Proof. unfold dirty_count. rewrite filter_app, length_app. reflexivity. Qed.

Lemma dirty_count_agree h h' l :
  (forall p, p ∈ l -> h' !! p = h !! p) ->
  dirty_count h' l = dirty_count h l.
Proof.
  intros Hag. unfold dirty_count. f_equal. apply filter_agree.
  intros p Hp. rewrite (Hag p Hp). reflexivity.
Qed.

Lemma dirty_count_dirty h p e :
  h !! p = Some e -> is_dirty e = true -> dirty_count h [p] = 1%nat.
Proof.
  intros He Hd. unfold dirty_count. rewrite filter_cons_True; [reflexivity|].
  rewrite He. simpl. rewrite Hd. reflexivity.
Qed.

Lemma dirty_count_clean h p e l :
  h !! p = Some e -> is_dirty e = false ->
  dirty_count h (p :: l) = dirty_count h l.
Proof.
  intros He Hd. unfold dirty_count. rewrite filter_cons_False; [reflexivity|].
  rewrite He. simpl. rewrite Hd. discriminate.
Qed.

Section MakeSpaceWalk.
Context `{Collaborators}.

Lemma lru_wf_flushed pb d c e d1 :
  write_keeps_eoa -> lru_wf pb d -> ht pb !! c = Some e -> c ∈ LRU pb ->
  H5F__accum_write d (mem_type e) (entry_addr e) (entry_size e) (image_ptr e)
  = Some d1 ->
  lru_wf (flushed c e pb) d1.
Proof.
  intros Heoa (Hps & Hnd & Hwf) He Hin Hwr.
  destruct (Hwf c Hin) as (e' & He' & Hm & Hdel & H3 & H4 & H5 & H6).
  rewrite He in He'. injection He' as <-.
  unfold flushed. rewrite Hm, Hdel. cbn [negb andb Z.eqb].
  split; [exact Hps|]. split.
  - simpl. apply NoDup_cons. split; [apply dll_remove_not_in|].
    unfold dll_remove. apply NoDup_filter. exact Hnd.
  - simpl. intros p Hp. destruct (decide (p = c)) as [->|Hne].
    + exists (set_is_dirty false e). rewrite lookup_insert_eq.
      simpl. repeat split; try assumption; discriminate.
    + apply elem_of_cons in Hp. destruct Hp as [Hp|Hp]; [congruence|].
      apply in_dll_remove in Hp.
      destruct (Hwf p Hp) as (e' & He' & H1' & H2' & H3' & H4' & H5' & H6').
      exists e'. rewrite lookup_insert_ne by congruence.
      split; [exact He'|]. split; [exact H1'|]. split; [exact H2'|].
      split; [exact H3'|]. split; [exact H4'|]. split; [exact H5'|].
      rewrite !(Heoa _ _ _ _ _ _ _ Hwr). exact H6'.
Qed.

Lemma lru_wf_evicted pb d c e :
  lru_wf pb d -> ht pb !! c = Some e -> is_mpmde e = false ->
  lru_wf (evicted c e pb) d.
Proof.
  intros (Hps & Hnd & Hwf) He Hm. unfold evicted. rewrite Hm.
  split; [exact Hps|]. split.
  - simpl. unfold dll_remove. apply NoDup_filter. exact Hnd.
  - simpl. intros p Hp.
    assert (Hne : p <> c).
    { intros ->. exact (dll_remove_not_in _ _ Hp). }
    apply in_dll_remove in Hp.
    destruct (Hwf p Hp) as (e' & He' & H1' & H2' & H3' & H4' & H5' & H6').
    exists e'. rewrite lookup_delete_ne by congruence.
    split; [exact He'|]. split; [exact H1'|]. split; [exact H2'|].
    split; [exact H3'|]. split; [exact H4'|]. split; [exact H5'|].
    exact H6'.
Qed.

Lemma run_evict_refused s pb p e :
  pb_ptr (file s) = Some pb -> ht pb !! p = Some e ->
  0 < entry_size e -> modified_this_tick e = false ->
  delay_write_until e = 0 -> is_dirty e = false -> refused pb e = true ->
  H5PB__evict_entry p false s = (Fail, s).
Proof.
  intros Hpb He Hsz Hmod Hdel Hdirty Href.
  apply twp_run. unfold H5PB__evict_entry. twp_steps.
  unfold refused in Href.
  destruct (is_metadata e) eqn:Hmd; cbn [negb andb]; rewrite Href;
    twp_steps; reflexivity.
Qed.

Lemma skipped_false md pb e :
  skipped md pb e = false -> modified_this_tick e = false.
Proof.
  unfold skipped. intros Hs. apply orb_false_iff in Hs.
  destruct Hs as [Hs _]. apply orb_false_iff in Hs. apply Hs.
Qed.

Lemma with_pb_lf_same s pb :
  pb_ptr (file s) = Some pb -> with_pb pb (with_lf (lf (file s)) s) = s.
Proof.
  intros Hpb. rewrite with_lf_same. apply with_pb_same. exact Hpb.
Qed.

(** The loop of [H5PB__make_space] makes the walk, and returns. *)
Lemma make_space_loop_walks md :
  write_keeps_eoa ->
  forall n pre post fuel s pb,
    pb_ptr (file s) = Some pb -> LRU pb = pre ++ post ->
    lru_wf pb (lf (file s)) ->
    (length pre + dirty_count (ht pb) pre <= n)%nat -> (n < fuel)%nat ->
    exists ok pb' d',
      walk md pb (lf (file s)) (last pre) ok pb' d'
      /\ if ok then
           exists sp',
             make_space_loop fuel md (last pre) s
             = (Ok sp', with_pb pb' (with_lf d' s))
             /\ (sp' = None \/ curr_pages pb' < max_pages pb')
         else
           make_space_loop fuel md (last pre) s
           = (Fail, with_pb pb' (with_lf d' s)).
Proof.
  intros Heoa. induction n as [|n IH];
    intros pre post fuel s pb Hpb Hlru Hwf Hn Hfuel.
  - destruct fuel as [|fuel]; [lia|].
    destruct pre as [|x pre]; [|simpl in Hn; lia].
    exists true, pb, (lf (file s)). split; [apply walk_head_passed|].
    exists None. rewrite (with_pb_lf_same s pb Hpb). split; [|left; reflexivity].
    apply (loop_head_passed fuel md s pb Hpb).
  - destruct fuel as [|fuel]; [lia|].
    destruct pre as [|c pre _] using rev_ind.
    { exists true, pb, (lf (file s)). split; [apply walk_head_passed|].
      exists None. rewrite (with_pb_lf_same s pb Hpb).
      split; [|left; reflexivity].
      apply (loop_head_passed fuel md s pb Hpb). }
    rewrite last_snoc. rewrite <- app_assoc in Hlru. simpl in Hlru.
    rewrite length_app, dirty_count_app in Hn. simpl in Hn.
    destruct Hwf as (Hps & Hnd & Hent). pose proof Hnd as Hnd'.
    rewrite Hlru in Hnd'.
    assert (Hin : c ∈ LRU pb).
    { rewrite Hlru. apply elem_of_app. right. left. }
    destruct (Hent c Hin) as (e & He & Hm & Hdel & Hsz & Hdwl & Htl & Hbelow).
    assert (Hprev : dll_prev (LRU pb) c = last pre).
    { rewrite Hlru. apply dll_prev_middle. exact Hnd'. }
    assert (Hrem : dll_remove c (LRU pb) = pre ++ post).
    { rewrite Hlru. apply dll_remove_middle. exact Hnd'. }
    assert (Hcpre : c ∉ pre).
    { apply NoDup_app in Hnd'. destruct Hnd' as (_ & Hd & _).
      intros Hc. apply (Hd c Hc). left. }
    destruct (Z.lt_ge_cases (curr_pages pb) (max_pages pb)) as [Hspace|Hfull].
    { exists true, pb, (lf (file s)). split; [apply walk_space; exact Hspace|].
      exists (Some c). rewrite (with_pb_lf_same s pb Hpb).
      split; [|right; exact Hspace].
      apply (loop_space fuel md s pb c Hpb Hspace). }
    rewrite (loop_pass fuel md s pb c e Hpb Hfull He).
    destruct (skipped md pb e) eqn:Hskip.
    { destruct (IH pre (c :: post) fuel s pb Hpb Hlru (conj Hps (conj Hnd Hent)))
        as (ok & pb' & d' & Hwalk & Hrun); [lia|lia|].
      exists ok, pb', d'. rewrite Hprev. split; [|exact Hrun].
      apply (walk_skip md pb _ c e ok pb' d' Hfull He Hskip).
      rewrite Hprev. exact Hwalk. }
    pose proof (skipped_false md pb e Hskip) as Hmod.
    destruct (is_dirty e) eqn:Hdirty.
    + destruct (Hbelow eq_refl) as [Ha Hb].
      destruct (decide (H5F_get_eoa (lf (file s)) (mem_type e) = HADDR_UNDEF))
        as [Hu|Hu].
      { exists false, pb, (lf (file s)).
        split; [apply (walk_flush_fails md pb _ c e Hfull He Hskip Hdirty);
                left; exact Hu|].
        rewrite (with_pb_lf_same s pb Hpb). apply run_bind_fail.
        apply (run_flush_entry_fails s pb c e Hpb He); auto; lia. }
      destruct (H5F__accum_write (lf (file s)) (mem_type e) (entry_addr e)
                  (entry_size e) (image_ptr e)) as [d1|] eqn:Hwr.
      2:{ exists false, pb, (lf (file s)).
          split; [apply (walk_flush_fails md pb _ c e Hfull He Hskip Hdirty);
                  right; exact Hwr|].
          rewrite (with_pb_lf_same s pb Hpb). apply run_bind_fail.
          apply (run_flush_entry_fails s pb c e Hpb He); auto; lia. }
      assert (Hflush : H5PB__flush_entry c s
                       = (Ok tt, with_pb (flushed c e pb) (with_lf d1 s))).
      { apply (run_flush_entry s pb c e d1 Hpb He); [|intros _; exact Hin
                                                     |exact Hwr].
        unfold flushable. repeat split; auto; lia. }
      rewrite (run_bind_ok _ _ _ _ _ Hflush).
      assert (Hlru1 : LRU (flushed c e pb) = (c :: pre) ++ post).
      { unfold flushed. rewrite Hm, Hdel. simpl. rewrite Hrem. reflexivity. }
      assert (Hcount : dirty_count (ht (flushed c e pb)) (c :: pre)
                       = dirty_count (ht pb) pre).
      { rewrite (dirty_count_clean _ c (set_is_dirty false e)).
        - apply dirty_count_agree. intros q Hq. unfold flushed.
          rewrite Hm, Hdel. simpl. apply lookup_insert_ne.
          intros ->. exact (Hcpre Hq).
        - unfold flushed. rewrite Hm, Hdel. simpl. apply lookup_insert_eq.
        - reflexivity. }
      rewrite (dirty_count_dirty _ c e He Hdirty) in Hn.
      destruct (IH (c :: pre) post fuel
                  (with_pb (flushed c e pb) (with_lf d1 s)) (flushed c e pb))
        as (ok & pb' & d' & Hwalk & Hrun).
      * apply pb_ptr_with_pb.
      * exact Hlru1.
      * apply (lru_wf_flushed pb (lf (file s)) c e d1 Heoa
                 (conj Hps (conj Hnd Hent)) He Hin Hwr).
      * rewrite Hcount. simpl. lia.
      * lia.
      * assert (Hptr : Some (default c (dll_prev (LRU pb) c))
                       = last (c :: pre)).
        { rewrite Hprev, last_cons. destruct (last pre); reflexivity. }
        exists ok, pb', d'. rewrite Hptr. split; [|exact Hrun].
        apply (walk_flush md pb _ c e d1 ok pb' d' Hfull He Hskip Hdirty Hu
                 Hwr).
        rewrite Hptr. exact Hwalk.
    + destruct (refused pb e) eqn:Href.
      { exists false, pb, (lf (file s)).
        split; [apply (walk_refused md pb _ c e Hfull He Hskip Hdirty Href)|].
        rewrite (with_pb_lf_same s pb Hpb). apply run_bind_fail.
        apply (run_evict_refused s pb c e Hpb He); auto; lia. }
      assert (Hevict : H5PB__evict_entry c false s
                       = (Ok tt, with_pb (evicted c e pb) s)).
      { apply (run_evict_unforced s pb c e Hpb He); auto; lia. }
      rewrite (run_bind_ok _ _ _ _ _ Hevict).
      assert (Hlru1 : LRU (evicted c e pb) = pre ++ post).
      { unfold evicted. rewrite Hm. simpl. exact Hrem. }
      destruct (IH pre post fuel (with_pb (evicted c e pb) s) (evicted c e pb))
        as (ok & pb' & d' & Hwalk & Hrun).
      * apply pb_ptr_with_pb.
      * exact Hlru1.
      * apply (lru_wf_evicted pb (lf (file s)) c e
                 (conj Hps (conj Hnd Hent)) He Hm).
      * assert (Hag : dirty_count (ht (evicted c e pb)) pre
                      = dirty_count (ht pb) pre).
        { apply dirty_count_agree. intros q Hq. unfold evicted. simpl.
          apply lookup_delete_ne. intros ->. exact (Hcpre Hq). }
        rewrite Hag. lia.
      * lia.
      * exists ok, pb', d'. rewrite Hprev. split; [|exact Hrun].
        apply (walk_evict md pb _ c e ok pb' d' Hfull He Hskip Hdirty Href).
        rewrite Hprev. exact Hwalk.
Qed.

End MakeSpaceWalk.

Lemma dirty_count_le h l : (dirty_count h l <= length l)%nat.
Proof. unfold dirty_count. apply length_filter. Qed.

Section MakeSpaceTheorem.
Context `{Collaborators}.

(** C5, amended.  [H5PB__make_space] fails at once, and changes
    nothing, when the minimum of the other class is the maximum of the
    page buffer.  Otherwise it returns what the walk of the LRU from
    its tail gives: the walk stops when there is space or when the
    head is passed; it skips a candidate that is modified this tick,
    or of the other class when that class is at its minimum; it
    flushes a dirty candidate, which goes to the head of the LRU, and
    goes on from the predecessor, or from the candidate itself when it
    has none; it evicts a clean candidate, unless the class of the
    candidate is below its minimum, which ends the walk with an
    error, as a failed flush does. *)
Theorem make_space_walks_lru (s : env) (pb : H5PB_t) (type : H5FD_mem_t) :
  let md := negb (is_draw type) in
  let other_min := if md then min_rd_pages pb else min_md_pages pb in
  write_keeps_eoa ->
  pb_ptr (file s) = Some pb ->
  min_md_pages pb + min_rd_pages pb <= max_pages pb ->
  lru_wf pb (lf (file s)) ->
  (other_min = max_pages pb -> H5PB__make_space type s = (Fail, s))
  /\ (other_min <> max_pages pb ->
      exists ok pb' d',
        walk md pb (lf (file s)) (last (LRU pb)) ok pb' d'
        /\ H5PB__make_space type s
           = (if ok then Ok tt else Fail, with_pb pb' (with_lf d' s))).
Proof.
  intros md other_min Heoa Hpb Hmin Hwf. split.
  - intros Hother. apply twp_run. unfold H5PB__make_space. twp_steps.
    fold md. unfold other_min in Hother.
    destruct md; cbn [negb andb]; twp_steps; reflexivity.
  - intros Hother.
    destruct (make_space_loop_walks md Heoa (2 * length (LRU pb))
                (LRU pb) [] (make_space_fuel pb) s pb Hpb)
      as (ok & pb' & d' & Hwalk & Hrun).
    + symmetry. apply app_nil_r.
    + exact Hwf.
    + pose proof (dirty_count_le (ht pb) (LRU pb)). lia.
    + unfold make_space_fuel. lia.
    + exists ok, pb', d'. split; [exact Hwalk|].
      apply twp_run. unfold H5PB__make_space.
      apply twp_bind, (twp_get_pb pb _ _ _ Hpb).
      apply twp_bind, twp_assert; [assertion|]. cbv zeta.
      fold md. unfold other_min in Hother. unfold dll_tail.
      destruct md; cbn [negb andb] in *; twp_steps.
      all: destruct ok;
        [ destruct Hrun as (sp' & Hrun & Hsp);
          eapply twp_ok; [exact Hrun|]; twp_steps
        | eapply twp_fail; [exact Hrun|]; reflexivity ].
      all: reflexivity.
Qed.

End MakeSpaceTheorem.

(** A full page buffer whose only page is dirty: the page is flushed,
    then found again, and evicted; it does not stay. *)
Lemma make_space_evicts_flushed_head :
  let r := @H5PB__make_space mem_debug H5FD_MEM_OHDR
             (mem_env false 0 (small_file one_dirty_pb)) in
  fst r = Ok tt
  /\ ht (page_buffer (snd r)) = ∅
  /\ LRU (page_buffer (snd r)) = []
  /\ sub_bytes (lf (file (snd r))) 0 16 = Some (replicate 16 x01).
Proof. vm_compute. repeat split; reflexivity. Qed.

Lemma two_pages_wf : @lru_wf mem_debug two_pages_pb (replicate 64 x2a).
Proof.
  split; [reflexivity|]. split.
  - apply (bool_decide_unpack _). vm_compute. exact I.
  - intros p Hp.
    apply elem_of_cons in Hp. destruct Hp as [->|Hp].
    { eexists. split; [reflexivity|]. simpl.
      repeat split; try reflexivity; try apply not_elem_of_nil;
        try congruence; intros _; apply not_elem_of_nil. }
    apply elem_of_cons in Hp. destruct Hp as [->|Hp].
    { eexists. split; [reflexivity|]. simpl.
      repeat split; try reflexivity; try apply not_elem_of_nil;
        try (vm_compute; congruence); intros _; apply not_elem_of_nil. }
    exfalso. exact (not_elem_of_nil _ Hp).
Qed.

(** A full page buffer of two pages whose tail, page 2, is dirty: page
    2 is flushed and goes to the head, page 1 is evicted, and the walk
    stops. *)
Lemma make_space_walks_lru_witness :
  exists pb' d',
    @walk mem_debug true two_pages_pb (replicate 64 x2a) (Some 2) true pb' d'
    /\ @H5PB__make_space mem_debug H5FD_MEM_OHDR
         (mem_env false 0 (small_file two_pages_pb))
       = (Ok tt,
          with_pb pb' (with_lf d' (mem_env false 0 (small_file two_pages_pb))))
    /\ LRU pb' = [2] /\ ht pb' !! 1 = None
    /\ (is_dirty <$> ht pb' !! 2) = Some false.
Proof.
  destruct (@make_space_walks_lru mem_debug
              (mem_env false 0 (small_file two_pages_pb)) two_pages_pb
              H5FD_MEM_OHDR (mem_write_keeps_eoa _ _) eq_refl
              ltac:(simpl; lia) two_pages_wf) as [_ Hwalk].
  destruct Hwalk as (ok & pb' & d' & Hwalk & Hrun); [discriminate|].
  assert (Hc : fst (@H5PB__make_space mem_debug H5FD_MEM_OHDR
                      (mem_env false 0 (small_file two_pages_pb))) = Ok tt)
    by (vm_compute; reflexivity).
  rewrite Hrun in Hc. destruct ok; [|discriminate Hc]. clear Hc.
  exists pb', d'. split; [exact Hwalk|]. split; [exact Hrun|].
  apply (f_equal (λ r, pb_ptr (file (snd r)))) in Hrun.
  simpl in Hrun. injection Hrun as <-.
  vm_compute. repeat split; reflexivity.
Defined.

(** ** C1: a write and the read after it *)

Section Config.
Context `{Collaborators}.

Lemma wp_assert_fact b (Q : unit -> env -> Prop) E s :
  (asserted b -> Q tt s) -> wp (HDassert b) Q E s.
Proof.
  intros HQ. unfold wp, HDassert. destruct NDEBUG eqn:Hn.
  - apply HQ. left. exact Hn.
  - destruct b; [|exact I]. apply HQ. right. reflexivity.
Qed.

Lemma wp_get_pb_config pb0 mpi (Q : H5PB_t -> env -> Prop) E s :
  same_config pb0 mpi s ->
  (forall pb, pb_ptr (file s) = Some pb -> config_eq pb pb0 ->
     has_mpi (file s) = mpi -> Q pb s) ->
  wp get_pb Q E s.
Proof.
  intros (Hm & pb & Hpb & Hc) HQ. apply (wp_get_pb_known pb _ _ _ Hpb).
  apply HQ; assumption.
Qed.

Lemma same_config_with_pb pb0 mpi pb s :
  has_mpi (file s) = mpi -> config_eq pb pb0 ->
  same_config pb0 mpi (with_pb pb s).
Proof.
  intros Hm Hc. split; [exact Hm|]. exists pb. split; [reflexivity|exact Hc].
Qed.

Lemma same_config_env pb0 mpi a f s :
  same_config pb0 mpi s -> pb_ptr f = pb_ptr (file s) ->
  has_mpi f = has_mpi (file s) -> same_config pb0 mpi (mkEnv _ a f).
Proof.
  intros (Hm & pb & Hpb & Hc) Hf Hmf. split; [simpl; congruence|].
  exists pb. split; [simpl; congruence|exact Hc].
Qed.

Lemma same_config_known pb0 mpi pb s :
  pb_ptr (file s) = Some pb -> has_mpi (file s) = mpi -> config_eq pb pb0 ->
  same_config pb0 mpi s.
Proof. intros Hpb Hm Hc. split; [exact Hm|]. exists pb. auto. Qed.

Lemma config_eq_refl pb : config_eq pb pb.
Proof. repeat split. Qed.

Lemma wp_accum_write type addr size buf (Q : unit -> env -> Prop)
  (E : env -> Prop) s :
  (forall d, H5F__accum_write (lf (file s)) type addr size buf = Some d ->
     Q tt (with_lf d s)) ->
  E s -> wp (accum_write type addr size buf) Q E s.
Proof.
  intros HQ HE. unfold wp, accum_write, bind, get_f.
  destruct (H5F__accum_write (lf (file s)) type addr size buf) as [d|].
  - apply HQ. reflexivity.
  - exact HE.
Qed.

Lemma wp_accum_read type addr size buf (Q : bytes -> env -> Prop)
  (E : env -> Prop) s :
  (forall d b, H5F__accum_read (lf (file s)) type addr size = Some d ->
     blit buf 0 d = Some b -> Q b s) ->
  E s -> wp (accum_read type addr size buf) Q E s.
Proof.
  intros HQ HE. unfold wp, accum_read, bind, get_f.
  destruct (H5F__accum_read (lf (file s)) type addr size) as [d|];
    [|exact HE].
  destruct (blit buf 0 d) as [b|] eqn:Hb; [|exact I].
  apply (HQ d b); [reflexivity|exact Hb].
Qed.

End Config.

(** The configuration of the page buffer of the goal, from that of the
    page buffer it is made from. *)
Ltac config_eq_done :=
  match goal with
  | Hc : config_eq ?pb ?pb0 |- config_eq _ ?pb0 =>
      let H1 := fresh in let H2 := fresh in let H3 := fresh in
      let H4 := fresh in let H5 := fresh in
      destruct Hc as (H1 & H2 & H3 & H4 & H5);
      unfold config_eq; proj_simpl; repeat split; assumption
  end.

(** The configuration of a page buffer that is known. *)
Ltac config_open :=
  repeat match goal with
  | Hs : same_config _ _ ?s, Hpb : pb_ptr (file ?s) = Some ?pb |- _ =>
      let Hm := fresh "Hmpi" in let pbx := fresh "pb" in
      let Hx := fresh "Hpb" in let Hc := fresh "Hcfg" in
      let E := fresh in
      destruct Hs as (Hm & pbx & Hx & Hc);
      assert (E : pbx = pb) by congruence; subst pbx; clear Hx
  end.

Ltac config_done :=
  lazymatch goal with
  | |- same_config _ _ (with_pb _ _) =>
      apply same_config_with_pb; [assumption | config_eq_done]
  | |- same_config _ _ (with_lf _ _) =>
      eapply same_config_known; [eassumption|assumption|config_eq_done]
  | |- same_config _ _ (mkEnv _ _ _) =>
      first [ assumption
            | eapply same_config_env; [eassumption|reflexivity|reflexivity]
            | eapply same_config_known;
              [eassumption|eassumption|config_eq_done] ]
  | |- same_config _ _ _ =>
      first [ assumption
            | eapply same_config_known;
              [eassumption|eassumption|config_eq_done] ]
  | |- True => exact I
  | |- _ => idtac
  end.

(** The tests of the code that have been made, as propositions. *)
Ltac bool_hyps :=
  repeat match goal with
  | Hb : _ && _ = true |- _ => apply andb_true_iff in Hb; destruct Hb
  | Hb : _ || _ = false |- _ => apply orb_false_iff in Hb; destruct Hb
  | Hb : negb _ = true |- _ => apply negb_true_iff in Hb
  | Hb : negb _ = false |- _ => apply negb_false_iff in Hb
  | Hb : (_ <? _) = true |- _ => apply Z.ltb_lt in Hb
  | Hb : (_ <? _) = false |- _ => apply Z.ltb_ge in Hb
  | Hb : (_ <=? _) = true |- _ => apply Z.leb_le in Hb
  | Hb : (_ <=? _) = false |- _ => apply Z.leb_gt in Hb
  | Hb : (_ =? _) = true |- _ => apply Z.eqb_eq in Hb
  | Hb : (_ =? _) = false |- _ => apply Z.eqb_neq in Hb
  | Hb : bool_decide _ = true |- _ => apply bool_decide_eq_true in Hb
  | Hb : bool_decide _ = false |- _ => apply bool_decide_eq_false in Hb
  | Hb : _ && _ = false |- _ => apply andb_false_iff in Hb
  end.

(** A step that keeps what the call has tested. *)
Ltac wpa_step :=
  lazymatch goal with
  | |- wp (HDassert _) _ _ _ => apply wp_assert_fact; intros ?
  | |- wp (do_memcpy _ _ _ _ _) _ _ _ =>
      apply wp_do_memcpy; let b := fresh "img" in intros b ?
  | |- wp (H5PB__mark_entry_clean _) _ _ _ => unfold H5PB__mark_entry_clean
  | |- wp (H5PB__deallocate_page _ _) _ _ _ => unfold H5PB__deallocate_page
  | |- wp (H5PB__evict_entry _ _) _ _ _ => unfold H5PB__evict_entry
  | |- wp (H5PB__flush_entry _) _ _ _ => unfold H5PB__flush_entry
  | |- wp (accum_write _ _ _ _) _ _ _ =>
      apply wp_accum_write;
      [ let d := fresh "d" in intros d ?;
        rewrite ?with_pb_with_lf, ?with_lf_with_lf | ]
  | |- wp (accum_read _ _ _ _) _ _ _ =>
      apply wp_accum_read;
      [ let d := fresh "d" in let b := fresh "img" in intros d b ? ? | ]
  | |- wp get_pb _ _ (with_lf ?d ?s0) =>
      state_pb (with_lf d s0)
        ltac:(fun pb Hpb => apply (wp_get_pb_known pb _ _ _ Hpb))
  | |- wp (get_entry _) _ _ (with_lf ?d ?s0) =>
      state_pb (with_lf d s0)
        ltac:(fun pb Hpb =>
          apply (wp_get_entry_known pb _ _ _ _ Hpb);
          let e := fresh "e" in let He := fresh "He" in
          intros e He; same_entry)
  | |- wp (put_entry _ _) _ _ (with_lf ?d ?s0) =>
      state_pb (with_lf d s0)
        ltac:(fun pb Hpb => apply (wp_put_entry_known pb _ _ _ _ _ Hpb))
  | |- wp (H5PB__SEARCH_INDEX _) _ _ (with_lf ?d ?s0) =>
      state_pb (with_lf d s0)
        ltac:(fun pb Hpb =>
          apply (wp_search_known pb _ _ _ _ Hpb);
          [ let e := fresh "e" in let He := fresh "He" in
            intros e He; same_entry
          | let Hn := fresh "Hnone" in intros Hn ])
  | |- wp (H5PB__create_new_page _ _ _ _) _ _ _ =>
      unfold H5PB__create_new_page
  | |- wp (on_error _ _) _ _ _ => apply wp_on_error
  | |- wp (H5PB__UPDATE_RP_FOR_ACCESS _) _ _ _ =>
      unfold H5PB__UPDATE_RP_FOR_ACCESS
  | |- wp get_pb _ _ ?s =>
      lazymatch goal with
      | Hs : same_config _ _ s |- _ =>
          apply (wp_get_pb_config _ _ _ _ _ Hs);
          let pb := fresh "pb" in let Hpb := fresh "Hpb" in
          let Hc := fresh "Hcfg" in let Hm := fresh "Hmpi" in
          intros pb Hpb Hc Hm; clear Hs
      | _ => wp_step
      end
  | |- _ => wp_step
  end.

Ltac wpa_steps := repeat wpa_step.

Section ConfigKeeps.
Context `{Collaborators}.

Lemma config_flush_entry p pb0 mpi s :
  same_config pb0 mpi s ->
  wp (H5PB__flush_entry p) (λ _ s', same_config pb0 mpi s') (λ _, True) s.
Proof. intros Hs. wpa_steps; config_done. Qed.

Lemma config_evict_entry p force pb0 mpi s :
  same_config pb0 mpi s ->
  wp (H5PB__evict_entry p force) (λ _ s', same_config pb0 mpi s')
    (λ _, True) s.
Proof. intros Hs. wpa_steps; config_done. Qed.

Lemma config_make_space_loop fuel md sp pb0 mpi s :
  same_config pb0 mpi s ->
  wp (make_space_loop fuel md sp) (λ _ s', same_config pb0 mpi s')
    (λ _, True) s.
Proof.
  revert sp s. induction fuel as [|fuel IH]; intros sp s Hs; [exact I|].
  cbn [make_space_loop].
  apply wp_bind. pose proof Hs as Hs'. apply (wp_get_pb_config _ _ _ _ _ Hs').
  intros pb Hpb Hcfg Hmpi.
  destruct sp as [sp|]; [|exact Hs].
  destruct (max_pages pb <=? curr_pages pb); [|exact Hs].
  apply wp_bind, (wp_get_entry_known pb _ _ _ _ Hpb). intros e He.
  cbv zeta.
  repeat (lazymatch goal with
          | |- wp (if ?b then _ else _) _ _ _ => destruct b
          end; [apply IH; exact Hs|]).
  destruct (is_dirty e).
  - apply wp_bind.
    apply (wp_mono _ _ _ _ _ _ (config_flush_entry sp pb0 mpi s Hs));
      [|auto].
    intros _ s' Hs1. apply IH. exact Hs1.
  - apply wp_bind.
    apply (wp_mono _ _ _ _ _ _ (config_evict_entry sp false pb0 mpi s Hs));
      [|auto].
    intros _ s' Hs1. apply IH. exact Hs1.
Qed.

Lemma config_make_space type pb0 mpi s :
  same_config pb0 mpi s ->
  wp (H5PB__make_space type) (λ _ s', same_config pb0 mpi s') (λ _, True) s.
Proof.
  intros Hs. unfold H5PB__make_space.
  apply wp_bind. pose proof Hs as Hs'. apply (wp_get_pb_config _ _ _ _ _ Hs').
  intros pb Hpb Hcfg Hmpi.
  apply wp_bind, wp_assert. cbv zeta.
  apply wp_bind. destruct (_ && _); [exact I|]. apply wp_ret.
  apply wp_bind. destruct (_ && _); [exact I|]. apply wp_ret.
  apply wp_bind.
  apply (wp_mono _ _ _ _ _ _
           (config_make_space_loop _ _ _ pb0 mpi s Hs)); [|auto].
  intros sp s' Hs1. cbv beta.
  apply wp_bind. pose proof Hs1 as Hs2.
  apply (wp_get_pb_config _ _ _ _ _ Hs2).
  intros pb' Hpb' Hcfg' Hmpi'. apply wp_assert. exact Hs1.
Qed.

(** The entry of a page that [H5PB__load_page] has loaded. *)
Lemma wp_load_page addr type pb0 mpi s :
  same_config pb0 mpi s ->
  wp (H5PB__load_page addr type)
    (λ q s', q = addr / page_size pb0 /\ same_config pb0 mpi s'
       /\ exists pb e, pb_ptr (file s') = Some pb /\ ht pb !! q = Some e
            /\ asserted (entry_addr e =? addr)
            /\ is_metadata e = negb (is_draw type)
            /\ is_mpmde e = false /\ delay_write_until e = 0
            /\ mem_type e = type /\ entry_size e = page_size pb0
            /\ q ∈ LRU pb)
    (λ _, True) s.
Proof.
  intros Hs. unfold H5PB__load_page.
  apply wp_bind. pose proof Hs as Hs'. apply (wp_get_pb_config _ _ _ _ _ Hs').
  intros pb Hpb Hcfg Hmpi.
  apply wp_bind, wp_get_f. cbv zeta.
  apply wp_bind. destruct (_ =? _); [exact I|]. apply wp_ret.
  apply wp_bind. destruct (_ =? _); [exact I|]. apply wp_ret.
  apply wp_bind.
  assert (Hms : wp (if max_pages pb <=? curr_pages pb
                    then H5PB__make_space type else ret tt)
                  (λ _ s', same_config pb0 mpi s') (λ _, True) s).
  { destruct (_ <=? _); [apply config_make_space; exact Hs|exact Hs]. }
  apply (wp_mono _ _ _ _ _ _ Hms); [|auto].
  clear Hms Hpb Hcfg Hmpi Hs Hs'. intros _ s1 Hs. cbv beta.
  wpa_steps.
  all: try exact I.
  all: try match goal with
       | Hb : negb (is_mpmde _) = false |- _ =>
           cbn in Hb; rewrite Z.ltb_irrefl, andb_false_r in Hb;
           discriminate Hb
       end.
  all: proj_simpl; fields.
  all: rewrite ?Z.ltb_irrefl, ?andb_false_r, ?insert_insert_eq.
  all: pose proof Hcfg as (Hps & _).
  all: split; [rewrite Hps; reflexivity|].
  all: split; [config_done|].
  all: eexists _, _; split; [reflexivity|].
  all: split; [simpl; apply lookup_insert_eq|].
  all: simpl; rewrite ?Z.ltb_irrefl, ?andb_false_r.
  all: repeat split; try assumption; try reflexivity.
  all: apply elem_of_cons; auto.
Qed.

End ConfigKeeps.

Section WriteThenRead.
Context `{Collaborators}.

(** The entry of a page that [H5PB__mark_entry_dirty] has marked. *)
Lemma wp_mark_entry_dirty p pb0 mpi pb e s :
  pb_ptr (file s) = Some pb -> has_mpi (file s) = mpi -> config_eq pb pb0 ->
  ht pb !! p = Some e ->
  wp (H5PB__mark_entry_dirty p)
    (λ _ s', same_config pb0 mpi s'
       /\ exists pb' e', pb_ptr (file s') = Some pb' /\ ht pb' !! p = Some e'
            /\ image_ptr e' = image_ptr e /\ entry_addr e' = entry_addr e
            /\ is_metadata e' = is_metadata e /\ is_mpmde e' = is_mpmde e
            /\ is_dirty e' = true
            /\ (is_mpmde e' = false -> delay_write_until e' = 0 ->
                p ∈ LRU pb')
            /\ (delay_write_until e = 0 -> is_draw (mem_type e) = true ->
                delay_write_until e' = 0))
    (λ _, True) s.
Proof.
  intros Hpb Hmpi Hcfg He. unfold H5PB__mark_entry_dirty.
  wpa_steps.
  all: try exact I.
  all: split; [config_done|].
  all: eexists _, _; split; [first [reflexivity|eassumption]|].
  all: split; [simpl; rewrite ?insert_insert_eq, ?lookup_insert_eq;
               first [reflexivity|eassumption]|].
  all: simpl in *.
  all: repeat split; try reflexivity.
  all: intros; bool_hyps.
  all: try first [ assumption | lia | congruence
                 | apply elem_of_cons; left; reflexivity
                 | intuition (first [lia | congruence]) ].
  exfalso. destruct Heqb0 as [Hb|Hb].
  - rewrite H4 in Hb. discriminate Hb.
  - rewrite H5 in Hb. discriminate Hb.
Qed.

(** The page of an address and the address of the page. *)
Lemma page_addr_le addr ps :
  0 < ps -> 0 <= addr < 2 ^ 64 ->
  u64 (addr / ps * ps) = addr / ps * ps
  /\ 0 <= addr / ps * ps <= addr /\ addr < addr / ps * ps + ps.
Proof.
  intros Hps Ha.
  pose proof (Z.mul_div_le addr ps Hps) as Hle.
  pose proof (Z.mod_pos_bound addr ps Hps) as Hmod.
  pose proof (Z.div_mod addr ps ltac:(lia)) as Hdm.
  pose proof (Z.div_pos addr ps ltac:(lia) Hps) as Hdiv.
  assert (Hnn : 0 <= addr / ps * ps) by nia.
  split; [unfold u64; apply Z.mod_small; lia|lia].
Qed.


(** The entry of a page after bytes of [buf] have been copied into
    its image and it has been marked dirty. *)
Lemma wp_write_image {A} q offset size buf pb0 mpi pb e (k : PB A)
  (Q : A -> env -> Prop) s :
  pb_ptr (file s) = Some pb -> has_mpi (file s) = mpi -> config_eq pb pb0 ->
  ht pb !! q = Some e ->
  (forall s', same_config pb0 mpi s' -> written q offset size buf e s' ->
     wp k Q (λ _, True) s') ->
  wp (image <- do_memcpy (image_ptr e) offset buf 0 size ;;
      put_entry q (set_image image e) ;;;
      H5PB__mark_entry_dirty q ;;; k)
    Q (λ _, True) s.
Proof.
  intros Hpb Hmpi Hcfg He Hk.
  apply wp_bind, wp_do_memcpy. intros img Himg.
  apply wp_bind, (wp_put_entry_known pb _ _ _ _ _ Hpb).
  apply wp_bind.
  eapply wp_mono;
    [ apply (wp_mark_entry_dirty q pb0 mpi
               (set_ht (<[q := set_image img e]> (ht pb)) pb)
               (set_image img e));
      [ reflexivity | exact Hmpi
      | destruct Hcfg as (? & ? & ? & ? & ?); repeat split; assumption
      | apply lookup_insert_eq ]
    | | auto ].
  intros _ s'
    (Hs' & pb' & e' & Hpb' & He' & Hi & Ha & Hm & Hmp & Hmt & Hl & Hd).
  apply Hk; [exact Hs'|]. exists pb', e'.
  repeat split; try assumption. rewrite Hi. exact Himg.
Qed.

Lemma write_meta_small type addr size buf pb0 s :
  same_config pb0 false s -> is_draw type = false ->
  0 < page_size pb0 -> 0 <= addr -> addr + size < 2 ^ 64 ->
  0 < size < page_size pb0 ->
  wp (H5PB__write_meta type addr size buf)
    (λ _ s', same_config pb0 false s'
       /\ asserted (min_rd_pages pb0 <? max_pages pb0)
       /\ exists pb e img, pb_ptr (file s') = Some pb
            /\ ht pb !! (addr / page_size pb0) = Some e
            /\ is_dirty e = true
            /\ memcpy img (addr - addr / page_size pb0 * page_size pb0)
                 buf 0 size = Some (image_ptr e)
            /\ asserted (entry_addr e =? addr / page_size pb0 * page_size pb0)
            /\ asserted (is_metadata e) /\ asserted (negb (is_mpmde e))
            /\ (is_mpmde e = false -> delay_write_until e = 0 ->
                addr / page_size pb0 ∈ LRU pb))
    (λ _, True) s.
Proof.
  intros Hs Htype Hps Haddr Hend Hsize. unfold H5PB__write_meta.
  apply wp_bind. pose proof Hs as Hs'. apply (wp_get_pb_config _ _ _ _ _ Hs').
  intros pb Hpb Hcfg Hmpi. pose proof Hcfg as (Hp & Hmax & Hmd & Hrd & Hw).
  rewrite Hp, Hrd, Hmax.
  destruct (page_addr_le addr (page_size pb0) Hps ltac:(lia))
    as (Hpa & Hle & Hlt).
  rewrite Hpa.
  assert (Hoff : u64 (addr - addr / page_size pb0 * page_size pb0)
                 = addr - addr / page_size pb0 * page_size pb0).
  { unfold u64. apply Z.mod_small. lia. }
  rewrite Hoff.
  set (page := addr / page_size pb0) in *.
  set (offset := addr - page * page_size pb0) in *.
  apply wp_bind, wp_assert_fact. intros Hmin.
  apply wp_bind, wp_assert. cbv zeta.
  apply wp_bind, wp_assert.
  replace (page_size pb0 <? size) with false by (symmetry; apply Z.ltb_ge; lia).
  apply wp_bind, wp_assert.
  (* what follows the search, from a state with the entry of the page *)
  assert (Htail : forall s1 pb1 e1,
    pb_ptr (file s1) = Some pb1 -> has_mpi (file s1) = false ->
    config_eq pb1 pb0 -> ht pb1 !! page = Some e1 ->
    wp (e <- get_entry page ;;
        HDassert (entry_addr e =? page * page_size pb0) ;;;
        HDassert (is_metadata e) ;;;
        HDassert (negb (is_mpmde e)) ;;;
        HDassert (entry_size e =? page_size pb0) ;;;
        HDassert (size <=? entry_size e) ;;;
        image <- do_memcpy (image_ptr e) offset buf 0 size ;;
        put_entry page (set_image image e) ;;;
        H5PB__mark_entry_dirty page ;;;
        (if vfd_swmr_writer pb then
           e0 <- get_entry page ;;
           if negb (modified_this_tick e0) then
             put_entry page (set_modified_this_tick true e0) ;;;
             H5PB__INSERT_IN_TL page
           else ret tt
         else ret tt))
      (λ _ s', same_config pb0 false s'
         /\ asserted (min_rd_pages pb0 <? max_pages pb0)
         /\ exists pb e img, pb_ptr (file s') = Some pb
              /\ ht pb !! page = Some e /\ is_dirty e = true
              /\ memcpy img offset buf 0 size = Some (image_ptr e)
              /\ asserted (entry_addr e =? page * page_size pb0)
              /\ asserted (is_metadata e) /\ asserted (negb (is_mpmde e))
              /\ (is_mpmde e = false -> delay_write_until e = 0 ->
                  page ∈ LRU pb))
      (λ _, True) s1).
  { intros s1 pb1 e1 Hpb1 Hmpi1 Hcfg1 He1.
    apply wp_bind, (wp_get_entry_known pb1 _ _ _ _ Hpb1). intros e He.
    assert (e = e1) by congruence. subst e. clear He.
    apply wp_bind, wp_assert_fact. intros Ha1.
    apply wp_bind, wp_assert_fact. intros Ha2.
    apply wp_bind, wp_assert_fact. intros Ha3.
    apply wp_bind, wp_assert.
    apply wp_bind, wp_assert.
    apply (wp_write_image page offset size buf pb0 false pb1 e1 _ _ s1
             Hpb1 Hmpi1 Hcfg1 He1).
    intros s' Hs1 (pb' & e' & Hpb' & He' & Hi & Ha & Hm & Hmp & Hmt & Hl & Hd).
    assert (Hres : forall e2, entry_addr e2 = entry_addr e' ->
              is_metadata e2 = is_metadata e' -> is_mpmde e2 = is_mpmde e' ->
              asserted (entry_addr e2 =? page * page_size pb0)
              /\ asserted (is_metadata e2) /\ asserted (negb (is_mpmde e2))).
    { intros e2 E1 E2 E3. rewrite E1, E2, E3, Ha, Hm, Hmp. auto. }
    assert (Hdone : forall s2 pb2 e2,
              same_config pb0 false s2 -> pb_ptr (file s2) = Some pb2 ->
              ht pb2 !! page = Some e2 -> image_ptr e2 = image_ptr e' ->
              entry_addr e2 = entry_addr e' ->
              is_metadata e2 = is_metadata e' -> is_mpmde e2 = is_mpmde e' ->
              is_dirty e2 = is_dirty e' ->
              delay_write_until e2 = delay_write_until e' ->
              LRU pb2 = LRU pb' ->
              same_config pb0 false s2
              /\ asserted (min_rd_pages pb0 <? max_pages pb0)
              /\ exists pb e img, pb_ptr (file s2) = Some pb
                   /\ ht pb !! page = Some e /\ is_dirty e = true
                   /\ memcpy img offset buf 0 size = Some (image_ptr e)
                   /\ asserted (entry_addr e =? page * page_size pb0)
                   /\ asserted (is_metadata e)
                   /\ asserted (negb (is_mpmde e))
                   /\ (is_mpmde e = false -> delay_write_until e = 0 ->
                       page ∈ LRU pb)).
    { intros s2 pb2 e2 Hs2 Hpb2 He2 E0 E1 E2 E3 E6 E4 E5.
      split; [exact Hs2|]. split; [exact Hmin|].
      exists pb2, e2, (image_ptr e1).
      rewrite E0, E1, E2, E3, E4, E5, E6, Ha, Hm, Hmp. rewrite Hmp in Hl.
      repeat split; assumption. }
    config_open.
    destruct (vfd_swmr_writer pb).
    - wpa_steps.
      all: try exact I.
      + eapply Hdone;
          [ config_done | reflexivity | simpl; apply lookup_insert_eq
          | reflexivity.. ].
      + eapply Hdone; [config_done|eassumption|eassumption|reflexivity..].
    - wpa_steps.
      eapply Hdone; [config_done|eassumption|eassumption|reflexivity..]. }
  apply wp_bind, (wp_search_known pb _ _ _ _ Hpb).
  - intros e He. apply wp_bind, wp_ret.
    apply (Htail s pb e Hpb Hmpi Hcfg He).
  - intros Hnone. apply wp_bind.
    eapply wp_mono;
      [apply (wp_load_page (page * page_size pb0) type pb0 false s
                (same_config_known pb0 false pb s Hpb Hmpi Hcfg))
      | | auto].
    intros q s1 (Hq & Hs1 & pb1 & e1 & Hpb1 & He1 & _).
    assert (Hqp : q = page).
    { rewrite Hq. apply Z.div_mul. lia. }
    rewrite Hqp in *. clear Hqp Hq. config_open.
    apply (Htail s1 pb1 e1 Hpb1 Hmpi0 Hcfg0 He1).
Qed.


End WriteThenRead.

Section WriteRaw.
Context `{Collaborators}.

(** The pages of a range that lies in one page. *)
Lemma one_page_range addr size ps :
  0 < ps -> 0 <= addr -> addr + size < 2 ^ 64 -> 0 < size ->
  addr - addr / ps * ps + size <= ps ->
  u64 (addr + size) = addr + size
  /\ u64 (u64 (addr + size) - 1) / ps = addr / ps
  /\ u64 (u64 (addr / ps - addr / ps) + 1) = 1
  /\ u64 (addr - addr / ps * ps + size) = addr - addr / ps * ps + size.
Proof.
  intros Hps Haddr Hend Hsize Hfit.
  destruct (page_addr_le addr ps Hps ltac:(lia)) as (Hpa & Hle & Hlt).
  assert (Hu : u64 (addr + size) = addr + size).
  { unfold u64. apply Z.mod_small. lia. }
  rewrite Hu. split; [reflexivity|]. split.
  - replace (u64 (addr + size - 1)) with (addr + size - 1)
      by (symmetry; unfold u64; apply Z.mod_small; lia).
    symmetry. apply (Z.div_unique_pos _ _ _ (addr + size - 1 - addr / ps * ps));
      lia.
  - rewrite Z.sub_diag. split; [reflexivity|].
    unfold u64. apply Z.mod_small. lia.
Qed.

Lemma write_raw_small type addr size buf pb0 s :
  same_config pb0 false s -> is_draw type = true ->
  0 < page_size pb0 -> 0 <= addr -> addr + size < 2 ^ 64 ->
  0 < size < page_size pb0 ->
  addr - addr / page_size pb0 * page_size pb0 + size <= page_size pb0 ->
  (forall pb e, pb_ptr (file s) = Some pb ->
     ht pb !! (addr / page_size pb0) = Some e ->
     is_mpmde e = false /\ delay_write_until e = 0
     /\ is_draw (mem_type e) = true) ->
  wp (H5PB__write_raw type addr size buf)
    (λ _ s', same_config pb0 false s'
       /\ asserted (min_md_pages pb0 <? max_pages pb0)
       /\ exists pb e img, pb_ptr (file s') = Some pb
            /\ ht pb !! (addr / page_size pb0) = Some e
            /\ is_dirty e = true
            /\ memcpy img (addr - addr / page_size pb0 * page_size pb0)
                 buf 0 size = Some (image_ptr e)
            /\ asserted (entry_addr e =? addr / page_size pb0 * page_size pb0)
            /\ addr / page_size pb0 ∈ LRU pb)
    (λ _, True) s.
Proof.
  intros Hs Htype Hps Haddr Hend Hsize Hfit Hres. unfold H5PB__write_raw.
  apply wp_bind. pose proof Hs as Hs'. apply (wp_get_pb_config _ _ _ _ _ Hs').
  intros pb Hpb Hcfg Hmpi. pose proof Hcfg as (Hp & Hmax & Hmd & Hrd & Hw).
  rewrite Hp, Hmd, Hmax.
  destruct (page_addr_le addr (page_size pb0) Hps ltac:(lia))
    as (Hpa & Hle & Hlt).
  destruct (one_page_range addr size (page_size pb0) Hps Haddr Hend
              ltac:(lia) Hfit) as (Hu & Hlast & Hnum & Hfits).
  assert (Hoff : u64 (addr - addr / page_size pb0 * page_size pb0)
                 = addr - addr / page_size pb0 * page_size pb0).
  { unfold u64. apply Z.mod_small. lia. }
  cbv zeta. rewrite Hlast, Hnum, Hpa, Hoff, Hfits.
  set (page := addr / page_size pb0) in *.
  set (offset := addr - page * page_size pb0) in *.
  apply wp_bind, wp_assert_fact. intros Hmin.
  apply wp_bind, wp_assert.
  apply wp_bind, wp_assert.
  replace (page_size pb0 <=? size) with false
    by (symmetry; apply Z.leb_gt; lia).
  apply wp_bind, wp_assert.
  replace (offset + size <=? page_size pb0) with true
    by (symmetry; apply Z.leb_le; lia).
  apply wp_bind, wp_assert.
  apply wp_bind, wp_assert.
  change (1 =? 2) with false. cbv iota.
  assert (Htail : forall s1 pb1 e1,
    pb_ptr (file s1) = Some pb1 -> has_mpi (file s1) = false ->
    config_eq pb1 pb0 -> ht pb1 !! page = Some e1 ->
    is_mpmde e1 = false -> delay_write_until e1 = 0 ->
    is_draw (mem_type e1) = true ->
    wp (e <- get_entry page ;;
        HDassert (entry_addr e =? page * page_size pb0) ;;;
        image <- do_memcpy (image_ptr e) offset buf 0 size ;;
        put_entry page (set_image image e) ;;;
        H5PB__mark_entry_dirty page ;;;
        ret tt)
      (λ _ s', same_config pb0 false s'
         /\ asserted (min_md_pages pb0 <? max_pages pb0)
         /\ exists pb e img, pb_ptr (file s') = Some pb
              /\ ht pb !! page = Some e /\ is_dirty e = true
              /\ memcpy img offset buf 0 size = Some (image_ptr e)
              /\ asserted (entry_addr e =? page * page_size pb0)
              /\ page ∈ LRU pb)
      (λ _, True) s1).
  { intros s1 pb1 e1 Hpb1 Hmpi1 Hcfg1 He1 Hm1 Hd1 Ht1.
    apply wp_bind, (wp_get_entry_known pb1 _ _ _ _ Hpb1). intros e He.
    assert (e = e1) by congruence. subst e. clear He.
    apply wp_bind, wp_assert_fact. intros Ha1.
    apply (wp_write_image page offset size buf pb0 false pb1 e1 _ _ s1
             Hpb1 Hmpi1 Hcfg1 He1).
    intros s' Hs1 (pb' & e' & Hpb' & He' & Hi & Ha & Hm & Hmp & Hmt & Hl & Hd).
    apply wp_ret. split; [exact Hs1|]. split; [exact Hmin|].
    exists pb', e', (image_ptr e1). rewrite Ha.
    repeat split; try assumption.
    apply Hl; [congruence|]. apply Hd; assumption. }
  apply wp_bind, (wp_search_known pb _ _ _ _ Hpb).
  - intros e He. apply wp_bind, wp_ret.
    destruct (Hres pb e Hpb He) as (Hm1 & Hd1 & Ht1).
    apply (Htail s pb e Hpb Hmpi Hcfg He Hm1 Hd1 Ht1).
  - intros Hnone. apply wp_bind.
    eapply wp_mono;
      [apply (wp_load_page (page * page_size pb0) type pb0 false s Hs)
      | | auto].
    intros q s1
      (Hq & Hs1 & pb1 & e1 & Hpb1 & He1 & _ & _ & Hm1 & Hd1 & Ht1 & _).
    assert (Hqp : q = page).
    { rewrite Hq. apply Z.div_mul. lia. }
    rewrite Hqp in *. clear Hqp Hq. config_open.
    apply (Htail s1 pb1 e1 Hpb1 Hmpi0 Hcfg0 He1 Hm1 Hd1).
    rewrite Ht1. exact Htype.
Qed.


End WriteRaw.

Section ReadWritten.
Context `{Collaborators}.

(** The result of a call that returns a value. *)
Lemma twp_result {A} (m : PB A) (a : A) s :
  twp m (λ b _, b = a) (λ _, False) s -> fst (m s) = Ok a.
Proof.
  unfold twp. destruct (m s) as [[b| |w] s']; intros Hm;
    [simpl; congruence|destruct Hm|destruct Hm].
Qed.

Lemma read_meta_written type addr size B buf pb0 s pb e img :
  is_draw type = false ->
  0 < page_size pb0 -> 0 <= addr -> addr + size < 2 ^ 64 ->
  0 < size < page_size pb0 ->
  addr - addr / page_size pb0 * page_size pb0 + size <= page_size pb0 ->
  blen B = size -> blen buf = size ->
  pb_ptr (file s) = Some pb -> config_eq pb pb0 ->
  asserted (min_rd_pages pb0 <? max_pages pb0) ->
  ht pb !! (addr / page_size pb0) = Some e ->
  memcpy img (addr - addr / page_size pb0 * page_size pb0) B 0 size
    = Some (image_ptr e) ->
  asserted (entry_addr e =? addr / page_size pb0 * page_size pb0) ->
  asserted (is_metadata e) -> asserted (negb (is_mpmde e)) ->
  (is_mpmde e = false -> delay_write_until e = 0 ->
   addr / page_size pb0 ∈ LRU pb) ->
  twp (H5PB__read_meta type addr size buf) (λ b _, b = B) (λ _, False) s.
Proof.
  intros Htype Hps Haddr Hend Hsize Hfit HB Hbuf Hpb Hcfg Hmin He Himg
    Ha1 Ha2 Ha3 Hlru.
  pose proof Hcfg as (Hp & Hmax & Hmd & Hrd & Hw).
  destruct (page_addr_le addr (page_size pb0) Hps ltac:(lia))
    as (Hpa & Hle & Hlt).
  destruct (one_page_range addr size (page_size pb0) Hps Haddr Hend
              ltac:(lia) Hfit) as (Hu & Hlast & Hnum & Hfits).
  assert (Hoff : u64 (addr - addr / page_size pb0 * page_size pb0)
                 = addr - addr / page_size pb0 * page_size pb0).
  { unfold u64. apply Z.mod_small. lia. }
  pose proof (memcpy_roundtrip _ _ _ _ _ buf Himg HB Hbuf) as Hback.
  unfold H5PB__read_meta.
  apply twp_bind, (twp_get_pb pb _ _ _ Hpb).
  rewrite Hp, Hrd, Hmax. cbv zeta. rewrite Hpa, Hoff, Hfits.
  set (page := addr / page_size pb0) in *.
  set (offset := addr - page * page_size pb0) in *.
  apply twp_bind, twp_assert; [exact Hmin|].
  apply twp_bind, twp_assert; [right; rewrite Htype; reflexivity|].
  apply twp_bind.
  replace (offset + size <=? page_size pb0) with true
    by (symmetry; apply Z.leb_le; lia).
  replace (page_size pb0 <=? size) with false
    by (symmetry; apply Z.leb_gt; lia).
  assert (Hacc : forall (Q : unit -> env -> Prop) E,
            Q tt s -> Q tt (with_pb (accessed page pb) s) ->
            twp (when (negb (is_mpmde e) && (delay_write_until e =? 0))
                   (H5PB__UPDATE_RP_FOR_ACCESS page)) Q E s).
  { intros Q E HQ1 HQ2. unfold when.
    destruct (negb (is_mpmde e) && (delay_write_until e =? 0)) eqn:Hb.
    - apply andb_true_iff in Hb. destruct Hb as [Hb1 Hb2].
      apply negb_true_iff in Hb1. apply Z.eqb_eq in Hb2.
      unfold H5PB__UPDATE_RP_FOR_ACCESS.
      apply twp_bind, (twp_get_pb pb _ _ _ Hpb).
      rewrite (bool_decide_eq_true_2 _ (Hlru Hb1 Hb2)).
      apply twp_put_pb. exact HQ2.
    - apply twp_ret. exact HQ1. }
  destruct (negb (page * page_size pb0 =? addr)) eqn:Hal.
  - apply twp_bind, twp_assert; [right; apply Z.ltb_lt; lia|].
    apply twp_bind, twp_assert; [right; apply Z.leb_le; lia|].
    apply twp_bind, twp_assert; [right; apply Z.leb_le; lia|].
    apply twp_bind, (twp_search pb _ _ _ _ Hpb). rewrite He.
    apply twp_bind, twp_ret.
    apply twp_bind, (twp_get_entry pb _ e _ _ _ Hpb He).
    apply twp_bind, twp_assert; [exact Ha1|].
    apply twp_bind, twp_assert; [exact Ha2|].
    apply twp_bind, twp_assert; [exact Ha3|].
    apply twp_bind, (twp_do_memcpy _ _ _ _ _ B _ _ _ Hback).
    apply twp_bind, Hacc; apply twp_ret, twp_bind, twp_put_prev_addr, twp_ret;
      reflexivity.
  - apply twp_bind, twp_assert; [right; apply Z.leb_le; lia|].
    apply negb_false_iff, Z.eqb_eq in Hal.
    assert (Hz : offset = 0) by (unfold offset; lia).
    rewrite Hz in Hback.
    apply twp_bind, (twp_search pb _ _ _ _ Hpb). rewrite He.
    apply twp_bind, twp_ret.
    apply twp_bind, (twp_get_entry pb _ e _ _ _ Hpb He).
    apply twp_bind, twp_assert; [exact Ha2|].
    apply twp_bind, twp_assert.
    { destruct Ha3 as [Hn|Hn]; [left; exact Hn|right].
      rewrite Hn. reflexivity. }
    apply twp_bind, (twp_do_memcpy _ _ _ _ _ B _ _ _ Hback).
    apply twp_bind, Hacc; apply twp_ret, twp_bind, twp_put_prev_addr, twp_ret;
      reflexivity.
Qed.

Lemma read_raw_written type addr size B buf pb0 s pb e img :
  is_draw type = true ->
  0 < page_size pb0 -> 0 <= addr -> addr + size < 2 ^ 64 ->
  0 < size < page_size pb0 ->
  addr - addr / page_size pb0 * page_size pb0 + size <= page_size pb0 ->
  blen B = size -> blen buf = size ->
  pb_ptr (file s) = Some pb -> config_eq pb pb0 ->
  asserted (min_md_pages pb0 <? max_pages pb0) ->
  ht pb !! (addr / page_size pb0) = Some e ->
  memcpy img (addr - addr / page_size pb0 * page_size pb0) B 0 size
    = Some (image_ptr e) ->
  asserted (entry_addr e =? addr / page_size pb0 * page_size pb0) ->
  addr / page_size pb0 ∈ LRU pb ->
  twp (H5PB__read_raw type addr size buf) (λ b _, b = B) (λ _, False) s.
Proof.
  intros Htype Hps Haddr Hend Hsize Hfit HB Hbuf Hpb Hcfg Hmin He Himg
    Ha1 Hlru.
  pose proof Hcfg as (Hp & Hmax & Hmd & Hrd & Hw).
  destruct (page_addr_le addr (page_size pb0) Hps ltac:(lia))
    as (Hpa & Hle & Hlt).
  destruct (one_page_range addr size (page_size pb0) Hps Haddr Hend
              ltac:(lia) Hfit) as (Hu & Hlast & Hnum & Hfits).
  assert (Hoff : u64 (addr - addr / page_size pb0 * page_size pb0)
                 = addr - addr / page_size pb0 * page_size pb0).
  { unfold u64. apply Z.mod_small. lia. }
  pose proof (memcpy_roundtrip _ _ _ _ _ buf Himg HB Hbuf) as Hback.
  unfold H5PB__read_raw.
  apply twp_bind, (twp_get_pb pb _ _ _ Hpb).
  rewrite Hp, Hmd, Hmax. cbv zeta. rewrite Hlast, Hnum, Hpa, Hoff, Hfits.
  set (page := addr / page_size pb0) in *.
  set (offset := addr - page * page_size pb0) in *.
  apply twp_bind, twp_assert; [exact Hmin|].
  apply twp_bind, twp_assert; [right; exact Htype|].
  apply twp_bind, twp_assert; [right; apply orb_true_r|].
  replace (page_size pb0 <=? size) with false
    by (symmetry; apply Z.leb_gt; lia).
  apply twp_bind, twp_assert; [right; apply Z.ltb_lt; lia|].
  replace (offset + size <=? page_size pb0) with true
    by (symmetry; apply Z.leb_le; lia).
  apply twp_bind, twp_assert; [right; reflexivity|].
  apply twp_bind, (twp_search pb _ _ _ _ Hpb). rewrite He.
  apply twp_bind, twp_ret.
  apply twp_bind, (twp_get_entry pb _ e _ _ _ Hpb He).
  apply twp_bind, twp_assert; [exact Ha1|].
  apply twp_bind, (twp_do_memcpy _ _ _ _ _ B _ _ _ Hback).
  apply twp_bind. unfold H5PB__UPDATE_RP_FOR_ACCESS.
  apply twp_bind, (twp_get_pb pb _ _ _ Hpb).
  rewrite (bool_decide_eq_true_2 _ Hlru).
  apply twp_put_pb. change (1 =? 2) with false. apply twp_ret. reflexivity.
Qed.

End ReadWritten.

Section RoundTrip.
Context `{Collaborators}.


End RoundTrip.




(** ** The binary search of the reader *)

Lemma index_sorted_lookup index i j a b :
  index_sorted index = true -> (i < j)%nat ->
  index !! i = Some a -> index !! j = Some b ->
  hdf5_page_offset a < hdf5_page_offset b.
Proof.
  revert i j. induction index as [|x index IH]; intros i j Hs Hij Ha Hb;
    [discriminate Ha|].
  simpl in Hs. apply andb_true_iff in Hs. destruct Hs as [Hx Hs].
  destruct j as [|j]; [lia|]. simpl in Hb.
  destruct i as [|i].
  - simpl in Ha. injection Ha as <-.
    rewrite forallb_forall in Hx. apply Z.ltb_lt, Hx.
    apply list_elem_of_In. eapply list_elem_of_lookup_2. exact Hb.
  - simpl in Ha. apply (IH i j Hs); [lia|exact Ha|exact Hb].
Qed.

Section ReaderSearch.
Context `{ReaderCollaborators}.

Lemma run_index_at_in index i v :
  0 <= i < Z.of_nat (length index) ->
  exists e, index !! Z.to_nat i = Some e /\ index_at index i v = (Ok e, v).
Proof.
  intros Hi. destruct (lookup_lt_is_Some_2 index (Z.to_nat i)) as [e He];
    [lia|].
  exists e. split; [exact He|]. unfold index_at.
  destruct (Z.ltb_spec i 0); [lia|]. rewrite He. reflexivity.
Qed.

(** The search between [lo] and [hi], when the entries below [lo] are
    of smaller pages and the entries above [hi] of greater ones. *)
Lemma index_search_spec index target v fuel :
  index_sorted index = true ->
  forall lo hi my_idx,
    0 <= lo <= hi + 1 -> hi < Z.of_nat (length index) ->
    hi - lo + 1 < Z.of_nat fuel ->
    (forall i e, 0 <= i < lo -> index !! Z.to_nat i = Some e ->
       hdf5_page_offset e < target) ->
    (forall i e, hi < i -> index !! Z.to_nat i = Some e ->
       target < hdf5_page_offset e) ->
    exists found i,
      index_search fuel index target lo hi my_idx v = (Ok (found, i), v)
      /\ (found = true ->
          0 <= i /\ exists e, index !! Z.to_nat i = Some e
                       /\ hdf5_page_offset e = target)
      /\ (found = false ->
          forall e, e ∈ index -> hdf5_page_offset e <> target).
Proof.
  intros Hs. induction fuel as [|fuel IH];
    intros lo hi my_idx Hlo Hhi Hfuel Hbelow Habove.
  - lia.
  - cbn [index_search]. destruct (Z.leb_spec lo hi) as [Hle|Hgt].
    + cbv zeta. set (m := (lo + hi) / 2).
      assert (Hm : lo <= m <= hi).
      { unfold m. split.
        - apply Z.div_le_lower_bound; lia.
        - apply Z.div_le_upper_bound; lia. }
      destruct (run_index_at_in index m v ltac:(lia)) as (e & He & Hrun).
      rewrite (run_bind_ok _ _ _ _ _ Hrun).
      destruct (Z.ltb_spec target (hdf5_page_offset e)) as [Hlt|Hge].
      * apply IH; [lia|lia|lia|exact Hbelow|].
        intros i e' Hi He'.
        destruct (Z.le_gt_cases i m) as [Him|Him].
        -- assert (i = m) by lia. subst i.
           assert (e' = e) by congruence. subst e'. exact Hlt.
        -- destruct (Z.le_gt_cases i hi) as [Hih|Hih].
           ++ pose proof (index_sorted_lookup index (Z.to_nat m)
                            (Z.to_nat i) e e' Hs ltac:(lia) He He').
              lia.
           ++ apply (Habove i e' Hih He').
      * destruct (Z.ltb_spec (hdf5_page_offset e) target) as [Hlt|Hge'].
        -- apply IH; [lia|lia|lia| |exact Habove].
           intros i e' Hi He'.
           destruct (Z.le_gt_cases lo i) as [Hli|Hli].
           ++ destruct (Z.eq_dec i m) as [->|Hne].
              ** assert (e' = e) by congruence. subst e'. exact Hlt.
              ** pose proof (index_sorted_lookup index (Z.to_nat i)
                               (Z.to_nat m) e' e Hs ltac:(lia) He' He).
                 lia.
           ++ apply (Hbelow i e' ltac:(lia) He').
        -- exists true, m. split; [reflexivity|]. split; [|discriminate].
           intros _. split; [lia|]. exists e. split; [exact He|lia].
    + exists false, my_idx. split; [reflexivity|].
      split; [discriminate|]. intros _ e He.
      apply list_elem_of_lookup_1 in He. destruct He as [k Hk].
      destruct (Z.lt_ge_cases (Z.of_nat k) lo) as [Hk1|Hk1].
      * pose proof (Hbelow (Z.of_nat k) e ltac:(lia)
                      ltac:(rewrite Nat2Z.id; exact Hk)). lia.
      * pose proof (Habove (Z.of_nat k) e ltac:(lia)
                      ltac:(rewrite Nat2Z.id; exact Hk)). lia.
Qed.

End ReaderSearch.


(** ** Reads of the metadata file *)

Lemma blit_blit_app buf p d1 d2 b1 b2 :
  blit buf p d1 = Some b1 -> blit b1 (p + blen d1) d2 = Some b2 ->
  blit buf p (d1 ++ d2) = Some b2.
Proof.
  unfold blit, blen. intros H1 H2.
  destruct (Z.leb_spec 0 p) as [Hp|]; [|discriminate].
  destruct (Z.leb_spec (p + Z.of_nat (length d1)) (Z.of_nat (length buf)))
    as [Hl1|]; [|discriminate].
  simpl in H1. injection H1 as <-.
  destruct (Z.leb_spec 0 (p + Z.of_nat (length d1))); [|discriminate].
  destruct (Z.leb_spec (p + Z.of_nat (length d1) + Z.of_nat (length d2))
              (Z.of_nat (length (take (Z.to_nat p) buf ++ d1 ++
                 drop (Z.to_nat p + length d1) buf)))) as [Hl2|];
    [|discriminate].
  simpl in H2. injection H2 as <-.
  rewrite !length_app, length_take, length_drop in Hl2.
  rewrite length_app.
  destruct (Z.leb_spec (p + Z.of_nat (length d1 + length d2))
              (Z.of_nat (length buf))) as [_|]; [|lia].
  simpl. f_equal.
  assert (Ht : length (take (Z.to_nat p) buf) = Z.to_nat p).
  { rewrite length_take. lia. }
  replace (Z.to_nat (p + Z.of_nat (length d1)))
    with (length (take (Z.to_nat p) buf ++ d1))
    by (rewrite length_app, Ht; lia).
  rewrite (app_assoc _ d1), take_app_length.
  replace (length (take (Z.to_nat p) buf ++ d1) + length d2)%nat
    with (length (take (Z.to_nat p) buf ++ d1) + length d2 + 0)%nat by lia.
  rewrite <- Nat.add_assoc, drop_app_add.
  rewrite drop_drop. rewrite <- !app_assoc. f_equal. f_equal. f_equal.
  f_equal. lia.
Qed.

Lemma sub_bytes_app md pos k n d1 d2 :
  0 <= pos -> 0 <= k -> 0 <= n ->
  sub_bytes md pos k = Some d1 -> sub_bytes md (pos + k) n = Some d2 ->
  sub_bytes md pos (k + n) = Some (d1 ++ d2).
Proof.
  intros Hpos Hk Hn. unfold sub_bytes.
  destruct (Z.leb_spec 0 pos); [|lia].
  destruct (Z.leb_spec 0 k); [|lia].
  destruct (Z.leb_spec 0 n); [|lia].
  destruct (Z.leb_spec 0 (pos + k)); [|lia].
  destruct (Z.leb_spec 0 (k + n)); [|lia].
  destruct (Z.leb_spec (pos + k) (blen md)); [|discriminate].
  destruct (Z.leb_spec (pos + k + n) (blen md)); [|discriminate].
  destruct (Z.leb_spec (pos + (k + n)) (blen md)); [|lia].
  simpl. intros [= <-] [= <-]. f_equal.
  rewrite Z2Nat.inj_add, (Z2Nat.inj_add pos k) by lia.
  rewrite <- take_take_drop, drop_drop. reflexivity.
Qed.

Section ReaderStable.
Context `{ReaderCollaborators}.

(** A read of [n] bytes that the file holds. *)
Lemma run_HDread md n v :
  md_stable md -> 0 <= n -> 0 <= md_pos v -> md_pos v + n <= blen md ->
  exists d, sub_bytes md (md_pos v) n = Some d
    /\ HDread n v = (Ok (Some d), after_calls 1 (md_pos v + n) v).
Proof.
  intros Hmd Hn Hp Hlen. rewrite sub_bytes_Some by lia.
  eexists. split; [reflexivity|].
  unfold HDread, md_now, bind, get_vfd, tick, ret. rewrite (Hmd (clock v)).
  cbn [md_pos set_clock]. f_equal. unfold after_calls. f_equal.
  - f_equal. unfold blen in *. rewrite length_take, length_drop. lia.
Qed.

Lemma io_passes_0 : 0 < H5_POSIX_MAX_IO_BYTES -> io_passes 0 = O.
Proof.
  intros Hmax. unfold io_passes. rewrite Z.div_small by lia. reflexivity.
Qed.

Lemma io_passes_step size :
  0 < H5_POSIX_MAX_IO_BYTES -> 0 < size ->
  let k := if H5_POSIX_MAX_IO_BYTES <? size then H5_POSIX_MAX_IO_BYTES
           else size in
  io_passes size = S (io_passes (size - k)).
Proof.
  intros Hmax Hsize k. unfold io_passes, k.
  set (M := H5_POSIX_MAX_IO_BYTES) in *.
  destruct (Z.ltb_spec M size) as [Hlt|Hge].
  - replace (size + M - 1) with (size - M + M - 1 + 1 * M) by lia.
    rewrite Z.div_add by lia.
    rewrite Z2Nat.inj_add; [|apply Z.div_pos; lia|lia].
    simpl. lia.
  - rewrite Z.sub_diag. cbn [Z.add].
    rewrite (Z.div_small (M - 1)) by lia.
    replace ((size + M - 1) / M) with 1; [reflexivity|].
    apply (Z.div_unique_pos _ _ _ (size - 1)); lia.
Qed.

(** The read loop over a file that holds the bytes asked for: it
    returns them in the buffer, after [io_passes size] reads. *)
Lemma read_while_stable md fuel :
  md_stable md -> 0 < H5_POSIX_MAX_IO_BYTES ->
  forall size p buf v,
    0 <= size < 2 ^ 64 -> 0 <= md_pos v -> md_pos v + size <= blen md ->
    0 <= p -> p + size <= blen buf -> (io_passes size < fuel)%nat ->
    exists d buf',
      sub_bytes md (md_pos v) size = Some d /\ blit buf p d = Some buf'
      /\ read_while fuel size p buf v
         = (Ok buf', after_calls (io_passes size) (md_pos v + size) v).
Proof.
  intros Hmd Hmax. induction fuel as [|fuel IH];
    intros size p buf v Hsize Hpos Hlen Hp Hbuf Hfuel; [lia|].
  cbn [read_while]. destruct (Z.ltb_spec 0 size) as [Hgt|Hle].
  - set (k := if H5_POSIX_MAX_IO_BYTES <? size then H5_POSIX_MAX_IO_BYTES
              else size).
    assert (Hk : 0 < k <= size).
    { unfold k. destruct (Z.ltb_spec H5_POSIX_MAX_IO_BYTES size); lia. }
    pose proof (io_passes_step size Hmax Hgt) as Hstep. cbv zeta in Hstep.
    fold k in Hstep.
    destruct (run_HDread md k v Hmd ltac:(lia) Hpos ltac:(lia))
      as (d1 & Hd1 & Hrun).
    pose proof (sub_bytes_length _ _ _ _ Hd1) as Hl1.
    rewrite (run_bind_ok _ _ _ _ _ Hrun).
    assert (Ha : r_assert (blen d1 <=? size) (after_calls 1 (md_pos v + k) v)
                 = (Ok tt, after_calls 1 (md_pos v + k) v)).
    { apply r_assert_true. right. apply Z.leb_le. lia. }
    rewrite (run_bind_ok _ _ _ _ _ Ha).
    destruct (blit buf p d1) as [buf1|] eqn:Hb1.
    2:{ rewrite blit_Some in Hb1 by lia. discriminate Hb1. }
    pose proof (blit_length _ _ _ _ Hb1) as Hlb1.
    rewrite Hl1, (u64_small (size - k)) by lia.
    destruct (IH (size - k) (p + k) buf1 (after_calls 1 (md_pos v + k) v))
      as (d2 & buf' & Hd2 & Hb2 & Hrec);
      [lia|simpl; lia|simpl; lia|lia|lia|lia|].
    rewrite Hrec. cbn [md_pos after_calls set_md_pos set_clock] in Hd2 |- *.
    exists (d1 ++ d2), buf'. split; [|split].
    + replace size with (k + (size - k)) by lia.
      apply sub_bytes_app; try lia; assumption.
    + apply (blit_blit_app _ _ _ _ buf1); [exact Hb1|].
      rewrite Hl1. exact Hb2.
    + rewrite Hstep. f_equal. unfold after_calls, set_md_pos, set_clock.
      simpl. f_equal; lia.
  - assert (size = 0) by lia. subst size.
    rewrite io_passes_0 by exact Hmax.
    exists [], buf. split; [|split].
    + rewrite sub_bytes_Some by lia. reflexivity.
    + rewrite blit_Some by (unfold blen in *; simpl; lia).
      simpl. rewrite Nat.add_0_r, take_drop. reflexivity.
    + unfold after_calls. destruct v. simpl. rewrite Z.add_0_r.
      reflexivity.
Qed.

End ReaderStable.


Section ReaderReadPage.
Context `{ReaderCollaborators}.

Lemma to_int_small z : 0 <= z < 2 ^ 31 -> to_int z = z.
Proof. intros Hz. unfold to_int. destruct (Z.ltb_spec z (2 ^ 31)); lia. Qed.

(** The search of [H5FD_vfd_swmr_read] in a well formed index. *)
Lemma read_search_spec v target :
  index_wf v ->
  let index := idx_entries (md_index v) in
  let n := to_int (idx_num_entries (md_index v)) in
  exists found i,
    index_search (S (Z.to_nat n)) index target 0 (n - 1) 0 v
    = (Ok (found, i), v)
    /\ (found = true ->
        0 <= i /\ exists e, index !! Z.to_nat i = Some e
                     /\ hdf5_page_offset e = target)
    /\ (found = false ->
        forall e, e ∈ index -> hdf5_page_offset e <> target).
Proof.
  intros (Hn & Hsmall & Hs) index n.
  assert (Hnn : n = Z.of_nat (length index)).
  { unfold n. rewrite to_int_small; [exact Hn|]. rewrite Hn in *. lia. }
  clearbody n. subst n.
  apply (index_search_spec index target v _ Hs).
  - lia.
  - lia.
  - lia.
  - intros i e Hi _. lia.
  - intros i e Hi He. apply lookup_lt_Some in He. lia.
Qed.

(** The read of a page that the index does not list. *)
Lemma read_not_in_index io_fuel type addr size buf v :
  let fs := hdr_fs_page_size (md_header v) in
  fs <> 0 -> index_wf v ->
  (forall e, e ∈ idx_entries (md_index v) ->
     hdf5_page_offset e <> addr / fs) ->
  H5FD_vfd_swmr_read io_fuel type addr size buf v
  = match H5FD_read (clock v) type addr size with
    | None => (Fail, set_clock (S (clock v)) v)
    | Some d =>
        match blit buf 0 d with
        | Some b => (Ok b, set_clock (S (clock v)) v)
        | None => (Abort MemoryFault, set_clock (S (clock v)) v)
        end
    end.
Proof.
  intros fs Hfs Hwf Hnot.
  destruct (read_search_spec v (addr / fs) Hwf)
    as (found & i & Hrun & Hyes & Hno).
  destruct found.
  - exfalso. destruct (Hyes eq_refl) as (_ & e & He & Hpage).
    apply (Hnot e); [|exact Hpage].
    eapply list_elem_of_lookup_2. exact He.
  - unfold H5FD_vfd_swmr_read. unfold bind at 1, get_vfd. fold fs.
    destruct (Z.eqb_spec fs 0) as [|_]; [contradiction|].
    unfold bind at 1, ret at 1.
    rewrite (run_bind_ok _ _ _ _ _ Hrun).
    unfold bind, get_vfd, tick.
    destruct (H5FD_read (clock v) type addr size) as [d|]; [|reflexivity].
    destruct (blit buf 0 d); reflexivity.
Qed.

(** The read of a page that the index lists: what is left is the
    retry loop on its entry. *)
Lemma read_in_index io_fuel type addr size buf v e :
  let fs := hdr_fs_page_size (md_header v) in
  let po := addr - addr / fs * fs in
  index_wf v -> 0 < fs -> 0 <= addr -> (addr / fs + 1) * fs < 2 ^ 64 ->
  e ∈ idx_entries (md_index v) -> hdf5_page_offset e = addr / fs ->
  R_NDEBUG = true
  \/ ((po = 0 \/ (pb_configured v = false /\ u64 (po + size) <= fs))
      /\ (pb_configured v = false \/ size = ie_length e)) ->
  H5FD_vfd_swmr_read io_fuel type addr size buf v
  = (r <- entry_loop (do_while_fuel H5FD_VFD_SWMR_MD_INDEX_RETRY_MAX)
            io_fuel e fs po size buf H5FD_VFD_SWMR_MD_INDEX_RETRY_MAX 1 ;;
     let '(entry_retries, buf) := r in
     if entry_retries =? 0 then error else ret buf) v.
Proof.
  intros fs po Hwf Hfs Haddr Hend He Hpage Hassert.
  assert (Hrange : 0 <= addr < 2 ^ 64).
  { pose proof (Z.div_mod addr fs ltac:(lia)).
    pose proof (Z.mod_pos_bound addr fs Hfs). nia. }
  destruct (page_addr_le addr fs Hfs Hrange) as (Hpa & Hle & Hlt).
  assert (Hdiv : 0 <= addr / fs) by (apply Z.div_pos; lia).
  destruct (read_search_spec v (addr / fs) Hwf)
    as (found & i & Hrun & Hyes & Hno).
  destruct found.
  2:{ exfalso. apply (Hno eq_refl e He Hpage). }
  destruct (Hyes eq_refl) as (Hi & e' & He' & Hpage').
  assert (e' = e) as ->.
  { apply list_elem_of_lookup_1 in He. destruct He as [k Hk].
    destruct Hwf as (_ & _ & Hs).
    destruct (lt_eq_lt_dec (Z.to_nat i) k) as [[Hlt'|Heq]|Hgt].
    - pose proof (index_sorted_lookup _ _ _ _ _ Hs Hlt' He' Hk). lia.
    - subst k. congruence.
    - pose proof (index_sorted_lookup _ _ _ _ _ Hs Hgt Hk He'). lia. }
  unfold H5FD_vfd_swmr_read. unfold bind at 1, get_vfd. fold fs.
  destruct (Z.eqb_spec fs 0) as [|_]; [lia|].
  unfold bind at 1, ret at 1.
  rewrite (run_bind_ok _ _ _ _ _ Hrun).
  rewrite (run_bind_ok _ _ _ _ _ (run_index_at _ _ _ _ Hi He')).
  rewrite Hpa. rewrite (u64_small (addr - addr / fs * fs)) by lia. fold po.
  assert (Ha : forall b, (R_NDEBUG = true \/ b = true) ->
                         forall k : unit -> RD bytes,
                           bind (r_assert b) k v = k tt v).
  { intros b Hb k. apply run_bind_ok, r_assert_true, Hb. }
  rewrite Ha by (right; apply Z.leb_le; lia).
  rewrite Ha.
  2:{ destruct Hassert as [Hn|(H2 & _)]; [left; exact Hn|right].
      destruct H2 as [Hp|[Hc Hl]]; apply orb_true_iff; [left|right].
      - apply Z.eqb_eq. exact Hp.
      - apply andb_true_iff. split; [rewrite Hc; reflexivity|].
        apply Z.leb_le. exact Hl. }
  rewrite Hpage, Hpa.
  rewrite Ha by (right; apply Z.leb_le; lia).
  rewrite Ha.
  2:{ right. apply Z.ltb_lt.
      rewrite (u64_small (addr / fs + 1)), u64_small; nia. }
  rewrite Ha.
  2:{ destruct Hassert as [Hn|(_ & H5)]; [left; exact Hn|right].
      destruct H5 as [Hc|Hsz]; apply orb_true_iff; [left|right].
      - rewrite Hc. reflexivity.
      - apply Z.eqb_eq. exact Hsz. }
  reflexivity.
Qed.

End ReaderReadPage.


Section ReaderReadTheorems.
Context `{ReaderCollaborators}.

(** X1.  The binary search of [H5FD_vfd_swmr_read] in a well formed
    index: it ends without an access outside the index and leaves the
    reader as it was; it finds an entry exactly when the index lists
    the page, and the entry it finds is the entry of the page. *)
Theorem index_search_finds_page (v : H5FD_vfd_swmr_t) (target : Z) :
  let index := idx_entries (md_index v) in
  let n := to_int (idx_num_entries (md_index v)) in
  index_wf v ->
  exists found i,
    index_search (S (Z.to_nat n)) index target 0 (n - 1) 0 v
    = (Ok (found, i), v)
    /\ (found = true <->
        exists e, e ∈ index /\ hdf5_page_offset e = target)
    /\ (found = true ->
        0 <= i /\ exists e, index !! Z.to_nat i = Some e
                     /\ hdf5_page_offset e = target).
Proof.
  intros index n Hwf.
  destruct (read_search_spec v target Hwf) as (found & i & Hrun & Hyes & Hno).
  exists found, i. split; [exact Hrun|]. split; [|exact Hyes].
  split.
  - intros Hf. destruct (Hyes Hf) as (_ & e & He & Hp).
    exists e. split; [|exact Hp]. eapply list_elem_of_lookup_2. exact He.
  - intros (e & He & Hp). destruct found; [reflexivity|].
    exfalso. apply (Hno eq_refl e He Hp).
Qed.

(** X2.  A read of a page that the index does not list is passed to
    the driver of the HDF5 file: the call returns what that driver
    reads, and fails when it fails; the metadata file is not read and
    the call does not sleep. *)
Theorem vfd_swmr_read_passes_through (io_fuel : nat) (type : H5FD_mem_t)
  (addr : haddr_t) (size : Z) (buf : bytes) (v : H5FD_vfd_swmr_t) :
  let fs := hdr_fs_page_size (md_header v) in
  fs <> 0 -> index_wf v ->
  (forall e, e ∈ idx_entries (md_index v) ->
     hdf5_page_offset e <> addr / fs) ->
  H5FD_vfd_swmr_read io_fuel type addr size buf v
  = match H5FD_read (clock v) type addr size with
    | None => (Fail, set_clock (S (clock v)) v)
    | Some d =>
        match blit buf 0 d with
        | Some b => (Ok b, set_clock (S (clock v)) v)
        | None => (Abort MemoryFault, set_clock (S (clock v)) v)
        end
    end.
Proof. intros fs. apply read_not_in_index. Qed.

(** X3.  A read of a page that the index lists, from a metadata file
    that the writer leaves alone and that holds the range of the page:
    before the page buffer is configured, and after it when the
    checksum of the bytes read is the one of the index entry, the call
    returns the [size] bytes of the metadata file at the place of the
    entry, after one seek and [io_passes size] reads. *)
Theorem vfd_swmr_read_md_page (io_fuel : nat) (type : H5FD_mem_t)
  (addr : haddr_t) (size : Z) (buf : bytes) (v : H5FD_vfd_swmr_t)
  (md : bytes) (e : H5FD_vfd_swmr_idx_entry_t) :
  let fs := hdr_fs_page_size (md_header v) in
  let po := addr - addr / fs * fs in
  let off := md_file_page_offset e * fs + po in
  index_wf v -> md_stable md ->
  0 < fs -> 0 <= addr -> (addr / fs + 1) * fs < 2 ^ 64 ->
  e ∈ idx_entries (md_index v) -> hdf5_page_offset e = addr / fs ->
  0 <= md_file_page_offset e -> 0 <= size -> off + size <= blen md ->
  blen md < 2 ^ 63 -> size <= blen buf ->
  0 < H5_POSIX_MAX_IO_BYTES ->
  0 < H5FD_VFD_SWMR_MD_INDEX_RETRY_MAX < 2 ^ 32 ->
  (io_passes size < io_fuel)%nat ->
  R_NDEBUG = true
  \/ ((po = 0 \/ (pb_configured v = false /\ po + size <= fs))
      /\ (pb_configured v = false \/ size = ie_length e)) ->
  (pb_configured v = true ->
   forall d buf', sub_bytes md off size = Some d ->
     blit buf 0 d = Some buf' ->
     H5_checksum_metadata buf' (ie_length e) 0 = chksum e) ->
  exists d buf',
    sub_bytes md off size = Some d /\ blit buf 0 d = Some buf'
    /\ H5FD_vfd_swmr_read io_fuel type addr size buf v
       = (Ok buf', after_calls (S (io_passes size)) (off + size) v).
Proof.
  intros fs po off Hwf Hmd Hfs Haddr Hend He Hpage Hmo Hsize Hlen Hmdlen
    Hbuf Hio Hmax Hfuel Hassert Hsum.
  assert (Hrange : 0 <= addr < 2 ^ 64).
  { pose proof (Z.div_mod addr fs ltac:(lia)).
    pose proof (Z.mod_pos_bound addr fs Hfs). nia. }
  destruct (page_addr_le addr fs Hfs Hrange) as (Hpa & Hle & Hlt).
  assert (Hpo : 0 <= po < fs) by (unfold po; lia).
  assert (Hoff : 0 <= off) by (unfold off; nia).
  rewrite (read_in_index io_fuel type addr size buf v e Hwf Hfs Haddr Hend
             He Hpage).
  2:{ destruct Hassert as [Hn|(H2 & H5)]; [left; exact Hn|right].
      split; [|exact H5]. destruct H2 as [Hp|[Hc Hl]]; [left; exact Hp|].
      right. split; [exact Hc|]. fold fs po. rewrite u64_small; lia. }
  fold fs po.
  assert (Hu : u64 (u64 (md_file_page_offset e * fs) + po) = off).
  { unfold off. rewrite (u64_small (md_file_page_offset e * fs)) by nia.
    apply u64_small. nia. }
  destruct (read_while_stable md io_fuel Hmd Hio size 0 buf
              (after_lseek off v)) as (d & buf' & Hd & Hb & Hrw);
    [lia|simpl; lia|simpl; lia|lia|lia|exact Hfuel|].
  cbn [md_pos after_lseek set_md_pos] in Hd, Hrw.
  exists d, buf'. split; [exact Hd|]. split; [exact Hb|].
  rewrite (do_while_fuel_pos _ (proj1 Hmax)).
  erewrite run_bind_ok.
  2:{ apply entry_loop_match.
      - rewrite Hu. lia.
      - rewrite Hu. exact Hrw.
      - destruct (pb_configured v) eqn:Hc; [|reflexivity].
        apply (Hsum eq_refl d buf' Hd Hb). }
  cbv beta iota.
  destruct (Z.eqb_spec H5FD_VFD_SWMR_MD_INDEX_RETRY_MAX 0); [lia|].
  unfold ret. f_equal. unfold after_calls, after_lseek, set_md_pos, set_clock.
  simpl. f_equal. lia.
Qed.

End ReaderReadTheorems.


Section ReaderShortFile.
Context `{ReaderCollaborators}.

(** A read at any place of a file that the writer leaves alone. *)
Lemma run_HDread_any md n v :
  md_stable md -> 0 <= n -> 0 <= md_pos v ->
  exists d,
    HDread n v = (Ok (Some d), after_calls 1 (md_pos v + blen d) v)
    /\ 0 <= blen d <= n /\ md_pos v + blen d <= Z.max (md_pos v) (blen md).
Proof.
  intros Hmd Hn Hp.
  exists (take (Z.to_nat n) (drop (Z.to_nat (md_pos v)) md)).
  split.
  - unfold HDread, md_now, bind, get_vfd, tick, ret. rewrite (Hmd (clock v)).
    reflexivity.
  - unfold blen. rewrite length_take, length_drop. lia.
Qed.

(** The read loop over a file that ends before the bytes asked for:
    at the end of the file [HDread] returns no byte and the loop goes
    on; no bound on its passes lets it return. *)
Lemma read_while_short md fuel :
  md_stable md -> 0 < H5_POSIX_MAX_IO_BYTES ->
  forall size p buf v,
    0 < size < 2 ^ 64 -> 0 <= md_pos v -> blen md < md_pos v + size ->
    0 <= p -> p + size <= blen buf ->
    exists v', read_while fuel size p buf v = (Abort OutOfFuel, v').
Proof.
  intros Hmd Hmax. induction fuel as [|fuel IH];
    intros size p buf v Hsize Hpos Hlen Hp Hbuf.
  - eexists. reflexivity.
  - cbn [read_while]. destruct (Z.ltb_spec 0 size) as [_|]; [|lia].
    set (k := if H5_POSIX_MAX_IO_BYTES <? size then H5_POSIX_MAX_IO_BYTES
              else size).
    assert (Hk : 0 < k <= size).
    { unfold k. destruct (Z.ltb_spec H5_POSIX_MAX_IO_BYTES size); lia. }
    destruct (run_HDread_any md k v Hmd ltac:(lia) Hpos)
      as (d & Hrun & Hd & Hend).
    rewrite (run_bind_ok _ _ _ _ _ Hrun).
    assert (Ha : r_assert (blen d <=? size)
                   (after_calls 1 (md_pos v + blen d) v)
                 = (Ok tt, after_calls 1 (md_pos v + blen d) v)).
    { apply r_assert_true. right. apply Z.leb_le. lia. }
    rewrite (run_bind_ok _ _ _ _ _ Ha).
    rewrite blit_Some by lia.
    rewrite (u64_small (size - blen d)) by lia.
    apply IH.
    + lia.
    + simpl. lia.
    + simpl. lia.
    + lia.
    + unfold blen in *. rewrite !length_app, length_take, length_drop. lia.
Qed.

(** X4.  A read of a page that the index lists, from a metadata file
    that the writer leaves alone and that ends before the range of the
    page: the read loop has no bound in the source and the call does
    not return, whatever bound the loop is given here. *)
Theorem vfd_swmr_read_short_md_file (io_fuel : nat) (type : H5FD_mem_t)
  (addr : haddr_t) (size : Z) (buf : bytes) (v : H5FD_vfd_swmr_t)
  (md : bytes) (e : H5FD_vfd_swmr_idx_entry_t) :
  let fs := hdr_fs_page_size (md_header v) in
  let po := addr - addr / fs * fs in
  let off := md_file_page_offset e * fs + po in
  index_wf v -> md_stable md ->
  0 < fs -> 0 <= addr -> (addr / fs + 1) * fs < 2 ^ 64 ->
  e ∈ idx_entries (md_index v) -> hdf5_page_offset e = addr / fs ->
  0 <= md_file_page_offset e -> 0 < size < 2 ^ 64 -> off < 2 ^ 63 ->
  blen md < off + size -> size <= blen buf ->
  0 < H5_POSIX_MAX_IO_BYTES ->
  0 < H5FD_VFD_SWMR_MD_INDEX_RETRY_MAX < 2 ^ 32 ->
  R_NDEBUG = true
  \/ ((po = 0 \/ (pb_configured v = false /\ po + size <= fs))
      /\ (pb_configured v = false \/ size = ie_length e)) ->
  exists v',
    H5FD_vfd_swmr_read io_fuel type addr size buf v
    = (Abort OutOfFuel, v').
Proof.
  intros fs po off Hwf Hmd Hfs Haddr Hend He Hpage Hmo Hsize Hoff63 Hlen
    Hbuf Hio Hmax Hassert.
  assert (Hrange : 0 <= addr < 2 ^ 64).
  { pose proof (Z.div_mod addr fs ltac:(lia)).
    pose proof (Z.mod_pos_bound addr fs Hfs). nia. }
  destruct (page_addr_le addr fs Hfs Hrange) as (Hpa & Hle & Hlt).
  assert (Hpo : 0 <= po < fs) by (unfold po; lia).
  assert (Hoff : 0 <= off) by (unfold off; nia).
  rewrite (read_in_index io_fuel type addr size buf v e Hwf Hfs Haddr Hend
             He Hpage).
  2:{ destruct Hassert as [Hn|(H2 & H5)]; [left; exact Hn|right].
      split; [|exact H5]. destruct H2 as [Hp|[Hc Hl]]; [left; exact Hp|].
      right. split; [exact Hc|]. fold fs po. rewrite u64_small; lia. }
  fold fs po.
  assert (Hu : u64 (u64 (md_file_page_offset e * fs) + po) = off).
  { unfold off. rewrite (u64_small (md_file_page_offset e * fs)) by nia.
    apply u64_small. nia. }
  destruct (read_while_short md io_fuel Hmd Hio size 0 buf
              (after_lseek off v)) as (v' & Hrw);
    [lia|simpl; lia|simpl; lia|lia|lia|].
  exists v'.
  rewrite (do_while_fuel_pos _ (proj1 Hmax)).
  unfold bind at 1. cbn [entry_loop]. rewrite Hu.
  rewrite (run_bind_ok _ _ _ _ _ (run_lseek _ _ Hoff63)).
  rewrite (run_bind_abort _ _ _ _ _ Hrw). reflexivity.
Qed.

End ReaderShortFile.


(** The index of pages 2, 4 and 9: the search finds the page 4 at the
    place 1. *)
Lemma index_search_finds_page_witness :
  exists found i,
    index_search 4
      [mkIdxEntry 2 5 16 16; mkIdxEntry 4 6 16 32; mkIdxEntry 9 7 16 48]
      4 0 2 0 reader_three = (Ok (found, i), reader_three)
    /\ (found = true <->
        exists e, e ∈ idx_entries (md_index reader_three)
                  /\ hdf5_page_offset e = 4)
    /\ (found = true ->
        0 <= i /\ exists e, idx_entries (md_index reader_three)
                            !! Z.to_nat i = Some e
                     /\ hdf5_page_offset e = 4).
Proof.
  apply (index_search_finds_page reader_three 4).
  split; [reflexivity|]. split; reflexivity.
Defined.

(** A read of 8 bytes at the address 80, in the page 5 that the index
    of pages 2, 4 and 9 does not list: the bytes are those of the HDF5
    file. *)
Lemma vfd_swmr_read_passes_through_witness :
  @H5FD_vfd_swmr_read torn_reader 1 H5FD_MEM_OHDR 80 8 (replicate 8 xff)
    reader_three
  = (Ok (zeros 8), set_clock 1 reader_three).
Proof.
  apply (@vfd_swmr_read_passes_through torn_reader 1 H5FD_MEM_OHDR 80 8
           (replicate 8 xff) reader_three).
  - simpl. lia.
  - split; [reflexivity|]. split; reflexivity.
  - intros e He. simpl in He.
    repeat (apply elem_of_cons in He; destruct He as [->|He];
            [vm_compute; intros [=]|]).
    apply not_elem_of_nil in He. destruct He.
Defined.

(** The read of the page 2 by a reader whose page buffer is
    configured: the 16 bytes of the page 5 of the metadata file. *)
Lemma vfd_swmr_read_md_page_witness :
  exists d buf',
    sub_bytes (md_file 5 5 16 x01) 80 16 = Some d
    /\ blit (zeros 16) 0 d = Some buf'
    /\ @H5FD_vfd_swmr_read sound_reader 2 H5FD_MEM_OHDR 32 16 (zeros 16)
         (reader_sound true)
       = (Ok buf', after_calls 2 96 (reader_sound true)).
Proof.
  apply (@vfd_swmr_read_md_page sound_reader 2 H5FD_MEM_OHDR 32 16
           (zeros 16) (reader_sound true) (md_file 5 5 16 x01)
           (mkIdxEntry 2 5 16 16)).
  - split; [reflexivity|]. split; reflexivity.
  - intros t. reflexivity.
  - simpl. lia.
  - lia.
  - vm_compute. reflexivity.
  - apply list_elem_of_singleton. reflexivity.
  - reflexivity.
  - simpl. lia.
  - lia.
  - vm_compute. intros [=].
  - vm_compute. reflexivity.
  - vm_compute. intros [=].
  - simpl. lia.
  - simpl. lia.
  - vm_compute. lia.
  - right. split; [left; reflexivity|right; reflexivity].
  - intros _ d buf' Hd Hb. vm_compute in Hd. injection Hd as <-.
    vm_compute in Hb. injection Hb as <-. reflexivity.
Defined.

(** The same read when the metadata file ends in the middle of the
    page, with a bound of a thousand passes. *)
Lemma vfd_swmr_read_short_md_file_witness :
  exists v',
    @H5FD_vfd_swmr_read short_reader 1000 H5FD_MEM_OHDR 32 16 (zeros 16)
      (reader_sound false)
    = (Abort OutOfFuel, v').
Proof.
  apply (@vfd_swmr_read_short_md_file short_reader 1000 H5FD_MEM_OHDR 32 16
           (zeros 16) (reader_sound false) (take 90 (md_file 5 5 16 x01))
           (mkIdxEntry 2 5 16 16)).
  - split; [reflexivity|]. split; reflexivity.
  - intros t. reflexivity.
  - simpl. lia.
  - lia.
  - vm_compute. reflexivity.
  - apply list_elem_of_singleton. reflexivity.
  - reflexivity.
  - simpl. lia.
  - lia.
  - vm_compute. reflexivity.
  - vm_compute. reflexivity.
  - vm_compute. intros [=].
  - simpl. lia.
  - simpl. lia.
  - right. split; [left; reflexivity|left; reflexivity].
Defined.


(** ** The cached header and index of the reader *)

Lemma decode_le_nonneg b : 0 <= decode_le b.
Proof. induction b as [|x b IH]; simpl; lia. Qed.

Section ReaderCache.
Context `{ReaderCollaborators}.

Lemma try_ok_inv {A} (m : RD A) v a v' :
  try m v = (Ok (Some a), v') -> m v = (Ok a, v').
Proof.
  unfold try. destruct (m v) as [[b| |w] v1]; intros [= <- <-] ||
    intros [=]; reflexivity.
Qed.

Lemma decode_at_inv image p n z v v' :
  decode_at image p n v = (Ok z, v') -> v' = v /\ 0 <= z.
Proof.
  unfold decode_at. destruct (sub_bytes image p n) as [b|]; [|intros [=]].
  intros [= <- <-]. split; [reflexivity|apply decode_le_nonneg].
Qed.

Lemma decode_entries_length n image p l v v' :
  decode_entries n image p v = (Ok l, v') -> length l = n.
Proof.
  revert p l v v'. induction n as [|n IH]; intros p l v v'; simpl.
  - intros [= <- <-]. reflexivity.
  - intros Hr.
    do 4 (apply bind_ok_inv in Hr; destruct Hr as (? & ? & _ & Hr)).
    apply bind_ok_inv in Hr. destruct Hr as (l' & v1 & Hl & Hr).
    injection Hr as <- <-. simpl. f_equal. apply (IH _ _ _ _ Hl).
Qed.

Lemma keeps_decode_entries n image p :
  keeps_cache (decode_entries n image p).
Proof.
  revert p. induction n as [|n IH]; intros p; simpl; [apply keeps_ret|].
  repeat (apply keeps_bind; [apply keeps_decode_at|]; intros ?).
  apply keeps_bind; [apply IH|]. intros l. apply keeps_ret.
Qed.

Lemma keeps_index_deserialize hdr :
  keeps_cache (H5FD__vfd_swmr_index_deserialize hdr).
Proof.
  unfold H5FD__vfd_swmr_index_deserialize.
  apply keeps_bind; [apply keeps_stat_loop|]. intros fr.
  apply keeps_bind; [apply keeps_image_loop|]. intros [ir image].
  apply keeps_bind;
    [destruct (ir =? 0); [apply keeps_error|apply keeps_ret]|]. intros _.
  repeat (apply keeps_bind; [apply keeps_decode_at|]; intros ?).
  apply keeps_bind; [apply keeps_decode_entries|]. intros l.
  apply keeps_bind; [apply keeps_decode_at|]. intros ?.
  apply keeps_bind; [apply keeps_assert|]. intros _. apply keeps_ret.
Qed.

(** The index that [H5FD__vfd_swmr_index_deserialize] returns has as
    many entries as it says. *)
Lemma index_deserialize_length hdr idx v v' :
  H5FD__vfd_swmr_index_deserialize hdr v = (Ok idx, v') ->
  idx_num_entries idx = Z.of_nat (length (idx_entries idx)).
Proof.
  unfold H5FD__vfd_swmr_index_deserialize. intros Hr.
  apply bind_ok_inv in Hr. destruct Hr as (fr & v1 & _ & Hr).
  apply bind_ok_inv in Hr. destruct Hr as ([ir image] & v2 & _ & Hr).
  apply bind_ok_inv in Hr. destruct Hr as (? & v3 & _ & Hr).
  cbv zeta in Hr.
  apply bind_ok_inv in Hr. destruct Hr as (t & v4 & _ & Hr).
  apply bind_ok_inv in Hr. destruct Hr as (n & v5 & Hn & Hr).
  apply bind_ok_inv in Hr. destruct Hr as (l & v6 & Hl & Hr).
  apply bind_ok_inv in Hr. destruct Hr as (c & v7 & _ & Hr).
  apply bind_ok_inv in Hr. destruct Hr as (? & v8 & _ & Hr).
  injection Hr as <- <-. simpl.
  apply decode_at_inv in Hn. destruct Hn as [_ Hn].
  apply decode_entries_length in Hl. rewrite Hl. lia.
Qed.

Lemma cache_step_same open v v1 v2 :
  same_cache v v1 -> cache_step open v1 v2 -> cache_step open v v2.
Proof.
  intros (Hh & Hi & Hr & Hc) (Hr2 & Hc2 & Hd).
  split; [congruence|]. split; [congruence|].
  destruct Hd as [(Hh2 & Hi2 & Ho)|(Ht & Hl & Hm)].
  - left. repeat split; congruence.
  - right. split; [exact Ht|]. split; [exact Hl|].
    intros Ho. rewrite <- Hh. apply Hm, Ho.
Qed.

Lemma cache_step_after open v v1 v2 :
  cache_step open v v1 -> same_cache v1 v2 -> cache_step open v v2.
Proof.
  intros (Hr & Hc & Hd) (Hh2 & Hi2 & Hr2 & Hc2).
  split; [congruence|]. split; [congruence|].
  destruct Hd as [(Hh & Hi & Ho)|(Ht & Hl & Hm)].
  - left. repeat split; congruence.
  - right. rewrite Hh2, Hi2. split; [exact Ht|]. split; [exact Hl|exact Hm].
Qed.

(** A pass of the loop leaves the cached header and index alone,
    unless it ends the loop. *)
Lemma pass_cache open v :
  match load_hdr_and_idx_pass open v with
  | (Ok LoadBreak, v1) => cache_step open v v1
  | (_, v1) => same_cache v v1
  end.
Proof.
  unfold load_hdr_and_idx_pass.
  pose proof (keeps_try _ keeps_header_deserialize v) as Hk.
  unfold bind at 1.
  destruct (try H5FD__vfd_swmr_header_deserialize v) as [[[hdr|]| |w] v0];
    simpl in Hk; try exact Hk.
  unfold bind at 1, get_vfd. unfold bind at 1.
  destruct (_ <? _); [exact Hk|]. unfold ret at 1.
  destruct (negb open && (hdr_tick_num hdr =? hdr_tick_num (md_header v0)))
    eqn:Hsame.
  { apply andb_true_iff in Hsame. destruct Hsame as [Ho _].
    apply negb_true_iff in Ho. apply (cache_step_same _ _ v0 _ Hk).
    destruct Hk as (? & ? & ? & ?). split; [reflexivity|].
    split; [reflexivity|]. left. auto. }
  destruct (negb open && (hdr_tick_num hdr <? hdr_tick_num (md_header v0)))
    eqn:Hless; [exact Hk|].
  unfold bind at 1.
  pose proof (keeps_assert
                ((hdr_tick_num (md_header v0) <? hdr_tick_num hdr) || open)
                v0) as Ha.
  destruct (r_assert _ v0) as [[[]| |w] v1]; simpl in Ha;
    try (eapply same_cache_trans; [exact Hk|exact Ha]).
  pose proof (keeps_try _ (keeps_index_deserialize hdr) v1) as Hi.
  unfold bind at 1.
  destruct (try (H5FD__vfd_swmr_index_deserialize hdr) v1)
    as [[[idx|]| |w] v2] eqn:Hidx; simpl in Hi;
    try (eapply same_cache_trans; [exact Hk|];
         eapply same_cache_trans; [exact Ha|exact Hi]).
  assert (Hk2 : same_cache v v2).
  { eapply same_cache_trans; [exact Hk|].
    eapply same_cache_trans; [exact Ha|exact Hi]. }
  destruct (Z.eqb_spec (hdr_tick_num hdr) (idx_tick_num idx)) as [Heq|Hne].
  - apply (cache_step_same _ _ v2 _ Hk2).
    split; [reflexivity|]. split; [reflexivity|]. right. simpl.
    split; [exact Heq|]. split.
    + apply try_ok_inv in Hidx. apply (index_deserialize_length _ _ _ _ Hidx).
    + intros Ho. subst open. simpl in Hsame, Hless.
      apply Z.eqb_neq in Hsame. apply Z.ltb_ge in Hless.
      destruct Ha as (Ha1 & _). destruct Hi as (Hi1 & _).
      rewrite Hi1, Ha1. lia.
  - destruct (u64 (idx_tick_num idx + 1) <? hdr_tick_num hdr); exact Hk2.
Qed.

(** The loop: its counter is not 0 when a pass has ended it, and then
    the cache has made a step; it is 0 when the retries are used up,
    and then the cache is as it was, as it is after a failure. *)
Lemma loop_cache open fuel :
  forall r ns v, 0 < r < 2 ^ 32 ->
    match load_hdr_and_idx_loop fuel open r ns v with
    | (Ok n, v') =>
        (n <> 0 /\ cache_step open v v') \/ (n = 0 /\ same_cache v v')
    | (_, v') => same_cache v v'
    end.
Proof.
  induction fuel as [|fuel IH]; intros r ns v Hr; simpl.
  - apply same_cache_refl.
  - pose proof (pass_cache open v) as Hp. unfold bind at 1.
    destruct (load_hdr_and_idx_pass open v) as [[[|]| |w] v1];
      try exact Hp.
    + left. split; [lia|exact Hp].
    + unfold bind at 1, H5_nanosleep. rewrite u32_small by lia.
      set (v2 := mkVfd _ _ _ _ _ _ _).
      assert (H12 : same_cache v v2).
      { eapply same_cache_trans; [exact Hp|]. repeat split. }
      destruct (Z.eqb_spec (r - 1) 0) as [Hz|Hz].
      * right. split; [reflexivity|exact H12].
      * specialize (IH (r - 1) (u64 (ns * 2)) v2 ltac:(lia)).
        destruct (load_hdr_and_idx_loop fuel open (r - 1) (u64 (ns * 2)) v2)
          as [[n| |w] v'].
        -- destruct IH as [[Hn Hs]|[Hn Hs]].
           ++ left. split; [exact Hn|].
              apply (cache_step_same _ _ v2 _ H12 Hs).
           ++ right. split; [exact Hn|].
              eapply same_cache_trans; [exact H12|exact Hs].
        -- eapply same_cache_trans; [exact H12|exact IH].
        -- eapply same_cache_trans; [exact H12|exact IH].
Qed.

End ReaderCache.

Section ReaderLoadTheorem.
Context `{ReaderCollaborators}.

(** What a load does to the cache. *)
Lemma load_cache (open : bool) (v : H5FD_vfd_swmr_t) :
  0 < H5FD_VFD_SWMR_MD_LOAD_RETRY_MAX < 2 ^ 32 ->
  match H5FD__vfd_swmr_load_hdr_and_idx open v with
  | (Ok _, v') => cache_step open v v'
  | (_, v') => same_cache v v'
  end.
Proof.
  intros Hr. unfold H5FD__vfd_swmr_load_hdr_and_idx, bind.
  pose proof (loop_cache open (do_while_fuel H5FD_VFD_SWMR_MD_LOAD_RETRY_MAX)
                H5FD_VFD_SWMR_MD_LOAD_RETRY_MAX 1 v Hr) as Hl.
  destruct (load_hdr_and_idx_loop _ open _ 1 v) as [[n| |w] v'];
    try exact Hl.
  destruct Hl as [[Hn Hs]|[Hn Hs]].
  - destruct (Z.eqb_spec n 0) as [|_]; [contradiction|exact Hs].
  - subst n. exact Hs.
Qed.

(** X5. With a retry count between 1 and 2^32 - 1, a load of the header
    and the index that succeeds leaves the reserved pages and the page
    buffer flag alone, and either leaves the cached header and index
    as they were (only on a reload, the tick of the file being the
    cached one), or caches a header and an index of one tick, the
    count of the index being the number of its entries, and on a
    reload the tick is later than the cached one was.  A load that
    does not succeed leaves the cached header and index as they
    were. *)
Theorem load_hdr_and_idx_cache (open : bool) (v : H5FD_vfd_swmr_t) :
  0 < H5FD_VFD_SWMR_MD_LOAD_RETRY_MAX < 2 ^ 32 ->
  match H5FD__vfd_swmr_load_hdr_and_idx open v with
  | (Ok _, v') => cache_step open v v'
  | (_, v') => same_cache v v'
  end.
Proof. exact (load_cache open v). Qed.

End ReaderLoadTheorem.

(** The first load of a reader, from the file of tick 5. *)
Lemma load_hdr_and_idx_cache_witness :
  match @H5FD__vfd_swmr_load_hdr_and_idx torn_reader true
          (reader_at 0 false) with
  | (Ok _, v') => cache_step true (reader_at 0 false) v'
  | (_, v') => same_cache (reader_at 0 false) v'
  end.
Proof.
  apply (@load_hdr_and_idx_cache torn_reader true (reader_at 0 false)).
  simpl. lia.
Defined.

Section ReaderTickAndIndex.
Context `{ReaderCollaborators}.

(** X6. With a retry count between 1 and 2^32 - 1 and a cached index
    whose count is the number of its entries, a call of
    [H5FD_vfd_swmr_get_tick_and_idx] with three pointers that succeeds
    returns the tick of the cached header, which is not less than the
    one cached before the call, and the number of entries of the cached
    index; the array holds all the entries of the index, followed by
    what it held behind them, when the count given was not less than
    their number, and is as it was otherwise.  A call that fails
    leaves the cached header and index as they were. *)
Theorem get_tick_and_idx_cache (reload : bool) (t0 n : Z)
  (a : list H5FD_vfd_swmr_idx_entry_t) (v : H5FD_vfd_swmr_t) :
  0 < H5FD_VFD_SWMR_MD_LOAD_RETRY_MAX < 2 ^ 32 ->
  idx_num_entries (md_index v)
  = Z.of_nat (length (idx_entries (md_index v))) ->
  match H5FD_vfd_swmr_get_tick_and_idx reload (Some t0) (Some n) (Some a) v
  with
  | (Ok (t, c, a'), v') =>
      let entries := idx_entries (md_index v') in
      cache_step false v v'
      /\ t = Some (hdr_tick_num (md_header v'))
      /\ hdr_tick_num (md_header v) <= hdr_tick_num (md_header v')
      /\ c = Some (Z.of_nat (length entries))
      /\ a' = Some (if Z.of_nat (length entries) <=? n
                    then entries ++ drop (length entries) a
                    else a)
  | (Fail, v') => same_cache v v'
  | (Abort _, _) => True
  end.
Proof.
  intros Hr Hn. unfold H5FD_vfd_swmr_get_tick_and_idx.
  unfold bind at 1.
  match goal with
  | |- context [?m v] =>
      match m with
      | (if reload then _ else _) =>
          assert (Hload : match m v with
                          | (Ok _, v') => cache_step false v v'
                          | (_, v') => same_cache v v'
                          end);
          [|destruct (m v) as [[[]| |w] v']; [|exact Hload|exact I]]
      end
  end.
  { destruct reload.
    - apply load_cache, Hr.
    - simpl. split; [reflexivity|]. split; [reflexivity|]. left. auto. }
  assert (Hn' : idx_num_entries (md_index v')
                = Z.of_nat (length (idx_entries (md_index v')))).
  { destruct Hload as (_ & _ & [(Hh & Hi & _)|(_ & Hl & _)]);
      [rewrite Hi; exact Hn|exact Hl]. }
  assert (Ht : hdr_tick_num (md_header v) <= hdr_tick_num (md_header v')).
  { destruct Hload as (_ & _ & [(Hh & _)|(_ & _ & Hlt)]);
      [rewrite Hh; lia|specialize (Hlt eq_refl); lia]. }
  unfold bind at 1, get_vfd. rewrite Hn'.
  destruct (Z.leb_spec (Z.of_nat (length (idx_entries (md_index v')))) n)
    as [Hle|Hgt].
  - unfold bind at 2. unfold bind at 1. unfold r_assert.
    unfold memcpy_entries. rewrite Z.leb_refl, Nat2Z.id, firstn_all.
    destruct (Z.leb_spec 0 (Z.of_nat (length (idx_entries (md_index v')))))
      as [_|?]; [|lia].
    apply Z.leb_le in Hle. simpl.
    destruct R_NDEBUG; [|destruct (negb (n =? 0)); [|exact I]];
      (destruct (_ <=? Z.of_nat (length a)); [|exact I]);
      simpl; rewrite Hle; auto.
  - apply Z.leb_gt in Hgt. simpl. rewrite Hgt. auto.
Qed.

End ReaderTickAndIndex.

(** A reload from the file of tick 5 by a reader whose cache is of tick
    0, with an array of one entry. *)
Lemma get_tick_and_idx_cache_witness :
  match @H5FD_vfd_swmr_get_tick_and_idx torn_reader true (Some 0) (Some 1)
          (Some [mkIdxEntry 0 0 0 0]) (reader_at 0 false)
  with
  | (Ok (t, c, a'), v') =>
      let entries := idx_entries (md_index v') in
      cache_step false (reader_at 0 false) v'
      /\ t = Some (hdr_tick_num (md_header v'))
      /\ hdr_tick_num (md_header (reader_at 0 false))
         <= hdr_tick_num (md_header v')
      /\ c = Some (Z.of_nat (length entries))
      /\ a' = Some (if Z.of_nat (length entries) <=? 1
                    then entries ++ drop (length entries)
                                      [mkIdxEntry 0 0 0 0]
                    else [mkIdxEntry 0 0 0 0])
  | (Fail, v') => same_cache (reader_at 0 false) v'
  | (Abort _, _) => True
  end.
Proof.
  apply (@get_tick_and_idx_cache torn_reader true 0 1 [mkIdxEntry 0 0 0 0]
           (reader_at 0 false)).
  - simpl. lia.
  - reflexivity.
Defined.

(** ** A page whose load has failed *)

Lemma memcpy_replicate (x : byte) (n offset size : Z) :
  0 <= offset -> 0 <= size -> offset + size <= n ->
  memcpy (replicate (Z.to_nat n) x) offset (replicate (Z.to_nat size) x) 0 size
  = Some (replicate (Z.to_nat n) x).
Proof.
  intros Ho Hs Hn. unfold memcpy, sub_bytes, blit, blen.
  rewrite !length_replicate.
  replace ((0 <=? 0) && (0 <=? size) && (0 + size <=? Z.of_nat (Z.to_nat size)))
    with true by (symmetry; rewrite !andb_true_iff, !Z.leb_le; lia).
  rewrite drop_0, take_replicate, Nat.min_id, length_replicate.
  replace ((0 <=? offset) && (offset + Z.of_nat (Z.to_nat size)
                              <=? Z.of_nat (Z.to_nat n)))
    with true by (symmetry; rewrite !andb_true_iff, !Z.leb_le; lia).
  f_equal. rewrite take_replicate, drop_replicate, <- !replicate_add.
  f_equal. lia.
Qed.

Section FailedLoad.
Context `{Collaborators}.

(** The page buffer after [H5PB__create_new_page] has made the entry of
    a page of [type] at the page [page], with an image that is not
    initialised. *)
Lemma run_load_page_fails s pb type page :
  pb_ptr (file s) = Some pb -> 0 < page_size pb ->
  0 <= page -> page * page_size pb < 2 ^ 64 ->
  ht pb !! page = None -> page ∉ LRU pb -> curr_pages pb < max_pages pb ->
  H5F_get_eoa (lf (file s)) type <> HADDR_UNDEF ->
  H5FD_get_eof (lf (file s)) H5FD_MEM_DEFAULT <> HADDR_UNDEF ->
  H5F__accum_read (lf (file s)) type (page * page_size pb) (page_size pb)
  = None ->
  H5PB__load_page (page * page_size pb) type s
  = (Fail, with_pb (unloaded_page type page pb) s).
Proof.
  intros Hpb Hps Hpage Hend Hnone Hlru Hcur Heoa Heof Hread.
  assert (Hdiv : page * page_size pb / page_size pb = page)
    by (apply Z.div_mul; lia).
  assert (Hu : u64 (page * page_size pb) = page * page_size pb).
  { unfold u64. apply Z.mod_small. nia. }
  apply twp_run. unfold H5PB__load_page. twp_steps.
  unfold H5PB__create_new_page. twp_steps.
  rewrite Hdiv, Hnone. unfold H5PB__allocate_page. twp_steps.
  rewrite Z.ltb_irrefl, andb_false_r. cbn [negb]. twp_steps.
  unfold accum_read. twp_steps. cbn [file with_pb lf set_pb_ptr].
  rewrite Hread. apply twp_error.
  unfold unloaded_page, VFD_IO. cbn [andb].
  destruct (is_draw type); reflexivity.
Qed.

(** X7. A read of less than a page, in one page that the page buffer
    does not hold and has room for, when the read of the page by the
    driver fails: the call fails and leaves the entry of the page in the
    page buffer, with the image as it was allocated; the same read
    again returns with success the bytes of that image, and the driver
    is not asked. *)
Theorem failed_load_leaves_page (s : env) (pb : H5PB_t) (type : H5FD_mem_t)
  (addr size : Z) (buf : bytes) :
  let page := addr / page_size pb in
  let offset := addr - page * page_size pb in
  let s1 := with_pb (unloaded_page type page pb) s in
  pb_ptr (file s) = Some pb -> has_mpi (file s) = false ->
  type <> H5FD_MEM_GHEAP ->
  (if is_draw type then min_md_pages pb else min_rd_pages pb)
    < max_pages pb ->
  0 <= addr -> addr + size < 2 ^ 64 ->
  0 < size < page_size pb -> offset + size <= page_size pb ->
  blen buf = size ->
  ht pb !! page = None -> page ∉ LRU pb -> curr_pages pb < max_pages pb ->
  H5F_get_eoa (lf (file s)) type <> HADDR_UNDEF ->
  H5FD_get_eof (lf (file s)) H5FD_MEM_DEFAULT <> HADDR_UNDEF ->
  H5F__accum_read (lf (file s)) type (page * page_size pb) (page_size pb)
  = None ->
  H5PB_read type addr size buf s = (Fail, s1)
  /\ fst (H5PB_read type addr size buf s1)
     = Ok (replicate (Z.to_nat size) uninit_byte).
Proof.
  intros page offset s1 Hpb Hmpi Hg Hmin Haddr Hend Hsize Hfit Hbuf Hnone
    Hlru Hcur Heoa Heof Hread.
  assert (Hps : 0 < page_size pb) by lia.
  destruct (page_addr_le addr (page_size pb) Hps ltac:(lia))
    as (Hpa & Hle & Hlt).
  destruct (one_page_range addr size (page_size pb) Hps Haddr Hend
              ltac:(lia) Hfit) as (Hu & Hlast & Hnum & Hfits).
  fold page in Hpa, Hle, Hlt, Hfits, Hlast, Hnum.
  assert (Hoff : u64 (addr - page * page_size pb) = offset).
  { unfold u64. apply Z.mod_small. unfold offset. lia. }
  fold offset in Hfits.
  assert (Hpage : 0 <= page) by (apply Z.div_pos; lia).
  pose proof (run_load_page_fails s pb type page Hpb Hps Hpage ltac:(lia)
                Hnone Hlru Hcur Heoa Heof Hread) as Hload.
  fold s1 in Hload.
  split.
  - apply twp_run. unfold H5PB_read. twp_steps.
    rewrite Hpb, Hmpi, orb_false_r.
    destruct (is_draw type) eqn:Htype.
    + replace (min_md_pages pb =? max_pages pb) with false
        by (symmetry; apply Z.eqb_neq; lia).
      unfold H5PB__read_raw.
      apply twp_bind, (twp_get_pb pb _ _ _ Hpb). cbv zeta. fold page.
      rewrite Hlast, Hnum, Hpa, Hoff, Hfits.
      apply twp_bind, twp_assert; [right; apply Z.ltb_lt; lia|].
      apply twp_bind, twp_assert; [right; exact Htype|].
      apply twp_bind, twp_assert; [right; apply orb_true_r|].
      replace (page_size pb <=? size) with false
        by (symmetry; apply Z.leb_gt; lia).
      apply twp_bind, twp_assert; [right; apply Z.ltb_lt; lia|].
      replace (offset + size <=? page_size pb) with true
        by (symmetry; apply Z.leb_le; lia).
      apply twp_bind, twp_assert; [right; reflexivity|].
      apply twp_bind, (twp_search pb _ _ _ _ Hpb). rewrite Hnone.
      apply twp_bind. eapply twp_fail; [exact Hload|reflexivity].
    + replace (min_rd_pages pb =? max_pages pb) with false
        by (symmetry; apply Z.eqb_neq; lia).
      unfold H5PB__read_meta.
      apply twp_bind, (twp_get_pb pb _ _ _ Hpb). cbv zeta. fold page.
      rewrite Hpa, Hoff, Hfits.
      apply twp_bind, twp_assert; [right; apply Z.ltb_lt; lia|].
      apply twp_bind, twp_assert; [right; rewrite Htype; reflexivity|].
      apply twp_bind.
      replace (offset + size <=? page_size pb) with true
        by (symmetry; apply Z.leb_le; lia).
      replace (page_size pb <=? size) with false
        by (symmetry; apply Z.leb_gt; lia).
      destruct (negb (page * page_size pb =? addr)).
      * apply twp_bind, twp_assert; [right; apply Z.ltb_lt; lia|].
        apply twp_bind, twp_assert; [right; apply Z.leb_le; lia|].
        apply twp_bind, twp_assert; [right; apply Z.leb_le; lia|].
        apply twp_bind, (twp_search pb _ _ _ _ Hpb). rewrite Hnone.
        apply twp_bind. eapply twp_fail; [exact Hload|reflexivity].
      * apply twp_bind, twp_assert; [right; apply Z.leb_le; lia|].
        apply twp_bind, (twp_search pb _ _ _ _ Hpb). rewrite Hnone.
        apply twp_bind. eapply twp_fail; [exact Hload|reflexivity].
  - apply twp_result. unfold H5PB_read. twp_steps.
    unfold s1 at 1 2. cbn [file with_pb pb_ptr has_mpi set_pb_ptr].
    rewrite Hmpi, orb_false_r.
    assert (Himg : memcpy (replicate (Z.to_nat (page_size pb)) uninit_byte)
                     (addr - addr / page_size pb * page_size pb)
                     (replicate (Z.to_nat size) uninit_byte) 0 size
                   = Some (replicate (Z.to_nat (page_size pb)) uninit_byte)).
    { apply memcpy_replicate; fold page; fold offset; unfold offset; lia. }
    assert (HB : blen (replicate (Z.to_nat size) uninit_byte) = size).
    { unfold blen. rewrite length_replicate. lia. }
    assert (Hcfg : config_eq (unloaded_page type page pb) pb)
      by (repeat split).
    destruct (is_draw type) eqn:Htype.
    + replace (min_md_pages (unloaded_page type page pb)
               =? max_pages (unloaded_page type page pb)) with false
        by (symmetry; apply Z.eqb_neq; simpl; lia).
      eapply (read_raw_written type addr size _ buf pb s1
                (unloaded_page type page pb));
        [exact Htype|exact Hps|exact Haddr|exact Hend|exact Hsize|exact Hfit
        |exact HB|exact Hbuf|reflexivity|exact Hcfg
        |right; apply Z.ltb_lt; lia
        |apply lookup_insert_eq|exact Himg
        |right; apply Z.eqb_eq; reflexivity
        |apply elem_of_cons; left; reflexivity].
    + replace (min_rd_pages (unloaded_page type page pb)
               =? max_pages (unloaded_page type page pb)) with false
        by (symmetry; apply Z.eqb_neq; simpl; lia).
      eapply (read_meta_written type addr size _ buf pb s1
                (unloaded_page type page pb));
        [exact Htype|exact Hps|exact Haddr|exact Hend|exact Hsize|exact Hfit
        |exact HB|exact Hbuf|reflexivity|exact Hcfg
        |right; apply Z.ltb_lt; lia
        |apply lookup_insert_eq|exact Himg
        |right; apply Z.eqb_eq; reflexivity
        |right; simpl; rewrite Htype; reflexivity
        |right; reflexivity
        |intros _ _; apply elem_of_cons; left; reflexivity].
Qed.

End FailedLoad.

(** A read of 8 bytes of metadata at the address 64 of the file of 64
    bytes: the read of the page 4 by the driver fails; the read fails,
    and the second read returns 8 bytes that no one has written. *)
Lemma failed_load_leaves_page_witness :
  let s : @env mem_debug :=
    mem_env false HADDR_UNDEF (small_file (small_pb false)) in
  let s1 :=
    @with_pb mem_debug
      (@unloaded_page mem_debug H5FD_MEM_OHDR 4 (small_pb false)) s in
  @H5PB_read mem_debug H5FD_MEM_OHDR 64 8 (zeros 8) s = (Fail, s1)
  /\ fst (@H5PB_read mem_debug H5FD_MEM_OHDR 64 8 (zeros 8) s1)
     = Ok (replicate 8 xff).
Proof.
  apply (@failed_load_leaves_page mem_debug
           (mem_env false HADDR_UNDEF (small_file (small_pb false)))
           (small_pb false) H5FD_MEM_OHDR 64 8 (zeros 8)).
  - reflexivity.
  - reflexivity.
  - intros [=].
  - simpl. lia.
  - lia.
  - lia.
  - simpl. lia.
  - vm_compute. intros [=].
  - reflexivity.
  - reflexivity.
  - apply not_elem_of_nil.
  - simpl. lia.
  - vm_compute. intros [=].
  - vm_compute. intros [=].
  - vm_compute. reflexivity.
Defined.

(** ** New pages *)

Lemma faults_bind {S A B} (m : ST S A) (k : A -> ST S B) s :
  faults m s -> faults (bind m k) s.
Proof.
  unfold faults, bind. intros [Hm|Hm]; rewrite Hm; [left|right]; reflexivity.
Qed.

Lemma faults_bind_ok {S A B} (m : ST S A) (k : A -> ST S B) s a :
  m s = (Ok a, s) -> faults (k a) s -> faults (bind m k) s.
Proof. unfold faults, bind. intros Hm Hk. rewrite Hm. exact Hk. Qed.

Section AddNewPage.
Context `{Collaborators}.

Lemma faults_assert {A} b (k : PB A) s :
  faults k s -> faults (HDassert b ;;; k) s.
Proof.
  intros Hk. destruct (run_assert_cases b s) as [Ha|Ha].
  - apply (faults_bind_ok _ _ _ _ Ha). exact Hk.
  - left. apply run_bind_abort. exact Ha.
Qed.

(** X8. [H5PB_add_new_page] for a page that the page buffer does not
    hold and whose class it accepts: the call returns with success and
    makes no space; the page buffer has one page more, whatever
    [max_pages] is, and the new entry is at the head of the LRU, clean,
    not loaded, with an image of zeros.  [H5PB_page_exists] then finds
    the page. *)
Theorem add_new_page_inserts (s : env) (pb : H5PB_t) (type : H5FD_mem_t)
  (page : Z) :
  let page_addr := page * page_size pb in
  let e := mkEntry page_addr page (page_size pb) (zeros (page_size pb)) type
             (negb (is_draw type)) false false false false 0 in
  let pb1 :=
    set_LRU (page :: LRU pb)
      (add_counts 1 (if is_draw type then 0 else 1)
         (if is_draw type then 1 else 0) 0
         (set_ht (<[page := e]> (ht pb)) pb)) in
  pb_ptr (file s) = Some pb -> 0 < page_size pb ->
  0 <= page -> page_addr < 2 ^ 64 ->
  (if is_draw type then min_md_pages pb else min_rd_pages pb)
    <> max_pages pb ->
  ht pb !! page = None -> page ∉ LRU pb ->
  H5PB_add_new_page type page_addr s = (Ok tt, with_pb pb1 s)
  /\ H5PB_page_exists page_addr (with_pb pb1 s) = (Ok true, with_pb pb1 s).
Proof.
  intros page_addr e pb1 Hpb Hps Hpage Hend Hclass Hnone Hlru.
  subst page_addr.
  assert (Hdiv : page * page_size pb / page_size pb = page)
    by (apply Z.div_mul; lia).
  assert (Hu : u64 (page * page_size pb) = page * page_size pb).
  { unfold u64. apply Z.mod_small. nia. }
  split.
  - apply twp_run. unfold H5PB_add_new_page.
    apply twp_bind, (twp_get_pb pb _ _ _ Hpb).
    replace (if is_draw type then negb (min_md_pages pb =? max_pages pb)
             else negb (min_rd_pages pb =? max_pages pb)) with true.
    2:{ symmetry. destruct (is_draw type); apply negb_true_iff, Z.eqb_neq;
          exact Hclass. }
    unfold H5PB__create_new_page.
    apply twp_bind, twp_bind, (twp_get_pb pb _ _ _ Hpb). cbv zeta.
    rewrite Hdiv, Hu.
    apply twp_bind, twp_assert; [right; apply Z.eqb_refl|].
    apply twp_bind, twp_assert; [right; apply Z.leb_refl|].
    apply twp_bind, twp_assert;
      [right; rewrite Z.eqb_refl; reflexivity|].
    apply twp_bind, (twp_search pb _ _ _ _ Hpb). rewrite Hnone.
    unfold H5PB__allocate_page. twp_steps.
    rewrite Z.ltb_irrefl, andb_false_r. cbn [negb]. twp_steps.
    unfold pb1, e. unfold with_pb, set_LRU, add_counts, set_ht, set_loaded.
    cbn [page_size max_pages curr_pages curr_md_pages curr_rd_pages
         min_md_pages min_rd_pages ht LRU vfd_swmr_writer mpmde_count cur_tick
         dwl tl entry_addr entry_page entry_size image_ptr mem_type
         is_metadata is_mpmde is_dirty loaded modified_this_tick
         delay_write_until].
    rewrite ?insert_insert_eq.
    destruct (is_draw type); reflexivity.
  - assert (Hpb1 : pb_ptr (file (with_pb pb1 s)) = Some pb1) by reflexivity.
    apply twp_run. unfold H5PB_page_exists.
    apply twp_bind, (twp_get_pb pb1 _ _ _ Hpb1). cbv zeta.
    change (page_size pb1) with (page_size pb). rewrite Hdiv, Hu.
    apply twp_bind, twp_assert; [right; apply Z.eqb_refl|].
    apply twp_bind, (twp_search pb1 _ _ _ _ Hpb1).
    change (ht pb1) with (<[page := e]> (ht pb)). rewrite lookup_insert_eq.
    apply twp_bind, (twp_get_entry pb1 page e _ _ _ Hpb1);
      [apply lookup_insert_eq|].
    apply twp_bind, twp_assert; [right; apply Z.eqb_refl|].
    apply twp_ret. reflexivity.
Qed.

(** X9. [H5PB_add_new_page] for a page that the page buffer holds does
    not return: [H5PB__create_new_page] leaves through its error path
    with [entry_ptr] at the entry that the search has found, and the
    code after [done:] hands that entry to [H5PB__deallocate_page]
    while the index points to it. *)
Theorem add_new_page_frees_resident (s : env) (pb : H5PB_t)
  (type : H5FD_mem_t) (page_addr : haddr_t) (e : H5PB_entry_t) :
  pb_ptr (file s) = Some pb ->
  (if is_draw type then min_md_pages pb else min_rd_pages pb)
    <> max_pages pb ->
  ht pb !! (page_addr / page_size pb) = Some e ->
  faults (H5PB_add_new_page type page_addr) s.
Proof.
  intros Hpb Hclass He.
  unfold H5PB_add_new_page. apply (faults_bind_ok _ _ _ _ (run_get_pb s pb Hpb)).
  replace (if is_draw type then negb (min_md_pages pb =? max_pages pb)
           else negb (min_rd_pages pb =? max_pages pb)) with true.
  2:{ symmetry. destruct (is_draw type); apply negb_true_iff, Z.eqb_neq;
        exact Hclass. }
  apply faults_bind. unfold H5PB__create_new_page.
  apply (faults_bind_ok _ _ _ _ (run_get_pb s pb Hpb)). cbv zeta.
  do 3 apply faults_assert.
  apply (faults_bind_ok _ _ _ _ (run_search_hit s pb _ e Hpb He)).
  unfold faults, on_error, error.
  change ((e0 <- get_entry (page_addr / page_size pb) ;;
           H5PB__deallocate_page (page_addr / page_size pb) e0) s)
    with (bind (get_entry (page_addr / page_size pb))
            (H5PB__deallocate_page (page_addr / page_size pb)) s).
  assert (Hd : faults (bind (get_entry (page_addr / page_size pb))
                         (H5PB__deallocate_page (page_addr / page_size pb)))
                 s).
  { apply (faults_bind_ok _ _ _ _ (run_get_entry s pb _ e Hpb He)).
    unfold H5PB__deallocate_page.
    apply (faults_bind_ok _ _ _ _ (run_get_pb s pb Hpb)).
    do 4 apply faults_assert. rewrite He. right. reflexivity. }
  destruct Hd as [Hd|Hd]; rewrite Hd; [left|right]; reflexivity.
Qed.

End AddNewPage.

(** A new page of metadata at the address 48 of the file whose page
    buffer of two pages is full: the page buffer then holds three
    pages. *)
Lemma add_new_page_inserts_witness :
  let s : @env mem_debug :=
    mem_env false HADDR_UNDEF (small_file two_pages_pb) in
  let e := mkEntry 48 3 16 (zeros 16) H5FD_MEM_OHDR true false false false
             false 0 in
  let pb1 :=
    set_LRU [3; 1; 2]
      (add_counts 1 1 0 0 (set_ht (<[3 := e]> (ht two_pages_pb))
                             two_pages_pb)) in
  @H5PB_add_new_page mem_debug H5FD_MEM_OHDR 48 s
  = (Ok tt, @with_pb mem_debug pb1 s)
  /\ @H5PB_page_exists mem_debug 48 (@with_pb mem_debug pb1 s)
     = (Ok true, @with_pb mem_debug pb1 s).
Proof.
  apply (@add_new_page_inserts mem_debug
           (mem_env false HADDR_UNDEF (small_file two_pages_pb))
           two_pages_pb H5FD_MEM_OHDR 3).
  - reflexivity.
  - simpl. lia.
  - lia.
  - simpl. lia.
  - simpl. lia.
  - reflexivity.
  - vm_compute. intros Hin.
    repeat (apply elem_of_cons in Hin; destruct Hin as [[=]|Hin]).
    apply not_elem_of_nil in Hin. exact Hin.
Defined.

(** A new page at the address 16 of that file, whose page buffer holds
    the page 1. *)
Lemma add_new_page_frees_resident_witness :
  @faults (@env mem_debug) unit (@H5PB_add_new_page mem_debug H5FD_MEM_OHDR 16)
    (mem_env false HADDR_UNDEF (small_file two_pages_pb)).
Proof.
  apply (@add_new_page_frees_resident mem_debug
           (mem_env false HADDR_UNDEF (small_file two_pages_pb))
           two_pages_pb H5FD_MEM_OHDR 16
           (mkEntry 16 1 16 (replicate 16 x01) H5FD_MEM_OHDR true false false
              true false 0)).
  - reflexivity.
  - simpl. lia.
  - reflexivity.
Defined.

(** ** The removal of an entry *)

Lemma not_in_remove_cons p l : p ∉ dll_remove p (p :: l).
Proof. apply not_in_dll_remove. Qed.

Lemma dll_remove_cons_id p l : p ∉ l -> dll_remove p (p :: l) = l.
Proof.
  intros Hp. unfold dll_remove. rewrite filter_cons_False by auto.
  apply dll_remove_id, Hp.
Qed.

Lemma links_null_out l p : p ∉ l -> links_null l p = true.
Proof.
  intros Hp. unfold links_null. rewrite (bool_decide_eq_true_2 _ Hp).
  reflexivity.
Qed.

(** The page is on a list, or is not. *)
Ltac mem_solve :=
  proj_simpl;
  first [ assumption
        | apply elem_of_cons; left; reflexivity
        | apply not_in_dll_remove
        | rewrite dll_remove_id by assumption; assumption ].

Ltac mem_if :=
  lazymatch goal with
  | |- twp (if bool_decide (?p ∈ ?l) then _ else _) _ _ _ =>
      first [ rewrite (bool_decide_eq_true_2 (p ∈ l)) by mem_solve
            | rewrite (bool_decide_eq_false_2 (p ∈ l)) by mem_solve ]
  end.

Ltac twp_unfold :=
  lazymatch goal with
  | |- twp (H5PB__mark_entry_clean _) _ _ _ => unfold H5PB__mark_entry_clean
  | |- twp (H5PB__evict_entry _ _) _ _ _ => unfold H5PB__evict_entry
  | |- twp (H5PB__deallocate_page _ _) _ _ _ => unfold H5PB__deallocate_page
  end.

Ltac twp_all := repeat first [twp_step | twp_if | mem_if | twp_unfold].

Section RemoveEntry.
Context `{Collaborators}.

(** X10. [H5PB_remove_entry] for a page that the page buffer holds,
    whose entry is on the tick list when it is modified this tick, on
    the delayed write list when it has a delay, and on the LRU when it
    is a regular page without a delay: the call returns with success,
    the entry has left the index and the three lists, and nothing has
    been written to the file, whether the entry was dirty or not.
    [H5PB_page_exists] then does not find the page. *)
Theorem remove_entry_discards (s : env) (pb : H5PB_t) (page : Z)
  (e : H5PB_entry_t) :
  let addr := page * page_size pb in
  pb_ptr (file s) = Some pb -> 0 < page_size pb ->
  0 <= page -> addr < 2 ^ 64 ->
  ht pb !! page = Some e -> entry_addr e = addr ->
  (entry_size e = page_size pb /\ is_mpmde e = false)
  \/ (page_size pb < entry_size e /\ is_mpmde e = true
      /\ is_draw (mem_type e) = false /\ vfd_swmr_writer pb = true) ->
  0 <= delay_write_until e ->
  (page ∈ tl pb <-> modified_this_tick e = true) ->
  (page ∈ dwl pb <-> 0 < delay_write_until e) ->
  (page ∈ LRU pb <-> is_mpmde e = false /\ delay_write_until e = 0) ->
  H5PB_remove_entry addr s = (Ok tt, with_pb (removed page e pb) s)
  /\ H5PB_page_exists addr (with_pb (removed page e pb) s)
     = (Ok false, with_pb (removed page e pb) s).
Proof.
  intros addr Hpb Hps Hpage Hend He Haddr Hsize Hdelay Htl Hdwl Hlru.
  subst addr.
  assert (Hdiv : page * page_size pb / page_size pb = page)
    by (apply Z.div_mul; lia).
  assert (Hu : u64 (page * page_size pb) = page * page_size pb).
  { unfold u64. apply Z.mod_small. nia. }
  split.
  - apply twp_run. unfold H5PB_remove_entry.
    apply twp_bind, (twp_get_pb pb _ _ _ Hpb). cbv zeta. rewrite Hdiv, Hu.
    apply twp_bind, twp_assert; [right; apply Z.eqb_refl|].
    apply twp_bind, (twp_search pb _ _ _ _ Hpb). rewrite He.
    apply twp_bind, (twp_get_entry pb _ e _ _ _ Hpb He).
    apply twp_bind, twp_assert; [right; apply Z.eqb_eq; exact Haddr|].
    apply twp_bind, twp_assert.
    { right. destruct Hsize as [(Hs & _)|(Hs & _ & Hd & Hw)].
      - rewrite Hs, Z.eqb_refl. reflexivity.
      - rewrite Hd, Hw. replace (page_size pb <? entry_size e) with true
          by (symmetry; apply Z.ltb_lt; lia).
        apply orb_true_r. }
    destruct (modified_this_tick e) eqn:Hmod;
      destruct (0 <? delay_write_until e) eqn:Hdel;
      destruct (is_mpmde e) eqn:Hmp;
      destruct (is_dirty e) eqn:Hdirty.
    all: assert (Hin_tl : if modified_this_tick e then page ∈ tl pb
                          else page ∉ tl pb)
         by (rewrite Hmod; first [apply Htl; reflexivity
                                 |intros Hin; apply Htl in Hin; congruence]).
    all: rewrite Hmod in Hin_tl.
    all: apply Z.ltb_lt in Hdel || apply Z.ltb_ge in Hdel.
    all: assert (Hin_dwl : if 0 <? delay_write_until e then page ∈ dwl pb
                           else page ∉ dwl pb)
         by (destruct (Z.ltb_spec 0 (delay_write_until e));
             [apply Hdwl; lia|intros Hin; apply Hdwl in Hin; lia]).
    all: assert (Hin_lru : if is_mpmde e then page ∉ LRU pb
                           else if 0 <? delay_write_until e
                                then page ∉ LRU pb else page ∈ LRU pb)
         by (rewrite Hmp; try destruct (Z.ltb_spec 0 (delay_write_until e));
             first [ apply Hlru; split; [reflexivity|lia]
                   | intros Hin; apply Hlru in Hin; destruct Hin;
                     first [congruence|lia] ]).
    all: rewrite ?Hmp in Hin_lru.
    all: destruct (0 <? delay_write_until e) eqn:Hdel2;
      [apply Z.ltb_lt in Hdel2|apply Z.ltb_ge in Hdel2]; try lia.
    all: twp_all.
    all: try (right; proj_simpl; rewrite ?Hmp; proj_simpl;
              rewrite !links_null_out by mem_solve; reflexivity).
    all: rewrite lookup_delete_eq; apply twp_ret.
    all: unfold removed; proj_simpl; rewrite ?Hmp.
    all: rewrite ?insert_insert_eq, ?delete_insert_eq.
    all: repeat match goal with
           | Hn : ?p ∉ ?l |- context [dll_remove ?p ?l] =>
               rewrite (dll_remove_id p l Hn)
           end.
    all: rewrite ?(dll_remove_cons_id page (LRU pb)) by assumption.
    all: reflexivity.
  - assert (Hpb1 : pb_ptr (file (with_pb (removed page e pb) s))
                   = Some (removed page e pb)) by reflexivity.
    apply twp_run. unfold H5PB_page_exists.
    apply twp_bind, (twp_get_pb _ _ _ _ Hpb1). cbv zeta.
    change (page_size (removed page e pb)) with (page_size pb).
    rewrite Hdiv, Hu.
    apply twp_bind, twp_assert; [right; apply Z.eqb_refl|].
    apply twp_bind, (twp_search _ _ _ _ _ Hpb1).
    change (ht (removed page e pb)) with (delete page (ht pb)).
    rewrite lookup_delete_eq. apply twp_ret. reflexivity.
Qed.
End RemoveEntry.

(** The removal of the page 1 of the writer's page buffer with three
    delayed entries: the page is dirty and its write is delayed until
    the tick 3; it leaves the page buffer and the file is as it was. *)
Lemma remove_entry_discards_witness :
  let e := mkEntry 16 1 16 (replicate 16 x01) H5FD_MEM_OHDR true false true
             true false 3 in
  let s1 := @with_pb mem_debug (removed 1 e delayed_pb) delayed_env in
  @H5PB_remove_entry mem_debug 16 delayed_env = (Ok tt, s1)
  /\ @H5PB_page_exists mem_debug 16 s1 = (Ok false, s1).
Proof.
  apply (@remove_entry_discards mem_debug delayed_env delayed_pb 1
           (mkEntry 16 1 16 (replicate 16 x01) H5FD_MEM_OHDR true false true
              true false 3)).
  - reflexivity.
  - simpl. lia.
  - lia.
  - simpl. lia.
  - reflexivity.
  - reflexivity.
  - left. split; reflexivity.
  - simpl. lia.
  - simpl. split; [intros Hin; apply not_elem_of_nil in Hin; destruct Hin
                  |intros [=]].
  - simpl. split; [lia|]. intros _.
    apply elem_of_cons; right. apply elem_of_cons; right.
    apply elem_of_cons; left. reflexivity.
  - simpl. split; [intros Hin; apply not_elem_of_nil in Hin; destruct Hin
                  |intros [_ [=]]].
Defined.

(** ** The flush of the page buffer *)

Section FlushAll.
Context `{Collaborators}.

Lemma flush_writes_agree h h' l d :
  (forall p, p ∈ l -> h' !! p = h !! p) ->
  flush_writes h' l d = flush_writes h l d.
Proof.
  revert d. induction l as [|p l IH]; intros d Hl; [reflexivity|].
  cbn [flush_writes]. rewrite (Hl p) by (apply elem_of_cons; auto).
  assert (Hl' : forall q, q ∈ l -> h' !! q = h !! q).
  { intros q Hq. apply Hl, elem_of_cons. auto. }
  destruct (h !! p) as [e|]; [|apply IH, Hl'].
  destruct (is_dirty e); [|apply IH, Hl'].
  destruct (H5F__accum_write d _ _ _ _); [apply IH, Hl'|reflexivity].
Qed.

Lemma flushed_ht_ne p e pb q :
  q <> p -> ht (flushed p e pb) !! q = ht pb !! q.
Proof.
  intros Hq. unfold flushed.
  destruct (negb (is_mpmde e) && (delay_write_until e =? 0)); simpl;
    apply lookup_insert_ne; auto.
Qed.

Lemma flushed_ht_eq p e pb :
  ht (flushed p e pb) !! p = Some (set_is_dirty false e).
Proof.
  unfold flushed.
  destruct (negb (is_mpmde e) && (delay_write_until e =? 0)); simpl;
    apply lookup_insert_eq.
Qed.

Lemma flushed_LRU p e pb q :
  p ∈ LRU pb \/ is_mpmde e = true \/ delay_write_until e <> 0 ->
  q ∈ LRU (flushed p e pb) <-> q ∈ LRU pb.
Proof.
  intros Hp. unfold flushed.
  destruct (negb (is_mpmde e) && (delay_write_until e =? 0)) eqn:Hb;
    simpl; [|reflexivity].
  apply andb_true_iff in Hb. destruct Hb as [Hb1 Hb2].
  apply negb_true_iff in Hb1. apply Z.eqb_eq in Hb2.
  destruct Hp as [Hp|[Hp|Hp]]; [|congruence|congruence].
  rewrite elem_of_cons. unfold dll_remove. rewrite list_elem_of_filter.
  split.
  - intros [->|[_ Hq]]; assumption.
  - intros Hq. destruct (decide (q = p)) as [->|Hne]; auto.
Qed.

Lemma flushed_config p e pb :
  config_eq (flushed p e pb) pb /\ dwl (flushed p e pb) = dwl pb
  /\ tl (flushed p e pb) = tl pb
  /\ curr_pages (flushed p e pb) = curr_pages pb.
Proof.
  unfold flushed.
  destruct (negb (is_mpmde e) && (delay_write_until e =? 0));
    repeat split.
Qed.

Lemma set_is_dirty_clean e : is_dirty e = false -> set_is_dirty false e = e.
Proof. destruct e. simpl. intros ->. reflexivity. Qed.

Lemma flushable_eoa pb pb' d d' e :
  config_eq pb' pb ->
  (forall t, H5F_get_eoa d' t = H5F_get_eoa d t) ->
  flushable pb d e -> flushable pb' d' e.
Proof.
  intros (Hp & _ & _ & _ & Hw) Heoa. unfold flushable.
  rewrite Hp, Hw, !Heoa. auto.
Qed.

(** The scan of [H5PB_flush] over the pages [l]. *)
Lemma flush_pages_run l :
  write_keeps_eoa ->
  forall s pb,
    pb_ptr (file s) = Some pb -> NoDup l ->
    flush_ready pb (lf (file s)) l ->
    match flush_writes (ht pb) l (lf (file s)) with
    | Some d' =>
        exists pb',
          flush_pages l s = (Ok tt, with_pb pb' (with_lf d' s))
          /\ (forall p, ht pb' !! p
                        = if bool_decide (p ∈ l)
                          then set_is_dirty false <$> ht pb !! p
                          else ht pb !! p)
          /\ (forall q, q ∈ LRU pb' <-> q ∈ LRU pb)
          /\ config_eq pb' pb /\ dwl pb' = dwl pb /\ tl pb' = tl pb
          /\ curr_pages pb' = curr_pages pb
    | None => exists s', flush_pages l s = (Fail, s')
    end.
Proof.
  intros Hkeep. induction l as [|p l IH]; intros s pb Hpb Hnd Hready.
  - simpl. exists pb. rewrite (with_pb_lf_same s pb Hpb).
    split; [reflexivity|]. split; [intros p; reflexivity|].
    split; [reflexivity|]. repeat split.
  - apply NoDup_cons in Hnd. destruct Hnd as [Hp Hnd].
    assert (Hready' : flush_ready pb (lf (file s)) l).
    { intros q e Hq. apply Hready, elem_of_cons. auto. }
    assert (Hskip : forall pb',
              (forall q, ht pb' !! q
                         = if bool_decide (q ∈ l)
                           then set_is_dirty false <$> ht pb !! q
                           else ht pb !! q) ->
              (forall e, ht pb !! p = Some e -> is_dirty e = false) ->
              forall q, ht pb' !! q
                        = if bool_decide (q ∈ p :: l)
                          then set_is_dirty false <$> ht pb !! q
                          else ht pb !! q).
    { intros pb' Hht Hclean q. rewrite Hht.
      destruct (decide (q = p)) as [->|Hne].
      - rewrite (bool_decide_eq_false_2 _ Hp).
        rewrite (bool_decide_eq_true_2 (p ∈ p :: l))
          by (apply elem_of_cons; auto).
        destruct (ht pb !! p) as [e|] eqn:He; [|reflexivity].
        simpl. rewrite (set_is_dirty_clean e (Hclean e eq_refl)).
        reflexivity.
      - destruct (bool_decide (q ∈ l)) eqn:Hq.
        + apply bool_decide_eq_true in Hq.
          rewrite (bool_decide_eq_true_2 (q ∈ p :: l))
            by (apply elem_of_cons; auto).
          reflexivity.
        + apply bool_decide_eq_false in Hq.
          rewrite (bool_decide_eq_false_2 (q ∈ p :: l)); [reflexivity|].
          intros Hin. apply elem_of_cons in Hin. destruct Hin; auto. }
    cbn [flush_writes flush_pages].
    rewrite (run_bind_ok _ _ _ _ _ (run_get_pb s pb Hpb)).
    destruct (ht pb !! p) as [e|] eqn:He.
    2:{ rewrite (run_bind_ok _ _ s tt s) by reflexivity.
        specialize (IH s pb Hpb Hnd Hready').
        destruct (flush_writes (ht pb) l (lf (file s))) as [d'|];
          [|exact IH].
        destruct IH as (pb' & Hrun & Hht & Hrest). exists pb'.
        split; [exact Hrun|]. split; [|exact Hrest].
        apply Hskip; [exact Hht|intros e [=]]. }
    destruct (is_dirty e) eqn:Hdirty.
    2:{ rewrite (run_bind_ok _ _ s tt s) by reflexivity.
        specialize (IH s pb Hpb Hnd Hready').
        destruct (flush_writes (ht pb) l (lf (file s))) as [d'|];
          [|exact IH].
        destruct IH as (pb' & Hrun & Hht & Hrest). exists pb'.
        split; [exact Hrun|]. split; [|exact Hrest].
        apply Hskip; [exact Hht|]. intros e' [= <-]. exact Hdirty. }
    destruct (Hready p e ltac:(apply elem_of_cons; auto) He Hdirty)
      as (Hfl & Hlru).
    destruct (H5F__accum_write (lf (file s)) (mem_type e) (entry_addr e)
                (entry_size e) (image_ptr e)) as [d1|] eqn:Hw.
    2:{ exists s. apply run_bind_fail.
        destruct Hfl as (H1 & H2 & H3 & H4 & H5 & H6 & H7 & H8 & H9).
        apply (run_flush_entry_fails s pb p e Hpb He); auto. }
    rewrite (run_bind_ok _ _ _ _ _
               (run_flush_entry s pb p e d1 Hpb He Hfl Hlru Hw)).
    set (pb1 := flushed p e pb). set (s1 := with_pb pb1 (with_lf d1 s)).
    assert (Hpb1 : pb_ptr (file s1) = Some pb1) by reflexivity.
    assert (Hc1 : config_eq pb1 pb) by apply flushed_config.
    assert (Hready1 : flush_ready pb1 (lf (file s1)) l).
    { intros q e' Hq He' Hd'.
      assert (Hne : q <> p) by (intros ->; contradiction).
      unfold pb1 in He'. rewrite (flushed_ht_ne p e pb q Hne) in He'.
      destruct (Hready' q e' Hq He' Hd') as (Hf & Hl). split.
      - apply (flushable_eoa pb pb1 (lf (file s)) _ e' Hc1); [|exact Hf].
        intros t. apply (Hkeep _ _ _ _ _ _ t Hw).
      - intros Hm. apply flushed_LRU; [|apply Hl, Hm].
        destruct (is_mpmde e) eqn:Hme; [right; left; reflexivity|].
        left. apply Hlru. reflexivity. }
    specialize (IH s1 pb1 Hpb1 Hnd Hready1).
    assert (Hsame : flush_writes (ht pb1) l (lf (file s1))
                    = flush_writes (ht pb) l d1).
    { apply flush_writes_agree. intros q Hq. apply flushed_ht_ne.
      intros ->. contradiction. }
    rewrite Hsame in IH.
    destruct (flush_writes (ht pb) l d1) as [d'|]; [|exact IH].
    destruct IH as (pb' & Hrun & Hht & Hl & Hc & Hdwl & Htl & Hcur).
    exists pb'. split; [exact Hrun|].
    destruct (flushed_config p e pb) as (_ & Hdwl1 & Htl1 & Hcur1).
    split; [|split; [|split; [|split; [|split]]]].
    + intros q. rewrite Hht. destruct (decide (q = p)) as [->|Hne].
      * rewrite (bool_decide_eq_false_2 _ Hp).
        rewrite (bool_decide_eq_true_2 (p ∈ p :: l))
          by (apply elem_of_cons; auto).
        unfold pb1. rewrite flushed_ht_eq, He. reflexivity.
      * unfold pb1. rewrite (flushed_ht_ne p e pb q Hne).
        destruct (bool_decide (q ∈ l)) eqn:Hq.
        -- apply bool_decide_eq_true in Hq.
           rewrite (bool_decide_eq_true_2 (q ∈ p :: l))
             by (apply elem_of_cons; auto).
           reflexivity.
        -- apply bool_decide_eq_false in Hq.
           rewrite (bool_decide_eq_false_2 (q ∈ p :: l)); [reflexivity|].
           intros Hin. apply elem_of_cons in Hin. destruct Hin; auto.
    + intros q. rewrite Hl. apply flushed_LRU.
      destruct (is_mpmde e) eqn:Hme; [right; left; reflexivity|].
      left. apply Hlru. reflexivity.
    + destruct Hc as (? & ? & ? & ? & ?), Hc1 as (? & ? & ? & ? & ?).
      repeat split; congruence.
    + unfold pb1 in Hdwl. congruence.
    + unfold pb1 in Htl. congruence.
    + unfold pb1 in Hcur. congruence.
Qed.

(** X11. [H5PB_flush] of a page buffer whose scan meets no page twice
    and whose dirty entries can be flushed (they have no delay, lie
    below the end of allocation, and the regular pages are on the
    LRU), over a driver whose writes do not move the end of
    allocation: the images of the dirty entries are written in the
    order of the scan; when all the writes succeed the call returns
    with success, no entry that the scan has met is dirty, the entries
    are otherwise as they were, and the lists hold the same pages;
    when a write fails the call fails. *)
Theorem flush_writes_dirty_entries (s : env) (pb : H5PB_t) :
  let scan := ht_scan (ht pb) in
  pb_ptr (file s) = Some pb -> write_keeps_eoa -> NoDup scan ->
  flush_ready pb (lf (file s)) scan ->
  match flush_writes (ht pb) scan (lf (file s)) with
  | Some d' =>
      exists pb',
        H5PB_flush s = (Ok tt, with_pb pb' (with_lf d' s))
        /\ (forall p e', p ∈ scan -> ht pb' !! p = Some e' ->
            is_dirty e' = false)
        /\ (forall p, ht pb' !! p
                      = if bool_decide (p ∈ scan)
                        then set_is_dirty false <$> ht pb !! p
                        else ht pb !! p)
        /\ (forall q, q ∈ LRU pb' <-> q ∈ LRU pb)
        /\ dwl pb' = dwl pb /\ tl pb' = tl pb
  | None => exists s', H5PB_flush s = (Fail, s')
  end.
Proof.
  intros scan Hpb Hkeep Hnd Hready.
  pose proof (flush_pages_run scan Hkeep s pb Hpb Hnd Hready) as Hrun.
  assert (Hflush : H5PB_flush s = flush_pages scan s).
  { unfold H5PB_flush, bind, get_f. rewrite Hpb. reflexivity. }
  rewrite Hflush.
  destruct (flush_writes (ht pb) scan (lf (file s))) as [d'|];
    [|exact Hrun].
  destruct Hrun as (pb' & Hr & Hht & Hl & _ & Hdwl & Htl & _).
  exists pb'. split; [exact Hr|]. split; [|auto].
  intros p e' Hp He'. rewrite Hht, (bool_decide_eq_true_2 _ Hp) in He'.
  destruct (ht pb !! p) as [e|]; [|discriminate He'].
  injection He' as <-. reflexivity.
Qed.

End FlushAll.

(** The flush of the page buffer of two pages whose page 2 is dirty:
    the 16 bytes of the page are written at the address 32. *)
Lemma flush_writes_dirty_entries_witness :
  let s : @env mem_debug :=
    mem_env false HADDR_UNDEF (small_file two_pages_pb) in
  let d' := replicate 32 x2a ++ replicate 16 x02 ++ replicate 16 x2a in
  exists pb',
    @H5PB_flush mem_debug s
    = (Ok tt, @with_pb mem_debug pb' (@with_lf mem_debug d' s))
    /\ (forall p e', p ∈ [2; 1] -> ht pb' !! p = Some e' ->
        is_dirty e' = false)
    /\ (forall p, ht pb' !! p
                  = if bool_decide (p ∈ [2; 1])
                    then set_is_dirty false <$> ht two_pages_pb !! p
                    else ht two_pages_pb !! p)
    /\ (forall q, q ∈ LRU pb' <-> q ∈ LRU two_pages_pb)
    /\ dwl pb' = dwl two_pages_pb /\ tl pb' = tl two_pages_pb.
Proof.
  assert (Hnd : NoDup (@ht_scan mem_debug (ht two_pages_pb))).
  { vm_compute. repeat constructor; intros Hin;
      repeat (apply elem_of_cons in Hin; destruct Hin as [[=]|Hin]);
      apply not_elem_of_nil in Hin; exact Hin. }
  assert (Hready : @flush_ready mem_debug two_pages_pb (replicate 64 x2a)
                     (@ht_scan mem_debug (ht two_pages_pb))).
  { intros p e Hin He Hd. vm_compute in Hin.
    repeat (apply elem_of_cons in Hin; destruct Hin as [->|Hin]);
      [| |apply not_elem_of_nil in Hin; destruct Hin];
      vm_compute in He; injection He as <-; try discriminate Hd.
    split; [|intros _; apply elem_of_cons; right;
             apply elem_of_cons; left; reflexivity].
    unfold flushable. simpl.
    split; [lia|]. split; [lia|]. split; [left; reflexivity|].
    split; [reflexivity|]. split; [right; reflexivity|].
    split; [reflexivity|]. split; [vm_compute; intros [=]|].
    split; [reflexivity|]. vm_compute. intros [=]. }
  exact (@flush_writes_dirty_entries mem_debug
           (mem_env false HADDR_UNDEF (small_file two_pages_pb))
           two_pages_pb eq_refl (mem_write_keeps_eoa false (λ _ _, Some 0))
           Hnd Hready).
Defined.

(** ** The update of an entry *)

Section UpdateEntry.
Context `{Collaborators}.

(** X12. [H5PB_update_entry] of less than a page, in one page of
    metadata that the page buffer holds on its LRU: the call returns
    with success, the bytes are copied into the image of the entry, the
    entry moves to the head of the LRU, and it is not marked dirty:
    its dirty flag is as before, and nothing is written to the file.
    A metadata read of the same range then returns the bytes. *)
Theorem update_entry_then_read (s : env) (pb : H5PB_t) (e : H5PB_entry_t)
  (type : H5FD_mem_t) (addr size : Z) (B buf : bytes) :
  let page := addr / page_size pb in
  let offset := addr - page * page_size pb in
  pb_ptr (file s) = Some pb -> has_mpi (file s) = false ->
  is_draw type = false -> type <> H5FD_MEM_GHEAP ->
  min_rd_pages pb < max_pages pb ->
  0 <= addr -> (page + 1) * page_size pb < 2 ^ 64 ->
  0 < size < page_size pb -> offset + size <= page_size pb ->
  blen B = size -> blen buf = size ->
  ht pb !! page = Some e -> entry_addr e = page * page_size pb ->
  is_metadata e = true -> is_mpmde e = false ->
  blen (image_ptr e) = page_size pb -> page ∈ LRU pb ->
  exists img,
    let pb1 := accessed page (set_ht (<[page := set_image img e]> (ht pb)) pb)
    in
    memcpy (image_ptr e) offset B 0 size = Some img
    /\ H5PB_update_entry addr size B s = (Ok tt, with_pb pb1 s)
    /\ fst (H5PB_read type addr size buf (with_pb pb1 s)) = Ok B.
Proof.
  intros page offset Hpb Hmpi Htype Hg Hmin Haddr Hend' Hsize Hfit HB Hbuf He
    Hea Hmd Hmp Himg Hlru.
  assert (Hps : 0 < page_size pb) by lia.
  assert (Hend : addr + size < 2 ^ 64).
  { pose proof (Z.mul_div_le addr (page_size pb) Hps).
    pose proof (Z.mod_pos_bound addr (page_size pb) Hps).
    pose proof (Z.div_mod addr (page_size pb) ltac:(lia)).
    unfold offset, page in *. lia. }
  destruct (page_addr_le addr (page_size pb) Hps ltac:(lia))
    as (Hpa & Hle & Hlt).
  fold page in Hpa, Hle, Hlt.
  assert (Hoff : u64 (addr - page * page_size pb) = offset).
  { unfold u64. apply Z.mod_small. unfold offset. lia. }
  assert (Hcopy : exists img, memcpy (image_ptr e) offset B 0 size = Some img).
  { unfold memcpy, sub_bytes, blit. rewrite HB.
    replace ((0 <=? 0) && (0 <=? size) && (0 + size <=? size)) with true
      by (symmetry; rewrite !andb_true_iff, !Z.leb_le; lia).
    unfold blen. rewrite length_take, length_drop.
    replace ((0 <=? offset)
             && (offset + Z.of_nat (Z.to_nat size `min` (length B - Z.to_nat 0))
                 <=? Z.of_nat (length (image_ptr e)))) with true.
    - eexists. reflexivity.
    - symmetry. rewrite andb_true_iff, !Z.leb_le.
      unfold blen in HB, Himg. unfold offset. lia. }
  destruct Hcopy as (img & Hcopy). exists img. cbv zeta.
  set (pb1 := accessed page
                (set_ht (<[page := set_image img e]> (ht pb)) pb)).
  split; [exact Hcopy|]. split.
  - apply twp_run. unfold H5PB_update_entry.
    apply twp_bind, (twp_get_pb pb _ _ _ Hpb).
    apply twp_bind, twp_assert; [right; apply Z.ltb_lt; lia|].
    apply twp_bind, twp_assert; [right; apply Z.leb_le; lia|].
    replace (min_rd_pages pb <? max_pages pb) with true
      by (symmetry; apply Z.ltb_lt; lia).
    cbv zeta. fold page. rewrite Hpa, Hoff.
    apply twp_bind, (twp_search pb _ _ _ _ Hpb). rewrite He.
    apply twp_bind, (twp_get_entry pb _ e _ _ _ Hpb He).
    apply twp_bind, twp_assert; [right; exact Hmd|].
    apply twp_bind, twp_assert; [right; rewrite Hmp; reflexivity|].
    apply twp_bind, twp_assert.
    { right. apply Z.leb_le. unfold u64.
      rewrite !Z.mod_small; unfold offset in Hfit; lia. }
    apply twp_bind, (twp_do_memcpy _ _ _ _ _ img _ _ _ Hcopy).
    apply twp_bind, (twp_put_entry pb _ _ _ _ _ Hpb).
    unfold H5PB__UPDATE_RP_FOR_ACCESS.
    apply twp_bind, (twp_get_pb _ _ _ _ (pb_ptr_with_pb _ s)).
    cbn [LRU set_ht]. rewrite (bool_decide_eq_true_2 _ Hlru).
    apply twp_put_pb. reflexivity.
  - assert (Hpb1 : pb_ptr (file (with_pb pb1 s)) = Some pb1) by reflexivity.
    apply twp_result. unfold H5PB_read.
    apply twp_bind, twp_get_f.
    apply twp_bind, twp_assert.
    { right. apply negb_true_iff, bool_decide_eq_false. exact Hg. }
    rewrite Hpb1. cbn [file with_pb has_mpi set_pb_ptr].
    rewrite Hmpi, orb_false_r, Htype.
    replace (min_rd_pages pb1 =? max_pages pb1) with false
      by (symmetry; apply Z.eqb_neq; simpl; lia).
    eapply (read_meta_written type addr size B buf pb (with_pb pb1 s) pb1
              (set_image img e) (image_ptr e));
      [exact Htype|exact Hps|exact Haddr|exact Hend|exact Hsize|exact Hfit
      |exact HB|exact Hbuf|exact Hpb1|repeat split
      |right; apply Z.ltb_lt; lia
      |apply lookup_insert_eq|exact Hcopy
      |right; apply Z.eqb_eq; exact Hea
      |right; exact Hmd
      |right; simpl; rewrite Hmp; reflexivity
      |intros _ _; apply elem_of_cons; left; reflexivity].
Qed.

End UpdateEntry.

(** The update of 8 bytes at the address 20 of the clean page 1 of the
    page buffer of two pages, and the read of these bytes: the page
    stays clean. *)
Lemma update_entry_then_read_witness :
  let s : @env mem_debug :=
    mem_env false HADDR_UNDEF (small_file two_pages_pb) in
  let e := mkEntry 16 1 16 (replicate 16 x01) H5FD_MEM_OHDR true false false
             true false 0 in
  exists img,
    let pb1 :=
      accessed 1 (set_ht (<[1 := set_image img e]> (ht two_pages_pb))
                    two_pages_pb) in
    memcpy (replicate 16 x01) 4 (replicate 8 x07) 0 8 = Some img
    /\ @H5PB_update_entry mem_debug 20 8 (replicate 8 x07) s
       = (Ok tt, @with_pb mem_debug pb1 s)
    /\ fst (@H5PB_read mem_debug H5FD_MEM_OHDR 20 8 (zeros 8)
              (@with_pb mem_debug pb1 s))
       = Ok (replicate 8 x07).
Proof.
  apply (@update_entry_then_read mem_debug
           (mem_env false HADDR_UNDEF (small_file two_pages_pb))
           two_pages_pb
           (mkEntry 16 1 16 (replicate 16 x01) H5FD_MEM_OHDR true false false
              true false 0)
           H5FD_MEM_OHDR 20 8 (replicate 8 x07) (zeros 8)).
  - reflexivity.
  - reflexivity.
  - reflexivity.
  - intros [=].
  - simpl. lia.
  - lia.
  - vm_compute. reflexivity.
  - simpl. lia.
  - vm_compute. intros [=].
  - reflexivity.
  - reflexivity.
  - reflexivity.
  - reflexivity.
  - reflexivity.
  - reflexivity.
  - reflexivity.
  - apply elem_of_cons. left. reflexivity.
Defined.

(** ** The creation of the page buffer *)

Lemma min_pages_le k a b :
  0 <= k -> 0 <= a -> 0 <= b -> a + b <= 100 ->
  0 <= k * a / 100 /\ 0 <= k * b / 100 /\ k * a / 100 + k * b / 100 <= k.
Proof.
  intros Hk Ha Hb Hab.
  pose proof (Z.mul_div_le (k * a) 100 ltac:(lia)).
  pose proof (Z.mul_div_le (k * b) 100 ltac:(lia)).
  pose proof (Z.div_pos (k * a) 100 ltac:(nia) ltac:(lia)).
  pose proof (Z.div_pos (k * b) 100 ltac:(nia) ltac:(lia)).
  nia.
Qed.

Section Create.
Context `{Collaborators}.


End Create.


(** ** The release of the tick list *)

Lemma twp_returns {S A} (m : ST S A) (r : outcome A * S) s :
  m s = r -> (forall w, fst r <> Abort w) ->
  twp m (λ a s', (Ok a, s') = r) (λ s', (Fail, s') = r) s.
Proof.
  intros Hm Hr. unfold twp. rewrite Hm. destruct r as [[a| |w] s'];
    [reflexivity|reflexivity|apply (Hr w); reflexivity].
Qed.

Section ReleaseTickList.
Context `{Collaborators}.

(** A pass of the loop for an entry that stays in the page buffer. *)
Lemma tick_loop_keeps fuel s pb p l e r :
  pb_ptr (file s) = Some pb -> tl pb = p :: l -> ht pb !! p = Some e ->
  is_mpmde e = false
  \/ (is_dirty e = true /\ delay_write_until e <> 0) ->
  release_tick_list_loop fuel
    (with_pb (set_ht (<[p := set_modified_this_tick false e]> (ht pb))
                (set_tl (dll_remove p (tl pb)) pb)) s) = r ->
  (forall w, fst r <> Abort w) ->
  release_tick_list_loop (S fuel) s = r.
Proof.
  intros Hpb Htl He Hcase Hloop Hr. apply twp_run. simpl.
  twp_steps. unfold dll_head. rewrite Htl. cbn [head]. twp_steps.
  twp_true. { rewrite Htl. apply elem_of_cons. left. reflexivity. }
  twp_steps.
  destruct Hcase as [Hm|(Hd & Hdel)].
  - rewrite Hm. twp_steps. apply (twp_returns _ _ _ Hloop Hr).
  - destruct (is_mpmde e) eqn:Hm.
    + twp_steps.
      replace (delay_write_until e =? 0) with false
        by (symmetry; apply Z.eqb_neq; exact Hdel).
      twp_steps. apply (twp_returns _ _ _ Hloop Hr).
    + twp_steps. apply (twp_returns _ _ _ Hloop Hr).
Qed.

(** A pass of the loop for a multi-page metadata entry without a
    delay: it is flushed and evicted. *)
Lemma tick_loop_evicts fuel s pb p l e d r :
  pb_ptr (file s) = Some pb -> tl pb = p :: l -> ht pb !! p = Some e ->
  vfd_swmr_writer pb = true ->
  is_mpmde e = true -> is_dirty e = true -> delay_write_until e = 0 ->
  p ∉ LRU pb -> p ∉ dwl pb ->
  0 < entry_size e -> page_size pb <= entry_size e ->
  H5F_get_eoa (lf (file s)) (mem_type e) <> HADDR_UNDEF ->
  entry_addr e < H5F_get_eoa (lf (file s)) (mem_type e) ->
  u64 (entry_addr e + entry_size e) <= H5F_get_eoa (lf (file s)) (mem_type e) ->
  H5F__accum_write (lf (file s)) (mem_type e) (entry_addr e) (entry_size e)
    (image_ptr e) = Some d ->
  release_tick_list_loop fuel
    (with_pb (add_counts (-1) 0 0 (-1)
                (set_ht (delete p (ht pb))
                   (set_tl (dll_remove p (tl pb)) pb)))
       (with_lf d s)) = r ->
  (forall w, fst r <> Abort w) ->
  release_tick_list_loop (S fuel) s = r.
Proof.
  intros Hpb Htl He Hw Hm Hdirty Hdel Hlru Hdwl Hsz Hps Heoa Ha Hb Hwr Hloop
    Hr.
  apply twp_run. simpl.
  twp_steps. unfold dll_head. rewrite Htl. cbn [head]. twp_steps.
  twp_true. { rewrite Htl. apply elem_of_cons. left. reflexivity. }
  twp_steps. rewrite ?Hm. twp_steps.
  rewrite ?(proj2 (Z.eqb_eq _ _) Hdel). twp_steps.
  set (e1 := set_modified_this_tick false e).
  set (pb0 := set_ht (<[p := e1]> (ht pb))
                (set_tl (dll_remove p (tl pb)) pb)).
  assert (He1 : ht pb0 !! p = Some e1) by apply lookup_insert_eq.
  eapply twp_ok.
  { apply (run_flush_entry (with_pb pb0 s) pb0 p e1 d (pb_ptr_with_pb _ _)
             He1).
    - unfold flushable, e1, pb0. simpl.
      repeat split; try assumption; auto.
    - unfold e1. simpl. congruence.
    - exact Hwr. }
  set (pb1 := flushed p e1 pb0).
  assert (He2 : ht pb1 !! p = Some (set_is_dirty false e1)).
  { unfold pb1, flushed. simpl. rewrite Hm. simpl. apply lookup_insert_eq. }
  eapply twp_ok.
  { apply (run_evict_clean _ pb1 p (set_is_dirty false e1)
             (pb_ptr_with_pb _ _) He2); simpl; try assumption;
      try reflexivity.
    - congruence.
    - intros _. unfold pb1, flushed. simpl. rewrite Hm. simpl. exact Hlru.
    - unfold pb1, flushed. simpl. rewrite Hm. simpl. exact Hdwl.
    - unfold pb1, flushed. simpl. rewrite Hm. simpl.
      apply not_in_dll_remove. }
  assert (Hst : with_pb (evicted p (set_is_dirty false e1) pb1)
                  (with_pb pb1 (with_lf d (with_pb pb0 s)))
                = with_pb (add_counts (-1) 0 0 (-1)
                             (set_ht (delete p (ht pb))
                                (set_tl (dll_remove p (tl pb)) pb)))
                    (with_lf d s)).
  { rewrite with_pb_with_pb. unfold with_pb at 1 3. f_equal.
    unfold evicted, pb1, flushed, pb0, e1. simpl. rewrite Hm. simpl.
    rewrite !delete_insert_eq. reflexivity. }
  rewrite Hst. apply (twp_returns _ _ _ Hloop Hr).
Qed.

(** A pass of the loop for a multi-page metadata entry without a
    delay, whose write fails. *)
Lemma tick_loop_fails fuel s pb p l e :
  pb_ptr (file s) = Some pb -> tl pb = p :: l -> ht pb !! p = Some e ->
  vfd_swmr_writer pb = true ->
  is_mpmde e = true -> is_dirty e = true -> delay_write_until e = 0 ->
  0 < entry_size e -> page_size pb <= entry_size e ->
  H5F_get_eoa (lf (file s)) (mem_type e) <> HADDR_UNDEF ->
  entry_addr e < H5F_get_eoa (lf (file s)) (mem_type e) ->
  u64 (entry_addr e + entry_size e) <= H5F_get_eoa (lf (file s)) (mem_type e) ->
  H5F__accum_write (lf (file s)) (mem_type e) (entry_addr e) (entry_size e)
    (image_ptr e) = None ->
  exists s', release_tick_list_loop (S fuel) s = (Fail, s').
Proof.
  intros Hpb Htl He Hw Hm Hdirty Hdel Hsz Hps Heoa Ha Hb Hwr.
  eexists. apply twp_run. simpl.
  twp_steps. unfold dll_head. rewrite Htl. cbn [head]. twp_steps.
  twp_true. { rewrite Htl. apply elem_of_cons. left. reflexivity. }
  twp_steps. rewrite ?Hm. twp_steps.
  rewrite ?(proj2 (Z.eqb_eq _ _) Hdel). twp_steps.
  set (e1 := set_modified_this_tick false e).
  set (pb0 := set_ht (<[p := e1]> (ht pb))
                (set_tl (dll_remove p (tl pb)) pb)).
  assert (He1 : ht pb0 !! p = Some e1) by apply lookup_insert_eq.
  eapply twp_fail; [|reflexivity].
  apply (run_flush_entry_fails (with_pb pb0 s) pb0 p e1 (pb_ptr_with_pb _ _)
           He1); unfold e1, pb0; simpl; auto.
Qed.

Lemma filter_delay_agree h h' (l : list Z) :
  (forall q, q ∈ l -> h' !! q = h !! q) ->
  filter (λ q, delay_of h' q = 0) l = filter (λ q, delay_of h q = 0) l.
Proof.
  intros Hag. apply filter_agree. intros q Hq. unfold delay_of.
  rewrite (Hag q Hq). reflexivity.
Qed.

(** The loop of [H5PB_vfd_swmr__release_tick_list] over the tick list
    [l]. *)
Lemma tick_loop l :
  write_keeps_eoa ->
  forall fuel s pb,
    pb_ptr (file s) = Some pb -> vfd_swmr_writer pb = true ->
    tl pb = l -> NoDup l -> (length l < fuel)%nat ->
    (forall p, p ∈ l -> tick_ready pb (lf (file s)) p) ->
    match flush_all (ht pb) (filter (λ p, delay_of (ht pb) p = 0) l)
            (lf (file s)) with
    | Some d' =>
        exists pb',
          release_tick_list_loop fuel s = (Ok tt, with_pb pb' (with_lf d' s))
          /\ tl pb' = [] /\ LRU pb' = LRU pb /\ dwl pb' = dwl pb
          /\ (forall p, ht pb' !! p
                        = if bool_decide (p ∈ l)
                          then ht pb !! p ≫= tick_released
                          else ht pb !! p)
    | None => exists s', release_tick_list_loop fuel s = (Fail, s')
    end.
Proof.
  intros Hkeep. induction l as [|p l IH];
    intros fuel s pb Hpb Hw Htl Hnd Hfuel Hready.
  - destruct fuel as [|fuel]; [simpl in Hfuel; lia|].
    cbn [filter flush_all]. exists pb.
    rewrite (with_pb_lf_same s pb Hpb). split.
    + apply twp_run. simpl. twp_steps. unfold dll_head. rewrite Htl.
      cbn [head]. twp_steps. reflexivity.
    + repeat split; auto.
  - destruct fuel as [|fuel]; [simpl in Hfuel; lia|].
    apply NoDup_cons in Hnd. destruct Hnd as [Hp Hnd].
    destruct (Hready p ltac:(apply elem_of_cons; auto)) as (e & He & Hmp).
    assert (Hrem : dll_remove p (tl pb) = l).
    { rewrite Htl. apply dll_remove_cons_id, Hp. }
    assert (Hin : forall q, bool_decide (q ∈ p :: l)
                            = bool_decide (q = p) || bool_decide (q ∈ l)).
    { intros q. apply eq_true_iff_eq.
      rewrite orb_true_iff, !bool_decide_eq_true, elem_of_cons.
      reflexivity. }
    destruct (is_mpmde e && (delay_write_until e =? 0)) eqn:Hcase.
    + (* flushed and evicted *)
      apply andb_true_iff in Hcase. destruct Hcase as [Hm Hdel].
      apply Z.eqb_eq in Hdel.
      destruct (Hmp Hm) as (Hdirty & Hfl).
      destruct (Hfl Hdel) as (Hlru & Hdwl & Hsz & Hps & Heoa & Ha & Hb).
      rewrite filter_cons_True by (unfold delay_of; rewrite He; exact Hdel).
      cbn [flush_all]. rewrite He, Hm.
      destruct (H5F__accum_write (lf (file s)) (mem_type e) (entry_addr e)
                  (entry_size e) (image_ptr e)) as [d1|] eqn:Hwr.
      2:{ apply (tick_loop_fails fuel s pb p l e); assumption. }
      set (pb1 := add_counts (-1) 0 0 (-1)
                    (set_ht (delete p (ht pb))
                       (set_tl (dll_remove p (tl pb)) pb))).
      set (s1 := with_pb pb1 (with_lf d1 s)).
      assert (Hag : forall q, q ∈ l -> ht pb1 !! q = ht pb !! q).
      { intros q Hq. apply lookup_delete_ne. intros ->. contradiction. }
      specialize (IH fuel s1 pb1 eq_refl Hw Hrem Hnd ltac:(simpl in Hfuel; lia)).
      assert (Hag' : forall q,
                q ∈ filter (λ q, delay_of (ht pb) q = 0) l ->
                ht pb1 !! q = ht pb !! q).
      { intros q Hq. apply Hag. apply list_elem_of_filter in Hq. apply Hq. }
      rewrite (filter_delay_agree _ _ l Hag),
        (flush_all_agree (ht pb) (ht pb1) _ _ Hag') in IH.
      assert (Hready1 : forall q, q ∈ l -> tick_ready pb1 (lf (file s1)) q).
      { intros q Hq.
        destruct (Hready q ltac:(apply elem_of_cons; auto)) as (e' & He' & H').
        exists e'. split; [rewrite (Hag q Hq); exact He'|].
        change (lf (file s1)) with d1.
        rewrite !(Hkeep _ _ _ _ _ _ _ Hwr). exact H'. }
      specialize (IH Hready1). change (lf (file s1)) with d1 in IH.
      destruct (flush_all (ht pb) (filter (λ q, delay_of (ht pb) q = 0) l) d1)
        as [d'|].
      * destruct IH as (pb' & Hrun & Htl' & Hlru' & Hdwl' & Hht).
        exists pb'. split; [|split; [exact Htl'|split; [exact Hlru'|split;
                                                        [exact Hdwl'|]]]].
        -- apply (tick_loop_evicts fuel s pb p l e d1);
             first [assumption | exact Hrun | intros w [=]].
        -- intros q. rewrite Hht, Hin.
           destruct (decide (q = p)) as [->|Hne].
           ++ rewrite (bool_decide_eq_true_2 (p = p) eq_refl).
              rewrite (bool_decide_eq_false_2 _ Hp). cbn [orb].
              unfold pb1. simpl. rewrite lookup_delete_eq, He. simpl.
              unfold tick_released. rewrite Hm, Hdel. reflexivity.
           ++ rewrite (bool_decide_eq_false_2 (q = p) Hne). cbn [orb].
              unfold pb1. simpl. rewrite lookup_delete_ne by congruence.
              reflexivity.
      * destruct IH as (s' & Hrun). exists s'.
        apply (tick_loop_evicts fuel s pb p l e d1);
          first [assumption | exact Hrun | intros w [=]].
    + (* stays in the page buffer *)
      assert (Hstay : is_mpmde e = false
                      \/ (is_dirty e = true /\ delay_write_until e <> 0)).
      { destruct (is_mpmde e) eqn:Hm; [right|left; reflexivity].
        destruct (Hmp eq_refl) as (Hdirty & _). split; [exact Hdirty|].
        cbn [andb] in Hcase. apply Z.eqb_neq in Hcase. exact Hcase. }
      assert (Hskip : flush_all (ht pb)
                        (filter (λ q, delay_of (ht pb) q = 0) (p :: l))
                        (lf (file s))
                      = flush_all (ht pb)
                          (filter (λ q, delay_of (ht pb) q = 0) l)
                          (lf (file s))).
      { destruct (decide (delay_of (ht pb) p = 0)) as [Hd|Hd].
        - rewrite filter_cons_True by exact Hd. cbn [flush_all].
          rewrite He. unfold delay_of in Hd. rewrite He in Hd.
          destruct Hstay as [Hm|(_ & Hne)]; [|contradiction].
          rewrite Hm. reflexivity.
        - rewrite filter_cons_False by exact Hd. reflexivity. }
      rewrite Hskip.
      set (pb1 := set_ht (<[p := set_modified_this_tick false e]> (ht pb))
                    (set_tl (dll_remove p (tl pb)) pb)).
      set (s1 := with_pb pb1 s).
      assert (Hag : forall q, q ∈ l -> ht pb1 !! q = ht pb !! q).
      { intros q Hq. apply lookup_insert_ne. intros ->. contradiction. }
      specialize (IH fuel s1 pb1 eq_refl Hw Hrem Hnd ltac:(simpl in Hfuel; lia)).
      assert (Hag' : forall q,
                q ∈ filter (λ q, delay_of (ht pb) q = 0) l ->
                ht pb1 !! q = ht pb !! q).
      { intros q Hq. apply Hag. apply list_elem_of_filter in Hq. apply Hq. }
      rewrite (filter_delay_agree _ _ l Hag),
        (flush_all_agree (ht pb) (ht pb1) _ _ Hag') in IH.
      assert (Hready1 : forall q, q ∈ l -> tick_ready pb1 (lf (file s1)) q).
      { intros q Hq.
        destruct (Hready q ltac:(apply elem_of_cons; auto)) as (e' & He' & H').
        exists e'. split; [rewrite (Hag q Hq); exact He'|exact H']. }
      specialize (IH Hready1). change (lf (file s1)) with (lf (file s)) in IH.
      destruct (flush_all (ht pb) (filter (λ q, delay_of (ht pb) q = 0) l)
                  (lf (file s))) as [d'|].
      * destruct IH as (pb' & Hrun & Htl' & Hlru' & Hdwl' & Hht).
        exists pb'. split; [|split; [exact Htl'|split; [exact Hlru'|split;
                                                        [exact Hdwl'|]]]].
        -- apply (tick_loop_keeps fuel s pb p l e _ Hpb Htl He Hstay);
             first [exact Hrun | intros w [=]].
        -- intros q. rewrite Hht, Hin.
           destruct (decide (q = p)) as [->|Hne].
           ++ rewrite (bool_decide_eq_true_2 (p = p) eq_refl).
              rewrite (bool_decide_eq_false_2 _ Hp). cbn [orb].
              unfold pb1. simpl. rewrite lookup_insert_eq, He. simpl.
              unfold tick_released. rewrite Hcase. reflexivity.
           ++ rewrite (bool_decide_eq_false_2 (q = p) Hne). cbn [orb].
              unfold pb1. simpl. rewrite lookup_insert_ne by congruence.
              reflexivity.
      * destruct IH as (s' & Hrun). exists s'.
        apply (tick_loop_keeps fuel s pb p l e _ Hpb Htl He Hstay);
          first [exact Hrun | intros w [=]].
Qed.

(** X14. [H5PB_vfd_swmr__release_tick_list] of a writer's page buffer
    whose tick list has no page twice, whose multi-page metadata
    entries on it are dirty and, when they have no delay, are on no
    other list and lie below the end of allocation, over a driver
    whose writes do not move the end of allocation: the images of the
    multi-page metadata entries without a delay are written in the
    order of the tick list.  When the writes succeed, the call returns
    with success, the tick list is empty, these entries have left the
    page buffer, the other entries of the tick list are no more
    modified this tick, and the rest of the index, the LRU and the
    delayed write list are as they were.  When a write fails, the call
    fails. *)
Theorem release_tick_list_releases (s : env) (pb : H5PB_t) :
  pb_ptr (file s) = Some pb ->
  f_vfd_swmr (file s) = true -> f_vfd_swmr_writer (file s) = true ->
  vfd_swmr_writer pb = true -> write_keeps_eoa -> NoDup (tl pb) ->
  (forall p, p ∈ tl pb -> tick_ready pb (lf (file s)) p) ->
  match flush_all (ht pb) (filter (λ p, delay_of (ht pb) p = 0) (tl pb))
          (lf (file s)) with
  | Some d' =>
      exists pb',
        H5PB_vfd_swmr__release_tick_list s
        = (Ok tt, with_pb pb' (with_lf d' s))
        /\ tl pb' = [] /\ LRU pb' = LRU pb /\ dwl pb' = dwl pb
        /\ (forall p, ht pb' !! p
                      = if bool_decide (p ∈ tl pb)
                        then ht pb !! p ≫= tick_released
                        else ht pb !! p)
  | None => exists s', H5PB_vfd_swmr__release_tick_list s = (Fail, s')
  end.
Proof.
  intros Hpb Hv Hvw Hw Hkeep Hnd Hready.
  pose proof (tick_loop (tl pb) Hkeep (S (length (tl pb))) s pb Hpb Hw
                eq_refl Hnd ltac:(lia) Hready) as Hloop.
  destruct (flush_all (ht pb) (filter (λ p, delay_of (ht pb) p = 0) (tl pb))
              (lf (file s))) as [d'|].
  - destruct Hloop as (pb' & Hrun & Htl & Hrest).
    exists pb'. split; [|split; [exact Htl|exact Hrest]].
    apply twp_run. unfold H5PB_vfd_swmr__release_tick_list.
    apply twp_bind, twp_get_f.
    apply twp_bind, twp_assert; [right; exact Hv|].
    apply twp_bind, twp_assert; [right; exact Hvw|].
    apply twp_bind, (twp_get_pb pb _ _ _ Hpb).
    apply twp_bind, twp_assert; [right; exact Hw|].
    apply twp_bind. eapply twp_ok; [exact Hrun|].
    apply twp_bind, (twp_get_pb pb' _ _ _ (pb_ptr_with_pb _ _)).
    apply twp_assert; [right; apply bool_decide_eq_true; exact Htl|].
    reflexivity.
  - destruct Hloop as (s' & Hrun). exists s'.
    apply twp_run. unfold H5PB_vfd_swmr__release_tick_list.
    apply twp_bind, twp_get_f.
    apply twp_bind, twp_assert; [right; exact Hv|].
    apply twp_bind, twp_assert; [right; exact Hvw|].
    apply twp_bind, (twp_get_pb pb _ _ _ Hpb).
    apply twp_bind, twp_assert; [right; exact Hw|].
    apply twp_bind. eapply twp_fail; [exact Hrun|]. reflexivity.
Qed.

End ReleaseTickList.

(** The release of the tick list of the writer's file: the tick list
    holds the multi-page metadata entry at the page 1 and the page 0;
    the 32 bytes of the entry are written at the address 16. *)
Lemma release_tick_list_releases_witness :
  let pb := page_buffer writer_written_twice in
  let d' := replicate 16 x2a ++ replicate 32 x07 ++ replicate 16 x2a in
  exists pb',
    @H5PB_vfd_swmr__release_tick_list mem_debug writer_written_twice
    = (Ok tt, @with_pb mem_debug pb'
                (@with_lf mem_debug d' writer_written_twice))
    /\ tl pb' = [] /\ LRU pb' = LRU pb /\ dwl pb' = dwl pb
    /\ (forall p, ht pb' !! p
                  = if bool_decide (p ∈ tl pb)
                    then ht pb !! p ≫= tick_released
                    else ht pb !! p).
Proof.
  assert (Hnd : NoDup (tl (page_buffer writer_written_twice))).
  { vm_compute. repeat constructor; intros Hin;
      repeat (apply elem_of_cons in Hin; destruct Hin as [[=]|Hin]);
      apply not_elem_of_nil in Hin; exact Hin. }
  assert (Hready : forall p, p ∈ tl (page_buffer writer_written_twice) ->
            @tick_ready mem_debug (page_buffer writer_written_twice)
              (lf (file writer_written_twice)) p).
  { intros p Hin. vm_compute in Hin.
    repeat (apply elem_of_cons in Hin; destruct Hin as [->|Hin]);
      [| |apply not_elem_of_nil in Hin; destruct Hin];
      (eexists; split; [vm_compute; reflexivity|]);
      [|intros Hm; vm_compute in Hm; discriminate Hm].
    intros _. split; [reflexivity|]. intros _.
    split.
    { vm_compute. intros Hin.
      repeat (apply elem_of_cons in Hin; destruct Hin as [[=]|Hin]).
      apply not_elem_of_nil in Hin. exact Hin. }
    split; [vm_compute; apply not_elem_of_nil|].
    split; [vm_compute; reflexivity|]. split; [vm_compute; intros [=]|].
    split; [vm_compute; intros [=]|].
    split; [vm_compute; reflexivity|]. vm_compute. intros [=]. }
  pose proof (@release_tick_list_releases mem_debug writer_written_twice
                (page_buffer writer_written_twice)) as Hthm.
  assert (Hfa : @flush_all mem_debug (ht (page_buffer writer_written_twice))
                  (filter (λ p, delay_of (ht (page_buffer writer_written_twice))
                                  p = 0)
                     (tl (page_buffer writer_written_twice)))
                  (lf (file writer_written_twice))
                = Some (replicate 16 x2a ++ replicate 32 x07
                        ++ replicate 16 x2a))
    by (vm_compute; reflexivity).
  rewrite Hfa in Hthm. cbv zeta. apply Hthm.
  - vm_compute. reflexivity.
  - vm_compute. reflexivity.
  - vm_compute. reflexivity.
  - vm_compute. reflexivity.
  - apply mem_write_keeps_eoa.
  - exact Hnd.
  - exact Hready.
Defined.

(** ** A multi-page metadata entry that a writer writes *)

Lemma memcpy_whole (img B : bytes) (size : Z) :
  blen img = size -> blen B = size -> memcpy img 0 B 0 size = Some B.
Proof.
  intros Hi HB. unfold memcpy, sub_bytes, blit, blen in *.
  replace ((0 <=? 0) && (0 <=? size) && (0 + size <=? Z.of_nat (length B)))
    with true by (symmetry; rewrite !andb_true_iff, !Z.leb_le; lia).
  rewrite drop_0, take_ge by lia.
  replace ((0 <=? 0) && (0 + Z.of_nat (length B) <=? Z.of_nat (length img)))
    with true by (symmetry; rewrite !andb_true_iff, !Z.leb_le; lia).
  rewrite take_0, drop_ge by lia. rewrite app_nil_r. reflexivity.
Qed.

Lemma elem_of_dwl_insert h p d l q :
  q ∈ dwl_insert h p d l <-> q = p \/ q ∈ l.
Proof.
  induction l as [|x l IH]; simpl.
  - rewrite list_elem_of_singleton. split; [auto|].
    intros [Hq|Hq]; [exact Hq|]. apply not_elem_of_nil in Hq. destruct Hq.
  - destruct (delay_of h x >? d).
    + rewrite !elem_of_cons, IH. tauto.
    + rewrite !elem_of_cons. tauto.
Qed.

Section WriteMpmde.
Context `{Collaborators}.

(** X15. A metadata write of more than a page by a VFD SWMR writer, at
    the address of a page that the page buffer does not hold, when
    [H5F_vfd_swmr_writer__delay_write] gives the tick [t]: the write
    returns with success and nothing is written to the file; the page
    buffer has a new multi-page metadata entry with the bytes written,
    dirty, modified this tick, with the delay [t]; it is at the head of
    the tick list, on the delayed write list when [t] is not 0, and not
    on the LRU.  The read of the same bytes then returns them. *)
Theorem mpmde_write_then_read (s : env) (pb : H5PB_t) (type : H5FD_mem_t)
  (page size t : Z) (B buf : bytes) :
  let addr := page * page_size pb in
  pb_ptr (file s) = Some pb -> has_mpi (file s) = false ->
  vfd_swmr_writer pb = true ->
  is_draw type = false -> type <> H5FD_MEM_GHEAP ->
  min_rd_pages pb < max_pages pb ->
  0 < page_size pb < size -> 0 <= page -> addr + size < 2 ^ 64 ->
  blen B = size -> blen buf = size ->
  ht pb !! page = None -> page ∉ dwl pb -> page ∉ tl pb ->
  0 <= t ->
  (forall pb', H5F_vfd_swmr_writer__delay_write
                 (set_pb_ptr (Some pb') (file s)) page = Some t) ->
  exists pb1,
    H5PB_write type addr size B s = (Ok tt, with_pb pb1 s)
    /\ ht pb1 !! page
       = Some (mkEntry addr page size B type true true true true true t)
    /\ (forall q, q <> page -> ht pb1 !! q = ht pb !! q)
    /\ LRU pb1 = LRU pb /\ tl pb1 = page :: tl pb
    /\ (forall q, q ∈ dwl pb1 <-> (q = page /\ 0 < t) \/ q ∈ dwl pb)
    /\ fst (H5PB_read type addr size buf (with_pb pb1 s)) = Ok B.
Proof.
  intros addr Hpb Hmpi Hw Htype Hg Hmin Hsize Hpage Hend HB Hbuf Hnone Hdwl
    Htl Ht Hdelay.
  subst addr.
  assert (Hps : 0 < page_size pb) by lia.
  assert (Hdiv : page * page_size pb / page_size pb = page)
    by (apply Z.div_mul; lia).
  assert (Hu : u64 (page * page_size pb) = page * page_size pb).
  { unfold u64. apply Z.mod_small. nia. }
  assert (Hcopy : memcpy (replicate (Z.to_nat size) uninit_byte) 0 B 0 size
                  = Some B).
  { apply memcpy_whole; [|exact HB]. unfold blen.
    rewrite length_replicate. lia. }
  set (e1 := mkEntry (page * page_size pb) page size B type true true true
               true true t).
  assert (Hread : forall pb1,
            config_eq pb1 pb -> ht pb1 !! page = Some e1 ->
            fst (H5PB_read type (page * page_size pb) size buf
                   (with_pb pb1 s)) = Ok B).
  { intros pb1 (Hp1 & Hmax1 & _ & Hrd1 & Hw1) He1.
    assert (Hpb1 : pb_ptr (file (with_pb pb1 s)) = Some pb1) by reflexivity.
    apply twp_result. unfold H5PB_read.
    apply twp_bind, twp_get_f.
    apply twp_bind, twp_assert.
    { right. apply negb_true_iff, bool_decide_eq_false. exact Hg. }
    rewrite Hpb1. cbn [file with_pb has_mpi set_pb_ptr].
    rewrite Hmpi, orb_false_r, Htype, Hrd1, Hmax1.
    replace (min_rd_pages pb =? max_pages pb) with false
      by (symmetry; apply Z.eqb_neq; lia).
    unfold H5PB__read_meta.
    apply twp_bind, (twp_get_pb pb1 _ _ _ Hpb1).
    rewrite Hp1, Hrd1, Hmax1, Hw1. cbv zeta. rewrite Hdiv, Hu.
    apply twp_bind, twp_assert; [right; apply Z.ltb_lt; lia|].
    apply twp_bind, twp_assert; [right; rewrite Htype; reflexivity|].
    apply twp_bind. rewrite Z.eqb_refl. cbn [negb].
    replace (page_size pb <=? size) with true
      by (symmetry; apply Z.leb_le; lia).
    apply twp_bind, (twp_search pb1 _ _ _ _ Hpb1). rewrite He1.
    apply twp_bind, (twp_get_entry pb1 _ e1 _ _ _ Hpb1 He1).
    apply twp_bind, twp_assert; [right; reflexivity|].
    cbn [is_mpmde e1 negb].
    apply twp_bind, twp_assert; [right; reflexivity|].
    apply twp_bind, twp_assert; [right; exact Hw|].
    cbn [entry_size e1 image_ptr]. rewrite Z.ltb_irrefl.
    apply twp_bind, (twp_do_memcpy _ _ _ _ _ B);
      [apply memcpy_whole; assumption|].
    cbn [andb when]. apply twp_bind, twp_ret.
    apply twp_ret, twp_bind, twp_put_prev_addr, twp_ret. reflexivity. }
  destruct (Z.ltb_spec 0 t) as [Hpos|Hzero];
    [|assert (t = 0) by lia; subst t];
    (eexists; split; [|split; [|split; [|split; [|split; [|split]]]]]).
  (* the write *)
  1, 8: (
    apply twp_run; unfold H5PB_write;
    apply twp_bind, twp_get_f;
    apply twp_bind, twp_assert;
      [right; apply negb_true_iff, bool_decide_eq_false; exact Hg|];
    rewrite Hpb, Hmpi, orb_false_r, Htype, Hw;
    replace (min_rd_pages pb =? max_pages pb) with false
      by (symmetry; apply Z.eqb_neq; lia);
    cbn [negb andb]; rewrite andb_false_r;
    unfold H5PB__write_meta;
    apply twp_bind, (twp_get_pb pb _ _ _ Hpb); cbv zeta;
    rewrite Hdiv, Hu, Hw;
    apply twp_bind, twp_assert; [right; apply Z.ltb_lt; lia|];
    apply twp_bind, twp_assert; [right; rewrite Htype; reflexivity|];
    apply twp_bind, twp_assert;
      [right; rewrite Z.eqb_refl; apply orb_true_r|];
    replace (page_size pb <? size) with true
      by (symmetry; apply Z.ltb_lt; lia);
    apply twp_bind, twp_assert; [right; reflexivity|];
    apply twp_bind, twp_assert; [right; apply Z.eqb_refl|];
    apply twp_bind, (twp_search pb _ _ _ _ Hpb); rewrite Hnone;
    apply twp_bind, twp_bind; unfold H5PB__create_new_page;
    apply twp_bind, (twp_get_pb pb _ _ _ Hpb); cbv zeta;
    rewrite Hdiv, Hu, Hw, Htype;
    apply twp_bind, twp_assert; [right; apply Z.eqb_refl|];
    apply twp_bind, twp_assert; [right; apply Z.leb_le; lia|];
    apply twp_bind, twp_assert; [right; apply orb_true_r|];
    apply twp_bind, (twp_search pb _ _ _ _ Hpb); rewrite Hnone;
    unfold H5PB__allocate_page;
    apply twp_bind, twp_bind, (twp_get_pb pb _ _ _ Hpb);
    rewrite Hw;
    apply twp_bind, twp_assert; [right; apply Z.leb_le; lia|];
    apply twp_bind, twp_assert; [right; apply orb_true_r|];
    apply twp_ret;
    cbn [negb andb entry_size image_ptr loaded modified_this_tick
         delay_write_until];
    replace (page_size pb <? size) with true
      by (symmetry; apply Z.ltb_lt; lia);
    twp_steps; cbn [image_ptr set_loaded];
    apply (twp_do_memcpy _ _ _ _ _ B _ _ _ Hcopy);
    twp_steps; unfold H5PB__mark_entry_dirty; twp_steps;
    cbn [file with_pb]; rewrite Hdelay; twp_steps;
    try (replace (0 <? t) with true by (symmetry; apply Z.ltb_lt; lia));
    twp_steps; reflexivity ).
  (* the entry, the other entries, the LRU and the tick list *)
  1, 7: cbn [ht set_tl set_ht]; rewrite lookup_insert_eq; reflexivity.
  1, 6: intros q Hq; cbn [ht set_tl set_ht set_dwl add_counts];
    rewrite !lookup_insert_ne by congruence; reflexivity.
  1, 2, 5, 6: reflexivity.
  (* the read *)
  2, 4: apply Hread; [repeat split|];
    cbn [ht set_tl set_ht]; rewrite lookup_insert_eq; reflexivity.
  (* the delayed write list *)
  - intros q. cbn [dwl set_tl set_ht set_dwl add_counts].
    rewrite elem_of_dwl_insert. split.
    + intros [->|Hq]; [left; split; [reflexivity|lia]|right; exact Hq].
    + intros [[-> _]|Hq]; [left; reflexivity|right; exact Hq].
  - intros q. cbn [dwl set_tl set_ht set_dwl add_counts]. split.
    + intros Hq. right. exact Hq.
    + intros [[_ Hlt]|Hq]; [lia|exact Hq].
Qed.

End WriteMpmde.

(** A writer of a file with pages of 16 bytes, whose metadata writes
    are delayed until the tick 3, writes 32 bytes of metadata at the
    address 16. *)
Lemma mpmde_write_then_read_witness :
  let C := mem_collaborators false (λ _ _, Some 3) in
  let pb := small_pb true in
  let s : @env C :=
    @mkEnv C 0 (mkF (Some pb) (replicate 64 x2a) 0 true true true true true
                  16 false) in
  let B := replicate 32 x07 in
  let addr := 1 * page_size pb in
  exists pb1,
    @H5PB_write C H5FD_MEM_OHDR addr 32 B s = (Ok tt, @with_pb C pb1 s)
    /\ ht pb1 !! 1
       = Some (mkEntry addr 1 32 B H5FD_MEM_OHDR true true true true true 3)
    /\ (forall q, q <> 1 -> ht pb1 !! q = ht pb !! q)
    /\ LRU pb1 = LRU pb /\ tl pb1 = 1 :: tl pb
    /\ (forall q, q ∈ dwl pb1 <-> (q = 1 /\ 0 < 3) \/ q ∈ dwl pb)
    /\ fst (@H5PB_read C H5FD_MEM_OHDR addr 32 (zeros 32) (@with_pb C pb1 s))
       = Ok B.
Proof.
  cbv zeta.
  apply (@mpmde_write_then_read (mem_collaborators false (λ _ _, Some 3))
           (@mkEnv (mem_collaborators false (λ _ _, Some 3)) 0
              (mkF (Some (small_pb true)) (replicate 64 x2a) 0 true true true
                 true true 16 false))
           (small_pb true) H5FD_MEM_OHDR 1 32 3 (replicate 32 x07)
           (zeros 32)).
  - reflexivity.
  - reflexivity.
  - reflexivity.
  - reflexivity.
  - intros [=].
  - vm_compute. reflexivity.
  - vm_compute. split; reflexivity.
  - lia.
  - vm_compute. reflexivity.
  - reflexivity.
  - reflexivity.
  - reflexivity.
  - apply not_elem_of_nil.
  - apply not_elem_of_nil.
  - lia.
  - intros pb'. reflexivity.
Defined.

(** ** The encoding of references *)

Lemma memcpy_exact dst doff src soff n :
  0 <= soff -> 0 <= n -> soff + n <= blen src ->
  0 <= doff -> doff + n <= blen dst ->
  memcpy dst doff src soff n
  = Some (take (Z.to_nat doff) dst
          ++ take (Z.to_nat n) (drop (Z.to_nat soff) src)
          ++ drop (Z.to_nat (doff + n)) dst).
Proof.
  intros H1 H2 H3 H4 H5. unfold memcpy.
  rewrite sub_bytes_Some by lia.
  assert (Hc : blen (take (Z.to_nat n) (drop (Z.to_nat soff) src)) = n).
  { unfold blen in *. rewrite length_take, length_drop. lia. }
  rewrite blit_Some by lia.
  do 4 f_equal. unfold blen in Hc. lia.
Qed.

Lemma memcpy_overrun dst doff src soff n :
  0 <= n -> blen dst < doff + n -> memcpy dst doff src soff n = None.
Proof.
  intros Hn Hd. unfold memcpy.
  destruct (sub_bytes src soff n) as [c|] eqn:Hc; [|reflexivity].
  apply sub_bytes_length in Hc. unfold blit.
  destruct (Z.leb_spec (doff + blen c) (blen dst)); [lia|].
  rewrite andb_false_r. reflexivity.
Qed.

Lemma memcpy_overread dst doff src soff n :
  blen src < soff + n -> memcpy dst doff src soff n = None.
Proof.
  intros Hs. unfold memcpy, sub_bytes.
  destruct (Z.leb_spec (soff + n) (blen src)); [lia|].
  rewrite andb_false_r. reflexivity.
Qed.

Lemma uint8_t_val (n : Z) :
  0 <= n <= 255 -> Z.of_N (Byte.to_N (uint8_t n)) = n.
Proof.
  intros Hn. unfold uint8_t. rewrite Z.mod_small by lia.
  destruct (Byte.of_N (Z.to_N n)) as [x|] eqn:Hx.
  - apply Byte.to_of_N in Hx. simpl. rewrite Hx. lia.
  - apply Byte.of_N_None_iff in Hx. lia.
Qed.

Lemma land_255 (n : Z) : 0 <= n <= 255 -> Z.land n 255 = n.
Proof.
  intros Hn. change 255 with (Z.ones 8). rewrite Z.land_ones by lia.
  apply Z.mod_small. lia.
Qed.

Lemma HDstrlen_terminated (c rest : bytes) :
  x00 ∉ c -> HDstrlen (c ++ x00 :: rest) = Some (blen c).
Proof.
  induction c as [|x c IH]; intros Hc; simpl.
  - reflexivity.
  - apply not_elem_of_cons in Hc as [Hx Hc].
    destruct (decide (x = x00)) as [->|_]; [congruence|].
    rewrite (IH Hc). f_equal. unfold blen. simpl length. lia.
Qed.

(** X16. An object token of [n] bytes, [n] at most 255 and at most the
    size of the token type, written by [H5R__encode_obj_token] into a
    buffer of at least [n + 1] bytes: the call reports [n + 1] bytes,
    leaves the bytes of the buffer behind them untouched, and
    [H5R__decode_obj_token] on the buffer returns the size [n], the
    [n] bytes of the token in front of what the token held behind
    them, and [n + 1] bytes read. *)
Theorem obj_token_round_trip (obj_token out buf : bytes)
  (n nalloc nbytes : Z) :
  0 <= n <= 255 -> n <= blen obj_token -> blen out = blen obj_token ->
  n <= nalloc -> n + 1 <= blen buf -> 1 <= nbytes ->
  exists b,
    H5R__encode_obj_token obj_token n (Some buf) nalloc
    = Ok (Some b, n + 1)
    /\ blen b = blen buf
    /\ drop (Z.to_nat (n + 1)) b = drop (Z.to_nat (n + 1)) buf
    /\ H5R__decode_obj_token b nbytes out
       = Ok (n + 1, take (Z.to_nat n) obj_token ++ drop (Z.to_nat n) out, n).
Proof.
  intros Hn Htok Hout Hnalloc Hbuf Hnbytes.
  assert (Hu : u64 (n + H5_SIZEOF_UINT8_T) = n + 1).
  { unfold H5_SIZEOF_UINT8_T. apply u64_small. lia. }
  exists (uint8_t n :: take (Z.to_nat n) obj_token
          ++ drop (Z.to_nat (n + 1)) buf).
  assert (Henc : H5R__encode_obj_token obj_token n (Some buf) nalloc
    = Ok (Some (uint8_t n :: take (Z.to_nat n) obj_token
                ++ drop (Z.to_nat (n + 1)) buf), n + 1)).
  { unfold H5R__encode_obj_token.
    destruct (Z.leb_spec n nalloc); [|lia].
    rewrite land_255 by lia.
    rewrite blit_Some by (unfold blen in *; simpl length; lia).
    rewrite memcpy_exact; try lia.
    - rewrite Hu. simpl. rewrite drop_0. do 4 f_equal.
      replace (Z.to_nat (1 + n)) with (S (Z.to_nat n)) by lia.
      replace (Z.to_nat (n + 1)) with (Z.to_nat n + 1)%nat by lia.
      simpl. rewrite drop_drop.
      replace (1 + Z.to_nat n)%nat with (Z.to_nat n + 1)%nat by lia.
      reflexivity.
    - unfold blen in *. simpl. rewrite length_drop. lia. }
  assert (Hlen : blen (uint8_t n :: take (Z.to_nat n) obj_token
                       ++ drop (Z.to_nat (n + 1)) buf) = blen buf).
  { unfold blen in *. simpl length.
    rewrite length_app, length_take, length_drop. lia. }
  split; [exact Henc|]. split; [exact Hlen|]. split.
  - replace (Z.to_nat (n + 1)) with (S (Z.to_nat n)) by lia. simpl.
    rewrite drop_app_length'; [reflexivity|].
    rewrite length_take. unfold blen in *. lia.
  - unfold H5R__decode_obj_token.
    destruct (Z.ltb_spec nbytes H5_SIZEOF_UINT8_T);
      [unfold H5_SIZEOF_UINT8_T in *; lia|].
    rewrite uint8_t_val by lia.
    destruct (Z.gtb_spec n (blen out)); [lia|].
    rewrite memcpy_exact by (rewrite ?Hlen; lia).
    rewrite Hu. simpl. rewrite drop_0.
    rewrite take_app_length'; [|rewrite length_take; unfold blen in *; lia].
    rewrite Z.add_0_l. reflexivity.
Qed.

(** A token of 4 bytes of a token type of 8 bytes, written into a
    buffer of 8 bytes. *)
Lemma obj_token_round_trip_witness :
  exists b,
    H5R__encode_obj_token [x01; x02; x03; x04; x05; x06; x07; x08] 4
      (Some (replicate 8 x2a)) 8
    = Ok (Some b, 4 + 1)
    /\ blen b = blen (replicate 8 x2a)
    /\ drop (Z.to_nat (4 + 1)) b = drop (Z.to_nat (4 + 1)) (replicate 8 x2a)
    /\ H5R__decode_obj_token b 8 (zeros 8)
       = Ok (4 + 1,
             take (Z.to_nat 4) [x01; x02; x03; x04; x05; x06; x07; x08]
             ++ drop (Z.to_nat 4) (zeros 8), 4).
Proof.
  apply (obj_token_round_trip [x01; x02; x03; x04; x05; x06; x07; x08]
           (zeros 8) (replicate 8 x2a) 4 8 8).
  - lia.
  - vm_compute. intros [=].
  - reflexivity.
  - lia.
  - vm_compute. intros [=].
  - lia.
Defined.

(** X17. [H5R__encode_obj_token] compares [*nalloc] with the size of
    the token, not with the [token_size + 1] bytes it writes: given a
    buffer of exactly [token_size] bytes and that size in [*nalloc],
    the call does not return; it writes behind the end of the
    buffer. *)
Theorem encode_obj_token_overruns (obj_token buf : bytes) (n : Z) :
  blen buf = n ->
  H5R__encode_obj_token obj_token n (Some buf) n = Abort MemoryFault.
Proof.
  intros Hbuf. unfold H5R__encode_obj_token.
  pose proof (blen_nonneg buf) as Hpos.
  destruct (Z.leb_spec n n); [|lia].
  destruct (blit buf 0 [uint8_t (Z.land n 255)]) as [b1|] eqn:Hb1;
    [|reflexivity].
  apply blit_length in Hb1.
  rewrite memcpy_overrun; [reflexivity|lia|lia].
Qed.

(** X18. [H5R__decode_obj_token] checks only that the buffer has one
    byte: on a buffer of [nbytes] bytes whose first byte is a size
    that the token type can hold but that is not less than [nbytes],
    the call does not return with a failure; it reads behind the end
    of the buffer. *)
Theorem decode_obj_token_overreads (x : byte) (rest out : bytes)
  (nbytes : Z) :
  blen (x :: rest) = nbytes ->
  Z.of_N (Byte.to_N x) <= blen out ->
  nbytes <= Z.of_N (Byte.to_N x) ->
  H5R__decode_obj_token (x :: rest) nbytes out = Abort MemoryFault.
Proof.
  intros Hlen Hout Hn. unfold H5R__decode_obj_token.
  assert (1 <= nbytes) by (unfold blen in Hlen; simpl length in Hlen; lia).
  destruct (Z.ltb_spec nbytes H5_SIZEOF_UINT8_T);
    [unfold H5_SIZEOF_UINT8_T in *; lia|].
  destruct (Z.gtb_spec (Z.of_N (Byte.to_N x)) (blen out)); [lia|].
  rewrite memcpy_overread; [reflexivity|lia].
Qed.

(** A token of 4 bytes and a buffer of 4 bytes. *)
Lemma encode_obj_token_overruns_witness :
  H5R__encode_obj_token [x01; x02; x03; x04] 4 (Some (replicate 4 x2a)) 4
  = Abort MemoryFault.
Proof.
  apply (encode_obj_token_overruns [x01; x02; x03; x04] (replicate 4 x2a) 4).
  reflexivity.
Defined.

(** A buffer of 3 bytes that announces a token of 4 bytes. *)
Lemma decode_obj_token_overreads_witness :
  H5R__decode_obj_token [x04; x01; x02] 3 (zeros 8) = Abort MemoryFault.
Proof.
  apply (decode_obj_token_overreads x04 [x01; x02] (zeros 8) 3).
  - reflexivity.
  - vm_compute. intros [=].
  - vm_compute. intros [=].
Defined.

Lemma uint8_t_mod (z : Z) : Z.of_N (Byte.to_N (uint8_t z)) = z mod 256.
Proof.
  pose proof (Z.mod_pos_bound z 256 ltac:(lia)) as Hz.
  unfold uint8_t.
  destruct (Byte.of_N (Z.to_N (z mod 256))) as [x|] eqn:Hx.
  - apply Byte.to_of_N in Hx. simpl. rewrite Hx. lia.
  - apply Byte.of_N_None_iff in Hx. lia.
Qed.

(** The little-endian macros read back what they write. *)
Lemma le16_round_trip (ndebug : bool) (k : Z) :
  0 <= k < 2 ^ 16 ->
  @UINT16DECODE (le16_collaborators ndebug)
    (@UINT16ENCODE (le16_collaborators ndebug) k) = k.
Proof.
  intros Hk. simpl. rewrite !uint8_t_mod.
  rewrite (Z.mod_small (k / 256)).
  - pose proof (Z.div_mod k 256 ltac:(lia)). lia.
  - split; [apply Z.div_pos; lia|].
    apply Z.div_lt_upper_bound; lia.
Qed.

Lemma not_elem_of_replicate (x y : byte) (n : nat) :
  x <> y -> x ∉ replicate n y.
Proof.
  intros Hxy Hin. apply elem_of_replicate in Hin as [Heq _]. contradiction.
Qed.

Section StringEncoding.
Context `{RefCollaborators}.

Lemma encode_string_writes (c rest buf : bytes) (nalloc : Z) :
  x00 ∉ c -> blen c <= H5R_MAX_STRING_LEN ->
  blen c + 2 <= nalloc -> blen c + 2 <= blen buf ->
  H5R__encode_string (c ++ x00 :: rest) (Some buf) nalloc
  = Ok (Some (fst (UINT16ENCODE (blen c)) :: snd (UINT16ENCODE (blen c))
              :: c ++ drop (Z.to_nat (blen c + 2)) buf), blen c + 2).
Proof.
  intros Hc Hmax Hnalloc Hbuf. unfold H5R__encode_string.
  pose proof (blen_nonneg c) as Hpos.
  assert (Hm : H5R_MAX_STRING_LEN = 65536) by reflexivity.
  rewrite HDstrlen_terminated by exact Hc.
  destruct (Z.gtb_spec (blen c) H5R_MAX_STRING_LEN); [lia|].
  unfold sizeof_uint16_t. rewrite u64_small by lia.
  destruct (Z.leb_spec (blen c + 2) nalloc); [|lia].
  destruct (UINT16ENCODE (blen c)) as [lo hi]. simpl fst. simpl snd.
  rewrite blit_Some by (unfold blen in *; simpl length; lia).
  rewrite memcpy_exact; try lia.
  - simpl. rewrite drop_0.
    rewrite take_app_length' by (unfold blen; lia).
    replace (Z.to_nat (2 + blen c)) with (S (S (Z.to_nat (blen c))))
      by lia.
    replace (Z.to_nat (blen c + 2)) with (Z.to_nat (blen c) + 2)%nat
      by lia.
    simpl. rewrite drop_drop.
    replace (2 + Z.to_nat (blen c))%nat with (Z.to_nat (blen c) + 2)%nat
      by lia.
    reflexivity.
  - rewrite blen_app. unfold blen. simpl length. lia.
  - unfold blen in *. simpl. rewrite length_drop. lia.
Qed.

Lemma decode_string_reads (lo hi : byte) (c tail : bytes) (nbytes : Z) :
  UINT16DECODE (lo, hi) = blen c -> blen c <= H5R_MAX_STRING_LEN ->
  2 <= nbytes ->
  H5R__decode_string (lo :: hi :: c ++ tail) nbytes
  = Ok (c ++ [x00], blen c + 2).
Proof.
  intros Hdec Hmax Hn. unfold H5R__decode_string.
  pose proof (blen_nonneg c) as Hpos.
  assert (Hm : H5R_MAX_STRING_LEN = 65536) by reflexivity.
  unfold sizeof_uint16_t.
  destruct (Z.ltb_spec nbytes 2); [lia|].
  rewrite Hdec.
  destruct (Z.leb_spec (blen c) H5R_MAX_STRING_LEN); [|lia].
  rewrite andb_false_r.
  rewrite !u64_small by lia.
  rewrite memcpy_exact; try lia.
  - simpl take at 1. rewrite app_nil_l. simpl drop at 1. rewrite ?drop_0.
    rewrite take_app_length' by (unfold blen; lia).
    rewrite Z.add_0_l, drop_replicate.
    replace (Z.to_nat (blen c + 1) - Z.to_nat (blen c))%nat with 1%nat
      by lia.
    rewrite blit_Some; [| lia |].
    + rewrite take_app_length' by (unfold blen; lia).
      rewrite drop_ge.
      * rewrite app_nil_r. f_equal. f_equal. lia.
      * rewrite length_app. unfold blen. simpl. lia.
    + rewrite blen_app. unfold blen. simpl. lia.
  - unfold blen. simpl length. rewrite length_app. unfold blen in *. lia.
  - unfold blen. rewrite length_replicate. lia.
Qed.

(** X19. A string of less than 2^16 bytes, written by
    [H5R__encode_string] into a buffer that has room for it and its
    two bytes of length, when [UINT16DECODE] reads back what
    [UINT16ENCODE] writes for values below 2^16: the call reports the
    length plus 2, leaves the bytes of the buffer behind them
    untouched, and [H5R__decode_string] on the buffer returns the
    string with its terminator and the same number of bytes. *)
Theorem string_round_trip (c rest buf : bytes) (nalloc nbytes : Z) :
  x00 ∉ c -> blen c < 2 ^ 16 ->
  (forall k, 0 <= k < 2 ^ 16 -> UINT16DECODE (UINT16ENCODE k) = k) ->
  blen c + 2 <= nalloc -> blen c + 2 <= blen buf -> 2 <= nbytes ->
  exists b,
    H5R__encode_string (c ++ x00 :: rest) (Some buf) nalloc
    = Ok (Some b, blen c + 2)
    /\ blen b = blen buf
    /\ drop (Z.to_nat (blen c + 2)) b = drop (Z.to_nat (blen c + 2)) buf
    /\ H5R__decode_string b nbytes = Ok (c ++ [x00], blen c + 2).
Proof.
  intros Hc Hlen Hmacro Hnalloc Hbuf Hn.
  pose proof (blen_nonneg c) as Hpos.
  assert (Hm : H5R_MAX_STRING_LEN = 65536) by reflexivity.
  eexists. split; [apply encode_string_writes; [exact Hc|lia|lia|lia]|].
  split; [|split].
  - unfold blen in *. simpl length. rewrite length_app, length_drop. lia.
  - replace (Z.to_nat (blen c + 2)) with (S (S (Z.to_nat (blen c)))) at 1
      by lia.
    simpl. rewrite drop_app_length'; [reflexivity|unfold blen; lia].
  - apply decode_string_reads; [|lia|lia].
    rewrite <- surjective_pairing. apply Hmacro. lia.
Qed.

(** X20. [H5R__encode_string] refuses only strings longer than
    [H5R_MAX_STRING_LEN], which is 2^16: a string of exactly 2^16
    bytes is written with success, and when the two bytes of length
    read back as 0, as 16 bits make them, [H5R__decode_string] on the
    buffer returns the empty string and 2 bytes read. *)
Theorem string_of_max_len_is_lost (c rest buf : bytes)
  (nalloc nbytes : Z) :
  x00 ∉ c -> blen c = H5R_MAX_STRING_LEN ->
  UINT16DECODE (UINT16ENCODE H5R_MAX_STRING_LEN) = 0 ->
  blen c + 2 <= nalloc -> blen c + 2 <= blen buf -> 2 <= nbytes ->
  exists b,
    H5R__encode_string (c ++ x00 :: rest) (Some buf) nalloc
    = Ok (Some b, blen c + 2)
    /\ H5R__decode_string b nbytes = Ok ([x00], 2).
Proof.
  intros Hc Hlen Hmacro Hnalloc Hbuf Hn.
  eexists. split; [apply encode_string_writes; [exact Hc|lia|lia|lia]|].
  rewrite Hlen.
  apply (decode_string_reads _ _ [] _ nbytes); [|vm_compute; intros [=]|lia].
  rewrite <- surjective_pairing. exact Hmacro.
Qed.

End StringEncoding.

(** The string abc, written into a buffer of 8 bytes with the
    little-endian macros. *)
Lemma string_round_trip_witness :
  exists b,
    @H5R__encode_string (le16_collaborators false)
      ([x61; x62; x63] ++ x00 :: []) (Some (replicate 8 x2a)) 8
    = Ok (Some b, blen [x61; x62; x63] + 2)
    /\ blen b = blen (replicate 8 x2a)
    /\ drop (Z.to_nat (blen [x61; x62; x63] + 2)) b
       = drop (Z.to_nat (blen [x61; x62; x63] + 2)) (replicate 8 x2a)
    /\ @H5R__decode_string (le16_collaborators false) b 8
       = Ok ([x61; x62; x63] ++ [x00], blen [x61; x62; x63] + 2).
Proof.
  apply (@string_round_trip (le16_collaborators false) [x61; x62; x63] []
           (replicate 8 x2a) 8 8).
  - intros Hin. vm_compute in Hin.
    repeat (apply elem_of_cons in Hin as [Hin|Hin]; [discriminate|]).
    apply not_elem_of_nil in Hin. exact Hin.
  - vm_compute. reflexivity.
  - apply le16_round_trip.
  - vm_compute. intros [=].
  - vm_compute. intros [=].
  - lia.
Defined.

(** A string of 2^16 bytes, written into a buffer of 2^16 + 2 bytes
    with the little-endian macros. *)
Lemma string_of_max_len_is_lost_witness :
  exists b,
    @H5R__encode_string (le16_collaborators false)
      (replicate (Z.to_nat 65536) x61 ++ x00 :: [])
      (Some (replicate (Z.to_nat 65538) x2a)) 65538
    = Ok (Some b, blen (replicate (Z.to_nat 65536) x61) + 2)
    /\ @H5R__decode_string (le16_collaborators false) b 2 = Ok ([x00], 2).
Proof.
  apply (@string_of_max_len_is_lost (le16_collaborators false)
           (replicate (Z.to_nat 65536) x61) []
           (replicate (Z.to_nat 65538) x2a) 65538 2).
  - apply not_elem_of_replicate. discriminate.
  - unfold blen. rewrite length_replicate. vm_compute. reflexivity.
  - vm_compute. reflexivity.
  - unfold blen. rewrite length_replicate. vm_compute. intros [=].
  - unfold blen. rewrite !length_replicate. vm_compute. intros [=].
  - lia.
Defined.
